(** * Network TAP dashboard agent: test-execution engine

    A shallow embedding of the agent's orchestration code
    ([services/agent/tab_models.py], [tab_manager.py], [filter_builder.py],
    [run_executor.py], [process_manager.py], [test_manager.py]) and the
    properties of it that the specification states.

    Conventions.
    - A Python [str] is a Rocq [string]; character classes and case mapping
      are those of Python on ASCII text.
    - A JSON-like Python value is a [pyval]; a [float] is an IEEE-754 binary64
      number ([spec_float] at precision 53, exponent bound 1024).
    - A Python call that can raise returns a [result]; [Raise] carries the
      exception class and [str(exc)].
    - Coroutines are run to completion one at a time: one call of a manager
      method is one transition of the state.  File writes (state file,
      metadata journal) are assumed to succeed. *)

From Stdlib Require Import ZArith String Ascii List Bool Lia DecimalString.
From Corelib Require Import SpecFloat.
From stdpp Require Import base option list gmap strings.

Set Warnings "-register-all".
Open Scope string_scope.
Open Scope list_scope.
Open Scope Z_scope.

(* ===================================================================== *)
(** * Python values, strings and exceptions                              *)
(* ===================================================================== *)

Module Py.

(** ** Exceptions *)

Inductive exn_class :=
| CancelledError            (* asyncio.CancelledError: a BaseException *)
| Exception_                (* some other subclass of Exception *)
| OSError
| FileNotFoundError
| PermissionError
| ProcessLookupError
| ValueError
| TypeError
| OverflowError
| AttributeError
| KeyError
| RuntimeError
| TabNotFoundError          (* tab_manager.py: subclass of KeyError *)
| TestAlreadyRunningError   (* tab_manager.py: subclass of RuntimeError *)
| TestExecutionError        (* run_executor.py: subclass of RuntimeError *)
| InvalidConfigurationError (* run_executor.py: subclass of TestExecutionError *).

#[global] Instance exn_class_eq_dec : EqDecision exn_class.
Proof. solve_decision. Defined.

(** The direct base class; [None] for the two roots of the model. *)
Definition base_of (c : exn_class) : option exn_class :=
  match c with
  | CancelledError => None
  | Exception_ => None
  | OSError => Some Exception_
  | FileNotFoundError | PermissionError | ProcessLookupError => Some OSError
  | ValueError | TypeError | KeyError | RuntimeError => Some Exception_
  | OverflowError | AttributeError => Some Exception_
  | TabNotFoundError => Some KeyError
  | TestAlreadyRunningError => Some RuntimeError
  | TestExecutionError => Some RuntimeError
  | InvalidConfigurationError => Some TestExecutionError
  end.

Fixpoint issubclass_fuel (n : nat) (c d : exn_class) : bool :=
  if decide (c = d) then true
  else match n with
       | O => false
       | S n' => match base_of c with
                 | Some b => issubclass_fuel n' b d
                 | None => false
                 end
       end.

(** [issubclass c d]: an [except d] clause catches an exception of class [c].
    The hierarchy is four levels deep. *)
Definition issubclass (c d : exn_class) : bool := issubclass_fuel 4 c d.

Record exn := Exn { exn_cls : exn_class; exn_str : string }.

Definition isinstance (e : exn) (d : exn_class) : bool :=
  issubclass (exn_cls e) d.

Inductive result (A : Type) :=
| Ok (a : A)
| Raise (e : exn).
Arguments Ok {A} a.
Arguments Raise {A} e.

Definition bind {A B} (r : result A) (k : A -> result B) : result B :=
  match r with
  | Ok a => k a
  | Raise e => Raise e
  end.

Definition raise {A} (c : exn_class) (msg : string) : result A :=
  Raise (Exn c msg).

Definition is_ok {A} (r : result A) : bool :=
  match r with Ok _ => true | Raise _ => false end.

(** ** Strings *)

Definition code (c : ascii) : N := N_of_ascii c.

(** [str.isspace] on one ASCII character. *)
Definition isspace (c : ascii) : bool :=
  let n := code c in
  ((9 <=? n) && (n <=? 13) || (28 <=? n) && (n <=? 32))%N.

Definition isdigit (c : ascii) : bool :=
  let n := code c in ((48 <=? n) && (n <=? 57))%N.

Definition islower (c : ascii) : bool :=
  let n := code c in ((97 <=? n) && (n <=? 122))%N.

Definition isupper (c : ascii) : bool :=
  let n := code c in ((65 <=? n) && (n <=? 90))%N.

Definition lower_char (c : ascii) : ascii :=
  if isupper c then ascii_of_N (code c + 32) else c.

Definition upper_char (c : ascii) : ascii :=
  if islower c then ascii_of_N (code c - 32) else c.

Fixpoint map_chars (f : ascii -> ascii) (s : string) : string :=
  match s with
  | EmptyString => EmptyString
  | String c s' => String (f c) (map_chars f s')
  end.

Definition lower : string -> string := map_chars lower_char.
Definition upper : string -> string := map_chars upper_char.

Fixpoint lstrip_by (p : ascii -> bool) (s : string) : string :=
  match s with
  | EmptyString => EmptyString
  | String c s' => if p c then lstrip_by p s' else s
  end.

Fixpoint rstrip_by (p : ascii -> bool) (s : string) : string :=
  match s with
  | EmptyString => EmptyString
  | String c s' =>
      match rstrip_by p s' with
      | EmptyString => if p c then EmptyString else String c EmptyString
      | r => String c r
      end
  end.

Definition strip_by (p : ascii -> bool) (s : string) : string :=
  rstrip_by p (lstrip_by p s).

(** [s.strip()] *)
Definition strip : string -> string := strip_by isspace.

Fixpoint all_chars (p : ascii -> bool) (s : string) : bool :=
  match s with
  | EmptyString => true
  | String c s' => p c && all_chars p s'
  end.

Fixpoint any_char (p : ascii -> bool) (s : string) : bool :=
  match s with
  | EmptyString => false
  | String c s' => p c || any_char p s'
  end.

Fixpoint count_char (c : ascii) (s : string) : nat :=
  match s with
  | EmptyString => O
  | String d s' => (if Ascii.eqb c d then 1 else 0) + count_char c s'
  end.

(** Truth value of a string: [bool(s)]. *)
Definition nonempty (s : string) : bool :=
  match s with EmptyString => false | _ => true end.

(** [sub in s] *)
Fixpoint contains (sub s : string) : bool :=
  String.prefix sub s ||
  match s with
  | EmptyString => false
  | String _ s' => contains sub s'
  end.

(** [sep.join(parts)] *)
Fixpoint join (sep : string) (parts : list string) : string :=
  match parts with
  | [] => ""
  | [p] => p
  | p :: rest => p +:+ sep +:+ join sep rest
  end.

(** [str(n)] for an [int]. *)
Definition str_of_int (z : Z) : string := NilZero.string_of_int (Z.to_int z).

(** Truth value of an optional string, as in [if error:]. *)
Definition truthy_opt_str (o : option string) : bool :=
  match o with Some s => nonempty s | None => false end.

(** ** Values *)

Inductive pyval :=
| VNone
| VBool (b : bool)
| VInt (z : Z)
| VFloat (f : spec_float)
| VStr (s : string)
| VList (l : list pyval)
| VDict (d : list (string * pyval)).

Definition pydict := list (string * pyval).

Fixpoint dict_lookup (d : pydict) (k : string) : option pyval :=
  match d with
  | [] => None
  | (k', v) :: d' => if String.eqb k k' then Some v else dict_lookup d' k
  end.

(** [d.get(k)] *)
Definition get (d : pydict) (k : string) : pyval :=
  match dict_lookup d k with Some v => v | None => VNone end.

(** [d.get(k, dflt)] *)
Definition get_default (d : pydict) (k : string) (dflt : pyval) : pyval :=
  match dict_lookup d k with Some v => v | None => dflt end.

Definition prec : Z := 53.
Definition emax : Z := 1024.

Definition float_is_zero (f : spec_float) : bool :=
  match f with S754_zero _ => true | _ => false end.

(** [bool(v)] *)
Definition truthy (v : pyval) : bool :=
  match v with
  | VNone => false
  | VBool b => b
  | VInt z => negb (z =? 0)
  | VFloat f => negb (float_is_zero f)
  | VStr s => nonempty s
  | VList l => match l with [] => false | _ => true end
  | VDict d => match d with [] => false | _ => true end
  end.

(** [a or b] *)
Definition or_ (a b : pyval) : pyval := if truthy a then a else b.

(** *** [int(...)] *)

Definition digit_val (c : ascii) : Z := Z.of_N (code c) - 48.

(** Decimal digits with single underscores between digits, as the
    [int] and [float] constructors accept them.  [prev] tells whether the
    previous character was a digit. *)
Fixpoint digits_go (prev : bool) (acc : Z) (s : string) : option Z :=
  match s with
  | EmptyString => if prev then Some acc else None
  | String c s' =>
      if isdigit c then digits_go true (10 * acc + digit_val c) s'
      else if Ascii.eqb c "_" then
        if prev then
          match s' with
          | String d _ => if isdigit d then digits_go false acc s' else None
          | EmptyString => None
          end
        else None
      else None
  end.

Definition parse_digits (s : string) : option Z := digits_go false 0 s.

Definition split_sign (s : string) : bool * string :=
  match s with
  | String "-" s' => (true, s')
  | String "+" s' => (false, s')
  | _ => (false, s)
  end.

(** [int(s)] for a string: base 10, surrounding whitespace ignored. *)
Definition int_of_str (s : string) : option Z :=
  let '(neg, body) := split_sign (strip s) in
  match parse_digits body with
  | Some n => Some (if neg then - n else n)
  | None => None
  end.

(** Truncation toward zero of a finite float. *)
Definition float_trunc (s : bool) (m : positive) (e : Z) : Z :=
  let a := if 0 <=? e then Z.pos m * 2 ^ e else Z.pos m / 2 ^ (- e) in
  if s then - a else a.

Definition int_ (v : pyval) : result Z :=
  match v with
  | VNone => raise TypeError "int() argument must be a string, a bytes-like object or a real number, not 'NoneType'"
  | VBool b => Ok (if b then 1 else 0)
  | VInt z => Ok z
  | VFloat f =>
      match f with
      | S754_zero _ => Ok 0
      | S754_nan => raise ValueError "cannot convert float NaN to integer"
      | S754_infinity _ => raise OverflowError "cannot convert float infinity to integer"
      | S754_finite s m e => Ok (float_trunc s m e)
      end
  | VStr s =>
      match int_of_str s with
      | Some z => Ok z
      | None => raise ValueError ("invalid literal for int() with base 10: '" +:+ s +:+ "'")
      end
  | VList _ => raise TypeError "int() argument must be a string, a bytes-like object or a real number, not 'list'"
  | VDict _ => raise TypeError "int() argument must be a string, a bytes-like object or a real number, not 'dict'"
  end.

(** [try: ... except classes: handler] *)
Definition try_except {A} (body : result A) (classes : list exn_class)
    (handler : exn -> result A) : result A :=
  match body with
  | Ok a => Ok a
  | Raise e => if existsb (isinstance e) classes then handler e else Raise e
  end.

(** [v == n] for an [int] literal [n]. *)
Definition eq_int (v : pyval) (n : Z) : bool :=
  match v with
  | VInt z => z =? n
  | VBool b => (if b then 1 else 0) =? n
  | VFloat f => SFeqb f (binary_normalize prec emax n 0 false)
  | _ => false
  end.

(** [v == s] for a [str] literal [s]. *)
Definition eq_str (v : pyval) (s : string) : bool :=
  match v with
  | VStr s' => String.eqb s' s
  | _ => false
  end.

Definition is_hashable (v : pyval) : bool :=
  match v with
  | VList _ | VDict _ => false
  | _ => true
  end.

(** *** Floats *)

Definition float_of_Z (z : Z) : spec_float := binary_normalize prec emax z 0 false.

Definition float_le (a b : spec_float) : bool := SFleb a b.
Definition float_mul (a b : spec_float) : spec_float := SFmul prec emax a b.
Definition float_div (a b : spec_float) : spec_float := SFdiv prec emax a b.

(** [round(f)] with no digits argument: nearest integer, ties to even. *)
Definition round_half_even (s : bool) (m : positive) (e : Z) : Z :=
  let a :=
    if 0 <=? e then Z.pos m * 2 ^ e
    else
      let d := 2 ^ (- e) in
      let q := Z.pos m / d in
      let r := Z.pos m mod d in
      match (2 * r ?= d) with
      | Lt => q
      | Gt => q + 1
      | Eq => if Z.even q then q else q + 1
      end in
  if s then - a else a.

Definition round_ (f : spec_float) : result Z :=
  match f with
  | S754_zero _ => Ok 0
  | S754_nan => raise ValueError "cannot convert float NaN to integer"
  | S754_infinity _ => raise OverflowError "cannot convert float infinity to integer"
  | S754_finite s m e => Ok (round_half_even s m e)
  end.

(** ** Library functions taken as parameters

    Some functions of the Python runtime are not embedded; every
    definition that needs one takes it from this class, and the general
    theorems hold for every instance.
    - [repr_]: [repr(v)], which [str(v)] falls back to for floats, lists
      and dicts;
    - [float_of_str]: [float(s)] for a string, [None] for [ValueError];
    - [shlex_split]: [shlex.split(s)], [None] for [ValueError]
      (unbalanced quotation, dangling escape);
    - [path_join], [path_parent], [path_stem]: [str(Path(a) / b)],
      [str(Path(a).parent)] and [Path(a).stem]. *)
Class Runtime := {
  repr_ : pyval -> string;
  float_of_str : string -> option spec_float;
  shlex_split : string -> option (list string);
  path_join : string -> string -> string;
  path_parent : string -> string;
  path_stem : string -> string;
}.

Section WithRuntime.
Context `{Runtime}.

(** [str(v)] *)
Definition str_ (v : pyval) : string :=
  match v with
  | VNone => "None"
  | VBool true => "True"
  | VBool false => "False"
  | VInt z => str_of_int z
  | VStr s => s
  | VFloat _ | VList _ | VDict _ => repr_ v
  end.

(** [float(v)] *)
Definition float_ (v : pyval) : result spec_float :=
  match v with
  | VNone => raise TypeError "float() argument must be a string or a real number, not 'NoneType'"
  | VBool b => Ok (float_of_Z (if b then 1 else 0))
  | VInt z =>
      match float_of_Z z with
      | S754_infinity _ => raise OverflowError "int too large to convert to float"
      | f => Ok f
      end
  | VFloat f => Ok f
  | VStr s =>
      match float_of_str s with
      | Some f => Ok f
      | None => raise ValueError ("could not convert string to float: '" +:+ s +:+ "'")
      end
  | VList _ => raise TypeError "float() argument must be a string or a real number, not 'list'"
  | VDict _ => raise TypeError "float() argument must be a string or a real number, not 'dict'"
  end.
End WithRuntime.

(** [shlex.quote(s)]: the safe characters are [[A-Za-z0-9_@%+=:,./-]]; a
    single quote becomes a quoted single quote between two single quotes
    (character 34 is the double quote). *)
Definition shlex_safe (c : ascii) : bool :=
  isdigit c || islower c || isupper c ||
  existsb (Ascii.eqb c) ["_"; "@"; "%"; "+"; "="; ":"; ","; "."; "/"; "-"]%char.

Fixpoint escape_squotes (s : string) : string :=
  match s with
  | EmptyString => EmptyString
  | String c s' =>
      if Ascii.eqb c "'"
      then String "'" (String "034" (String "'" (String "034" (String "'"
             (escape_squotes s')))))
      else String c (escape_squotes s')
  end.

Definition shlex_quote (s : string) : string :=
  if negb (nonempty s) then "''"
  else if all_chars shlex_safe s then s
  else "'" +:+ escape_squotes s +:+ "'".

(** [shlex.join(parts)] *)
Definition shlex_join (parts : list string) : string :=
  join " " (map shlex_quote parts).

End Py.

#[global] Instance result_ret : MRet Py.result := fun A a => Py.Ok a.
#[global] Instance result_bind : MBind Py.result := fun A B k r => Py.bind r k.

(* ===================================================================== *)
(** * Data models ([tab_models.py])                                      *)
(* ===================================================================== *)

(** [class TabStatus(str, Enum)]: the [.value] of each member. *)
Module TabStatus.
Definition IDLE : string := "idle".
Definition STARTING : string := "starting".
Definition RUNNING : string := "running".
Definition COMPLETED : string := "completed".
Definition FAILED : string := "failed".
Definition CANCELLED : string := "cancelled".
End TabStatus.

(** [collections.deque] with an optional [maxlen]. *)
Module Deque.
Record t (A : Type) := Make { maxlen : option nat; items : list A }.
Arguments Make {A} maxlen items.
Arguments maxlen {A} _.
Arguments items {A} _.

Definition new {A} (maxlen : option nat) : t A := Make maxlen [].

(** [d.append(x)]: the item is added on the right; a bounded deque that
    became too long drops its leftmost item. *)
Definition append {A} (d : t A) (x : A) : t A :=
  let l := items d ++ [x] in
  match maxlen d with
  | None => Make None l
  | Some n => Make (Some n) (if (n <? length l)%nat then tail l else l)
  end.
End Deque.

(** [l[-n:]] *)
Definition last_n {A} (n : nat) (l : list A) : list A :=
  match n with
  | O => l
  | _ => drop (length l - n) l
  end.

Module LogEntry.
Record t := Make {
  seq : Z;
  timestamp : string;
  message : string;
  tab_id : string;
  interface : option string;
}.

(** The JSON object of a log entry; [None] is an absent key. *)
Record dict := Dict {
  d_seq : option Z;
  d_timestamp : option string;
  d_message : option string;
  d_tabId : option string;
  d_interface : option string;
}.

Definition to_dict (e : t) : dict :=
  {| d_seq := Some (seq e);
     d_timestamp := Some (timestamp e);
     d_message := Some (message e);
     d_tabId := Some (tab_id e);
     d_interface := interface e |}.
End LogEntry.

Module Run.
Record t := Make {
  id : string;
  profile_id : option string;
  started_utc : string;
  finished_utc : option string;
  exit_code : option Z;
  exit_codes : option (list (option Z));
  cancelled : bool;
  error : option string;
  commands : option (list string);
  filenames_bases : option (list string);
  capture_ids : option (list string);
  main_capture_id : option string;
  pids : option (list Z);
  interfaces : option (list string);
  ring_file_size_mb : option Z;
  ring_file_count : option Z;
  bpf_filter : option string;
  command : option string;
  filename_base : option string;
  capture_id : option string;
  pid : option Z;
  interface : option string;
}.

(** [Run(id=..., profile_id=..., started_utc=...)] with every other field
    at its dataclass default. *)
Definition new (id : string) (profile_id : option string) (started_utc : string) : t :=
  {| id := id; profile_id := profile_id; started_utc := started_utc;
     finished_utc := None; exit_code := None; exit_codes := None;
     cancelled := false; error := None;
     commands := None; filenames_bases := None; capture_ids := None;
     main_capture_id := None; pids := None; interfaces := None;
     ring_file_size_mb := None; ring_file_count := None; bpf_filter := None;
     command := None; filename_base := None; capture_id := None;
     pid := None; interface := None |}.

(** The JSON object of a run; [None] is an absent key or [null]. *)
Record dict := Dict {
  d_id : option string;
  d_profileId : option string;
  d_startedUtc : option string;
  d_finishedUtc : option string;
  d_exitCode : option Z;
  d_cancelled : option bool;
  d_error : option string;
  d_exitCodes : option (list (option Z));
  d_commands : option (list string);
  d_filenamesBases : option (list string);
  d_capture_ids : option (list string);
  d_main_capture_id : option string;
  d_pids : option (list Z);
  d_interfaces : option (list string);
  d_ringFileSizeMb : option Z;
  d_ringFileCount : option Z;
  d_bpfFilter : option string;
  d_command : option string;
  d_filenameBase : option string;
  d_capture_id : option string;
  d_pid : option Z;
  d_interface : option string;
}.

#[global] Instance dict_eq_dec : EqDecision dict.
Proof. solve_decision. Defined.

Definition to_dict (r : t) : dict :=
  {| d_id := Some (id r);
     d_profileId := profile_id r;
     d_startedUtc := Some (started_utc r);
     d_finishedUtc := finished_utc r;
     d_exitCode := exit_code r;
     d_cancelled := Some (cancelled r);
     d_error := error r;
     d_exitCodes := exit_codes r;
     d_commands := commands r;
     d_filenamesBases := filenames_bases r;
     d_capture_ids := capture_ids r;
     d_main_capture_id := main_capture_id r;
     d_pids := pids r;
     d_interfaces := interfaces r;
     d_ringFileSizeMb := ring_file_size_mb r;
     d_ringFileCount := ring_file_count r;
     d_bpfFilter := bpf_filter r;
     d_command := command r;
     d_filenameBase := filename_base r;
     d_capture_id := capture_id r;
     d_pid := pid r;
     d_interface := interface r |}.

Definition from_dict (now : string) (data : dict) : t :=
  {| id := default "" (d_id data);
     profile_id := d_profileId data;
     started_utc := default now (d_startedUtc data);
     finished_utc := d_finishedUtc data;
     exit_code := d_exitCode data;
     exit_codes := d_exitCodes data;
     cancelled := default false (d_cancelled data);
     error := d_error data;
     commands := d_commands data;
     filenames_bases := d_filenamesBases data;
     capture_ids := d_capture_ids data;
     main_capture_id := d_main_capture_id data;
     pids := d_pids data;
     interfaces := d_interfaces data;
     ring_file_size_mb := d_ringFileSizeMb data;
     ring_file_count := d_ringFileCount data;
     bpf_filter := d_bpfFilter data;
     command := d_command data;
     filename_base := d_filenameBase data;
     capture_id := d_capture_id data;
     pid := d_pid data;
     interface := d_interface data |}.

(** [bool(data)] for the JSON object: an object without members is
    false.  A member that is [null] reads like an absent one. *)
Definition dict_truthy (data : dict) : bool :=
  negb (bool_decide (data = Dict None None None None None None None None None
                                None None None None None None None None None
                                None None None None)).

(** Field updates used by the managers. *)
Definition finish (r : t) (finished : string) (codes : list (option Z))
    (err : option string) : t :=
  {| id := id r; profile_id := profile_id r; started_utc := started_utc r;
     finished_utc := Some finished;
     exit_code := match codes with c :: _ => c | [] => None end;
     exit_codes := Some codes;
     cancelled := cancelled r; error := err;
     commands := commands r; filenames_bases := filenames_bases r;
     capture_ids := capture_ids r; main_capture_id := main_capture_id r;
     pids := pids r; interfaces := interfaces r;
     ring_file_size_mb := ring_file_size_mb r;
     ring_file_count := ring_file_count r; bpf_filter := bpf_filter r;
     command := command r; filename_base := filename_base r;
     capture_id := capture_id r; pid := pid r; interface := interface r |}.
End Run.

Module Tab.
Record t := Make {
  id : string;
  title : string;
  status : string;
  created_utc : string;
  updated_utc : string;
  profile_id : option string;
  run : option Run.t;
  logs : Deque.t LogEntry.t;
  log_seq : Z;
  last_message : option string;
  profile : option Py.pydict;
}.

(** The JSON object of a tab; [None] is an absent key or [null]. *)
Record dict := Dict {
  d_id : option string;
  d_title : option string;
  d_profileId : option string;
  d_status : option string;
  d_createdUtc : option string;
  d_updatedUtc : option string;
  d_run : option Run.dict;
  d_logs : option (list LogEntry.dict);
  d_logSeq : option Z;
  d_lastMessage : option string;
  d_profile : option Py.pydict;
}.

Definition to_dict (tab : t) : dict :=
  {| d_id := Some (id tab);
     d_title := Some (title tab);
     d_profileId := profile_id tab;
     d_status := Some (status tab);
     d_createdUtc := Some (created_utc tab);
     d_updatedUtc := Some (updated_utc tab);
     d_run := Run.to_dict <$> run tab;
     d_logs := Some (map LogEntry.to_dict (Deque.items (logs tab)));
     d_logSeq := Some (log_seq tab);
     d_lastMessage := last_message tab;
     d_profile := None |}.

Definition log_from_dict (now : string) (log_data : LogEntry.dict) : LogEntry.t :=
  {| LogEntry.seq := default 0 (LogEntry.d_seq log_data);
     LogEntry.timestamp := default now (LogEntry.d_timestamp log_data);
     LogEntry.message := default "" (LogEntry.d_message log_data);
     LogEntry.tab_id := default "" (LogEntry.d_tabId log_data);
     LogEntry.interface := LogEntry.d_interface log_data |}.

Definition from_dict (now : string) (data : dict) (max_log_entries : nat) : t :=
  let run :=
    match d_run data with
    | Some run_data =>
        if Run.dict_truthy run_data then Some (Run.from_dict now run_data) else None
    | None => None
    end in
  let raw_logs := default [] (d_logs data) in
  let logs_deque :=
    foldl (fun dq log_data => Deque.append dq (log_from_dict now log_data))
          (Deque.new (Some max_log_entries))
          (last_n max_log_entries raw_logs) in
  {| id := default "" (d_id data);
     title := default "Neuer Test" (d_title data);
     profile_id := d_profileId data;
     status := default TabStatus.IDLE (d_status data);
     created_utc := default now (d_createdUtc data);
     updated_utc := default now (d_updatedUtc data);
     run := run;
     logs := logs_deque;
     log_seq := default 0 (d_logSeq data);
     last_message := d_lastMessage data;
     profile := d_profile data |}.

(** Field updates used by the managers. *)
Definition set_title (tab : t) (v : string) : t :=
  {| id := id tab; title := v; status := status tab;
     created_utc := created_utc tab; updated_utc := updated_utc tab;
     profile_id := profile_id tab; run := run tab; logs := logs tab;
     log_seq := log_seq tab; last_message := last_message tab;
     profile := profile tab |}.

Definition set_profile_id (tab : t) (v : option string) : t :=
  {| id := id tab; title := title tab; status := status tab;
     created_utc := created_utc tab; updated_utc := updated_utc tab;
     profile_id := v; run := run tab; logs := logs tab;
     log_seq := log_seq tab; last_message := last_message tab;
     profile := profile tab |}.

Definition set_updated_utc (tab : t) (v : string) : t :=
  {| id := id tab; title := title tab; status := status tab;
     created_utc := created_utc tab; updated_utc := v;
     profile_id := profile_id tab; run := run tab; logs := logs tab;
     log_seq := log_seq tab; last_message := last_message tab;
     profile := profile tab |}.

Definition set_status (tab : t) (v : string) : t :=
  {| id := id tab; title := title tab; status := v;
     created_utc := created_utc tab; updated_utc := updated_utc tab;
     profile_id := profile_id tab; run := run tab; logs := logs tab;
     log_seq := log_seq tab; last_message := last_message tab;
     profile := profile tab |}.

Definition set_run (tab : t) (v : option Run.t) : t :=
  {| id := id tab; title := title tab; status := status tab;
     created_utc := created_utc tab; updated_utc := updated_utc tab;
     profile_id := profile_id tab; run := v; logs := logs tab;
     log_seq := log_seq tab; last_message := last_message tab;
     profile := profile tab |}.

(** The three assignments of [append_log] to the log fields. *)
Definition push_log (tab : t) (entry : LogEntry.t) : t :=
  {| id := id tab; title := title tab; status := status tab;
     created_utc := created_utc tab; updated_utc := updated_utc tab;
     profile_id := profile_id tab; run := run tab;
     logs := Deque.append (logs tab) entry;
     log_seq := LogEntry.seq entry;
     last_message := Some (LogEntry.message entry);
     profile := profile tab |}.
End Tab.

(* ===================================================================== *)
(** * Tab state store ([tab_manager.py])                                 *)
(* ===================================================================== *)

(** [a or b] on strings. *)
Definition or_str (a b : string) : string := if Py.nonempty a then a else b.

Module TabManager.
Import Py.

Record t := Make {
  max_log_entries : nat;
  _tabs : gmap string Tab.t;
  (** Content of [tabs.json]: the list under the key ["tabs"]; [None]
      while the file does not exist. *)
  _tabs_file : option (list Tab.dict);
}.

Definition with_tabs (m : t) (tabs : gmap string Tab.t) : t :=
  {| max_log_entries := max_log_entries m; _tabs := tabs;
     _tabs_file := _tabs_file m |}.

Definition tab_not_found {A} (tab_id : string) : result A :=
  raise TabNotFoundError ("Tab '" +:+ tab_id +:+ "' nicht gefunden").

(** ** Persistence *)

(** One iteration of the loop of [_load_state] over the stored tabs. *)
Definition load_tab (now : string) (max_log_entries : nat)
    (tabs : gmap string Tab.t) (tab_data : Tab.dict) : gmap string Tab.t :=
  let tab_id := strip (or_str (default "" (Tab.d_id tab_data)) "") in
  if negb (nonempty tab_id) then tabs
  else
    let tab := Tab.from_dict now tab_data max_log_entries in
    let tab :=
      if bool_decide (Tab.status tab = TabStatus.RUNNING)
         || bool_decide (Tab.status tab = TabStatus.STARTING)
      then Tab.set_run (Tab.set_status tab TabStatus.IDLE) None
      else tab in
    <[tab_id := tab]> tabs.

(** [file]: what [json.load] returned for the state file, when the file
    exists, parses, and holds a list under ["tabs"]. *)
Definition _load_state (now : string) (m : t) (file : option (list Tab.dict)) : t :=
  match file with
  | None => m
  | Some tabs => with_tabs m (foldl (load_tab now (max_log_entries m)) (_tabs m) tabs)
  end.

(** [TabManager(runtime_dir, max_log_entries=...)] *)
Definition init (now : string) (max_log_entries : nat)
    (file : option (list Tab.dict)) : t :=
  _load_state now
    {| max_log_entries := max_log_entries; _tabs := ∅; _tabs_file := file |}
    file.

Definition _save_state_locked (m : t) : t :=
  {| max_log_entries := max_log_entries m; _tabs := _tabs m;
     _tabs_file := Some (map Tab.to_dict (map_to_list (_tabs m)).*2) |}.

Definition save_state (m : t) : t := _save_state_locked m.

(** ** Tab CRUD *)

Definition list_tabs (m : t) : list Tab.dict :=
  map Tab.to_dict (map_to_list (_tabs m)).*2.

Definition get_tab (m : t) (tab_id : string) : result Tab.dict :=
  match _tabs m !! tab_id with
  | None => tab_not_found tab_id
  | Some tab => Ok (Tab.to_dict tab)
  end.

(** [tab_id] is the value of [uuid4().hex], [now] that of [utcnow_iso()]. *)
Definition create_tab (tab_id now : string) (title profile_id : option string)
    (m : t) : Tab.dict * t :=
  let tab :=
    {| Tab.id := tab_id;
       Tab.title := or_str (strip (or_str (default "" title) "")) "Neuer Test";
       Tab.profile_id := profile_id;
       Tab.status := TabStatus.IDLE;
       Tab.created_utc := now;
       Tab.updated_utc := now;
       Tab.run := None;
       Tab.logs := Deque.new (Some (max_log_entries m));
       Tab.log_seq := 0;
       Tab.last_message := None;
       Tab.profile := None |} in
  let m := _save_state_locked (with_tabs m (<[tab_id := tab]> (_tabs m))) in
  (Tab.to_dict tab, m).

Definition update_tab (tab_id now : string) (title profile_id : option string)
    (m : t) : result Tab.dict * t :=
  match _tabs m !! tab_id with
  | None => (tab_not_found tab_id, m)
  | Some tab =>
      let tab :=
        match title with
        | Some title => Tab.set_title tab (or_str (strip title) "Neuer Test")
        | None => tab
        end in
      let tab :=
        match profile_id with
        | Some profile_id => Tab.set_profile_id tab (Some profile_id)
        | None => tab
        end in
      let tab := Tab.set_updated_utc tab now in
      let m := _save_state_locked (with_tabs m (<[tab_id := tab]> (_tabs m))) in
      (Ok (Tab.to_dict tab), m)
  end.

Definition delete_tab (tab_id : string) (running_tab_ids : gset string)
    (m : t) : result unit * t :=
  if bool_decide (tab_id ∈ running_tab_ids) then
    (raise TestAlreadyRunningError
       ("Test läuft noch in Tab '" +:+ tab_id +:+ "', zuerst stoppen"), m)
  else
    match _tabs m !! tab_id with
    | None => (tab_not_found tab_id, m)
    | Some _ => (Ok (), _save_state_locked (with_tabs m (delete tab_id (_tabs m))))
    end.

(** ** Tab state access and modification *)

Definition get_tab_object (tab_id : string) (m : t) : option Tab.t :=
  _tabs m !! tab_id.

Definition update_tab_status (tab_id now status : string) (run : option Run.t)
    (save : bool) (m : t) : option Tab.dict * t :=
  match _tabs m !! tab_id with
  | None => (None, m)
  | Some tab =>
      let tab := Tab.set_status tab status in
      let tab := match run with Some r => Tab.set_run tab (Some r) | None => tab end in
      let tab := Tab.set_updated_utc tab now in
      let m := with_tabs m (<[tab_id := tab]> (_tabs m)) in
      let m := if save then _save_state_locked m else m in
      (Some (Tab.to_dict tab), m)
  end.

(** ** Log operations *)

Record logs_reply := LogsReply {
  tabId : string;
  entries : list LogEntry.dict;
  lastSeq : Z;
}.

Definition get_logs (tab_id : string) (after : option Z) (m : t) : result logs_reply :=
  match _tabs m !! tab_id with
  | None => tab_not_found tab_id
  | Some tab =>
      let logs := Deque.items (Tab.logs tab) in
      let logs :=
        match after with
        | Some after => filter (fun entry => after < LogEntry.seq entry) logs
        | None => logs
        end in
      Ok {| tabId := tab_id;
            entries := map LogEntry.to_dict logs;
            lastSeq := Tab.log_seq tab |}
  end.

Definition append_log (tab_id now message : string) (interface : option string)
    (m : t) : option LogEntry.dict * t :=
  match _tabs m !! tab_id with
  | None => (None, m)
  | Some tab =>
      let seq := Tab.log_seq tab + 1 in
      let entry :=
        {| LogEntry.seq := seq; LogEntry.timestamp := now;
           LogEntry.message := message; LogEntry.tab_id := tab_id;
           LogEntry.interface := interface |} in
      let tab := Tab.set_updated_utc (Tab.push_log tab entry) now in
      let m := _save_state_locked (with_tabs m (<[tab_id := tab]> (_tabs m))) in
      (Some (LogEntry.to_dict entry), m)
  end.

Definition get_tab_snapshot (tab_id : string) (m : t) : option Tab.dict :=
  Tab.to_dict <$> (_tabs m !! tab_id).

End TabManager.

(* ===================================================================== *)
(** * BPF filter generation and validation ([filter_builder.py])         *)
(* ===================================================================== *)

Module FilterBuilder.
Import Py.

Definition protocol_map : list (string * string) :=
  [ ("tcp", "tcp"); ("udp", "udp"); ("icmp", "icmp"); ("arp", "arp");
    ("ip", "ip"); ("ip6", "ip6");
    ("TCP", "tcp"); ("UDP", "udp"); ("ICMP", "icmp"); ("ARP", "arp");
    ("PTP", "udp port 319 or udp port 320");
    ("PROFINET", "ether proto 0x8892") ].

Fixpoint assoc (m : list (string * string)) (k : string) : option string :=
  match m with
  | [] => None
  | (k', v) :: m' => if String.eqb k k' then Some v else assoc m' k
  end.

(** [protocol_map.get(key) or protocol_map.get(key.upper())]; every value
    of the table is a non-empty string. *)
Definition map_protocol (key : string) : option string :=
  match assoc protocol_map key with
  | Some v => Some v
  | None => assoc protocol_map (upper key)
  end.

(** The loop over [protocols_raw]. *)
Fixpoint translate_protocols (items : list pyval) : list string :=
  match items with
  | [] => []
  | VStr item :: rest =>
      let key := strip item in
      match map_protocol key with
      | Some mapped => mapped :: translate_protocols rest
      | None =>
          if nonempty key then lower key :: translate_protocols rest
          else translate_protocols rest
      end
  | _ :: rest => translate_protocols rest
  end.

(** [int(v)] under [except (TypeError, ValueError)], which sets [None]. *)
Definition int_or_none (v : pyval) : result (option Z) :=
  try_except (z ← int_ v; Ok (Some z)) [TypeError; ValueError] (fun _ => Ok None).

Definition tsn_filters (settings : pydict) : list string :=
  let capture_tsn_sync := or_ (get settings "captureTsnSync") (get settings "tsn8021as") in
  let capture_ptp := or_ (get settings "capturePtp") (get settings "ptpStatus") in
  let capture_vlan := or_ (get settings "captureVlanTagged") (get settings "qbuPreemption") in
  if truthy capture_tsn_sync && truthy capture_ptp then
    if truthy capture_vlan then ["(vlan and ether proto 0x88f7)"]
    else ["(ether proto 0x88f7 or (udp port 319 or udp port 320))"]
  else if truthy capture_tsn_sync then
    if truthy capture_vlan then ["(vlan and ether proto 0x88f7)"]
    else ["ether proto 0x88f7"]
  else if truthy capture_ptp then ["(udp port 319 or udp port 320)"]
  else if truthy capture_vlan then ["vlan"]
  else [].

Definition build_bpf_filter (settings : pydict) : result string :=
  let filters : list string := [] in
  (* Protocol filter *)
  let protocols_raw := or_ (get settings "filterProtocols") (get settings "protocols") in
  let filters :=
    match protocols_raw with
    | VList items =>
        let translated := translate_protocols items in
        match translated with
        | [] => filters
        | _ => filters ++ ["(" +:+ join " or " translated +:+ ")"]
        end
    | _ => filters
    end in
  (* Host filter *)
  let host_filter := or_ (get settings "filterHosts") (get settings "macIpFilter") in
  let filters :=
    match host_filter with
    | VStr h => if nonempty (strip h) then filters ++ ["host " +:+ strip h] else filters
    | _ => filters
    end in
  (* Port filter *)
  let filters :=
    match get settings "filterPorts" with
    | VStr p => if nonempty (strip p) then filters ++ ["port " +:+ strip p] else filters
    | _ => filters
    end in
  (* VLAN filter *)
  let vlan_id := or_ (get settings "filterVlanId") (get settings "vlanId") in
  vlan_int ← int_or_none vlan_id;
  let filters :=
    match vlan_int with
    | Some v => if negb (v =? 0) && (0 <? v)
                then filters ++ ["vlan " +:+ str_of_int v] else filters
    | None => filters
    end in
  (* TSN-specific filters *)
  let filters := filters ++ tsn_filters settings in
  (* TSN priority filter *)
  let tsn_priority := get settings "tsnPriorityFilter" in
  filters ←
    match tsn_priority with
    | VNone => Ok filters
    | _ =>
        try_except
          (prio ← int_ tsn_priority;
           Ok (if (0 <=? prio) && (prio <=? 7)
               then filters ++ ["vlan and ether[14:2] & 0xe000 = "
                                  +:+ str_of_int (Z.shiftl prio 13)]
               else filters))
          [TypeError; ValueError] (fun _ => Ok filters)
    end;
  (* Custom BPF filter *)
  let filters :=
    match get settings "bpfFilter" with
    | VStr c => if nonempty (strip c) then filters ++ ["(" +:+ strip c +:+ ")"] else filters
    | _ => filters
    end in
  Ok (join " and " filters).

Definition bpf_keywords : list string :=
  [ "host"; "net"; "port"; "src"; "dst"; "and"; "or"; "not";
    "tcp"; "udp"; "icmp"; "ip"; "ip6"; "arp"; "ether"; "vlan";
    "portrange"; "proto"; "broadcast"; "multicast"; "less"; "greater" ].

Definition validate_bpf_filter (bpf_filter : string) : bool :=
  let bpf_filter := strip bpf_filter in
  if negb (nonempty bpf_filter) || (1000 <? String.length bpf_filter)%nat then false
  else if negb (count_char "(" bpf_filter =? count_char ")" bpf_filter)%nat then false
  else
    let lower_filter := lower bpf_filter in
    let has_keyword := existsb (fun keyword => contains keyword lower_filter) bpf_keywords in
    let has_port_or_ip := any_char isdigit bpf_filter in
    has_keyword || has_port_or_ip.

Definition iface_char (c : ascii) : bool :=
  isdigit c || islower c || isupper c ||
  Ascii.eqb c "." || Ascii.eqb c "_" || Ascii.eqb c "-".

(** [re.match(r'^[a-zA-Z0-9._-]+$', name)]: [$] also matches before one
    trailing newline. *)
Definition iface_regex_matches (name : string) : bool :=
  let n := String.length name in
  let body :=
    if String.eqb (String.substring (n - 1) 1 name) (String "010" "")
    then String.substring 0 (n - 1) name
    else name in
  nonempty body && all_chars iface_char body.

Definition validate_interface_name (name : string) : bool :=
  if negb (nonempty name) || (15 <? String.length name)%nat then false
  else iface_regex_matches name.

End FilterBuilder.

(* ===================================================================== *)
(** * Run executor: build and validation ([run_executor.py])             *)
(* ===================================================================== *)

(** [slugify] of [tab_models.py]. *)
Module Slug.
Import Py.

Definition slug_char (c : ascii) : bool := islower c || isdigit c.

(** [re.sub("[^a-z0-9]+", "_", s)]; [in_run] tells whether the previous
    character already belongs to the run being replaced. *)
Fixpoint sub_runs (in_run : bool) (s : string) : string :=
  match s with
  | EmptyString => EmptyString
  | String c s' =>
      if slug_char c then String c (sub_runs false s')
      else if in_run then sub_runs true s'
      else String "_" (sub_runs true s')
  end.

Definition slugify (value : string) : string :=
  let value_norm := lower value in
  let value_norm := sub_runs false value_norm in
  or_str (strip_by (Ascii.eqb "_") value_norm) "capture".
End Slug.

(** The profile handed to [start_test]: the members of the dictionary that
    the engine reads.  [None] is an absent key (or [null] for [id] and
    [name], which the engine cannot tell apart). *)
Module Profile.
Record t := Make {
  id : option string;
  name : option string;
  settings : option Py.pyval;
}.
End Profile.

Module Build.
Import Py.

Definition DEFAULT_INTERFACE : string := "eth0".
Definition DEFAULT_RING_FILE_SIZE_MB : Z := 100.
Definition DEFAULT_RING_FILE_COUNT : Z := 10.
Definition DEFAULT_HEADER_SNAPLEN : Z := 96.
Definition DEFAULT_BUFFER_SIZE_KB : Z := 2.

Record interface_context := InterfaceContext {
  command : list pyval;
  command_display : string;
  interface : string;
  filename_base : string;
}.

Record run_context := RunContext {
  interface_contexts : list interface_context;
  warnings : list string;
  interfaces : list string;
  ring_file_size_mb : Z;
  ring_file_count : Z;
  bpf_filter : string;
}.

(** The loop of [_select_interfaces] over [settings["interfaces"]]; the
    accumulator is [(selected, warnings)]. *)
Definition select_step (acc : list string * list string) (i : pyval)
    : list string * list string :=
  let '(selected, warnings) := acc in
  match i with
  | VStr i =>
      if nonempty (strip i) then
        let iface := strip i in
        if FilterBuilder.validate_interface_name iface
        then (selected ++ [iface], warnings)
        else (selected,
              warnings ++ ["Ungültiger Interface-Name '" +:+ iface +:+ "' ignoriert."])
      else acc
  | _ => acc
  end.

(** The fallback of [_select_interfaces]: the single [interface] setting,
    then the default. *)
Definition select_fallback (settings : pydict) (warnings : list string)
    : list string * list string :=
  let default_ (warnings : list string) :=
    ([DEFAULT_INTERFACE],
     warnings ++ ["Kein Interface angegeben, verwende " +:+ DEFAULT_INTERFACE +:+ "."]) in
  match get settings "interface" with
  | VStr manual_iface =>
      if nonempty (strip manual_iface) then
        let iface := strip manual_iface in
        if FilterBuilder.validate_interface_name iface then ([iface], warnings)
        else default_ (warnings ++ ["Ungültiger Interface-Name '" +:+ iface
                                      +:+ "', verwende " +:+ DEFAULT_INTERFACE +:+ "."])
      else default_ warnings
  | _ => default_ warnings
  end.

Definition _select_interfaces (settings : pydict) (warnings : list string)
    : list string * list string :=
  match get settings "interfaces" with
  | VList (i :: rest) =>
      let '(selected, warnings) := foldl select_step ([], warnings) (i :: rest) in
      match selected with
      | _ :: _ => (selected, warnings)
      | [] => select_fallback settings warnings
      end
  | _ => select_fallback settings warnings
  end.

Definition _coerce_positive_int (value : pyval) (default_ minimum : Z)
    (field : string) (warnings : list string) : result (Z * list string) :=
  try_except
    (ivalue ← int_ value;
     if ivalue <? minimum then
       Ok (default_,
           warnings ++ [field +:+ " zu klein (" +:+ str_of_int ivalue
                          +:+ "), verwende " +:+ str_of_int default_ +:+ "."])
     else Ok (ivalue, warnings))
    [TypeError; ValueError]
    (fun _ => Ok (default_,
                  warnings ++ [field +:+ " ungültig, verwende "
                                 +:+ str_of_int default_ +:+ "."])).

(** [unit_multipliers.get(size_unit, 1)]; the lookup of an unhashable key
    raises [TypeError]. *)
Definition unit_multiplier (size_unit : pyval) : result spec_float :=
  if negb (is_hashable size_unit) then raise TypeError "unhashable type"
  else if eq_str size_unit "bytes" then Ok (float_div (float_of_Z 1) (float_of_Z (1024 * 1024)))
  else if eq_str size_unit "kilobytes" then Ok (float_div (float_of_Z 1) (float_of_Z 1024))
  else if eq_str size_unit "megabytes" then Ok (float_of_Z 1)
  else if eq_str size_unit "gigabytes" then Ok (float_of_Z 1024)
  else Ok (float_of_Z 1).

Section WithRuntime.
Context `{Runtime}.

Definition _calculate_ring_file_size_mb (settings : pydict) (warnings : list string)
    : result (Z * list string) :=
  let size_value := get settings "ringFileSizeValue" in
  let size_unit := get_default settings "ringFileSizeUnit" (VStr "megabytes") in
  match size_value with
  | VNone =>
      (* Legacy fallback *)
      match get settings "ringFileSizeMB" with
      | VNone => Ok (DEFAULT_RING_FILE_SIZE_MB, warnings)
      | legacy_mb =>
          _coerce_positive_int legacy_mb DEFAULT_RING_FILE_SIZE_MB 1
            "Ringpuffergröße" warnings
      end
  | _ =>
      try_except
        (value ← float_ size_value;
         if float_le value (S754_zero false) then
           Ok (DEFAULT_RING_FILE_SIZE_MB,
               warnings ++ ["Ringpuffergröße muss positiv sein, verwende "
                              +:+ str_of_int DEFAULT_RING_FILE_SIZE_MB +:+ " MB."])
         else
           multiplier ← unit_multiplier size_unit;
           let result_mb := float_mul value multiplier in
           rounded ← round_ result_mb;
           Ok (Z.max 1 rounded, warnings))
        [TypeError; ValueError]
        (fun _ => Ok (DEFAULT_RING_FILE_SIZE_MB,
                      warnings ++ ["Ringpuffergröße ungültig, verwende "
                                     +:+ str_of_int DEFAULT_RING_FILE_SIZE_MB +:+ " MB."]))
  end.

Definition _determine_snap_length (settings : pydict) (warnings : list string)
    : result (Z * list string) :=
  if truthy (get settings "headerOnly") then
    _coerce_positive_int (get settings "headerSnaplen") DEFAULT_HEADER_SNAPLEN 64
      "Header-Snaplen" warnings
  else if truthy (get settings "snapLength") then
    n ← int_ (get_default settings "snapLength" (VInt 0));
    Ok (n, warnings)
  else Ok (0, warnings).

Definition _build_tcpdump_command (tcpdump_bin interface : string)
    (settings : pydict) (filename_base : string)
    (snap_length ring_file_size_mb ring_file_count : Z) (bpf_filter : string)
    : result (list pyval) :=
  let command := [VStr tcpdump_bin; VStr "-i"; VStr interface; VStr "-nn"] in
  (* Print link-level header *)
  let command :=
    if truthy (get settings "printLinkLevelHeader") then command ++ [VStr "-e"]
    else command in
  (* Snapshot length *)
  let command :=
    if 0 <? snap_length then command ++ [VStr "-s"; VStr (str_of_int snap_length)]
    else command ++ [VStr "-s"; VStr "0"] in
  (* Buffer size in KiB *)
  let buffer_size := get_default settings "bufferSize" (VInt DEFAULT_BUFFER_SIZE_KB) in
  command ←
    (if truthy buffer_size && negb (eq_int buffer_size DEFAULT_BUFFER_SIZE_KB) then
       n ← int_ buffer_size;
       Ok (command ++ [VStr "-B"; VStr (str_of_int (n * 1024))])
     else Ok command);
  (* Timestamp precision *)
  let command :=
    if eq_str (get settings "timestampPrecision") "nano"
    then command ++ [VStr "--time-stamp-precision=nano"] else command in
  (* Immediate mode *)
  let command :=
    if truthy (get settings "immediateMode")
    then command ++ [VStr "--immediate-mode"] else command in
  (* Promiscuous mode (disabled with -p flag) *)
  let command :=
    if negb (truthy (get_default settings "promiscuousMode" (VBool true)))
    then command ++ [VStr "-p"] else command in
  (* Direction filter *)
  let command :=
    if truthy (get settings "filterDirection")
    then command ++ [VStr "-Q"; get settings "filterDirection"] else command in
  (* Ring buffer settings *)
  let command :=
    command ++ [VStr "-w"; VStr filename_base;
                VStr "-C"; VStr (str_of_int ring_file_size_mb);
                VStr "-W"; VStr (str_of_int ring_file_count)] in
  (* Packet count limit *)
  let command :=
    if truthy (get settings "stopPacketCount")
    then command ++ [VStr "-c"; VStr (str_ (get settings "stopPacketCount"))]
    else command in
  (* BPF filter (must be at the end) *)
  if nonempty bpf_filter then
    match shlex_split bpf_filter with
    | Some tokens => Ok (command ++ map VStr tokens)
    | None => raise ValueError "No closing quotation"
    end
  else Ok command.

Fixpoint _build_interface_commands (capture_dir tcpdump_bin : string)
    (interfaces : list string) (settings : pydict)
    (filename_prefix : pyval) (timestamp : string)
    (snap_length ring_file_size_mb ring_file_count : Z) (bpf_filter : string)
    : result (list interface_context) :=
  match interfaces with
  | [] => Ok []
  | interface :: rest =>
      let filename_base :=
        path_join capture_dir
          (str_ filename_prefix +:+ "_" +:+ interface +:+ "_" +:+ timestamp +:+ ".pcap") in
      command ← _build_tcpdump_command tcpdump_bin interface settings filename_base
                  snap_length ring_file_size_mb ring_file_count bpf_filter;
      let ctx :=
        {| command := command;
           command_display := shlex_join (map str_ command);
           interface := interface;
           filename_base := filename_base |} in
      ctxs ← _build_interface_commands capture_dir tcpdump_bin rest settings
               filename_prefix timestamp snap_length ring_file_size_mb
               ring_file_count bpf_filter;
      Ok (ctx :: ctxs)
  end.

(** [now] is the value of [utcnow_iso()]. *)
Definition _build_run_context (capture_dir tcpdump_bin now : string)
    (profile : Profile.t) : result run_context :=
  let settings :=
    match Profile.settings profile with
    | Some (VDict d) => d
    | _ => []
    end in
  let warnings : list string := [] in
  (* Gather capture parameters *)
  let '(interfaces, warnings) := _select_interfaces settings warnings in
  '(ring_file_size_mb, warnings) ← _calculate_ring_file_size_mb settings warnings;
  '(ring_file_count, warnings) ←
    _coerce_positive_int (get settings "ringFileCount") DEFAULT_RING_FILE_COUNT 1
      "Ring-Dateianzahl" warnings;
  '(snap_length, warnings) ← _determine_snap_length settings warnings;
  bpf_filter ← FilterBuilder.build_bpf_filter settings;
  (* Validate BPF filter syntax if provided *)
  let warnings :=
    if nonempty bpf_filter && negb (FilterBuilder.validate_bpf_filter bpf_filter)
    then warnings ++ ["BPF-Filter könnte ungültig sein: '" +:+ bpf_filter +:+ "'"]
    else warnings in
  (* Build tcpdump commands for each interface *)
  let profile_name :=
    or_str (strip (or_str (default "" (Profile.name profile)) "")) "capture" in
  let filename_prefix :=
    or_ (get settings "filenamePrefix") (VStr (Slug.slugify profile_name)) in
  let timestamp := now in
  interface_contexts ←
    _build_interface_commands capture_dir tcpdump_bin interfaces settings
      filename_prefix timestamp snap_length ring_file_size_mb ring_file_count
      bpf_filter;
  Ok {| interface_contexts := interface_contexts;
        warnings := warnings;
        interfaces := interfaces;
        ring_file_size_mb := ring_file_size_mb;
        ring_file_count := ring_file_count;
        bpf_filter := bpf_filter |}.

End WithRuntime.
End Build.

(* ===================================================================== *)
(** * Process management ([process_manager.py])                          *)
(* ===================================================================== *)

(** Computations over a state [S] that may raise: a coroutine run to
    completion. *)
Definition M (S A : Type) : Type := S -> Py.result A * S.

Module Co.
Import Py.

Definition ret {S A} (a : A) : M S A := fun s => (Ok a, s).

Definition bind {S A B} (m : M S A) (k : A -> M S B) : M S B :=
  fun s => match m s with
           | (Ok a, s') => k a s'
           | (Raise e, s') => (Raise e, s')
           end.

Definition raise_ {S A} (e : exn) : M S A := fun s => (Raise e, s).

Definition lift {S A} (r : result A) : M S A := fun s => (r, s).

Definition gets {S A} (f : S -> A) : M S A := fun s => (Ok (f s), s).

Definition modify {S} (f : S -> S) : M S unit := fun s => (Ok (), f s).

(** [try: body except classes: handler(exc)] *)
Definition try_except {S A} (body : M S A) (classes : list exn_class)
    (handler : exn -> M S A) : M S A :=
  fun s => match body s with
           | (Ok a, s') => (Ok a, s')
           | (Raise e, s') =>
               if existsb (isinstance e) classes then handler e s' else (Raise e, s')
           end.

(** [for x in xs: body(x)] *)
Fixpoint for_ {S A} (xs : list A) (body : A -> M S unit) : M S unit :=
  match xs with
  | [] => ret ()
  | x :: rest => bind (body x) (fun _ => for_ rest body)
  end.
End Co.

Notation "x ←ᶜ m ; k" := (Co.bind m (fun x => k))
  (at level 20, m at level 100, k at level 200, only parsing).
Notation "' p ←ᶜ m ; k" := (Co.bind m (fun p => k))
  (at level 20, p pattern, m at level 100, k at level 200, only parsing).
Notation "m ;ᶜ k" := (Co.bind m (fun _ => k))
  (at level 100, k at level 200, right associativity, only parsing).

Module ProcessManager.
Import Py.

Definition TIMEOUT_TERM_WAIT : Z := 5.
Definition TIMEOUT_KILL_WAIT : Z := 3.

(** [class SignalType(str, Enum)] *)
Inductive SignalType := TERM | KILL.

Definition signal_value (sig : SignalType) : string :=
  match sig with TERM => "SIGTERM" | KILL => "SIGKILL" end.

Record InterfaceProcess := {
  process : nat;          (* handle of the subprocess object *)
  task : option nat;      (* handle of the watcher task *)
  filename_base : string;
  interface : string;
  capture_id : string;
  pid : Z;
}.

Definition set_task (iproc : InterfaceProcess) (task : option nat) : InterfaceProcess :=
  {| process := process iproc; task := task;
     filename_base := filename_base iproc; interface := interface iproc;
     capture_id := capture_id iproc; pid := pid iproc |}.

Record RunningTest := {
  run_id : string;
  interfaces : list string;
  ring_file_size_mb : Z;
  ring_file_count : Z;
  bpf_filter : string;
  processes : list InterfaceProcess;
  test_metadata_file : option string;
}.

Definition set_processes (rt : RunningTest) (ps : list InterfaceProcess) : RunningTest :=
  {| run_id := run_id rt; interfaces := interfaces rt;
     ring_file_size_mb := ring_file_size_mb rt;
     ring_file_count := ring_file_count rt; bpf_filter := bpf_filter rt;
     processes := ps; test_metadata_file := test_metadata_file rt |}.

(** ** The subprocess as its watcher sees it *)

(** One [await process.stdout.readline()]. *)
Inductive read_outcome :=
| ReadLine (line : string)      (* the bytes read, decoded; empty at end of file *)
| ReadRaise (e : exn).

(** [await process.wait()] *)
Inductive wait_outcome :=
| WaitReturn (returncode : Z)
| WaitRaise (e : exn).

Record watched_process := {
  (** [None]: [process.stdout is None]; otherwise what the successive
      reads give, followed by end of file. *)
  stdout : option (list read_outcome);
  wait : wait_outcome;
  (** [process.returncode] when [wait] raised. *)
  returncode_unwaited : option Z;
}.

(** [process.returncode] as the exception handlers of the watcher read it. *)
Definition returncode_seen (p : watched_process) : option Z :=
  match wait p with
  | WaitReturn rc => Some rc
  | WaitRaise _ => returncode_unwaited p
  end.

Definition newline : ascii := "010"%char.

Section Watch.
Context {S : Type}.
Variable log_callback : string -> option string -> M S unit.
Variable exit_callback : option Z -> option string -> M S unit.

(** The [while True] loop over the output of the process. *)
Fixpoint read_loop (interface : string) (reads : list read_outcome) : M S unit :=
  match reads with
  | [] => Co.ret ()                                   (* [not line]: break *)
  | ReadRaise e :: _ =>
      if isinstance e CancelledError then Co.raise_ e
      else if isinstance e OSError then Co.ret ()     (* warning, break *)
      else if isinstance e Exception_ then Co.ret ()  (* error, break *)
      else Co.raise_ e
  | ReadLine line :: rest =>
      if negb (nonempty line) then Co.ret ()
      else
        let message := rstrip_by (Ascii.eqb newline) line in
        Co.try_except (log_callback message (Some interface)) [Exception_]
          (fun _ => Co.ret ()) ;ᶜ
        read_loop interface rest
  end.

(** The [except] clause shared by [OSError] and [Exception]. *)
Definition report_error (p : watched_process) (interface prefix : string)
    (exc : exn) : M S unit :=
  Co.try_except
    (log_callback ("[" +:+ interface +:+ "] " +:+ prefix +:+ exn_str exc) (Some interface))
    [Exception_] (fun _ => Co.ret ()) ;ᶜ
  Co.try_except
    (exit_callback (returncode_seen p) (Some (exn_str exc)))
    [Exception_] (fun _ => Co.ret ()).

Definition watch_interface_process (p : watched_process)
    (interface capture_id : string) : M S unit :=
  fun s =>
    let body : M S unit :=
      match stdout p with
      | Some reads => read_loop interface reads
      | None => Co.ret ()
      end ;ᶜ
      returncode ←ᶜ Co.lift (match wait p with
                             | WaitReturn rc => Ok rc
                             | WaitRaise e => Raise e
                             end);
      (* Call exit handler if still being tracked *)
      exit_callback (Some returncode) None in
    match body s with
    | (Ok _, s') => (Ok (), s')
    | (Raise exc, s') =>
        if isinstance exc CancelledError then
          (* Watcher was cancelled (e.g., by stop_test), don't call exit handler *)
          (Raise exc, s')
        else if isinstance exc OSError then
          report_error p interface "I/O-Fehler beim Wachen: " exc s'
        else if isinstance exc Exception_ then
          report_error p interface "Fehler beim Lesen der Ausgabe: " exc s'
        else (Raise exc, s')
    end.
End Watch.

(** [", ".join(str(c) if c is not None else "—" for c in exit_codes)] *)
Definition format_exit_codes (exit_codes : list (option Z)) : string :=
  join ", " (map (fun c => match c with Some c => str_of_int c | None => "—" end)
                 exit_codes).

End ProcessManager.

(* ===================================================================== *)
(** * The state of the engine                                            *)
(* ===================================================================== *)

Module Engine.
Import Py ProcessManager.

(** Broadcast event shapes. *)
Inductive event :=
| tab_created (tab : Tab.dict)
| tab_updated (tab : Tab.dict)
| tab_deleted (tabId : string)
| log_entry (tabId : string) (entry : LogEntry.dict)
| server_shutdown.

(** Rows of the capture metadata journal. *)
Inductive meta_row :=
| StartRow (utc capture_id main_capture_id interface : string)
    (interfaces : list string) (ring_file_size_mb ring_file_count : Z)
    (filename_base : string) (pid : Z) (bpf_filter test_name : string)
    (profile_id profile_name : option string)
| StopRow (utc : string) (pid : Z) (capture_id interface : string).

(** An [asyncio.subprocess.Process]. *)
Record subprocess := Subprocess {
  sp_command : list pyval;
  sp_pid : option Z;
  returncode : option Z;
  signals : list SignalType;    (* signals sent through this object *)
}.

Inductive task_status := Pending | Cancelled | Done.

(** An [asyncio.Task] running [_watch_and_handle_exit]. *)
Record watcher := Watcher {
  w_tab_id : string;
  w_run_id : string;
  w_iproc : InterfaceProcess;
  w_status : task_status;
}.

(** An [asyncio.Task] running [_auto_stop_after_duration]. *)
Record timer := Timer {
  t_tab_id : string;
  t_run_id : string;
  t_duration_seconds : pyval;
}.

Record State := {
  (* TestExecutionManager.tab_manager *)
  tab_manager : TabManager.t;
  (* RunExecutor *)
  capture_dir : string;
  tcpdump_bin : string;
  _runs : gmap string RunningTest;
  (* TestExecutionManager._listeners: the subscriber queues *)
  _listeners : gmap nat (list event);
  (* objects of the event loop and the operating system *)
  subprocesses : list subprocess;
  tasks : list watcher;
  timers : list timer;
  (* captures_meta.jsonl, with the per-test file each row was mirrored to *)
  journal : list (meta_row * option string);
  (* what [utcnow_iso()] returns *)
  clock : string;
}.

Definition with_tab_manager (s : State) (v : TabManager.t) : State :=
  {| tab_manager := v; capture_dir := capture_dir s; tcpdump_bin := tcpdump_bin s;
     _runs := _runs s; _listeners := _listeners s; subprocesses := subprocesses s;
     tasks := tasks s; timers := timers s; journal := journal s; clock := clock s |}.

Definition with_runs (s : State) (v : gmap string RunningTest) : State :=
  {| tab_manager := tab_manager s; capture_dir := capture_dir s;
     tcpdump_bin := tcpdump_bin s;
     _runs := v; _listeners := _listeners s; subprocesses := subprocesses s;
     tasks := tasks s; timers := timers s; journal := journal s; clock := clock s |}.

Definition with_listeners (s : State) (v : gmap nat (list event)) : State :=
  {| tab_manager := tab_manager s; capture_dir := capture_dir s;
     tcpdump_bin := tcpdump_bin s;
     _runs := _runs s; _listeners := v; subprocesses := subprocesses s;
     tasks := tasks s; timers := timers s; journal := journal s; clock := clock s |}.

Definition with_subprocesses (s : State) (v : list subprocess) : State :=
  {| tab_manager := tab_manager s; capture_dir := capture_dir s;
     tcpdump_bin := tcpdump_bin s;
     _runs := _runs s; _listeners := _listeners s; subprocesses := v;
     tasks := tasks s; timers := timers s; journal := journal s; clock := clock s |}.

Definition with_tasks (s : State) (v : list watcher) : State :=
  {| tab_manager := tab_manager s; capture_dir := capture_dir s;
     tcpdump_bin := tcpdump_bin s;
     _runs := _runs s; _listeners := _listeners s; subprocesses := subprocesses s;
     tasks := v; timers := timers s; journal := journal s; clock := clock s |}.

Definition with_timers (s : State) (v : list timer) : State :=
  {| tab_manager := tab_manager s; capture_dir := capture_dir s;
     tcpdump_bin := tcpdump_bin s;
     _runs := _runs s; _listeners := _listeners s; subprocesses := subprocesses s;
     tasks := tasks s; timers := v; journal := journal s; clock := clock s |}.

Definition with_journal (s : State) (v : list (meta_row * option string)) : State :=
  {| tab_manager := tab_manager s; capture_dir := capture_dir s;
     tcpdump_bin := tcpdump_bin s;
     _runs := _runs s; _listeners := _listeners s; subprocesses := subprocesses s;
     tasks := tasks s; timers := timers s; journal := v; clock := clock s |}.

Definition with_clock (s : State) (v : string) : State :=
  {| tab_manager := tab_manager s; capture_dir := capture_dir s;
     tcpdump_bin := tcpdump_bin s;
     _runs := _runs s; _listeners := _listeners s; subprocesses := subprocesses s;
     tasks := tasks s; timers := timers s; journal := journal s; clock := v |}.

(** [TestExecutionManager(runtime_dir, capture_dir, tcpdump_bin=...,
    max_log_entries=...)]; [file] is the content of the state file. *)
Definition init (now capture_dir tcpdump_bin : string) (max_log_entries : nat)
    (file : option (list Tab.dict)) : State :=
  {| tab_manager := TabManager.init now max_log_entries file;
     capture_dir := capture_dir; tcpdump_bin := tcpdump_bin;
     _runs := ∅; _listeners := ∅; subprocesses := []; tasks := []; timers := [];
     journal := []; clock := now |}.

Definition utcnow_iso : M State string := Co.gets clock.

(** [write_capture_metadata(capture_dir, row, test_metadata_file=...)] *)
Definition write_capture_metadata (row : meta_row) (test_metadata_file : option string)
    : M State unit :=
  Co.modify (fun s => with_journal s (journal s ++ [(row, test_metadata_file)])).

(** ** Subprocess objects *)

Definition set_returncode (p : subprocess) (rc : option Z) : subprocess :=
  {| sp_command := sp_command p; sp_pid := sp_pid p; returncode := rc;
     signals := signals p |}.

Definition add_signal (p : subprocess) (sig : SignalType) : subprocess :=
  {| sp_command := sp_command p; sp_pid := sp_pid p; returncode := returncode p;
     signals := signals p ++ [sig] |}.

(** [process.returncode] *)
Definition process_returncode (s : State) (h : nat) : option Z :=
  p ← subprocesses s !! h; returncode p.

(** [process.terminate()] and [process.kill()]: the signal is sent unless
    the process has been reaped, in which case the call raises
    [ProcessLookupError]. *)
Definition send_signal (h : nat) (sig : SignalType) : M State unit :=
  fun s =>
    match subprocesses s !! h with
    | Some p =>
        match returncode p with
        | Some _ => (raise ProcessLookupError "", s)
        | None => (Ok (), with_subprocesses s (<[h := add_signal p sig]> (subprocesses s)))
        end
    | None => (raise ProcessLookupError "", s)
    end.

(** The process ends with status [rc] (an event of the operating system). *)
Definition process_exits (h : nat) (rc : Z) (s : State) : State :=
  match subprocesses s !! h with
  | Some p =>
      match returncode p with
      | Some _ => s
      | None => with_subprocesses s (<[h := set_returncode p (Some rc)]> (subprocesses s))
      end
  | None => s
  end.

(** How a process reacts to the signals of the termination protocol: its
    exit status if it ends within the time allowed after the signal. *)
Record reaction := Reaction {
  after_term : option Z;    (* within TIMEOUT_TERM_WAIT of SIGTERM *)
  after_kill : option Z;    (* within TIMEOUT_KILL_WAIT of SIGKILL *)
}.

(** [await asyncio.wait_for(process.wait(), timeout=...)]: [true] when the
    process ended in time. *)
Definition wait_for_exit (h : nat) (outcome : option Z) : M State bool :=
  fun s =>
    match process_returncode s h, outcome with
    | Some _, _ => (Ok true, s)
    | None, Some rc => (Ok true, process_exits h rc s)
    | None, None => (Ok false, s)
    end.

Section Callbacks.
Variable log_callback : string -> option string -> M State unit.

(** [terminate_process_safely] of [process_manager.py]. *)
Definition terminate_process_safely (h : nat) (r : reaction) (interface : string)
    : M State unit :=
  rc ←ᶜ Co.gets (fun s => process_returncode s h);
  match rc with
  | Some _ => Co.ret ()                      (* Already terminated *)
  | None =>
      (* Send SIGTERM *)
      log_callback ("[" +:+ interface +:+ "] Sende " +:+ signal_value TERM +:+ "…")
        (Some interface) ;ᶜ
      sent ←ᶜ Co.try_except
                (Co.try_except (send_signal h TERM ;ᶜ Co.ret true)
                   [ProcessLookupError] (fun _ => Co.ret false))
                [Exception_]
                (fun exc =>
                   log_callback ("[" +:+ interface +:+ "] Warnung beim "
                                   +:+ signal_value TERM +:+ ": " +:+ exn_str exc)
                     (Some interface) ;ᶜ
                   Co.ret true);
      if negb sent then Co.ret ()            (* Process already dead *)
      else
        (* Wait for termination *)
        ended ←ᶜ wait_for_exit h (after_term r);
        if ended then Co.ret ()
        else
          (* Escalate to SIGKILL *)
          log_callback ("[" +:+ interface +:+ "] Timeout nach " +:+ signal_value TERM
                          +:+ ", sende " +:+ signal_value KILL +:+ "…")
            (Some interface) ;ᶜ
          sent ←ᶜ Co.try_except
                    (Co.try_except (send_signal h KILL ;ᶜ Co.ret true)
                       [ProcessLookupError] (fun _ => Co.ret false))
                    [Exception_]
                    (fun exc =>
                       log_callback ("[" +:+ interface +:+ "] Warnung beim "
                                       +:+ signal_value KILL +:+ ": " +:+ exn_str exc)
                         (Some interface) ;ᶜ
                       Co.ret true);
          if negb sent then Co.ret ()
          else
            (* Wait after SIGKILL *)
            ended ←ᶜ wait_for_exit h (after_kill r);
            if ended then Co.ret ()
            else
              log_callback ("[" +:+ interface
                              +:+ "] Prozess reagiert nicht, wird als beendet markiert")
                (Some interface)
  end.
End Callbacks.

End Engine.

(* ===================================================================== *)
(** * Run executor: run state and test execution ([run_executor.py])     *)
(* ===================================================================== *)

Module RunExecutor.
Import Py ProcessManager Engine.

(** ** Run state management *)

Definition is_running (tab_id : string) : M State bool :=
  Co.gets (fun s => bool_decide (is_Some (_runs s !! tab_id))).

Definition get_running_tab_ids : M State (gset string) :=
  Co.gets (fun s => dom (_runs s)).

Definition remove_run (tab_id : string) : M State (option RunningTest) :=
  fun s => (Ok (_runs s !! tab_id), with_runs s (delete tab_id (_runs s))).

(** ** What the environment decides during [start_test] *)

(** The result of awaiting [asyncio.create_subprocess_exec] on the command. *)
Inductive spawn_outcome :=
| Spawned (pid : option Z)
| SpawnRaise (e : exn).

Record start_env := StartEnv {
  new_run_id : string;                (* str(uuid4()) *)
  new_main_capture_id : string;       (* str(uuid4()) *)
  new_capture_id : nat -> string;     (* str(uuid4()), per interface *)
  spawn : nat -> spawn_outcome;       (* per interface, in order *)
}.

(** The dictionary returned by [start_test]. *)
Record started := Started {
  st_run_id : string;
  st_start_timestamp : string;
  st_commands : list string;
  st_filenames_bases : list string;
  st_capture_ids : list string;
  st_main_capture_id : string;
  st_pids : list Z;
  st_interfaces : list string;
  st_ring_file_size_mb : Z;
  st_ring_file_count : Z;
  st_bpf_filter : string;
  st_interface_processes : list InterfaceProcess;
}.

(** The local variables that the spawn loop of [start_test] updates. *)
Record spawn_acc := SpawnAcc {
  interface_processes : list InterfaceProcess;
  all_pids : list Z;
  all_capture_ids : list string;
  all_filename_bases : list string;
  test_metadata_file : option string;
}.

(** [_cleanup_started_processes]: kill already started processes on error. *)
Definition _cleanup_started_processes (interface_processes : list InterfaceProcess)
    : M State unit :=
  Co.for_ interface_processes (fun iproc =>
    Co.try_except (send_signal (process iproc) KILL)
      [ProcessLookupError; PermissionError] (fun _ => Co.ret ())).

Section WithRuntime.
Context `{Runtime}.
Variable log_callback : string -> option string -> M State unit.

(** The [except] clauses around [create_subprocess_exec]. *)
Definition spawn_failed (acc : spawn_acc) (interface : string) (exc : exn)
    : M State spawn_acc :=
  if isinstance exc FileNotFoundError then
    _cleanup_started_processes (interface_processes acc) ;ᶜ
    let message := "tcpdump nicht gefunden: " +:+ exn_str exc in
    log_callback message None ;ᶜ
    Co.raise_ (Exn TestExecutionError message)
  else if isinstance exc PermissionError || isinstance exc OSError
          || isinstance exc Exception_ then
    _cleanup_started_processes (interface_processes acc) ;ᶜ
    let message := "Start fehlgeschlagen für " +:+ interface +:+ ": " +:+ exn_str exc in
    log_callback message None ;ᶜ
    Co.raise_ (Exn TestExecutionError message)
  else Co.raise_ exc.

(** The loop that starts one tcpdump process per interface; [idx] counts
    the iterations. *)
Fixpoint spawn_all (env : start_env) (tab_name : string) (profile : Profile.t)
    (ctx : Build.run_context) (start_timestamp main_capture_id : string)
    (generate_test_metadata : pyval)
    (idx : nat) (ctxs : list Build.interface_context) (acc : spawn_acc)
    : M State spawn_acc :=
  match ctxs with
  | [] => Co.ret acc
  | c :: rest =>
      let command := Build.command c in
      let interface := Build.interface c in
      let filename_base := Build.filename_base c in
      (* Generate unique capture_id for each interface *)
      let interface_capture_id := new_capture_id env idx in
      let acc :=
        {| interface_processes := interface_processes acc;
           all_pids := all_pids acc;
           all_capture_ids := all_capture_ids acc ++ [interface_capture_id];
           all_filename_bases := all_filename_bases acc ++ [filename_base];
           test_metadata_file := test_metadata_file acc |} in
      match spawn env idx with
      | SpawnRaise exc =>
          spawn_failed acc interface exc
      | Spawned process_pid =>
          handle ←ᶜ (fun s =>
            (Ok (length (subprocesses s)),
             with_subprocesses s
               (subprocesses s ++ [Subprocess command process_pid None []])));
          let pid :=
            match process_pid with
            | Some p => if p =? 0 then -1 else p
            | None => -1
            end in
          (* Calculate test-specific metadata file path *)
          let test_metadata_file :=
            match test_metadata_file acc with
            | None =>
                if truthy generate_test_metadata
                then Some (path_join (path_parent filename_base)
                             (path_stem filename_base +:+ "_meta.csv"))
                else None
            | Some f => Some f
            end in
          (* Write capture metadata for this interface *)
          write_capture_metadata
            (StartRow start_timestamp interface_capture_id main_capture_id interface
               (Build.interfaces ctx) (Build.ring_file_size_mb ctx)
               (Build.ring_file_count ctx) filename_base pid (Build.bpf_filter ctx)
               tab_name (Profile.id profile) (Profile.name profile))
            test_metadata_file ;ᶜ
          let acc :=
            {| interface_processes :=
                 interface_processes acc ++
                   [{| process := handle; task := None;
                       filename_base := filename_base; interface := interface;
                       capture_id := interface_capture_id; pid := pid |}];
               all_pids := all_pids acc ++ [pid];
               all_capture_ids := all_capture_ids acc;
               all_filename_bases := all_filename_bases acc;
               test_metadata_file := test_metadata_file |} in
          log_callback ("[" +:+ interface +:+ "] Gestartet (PID " +:+ str_of_int pid
                          +:+ ", Capture-ID: "
                          +:+ String.substring 0 8 interface_capture_id +:+ "…)")
            (Some interface) ;ᶜ
          spawn_all env tab_name profile ctx start_timestamp main_capture_id
            generate_test_metadata (S idx) rest acc
      end
  end.

Definition start_test (env : start_env) (tab_id : string) (profile : Profile.t)
    (tab_name : string) : M State started :=
  running ←ᶜ is_running tab_id;
  if running : bool then
    Co.raise_ (Exn TestExecutionError ("Test läuft bereits in Tab '" +:+ tab_id +:+ "'"))
  else
    run_context ←ᶜ
      Co.try_except
        (fun s => (Build._build_run_context (capture_dir s) (tcpdump_bin s) (clock s)
                     profile, s))
        [ValueError]
        (fun exc => Co.raise_ (Exn InvalidConfigurationError
                                 ("Konfiguration ungültig: " +:+ exn_str exc)));
    let interface_contexts := Build.interface_contexts run_context in
    let warnings := Build.warnings run_context in
    let interfaces := Build.interfaces run_context in
    (* Log warnings and start messages *)
    Co.for_ warnings (fun warn => log_callback warn None) ;ᶜ
    (if (1 <? length interfaces)%nat then
       log_callback ("Starte tcpdump auf " +:+ str_of_int (Z.of_nat (length interfaces))
                       +:+ " Interfaces: " +:+ join ", " interfaces) None
     else Co.ret ()) ;ᶜ
    Co.for_ interface_contexts (fun ctx =>
      log_callback ("[" +:+ Build.interface ctx +:+ "] Starte: "
                      +:+ Build.command_display ctx)
        (Some (Build.interface ctx))) ;ᶜ
    (* Get metadata for capture tracking *)
    start_timestamp ←ᶜ utcnow_iso;
    let run_id := new_run_id env in
    let main_capture_id := new_main_capture_id env in
    (* Check if per-test metadata file generation is enabled *)
    generate_test_metadata ←ᶜ
      Co.lift
        match Profile.settings profile with
        | None => Ok (VBool false)
        | Some (VDict profile_settings) =>
            Ok (get_default profile_settings "generateTestMetadataFile" (VBool false))
        | Some _ => raise AttributeError "object has no attribute 'get'"
        end;
    (* Start tcpdump processes for all interfaces *)
    acc ←ᶜ spawn_all env tab_name profile run_context start_timestamp main_capture_id
             generate_test_metadata 0 interface_contexts (SpawnAcc [] [] [] [] None);
    (* Store running test state *)
    Co.modify (fun s =>
      with_runs s
        (<[tab_id := {| run_id := run_id; interfaces := interfaces;
                        ring_file_size_mb := Build.ring_file_size_mb run_context;
                        ring_file_count := Build.ring_file_count run_context;
                        bpf_filter := Build.bpf_filter run_context;
                        processes := interface_processes acc;
                        ProcessManager.test_metadata_file := test_metadata_file acc |}]>
           (_runs s))) ;ᶜ
    (* Return context for caller to create Run object *)
    Co.ret {| st_run_id := run_id;
              st_start_timestamp := start_timestamp;
              st_commands := map Build.command_display interface_contexts;
              st_filenames_bases := all_filename_bases acc;
              st_capture_ids := all_capture_ids acc;
              st_main_capture_id := main_capture_id;
              st_pids := all_pids acc;
              st_interfaces := interfaces;
              st_ring_file_size_mb := Build.ring_file_size_mb run_context;
              st_ring_file_count := Build.ring_file_count run_context;
              st_bpf_filter := Build.bpf_filter run_context;
              st_interface_processes := interface_processes acc |}.
End WithRuntime.

(** ** Stopping *)

(** The dictionary returned by [stop_test]: [{"stopped": False}] or the
    stop information. *)
Inductive stop_result :=
| NotStopped
| Stopped (run_id : string) (exit_codes : list (option Z))
    (test_metadata_file : option string).

Definition stopped (r : stop_result) : bool :=
  match r with NotStopped => false | Stopped _ _ _ => true end.

(** [task.cancel()] on a task that is not done. *)
Definition cancel_task (h : nat) : M State unit :=
  Co.modify (fun s =>
    match tasks s !! h with
    | Some w =>
        match w_status w with
        | Pending =>
            with_tasks s (<[h := Watcher (w_tab_id w) (w_run_id w) (w_iproc w) Cancelled]>
                            (tasks s))
        | _ => s
        end
    | None => s
    end).

Definition stop_row (now : string) (iproc : InterfaceProcess) : meta_row :=
  StopRow now (pid iproc) (capture_id iproc) (interface iproc).

Section Stop.
Variable log_callback : string -> option string -> M State unit.

(** [react h] tells how the process behind handle [h] answers the
    termination protocol. *)
Definition stop_test (react : nat -> reaction) (tab_id : string) : M State stop_result :=
  state ←ᶜ Co.gets (fun s => _runs s !! tab_id);
  match state with
  | None => Co.ret NotStopped
  | Some state =>
      (* Remove from _runs immediately to prevent re-entry *)
      Co.modify (fun s => with_runs s (delete tab_id (_runs s))) ;ᶜ
      let interfaces := interfaces state in
      let processes := processes state in
      let run_id := run_id state in
      let test_metadata_file := ProcessManager.test_metadata_file state in
      (* Cancel all watcher tasks first *)
      Co.for_ processes (fun iproc =>
        match task iproc with
        | Some h => cancel_task h
        | None => Co.ret ()
        end) ;ᶜ
      (* Log stop message *)
      (if (1 <? length interfaces)%nat then
         log_callback ("Stoppsignal an " +:+ str_of_int (Z.of_nat (length processes))
                         +:+ " tcpdump-Prozesse senden…") None
       else log_callback "Stoppsignal an tcpdump senden…" None) ;ᶜ
      (* Terminate all processes safely *)
      Co.for_ processes (fun iproc =>
        terminate_process_safely log_callback (process iproc) (react (process iproc))
          (interface iproc)) ;ᶜ
      (* Write stop metadata for all processes *)
      Co.for_ processes (fun iproc =>
        now ←ᶜ utcnow_iso;
        write_capture_metadata (stop_row now iproc) test_metadata_file) ;ᶜ
      exit_codes ←ᶜ Co.gets (fun s =>
        map (fun iproc => process_returncode s (process iproc)) processes);
      let exit_codes_display := format_exit_codes exit_codes in
      log_callback ("Testlauf " +:+ run_id +:+ " gestoppt (Exit-Codes: ["
                      +:+ exit_codes_display +:+ "]).") None ;ᶜ
      Co.ret (Stopped run_id exit_codes test_metadata_file)
  end.
End Stop.

(** [abort_all]: the log callback is not used. *)
Definition abort_all : M State unit :=
  running ←ᶜ Co.gets (fun s => map_to_list (_runs s));
  Co.modify (fun s => with_runs s ∅) ;ᶜ
  (* Cancel all watcher tasks *)
  Co.for_ running (fun '(tab_id, state) =>
    Co.for_ (processes state) (fun iproc =>
      match task iproc with
      | Some h => cancel_task h
      | None => Co.ret ()
      end)) ;ᶜ
  (* Terminate all processes *)
  Co.for_ running (fun '(tab_id, state) =>
    Co.for_ (processes state) (fun iproc =>
      Co.try_except (send_signal (process iproc) TERM)
        [ProcessLookupError; PermissionError] (fun _ => Co.ret ())) ;ᶜ
    (* Write stop metadata *)
    Co.for_ (processes state) (fun iproc =>
      now ←ᶜ utcnow_iso;
      write_capture_metadata (stop_row now iproc)
        (ProcessManager.test_metadata_file state))).

(** ** Queries *)

Definition check_all_processes_done (tab_id : string)
    : M State (bool * list (option Z)) :=
  Co.gets (fun s =>
    match _runs s !! tab_id with
    | None => (false, [])
    | Some state =>
        let all_done :=
          forallb (fun iproc => bool_decide (is_Some (process_returncode s (process iproc))))
                  (processes state) in
        let exit_codes :=
          map (fun iproc => process_returncode s (process iproc)) (processes state) in
        (all_done, exit_codes)
    end).

Definition get_test_metadata_file (tab_id : string) : M State (option string) :=
  Co.gets (fun s =>
    state ← _runs s !! tab_id; ProcessManager.test_metadata_file state).

(** The loop of [set_watcher_task]: the first process with that interface
    name gets the task. *)
Fixpoint set_first_task (interface : string) (task : nat)
    (ps : list InterfaceProcess) : list InterfaceProcess :=
  match ps with
  | [] => []
  | iproc :: rest =>
      if String.eqb (ProcessManager.interface iproc) interface
      then set_task iproc (Some task) :: rest
      else iproc :: set_first_task interface task rest
  end.

Definition set_watcher_task (tab_id interface : string) (task : nat) : M State unit :=
  Co.modify (fun s =>
    match _runs s !! tab_id with
    | None => s
    | Some state =>
        with_runs s
          (<[tab_id := set_processes state
                         (set_first_task interface task (processes state))]> (_runs s))
    end).

(** [convert_duration_to_seconds]; [value * n] follows the type of [value]. *)
Definition times (value : pyval) (n : Z) : result pyval :=
  match value with
  | VInt z => Ok (VInt (z * n))
  | VBool b => Ok (VInt ((if b then 1 else 0) * n))
  | VFloat f => Ok (VFloat (float_mul f (float_of_Z n)))
  | VStr s => Ok (VStr (String.concat "" (replicate (Z.to_nat n) s)))
  | VList l => Ok (VList (mjoin (replicate (Z.to_nat n) l)))
  | VNone | VDict _ => raise TypeError "unsupported operand type(s) for *"
  end.

Definition convert_duration_to_seconds (value unit : pyval) : result pyval :=
  match unit with
  | VStr unit =>
      let unit_lower := lower unit in
      if String.eqb unit_lower "seconds" then Ok value
      else if String.eqb unit_lower "minutes" then times value 60
      else if String.eqb unit_lower "hours" then times value 3600
      else Ok value
  | _ => raise AttributeError "object has no attribute 'lower'"
  end.

End RunExecutor.

(* ===================================================================== *)
(** * Orchestration facade ([test_manager.py])                           *)
(* ===================================================================== *)

Module TestExecutionManager.
Import Py ProcessManager Engine.

(** Calls into the tab manager. *)
Definition on_tabs {A} (f : TabManager.t -> A * TabManager.t) : M State A :=
  fun s => let '(a, m) := f (tab_manager s) in (Ok a, with_tab_manager s m).

Definition on_tabs_raising {A} (f : TabManager.t -> result A * TabManager.t) : M State A :=
  fun s => let '(r, m) := f (tab_manager s) in (r, with_tab_manager s m).

Definition get_tab_object (tab_id : string) : M State (option Tab.t) :=
  Co.gets (fun s => TabManager.get_tab_object tab_id (tab_manager s)).

Definition save_state : M State unit :=
  Co.modify (fun s => with_tab_manager s (TabManager.save_state (tab_manager s))).

(** Assignments to the fields of the stored tab object. *)
Definition store_tab (tab_id : string) (tab : Tab.t) : M State unit :=
  Co.modify (fun s =>
    with_tab_manager s
      (TabManager.with_tabs (tab_manager s)
         (<[tab_id := tab]> (TabManager._tabs (tab_manager s))))).

(** ** Listener management *)

(** [subscribe]: [queue] is the handle of the new queue. *)
Definition subscribe (queue : nat) : M State nat :=
  Co.modify (fun s => with_listeners s (<[queue := []]> (_listeners s))) ;ᶜ
  Co.ret queue.

Definition unsubscribe (queue : nat) : M State unit :=
  Co.modify (fun s => with_listeners s (delete queue (_listeners s))).

(** [queue.put_nowait(event)] on a queue of [maxsize=1000], a full queue
    dropping the event. *)
Definition put_nowait (ev : event) (queue : list event) : list event :=
  if (length queue <? 1000)%nat then queue ++ [ev] else queue.

Definition _broadcast (ev : event) : M State unit :=
  Co.modify (fun s => with_listeners s (put_nowait ev <$> _listeners s)).

Definition notify_shutdown : M State unit :=
  Co.modify (fun s => with_listeners s (put_nowait server_shutdown <$> _listeners s)).

(** ** Tab CRUD (delegated to TabManager) *)

Definition list_tabs : M State (list Tab.dict) :=
  Co.gets (fun s => TabManager.list_tabs (tab_manager s)).

Definition get_tab (tab_id : string) : M State Tab.dict :=
  fun s => (TabManager.get_tab (tab_manager s) tab_id, s).

(** [tab_id] is the value of [uuid4().hex]. *)
Definition create_tab (tab_id : string) (title profile_id : option string)
    : M State Tab.dict :=
  now ←ᶜ utcnow_iso;
  tab_data ←ᶜ on_tabs (TabManager.create_tab tab_id now title profile_id);
  _broadcast (tab_created tab_data) ;ᶜ
  Co.ret tab_data.

Definition update_tab (tab_id : string) (title profile_id : option string)
    : M State Tab.dict :=
  now ←ᶜ utcnow_iso;
  tab_data ←ᶜ on_tabs_raising (TabManager.update_tab tab_id now title profile_id);
  _broadcast (tab_updated tab_data) ;ᶜ
  Co.ret tab_data.

Definition delete_tab (tab_id : string) : M State unit :=
  running_tabs ←ᶜ RunExecutor.get_running_tab_ids;
  on_tabs_raising (TabManager.delete_tab tab_id running_tabs) ;ᶜ
  _broadcast (tab_deleted tab_id).

(** ** Log handling *)

Definition get_logs (tab_id : string) (after : option Z)
    : M State TabManager.logs_reply :=
  fun s => (TabManager.get_logs tab_id after (tab_manager s), s).

Definition _append_log (tab_id message : string) (interface : option string)
    : M State (option LogEntry.dict) :=
  now ←ᶜ utcnow_iso;
  entry_dict ←ᶜ on_tabs (TabManager.append_log tab_id now message interface);
  match entry_dict with
  | Some entry =>
      _broadcast (log_entry tab_id entry) ;ᶜ
      tab_snapshot ←ᶜ Co.gets (fun s => TabManager.get_tab_snapshot tab_id (tab_manager s));
      match tab_snapshot with
      | Some snap => _broadcast (tab_updated snap)
      | None => Co.ret ()
      end
  | None => Co.ret ()
  end ;ᶜ
  Co.ret entry_dict.

(** The [log_callback] closures over [tab_id]. *)
Definition log_callback (tab_id message : string) (interface : option string)
    : M State unit :=
  _append_log tab_id message interface ;ᶜ Co.ret ().

(** ** Test execution *)

(** [any(code and code != 0 for code in exit_codes)] *)
Definition any_failed (exit_codes : list (option Z)) : bool :=
  existsb (fun code =>
             match code with
             | Some c => negb (c =? 0) && negb (c =? 0)
             | None => false
             end) exit_codes.

Definition _mark_run_failed (tab_id run_id message : string) : M State unit :=
  _append_log tab_id message None ;ᶜ
  tab ←ᶜ get_tab_object tab_id;
  match tab with
  | None => Co.ret ()
  | Some tab =>
      match Tab.run tab with
      | None => Co.ret ()
      | Some run =>
          if nonempty run_id && negb (String.eqb (Run.id run) run_id) then Co.ret ()
          else
            RunExecutor.remove_run tab_id ;ᶜ
            now ←ᶜ utcnow_iso;
            let run := Run.finish run now [None] (Some message) in
            let tab := Tab.set_status (Tab.set_run tab (Some run)) TabStatus.FAILED in
            store_tab tab_id tab ;ᶜ
            save_state ;ᶜ
            _broadcast (tab_updated (Tab.to_dict tab))
      end
  end.

Definition _handle_interface_process_exit (tab_id run_id interface capture_id : string)
    (pid : Z) (returncode : option Z) (error : option string) : M State unit :=
  (* Write stop metadata *)
  test_metadata_file ←ᶜ RunExecutor.get_test_metadata_file tab_id;
  now ←ᶜ utcnow_iso;
  write_capture_metadata (StopRow now pid capture_id interface) test_metadata_file ;ᶜ
  _append_log tab_id
    ("[" +:+ interface +:+ "] tcpdump beendet (Exit-Code: "
       +:+ match returncode with Some rc => str_of_int rc | None => "—" end +:+ ")")
    (Some interface) ;ᶜ
  (* Check if all interface processes have finished *)
  '(all_done, exit_codes) ←ᶜ RunExecutor.check_all_processes_done tab_id;
  if all_done : bool then
    (* Update tab with completion status *)
    tab ←ᶜ get_tab_object tab_id;
    match tab with
    | None => Co.ret ()
    | Some tab =>
        match Tab.run tab with
        | None => Co.ret ()
        | Some run =>
            if negb (String.eqb (Run.id run) run_id) then Co.ret ()
            else if truthy_opt_str (Run.finished_utc run) then Co.ret ()
            else
              (* Update run completion *)
              now ←ᶜ utcnow_iso;
              let run := Run.finish run now exit_codes error in
              (* Determine status *)
              let status :=
                if truthy_opt_str error then TabStatus.FAILED
                else if any_failed exit_codes then TabStatus.FAILED
                else TabStatus.COMPLETED in
              let tab := Tab.set_status (Tab.set_run tab (Some run)) status in
              store_tab tab_id tab ;ᶜ
              (* Remove from running tests *)
              RunExecutor.remove_run tab_id ;ᶜ
              (* Save and broadcast *)
              save_state ;ᶜ
              _broadcast (tab_updated (Tab.to_dict tab)) ;ᶜ
              let exit_codes_display := format_exit_codes exit_codes in
              _append_log tab_id
                ("Testlauf " +:+ run_id +:+ " beendet (Status: " +:+ Tab.status tab
                   +:+ ", Exit-Codes: [" +:+ exit_codes_display +:+ "]).") None ;ᶜ
              Co.ret ()
        end
    end
  else Co.ret ().

(** [_watch_and_handle_exit]: the watcher of one interface process, with
    the callbacks bound to the tab and the run. *)
Definition _watch_and_handle_exit (tab_id run_id : string) (iproc : InterfaceProcess)
    (p : watched_process) : M State unit :=
  watch_interface_process
    (log_callback tab_id)
    (fun returncode error =>
       _handle_interface_process_exit tab_id run_id (interface iproc)
         (capture_id iproc) (pid iproc) returncode error)
    p (interface iproc) (capture_id iproc).

(** [asyncio.create_task(...)] for a watcher: the new task is pending. *)
Definition create_watcher_task (tab_id run_id : string) (iproc : InterfaceProcess)
    : M State nat :=
  fun s => (Ok (length (tasks s)),
            with_tasks s (tasks s ++ [Watcher tab_id run_id iproc Pending])).

Definition head_or {A} (l : list A) (d : A) : A :=
  match l with x :: _ => x | [] => d end.

Section WithRuntime.
Context `{Runtime}.

(** The end of [start_test]: the duration timer. *)
Definition start_duration_timer (tab_id run_id : string) (profile : Profile.t)
    : M State unit :=
  settings ←ᶜ Co.lift
    match Profile.settings profile with
    | None => Ok []
    | Some (VDict d) => Ok d
    | Some _ => raise AttributeError "object has no attribute 'get'"
    end;
  let stop_condition := get_default settings "stopCondition" (VStr "manual") in
  if eq_str stop_condition "duration" then
    let duration_value := get_default settings "stopDurationValue" (VInt 60) in
    let duration_unit := get_default settings "stopDurationUnit" (VStr "seconds") in
    duration_seconds ←ᶜ
      Co.lift (RunExecutor.convert_duration_to_seconds duration_value duration_unit);
    _append_log tab_id
      ("Automatischer Stop nach " +:+ str_ duration_value +:+ " " +:+ str_ duration_unit
         +:+ " (" +:+ str_ duration_seconds +:+ "s).") None ;ᶜ
    Co.modify (fun s =>
      with_timers s (timers s ++ [Timer tab_id run_id duration_seconds]))
  else Co.ret ().

Definition start_test (env : RunExecutor.start_env) (tab_id : string)
    (profile : Profile.t) : M State Tab.dict :=
  tab ←ᶜ get_tab_object tab_id;
  match tab with
  | None => fun s => (TabManager.tab_not_found tab_id, s)
  | Some tab =>
      running ←ᶜ RunExecutor.is_running tab_id;
      if running : bool then
        Co.raise_ (Exn TestAlreadyRunningError
                     ("Test läuft bereits in Tab '" +:+ tab_id +:+ "'"))
      else
        (* Update tab status to STARTING *)
        now ←ᶜ utcnow_iso;
        tab_snapshot ←ᶜ
          on_tabs (TabManager.update_tab_status tab_id now TabStatus.STARTING
                     (Some (Run.new "" (Profile.id profile) now)) true);
        match tab_snapshot with
        | Some snap => _broadcast (tab_updated snap)
        | None => Co.ret ()
        end ;ᶜ
        (* Start test execution *)
        run_context ←ᶜ
          Co.try_except
            (RunExecutor.start_test (log_callback tab_id) env tab_id profile
               (or_str (Tab.title tab) "Test"))
            [InvalidConfigurationError; TestExecutionError]
            (fun exc =>
               (* Mark as failed *)
               _mark_run_failed tab_id "" (exn_str exc) ;ᶜ
               Co.raise_ exc);
        (* Create watchers for all interface processes *)
        Co.for_ (RunExecutor.st_interface_processes run_context) (fun iproc =>
          watcher ←ᶜ create_watcher_task tab_id (RunExecutor.st_run_id run_context) iproc;
          RunExecutor.set_watcher_task tab_id (interface iproc) watcher) ;ᶜ
        (* Update tab with full run information *)
        let run :=
          {| Run.id := RunExecutor.st_run_id run_context;
             Run.profile_id := Profile.id profile;
             Run.started_utc := RunExecutor.st_start_timestamp run_context;
             Run.finished_utc := None;
             Run.exit_code := None;
             Run.exit_codes := None;
             Run.cancelled := false;
             Run.error := None;
             Run.commands := Some (RunExecutor.st_commands run_context);
             Run.filenames_bases := Some (RunExecutor.st_filenames_bases run_context);
             Run.capture_ids := Some (RunExecutor.st_capture_ids run_context);
             Run.main_capture_id := Some (RunExecutor.st_main_capture_id run_context);
             Run.pids := Some (RunExecutor.st_pids run_context);
             Run.interfaces := Some (RunExecutor.st_interfaces run_context);
             Run.ring_file_size_mb := Some (RunExecutor.st_ring_file_size_mb run_context);
             Run.ring_file_count := Some (RunExecutor.st_ring_file_count run_context);
             Run.bpf_filter := Some (RunExecutor.st_bpf_filter run_context);
             (* Legacy fields *)
             Run.command := Some (head_or (RunExecutor.st_commands run_context) "");
             Run.filename_base :=
               Some (head_or (RunExecutor.st_filenames_bases run_context) "");
             Run.capture_id := Some (head_or (RunExecutor.st_capture_ids run_context) "");
             Run.pid := Some (head_or (RunExecutor.st_pids run_context) (-1));
             Run.interface := Some (head_or (RunExecutor.st_interfaces run_context) "") |} in
        now ←ᶜ utcnow_iso;
        tab_snapshot ←ᶜ
          on_tabs (TabManager.update_tab_status tab_id now TabStatus.RUNNING (Some run) true);
        match tab_snapshot with
        | Some snap => _broadcast (tab_updated snap)
        | None => Co.ret ()
        end ;ᶜ
        let pids_display := join ", " (map str_of_int (RunExecutor.st_pids run_context)) in
        _append_log tab_id
          ("Testlauf " +:+ RunExecutor.st_run_id run_context +:+ " gestartet ("
             +:+ str_of_int (Z.of_nat (length (RunExecutor.st_interfaces run_context)))
             +:+ " Interface(s), PIDs: " +:+ pids_display +:+ ").") None ;ᶜ
        (* Start duration timer if configured *)
        start_duration_timer tab_id (RunExecutor.st_run_id run_context) profile ;ᶜ
        Co.ret (match tab_snapshot with
                | Some snap => snap
                | None => Tab.Dict None None None None None None None None None None None
                end)
  end.
End WithRuntime.

Definition stop_test (react : nat -> reaction) (tab_id : string) : M State Tab.dict :=
  stop_result ←ᶜ RunExecutor.stop_test (log_callback tab_id) react tab_id;
  match stop_result with
  | RunExecutor.NotStopped =>
      tab ←ᶜ get_tab_object tab_id;
      match tab with
      | Some tab => Co.ret (Tab.to_dict tab)
      | None => fun s => (TabManager.tab_not_found tab_id, s)
      end
  | RunExecutor.Stopped _ exit_codes _ =>
      (* Update tab state *)
      tab ←ᶜ get_tab_object tab_id;
      match tab with
      | None => fun s => (TabManager.tab_not_found tab_id, s)
      | Some tab =>
          tab ←ᶜ
            match Tab.run tab with
            | Some run =>
                if negb (truthy_opt_str (Run.finished_utc run)) then
                  now ←ᶜ utcnow_iso;
                  let run := Run.finish run now exit_codes (Run.error run) in
                  (* Determine status *)
                  let status :=
                    if any_failed exit_codes then TabStatus.FAILED
                    else TabStatus.COMPLETED in
                  let tab := Tab.set_status (Tab.set_run tab (Some run)) status in
                  store_tab tab_id tab ;ᶜ
                  save_state ;ᶜ
                  Co.ret tab
                else Co.ret tab
            | None => Co.ret tab
            end;
          let tab_snapshot := Tab.to_dict tab in
          _broadcast (tab_updated tab_snapshot) ;ᶜ
          Co.ret tab_snapshot
      end
  end.

Definition abort_all : M State unit := RunExecutor.abort_all.

(** [await asyncio.sleep(duration_seconds)]: a delay that is not a number
    raises. *)
Definition sleep (delay : pyval) : M State unit :=
  match delay with
  | VInt _ | VFloat _ | VBool _ => Co.ret ()
  | _ => Co.raise_ (Exn TypeError "'<=' not supported")
  end.

Section AutoStop.
Context `{Runtime}.

(** [_auto_stop_after_duration], once its sleep is over. *)
Definition _auto_stop_after_duration (react : nat -> reaction) (tab_id run_id : string)
    (duration_seconds : pyval) : M State unit :=
  Co.try_except
    (sleep duration_seconds ;ᶜ
     (* Check if test is still running with same run_id *)
     tab ←ᶜ get_tab_object tab_id;
     match tab with
     | None => Co.ret ()
     | Some tab =>
         match Tab.run tab with
         | None => Co.ret ()
         | Some run =>
             if negb (String.eqb (Run.id run) run_id) then Co.ret ()
             else if truthy_opt_str (Run.finished_utc run) then Co.ret ()
             else
               running ←ᶜ RunExecutor.is_running tab_id;
               if negb running then Co.ret ()
               else
                 (* Still running: stop it *)
                 _append_log tab_id
                   ("Duration-Timer abgelaufen (" +:+ str_ duration_seconds
                      +:+ "s) - stoppe Test automatisch.") None ;ᶜ
                 stop_test react tab_id ;ᶜ
                 Co.ret ()
         end
     end)
    [CancelledError] (fun _ => Co.ret ()).
End AutoStop.

(** ** Events of the environment *)

(** The watcher task [h] runs to its end on a process that behaves as [p]:
    the exit status that [wait] returns is first recorded on the
    subprocess object.  A task that was cancelled does nothing. *)
Definition run_watcher (h : nat) (p : watched_process) : M State unit :=
  fun s =>
    match tasks s !! h with
    | Some (Watcher tab_id run_id iproc Pending) =>
        let s :=
          match wait p with
          | WaitReturn rc => process_exits (process iproc) rc s
          | WaitRaise _ => s
          end in
        let '(r, s) := _watch_and_handle_exit tab_id run_id iproc p s in
        (r, with_tasks s (<[h := Watcher tab_id run_id iproc Done]> (tasks s)))
    | _ => (Ok (), s)
    end.

(** The clock advances. *)
Definition tick (now : string) : M State unit :=
  Co.modify (fun s => with_clock s now).

End TestExecutionManager.

(* ===================================================================== *)
(** * A reference runtime                                                *)
(* ===================================================================== *)

(** An instance of [Py.Runtime] for ASCII text, used to run the model on
    concrete inputs.  Floats print with their exact decimal expansion and
    strings without escapes; paths are joined without normalisation. *)
Module RefRuntime.
Import Py.

(** *** [float(s)]: a decimal literal, correctly rounded *)

Fixpoint split_at_char (c : ascii) (s : string) : string * option string :=
  match s with
  | EmptyString => (EmptyString, None)
  | String d s' =>
      if Ascii.eqb c d then (EmptyString, Some s')
      else let '(a, b) := split_at_char c s' in (String d a, b)
  end.

(** The nearest float to [m / 10^k], for [0 < m]: the quotient is
    computed with more than 64 bits and a sticky bit. *)
Definition float_of_quotient (m : Z) (k : Z) : spec_float :=
  let d := 10 ^ k in
  let sh := Z.max 0 (Z.log2 d - Z.log2 m + 64) in
  let q := (m * 2 ^ sh) / d in
  let r := (m * 2 ^ sh) mod d in
  binary_normalize prec emax (2 * q + (if r =? 0 then 0 else 1)) (- sh - 1) false.

Definition float_of_decimal (neg : bool) (m e10 : Z) : spec_float :=
  let f :=
    if m =? 0 then S754_zero false
    else if 0 <=? e10 then binary_normalize prec emax (m * 10 ^ e10) 0 false
    else float_of_quotient m (- e10) in
  if neg then SFopp f else f.

Fixpoint count_digits (s : string) : nat :=
  match s with
  | EmptyString => O
  | String c s' => (if isdigit c then 1 else 0) + count_digits s'
  end.

Definition parse_exponent (s : string) : option Z :=
  let '(neg, body) := split_sign s in
  n ← parse_digits body; Some (if neg then - n else n).

Definition float_of_str (s : string) : option spec_float :=
  let '(neg, body) := split_sign (lower (strip s)) in
  if String.eqb body "inf" || String.eqb body "infinity" then Some (S754_infinity neg)
  else if String.eqb body "nan" then Some S754_nan
  else
    let '(mant, ex) := split_at_char "e" body in
    let '(ipart, fpart) := split_at_char "." mant in
    let fpart := default "" fpart in
    if negb (nonempty ipart) && negb (nonempty fpart) then None
    else
      i ← (if nonempty ipart then parse_digits ipart else Some 0);
      f ← (if nonempty fpart then parse_digits fpart else Some 0);
      e ← (match ex with Some x => parse_exponent x | None => Some 0 end);
      let k := Z.of_nat (count_digits fpart) in
      Some (float_of_decimal neg (i * 10 ^ k + f) (e - k)).

(** *** [repr(v)] *)

Definition strip_zeros_right (s : string) : string :=
  rstrip_by (Ascii.eqb "0") s.

Fixpoint pad_left (n : nat) (s : string) : string :=
  match n with
  | O => s
  | S n' => if (String.length s <? S n')%nat then pad_left n' (String "0" s) else s
  end.

(** The exact decimal expansion of a float. *)
Definition repr_float (f : spec_float) : string :=
  match f with
  | S754_zero s => if s then "-0.0" else "0.0"
  | S754_infinity s => if s then "-inf" else "inf"
  | S754_nan => "nan"
  | S754_finite s m e =>
      let sign := if s then "-" else "" in
      if 0 <=? e then sign +:+ str_of_int (Z.pos m * 2 ^ e) +:+ ".0"
      else
        let d := 2 ^ (- e) in
        let ipart := Z.pos m / d in
        let frac := (Z.pos m mod d) * 5 ^ (- e) in
        let digits := pad_left (Z.to_nat (- e)) (str_of_int frac) in
        sign +:+ str_of_int ipart +:+ "." +:+ or_str (strip_zeros_right digits) "0"
  end.

Fixpoint repr_ (v : pyval) : string :=
  match v with
  | VNone => "None"
  | VBool true => "True"
  | VBool false => "False"
  | VInt z => str_of_int z
  | VFloat f => repr_float f
  | VStr s => "'" +:+ s +:+ "'"
  | VList l => "[" +:+ join ", " (map repr_ l) +:+ "]"
  | VDict d =>
      "{" +:+ join ", " (map (fun kv => "'" +:+ fst kv +:+ "': " +:+ repr_ (snd kv)) d)
        +:+ "}"
  end.

(** *** [shlex.split(s)]: POSIX rules, whitespace-separated words *)

Inductive lex_state :=
| Between                   (* between tokens *)
| Word                      (* inside an unquoted part of a word *)
| Quoted (q : ascii)        (* inside single or double quotes *)
| Escaped (back : option ascii).   (* after a backslash; [back]: the enclosing quote *)

Definition is_shell_space (c : ascii) : bool :=
  existsb (Ascii.eqb c) [" "; "009"; "013"; "010"]%char.

Definition is_quote (c : ascii) : bool := Ascii.eqb c "'" || Ascii.eqb c "034".

Definition push (c : ascii) (tok : string) : string := tok +:+ String c "".

(** [tok] is the token being read; [None] when no token has started. *)
Fixpoint lex (st : lex_state) (tok : option string) (s : string)
    : option (list string) :=
  match s with
  | EmptyString =>
      match st with
      | Between | Word => Some (match tok with Some t => [t] | None => [] end)
      | Quoted _ | Escaped _ => None
      end
  | String c s' =>
      let t := default "" tok in
      match st with
      | Between | Word =>
          if is_shell_space c then
            match tok with
            | Some t => cons t <$> lex Between None s'
            | None => lex Between None s'
            end
          else if Ascii.eqb c "\" then lex (Escaped None) (Some t) s'
          else if is_quote c then lex (Quoted c) (Some t) s'
          else lex Word (Some (push c t)) s'
      | Quoted q =>
          if Ascii.eqb c q then lex Word (Some t) s'
          else if Ascii.eqb c "\" && Ascii.eqb q "034" then lex (Escaped (Some q)) (Some t) s'
          else lex (Quoted q) (Some (push c t)) s'
      | Escaped None => lex Word (Some (push c t)) s'
      | Escaped (Some q) =>
          if Ascii.eqb c "\" || Ascii.eqb c q then lex (Quoted q) (Some (push c t)) s'
          else lex (Quoted q) (Some (push c (push "\" t))) s'
      end
  end.

Definition shlex_split (s : string) : option (list string) := lex Between None s.

(** *** Paths *)

Definition path_join (a b : string) : string :=
  match b with
  | String "/" _ => b
  | _ => if String.eqb (String.substring (String.length a - 1) 1 a) "/"
         then a +:+ b else a +:+ "/" +:+ b
  end.

(** The text before the last occurrence of [c], and the text after it. *)
Fixpoint rsplit_char (c : ascii) (s : string) : option (string * string) :=
  match s with
  | EmptyString => None
  | String d s' =>
      match rsplit_char c s' with
      | Some (a, b) => Some (String d a, b)
      | None => if Ascii.eqb c d then Some (EmptyString, s') else None
      end
  end.

Definition path_parent (a : string) : string :=
  match rsplit_char "/" a with
  | Some (dir, _) => or_str dir "/"
  | None => "."
  end.

Definition path_name (a : string) : string :=
  match rsplit_char "/" a with
  | Some (_, name) => name
  | None => a
  end.

Definition path_stem (a : string) : string :=
  let name := path_name a in
  match rsplit_char "." name with
  | Some (stem, _) => or_str stem name
  | None => name
  end.

#[global] Instance runtime : Runtime := {|
  Py.repr_ := repr_;
  Py.float_of_str := float_of_str;
  Py.shlex_split := shlex_split;
  Py.path_join := path_join;
  Py.path_parent := path_parent;
  Py.path_stem := path_stem;
|}.
End RefRuntime.

(* ===================================================================== *)
(** * Calls and events, and example states                               *)
(* ===================================================================== *)

(** The calls of the engine API and the events of its environment that
    change the state. *)
Module Trace.
Import Py ProcessManager Engine.

Inductive call :=
| CreateTab (tab_id : string) (title profile_id : option string)
| UpdateTab (tab_id : string) (title profile_id : option string)
| DeleteTab (tab_id : string)
| StartTest (env : RunExecutor.start_env) (tab_id : string) (profile : Profile.t)
| StopTest (react : nat -> reaction) (tab_id : string)
| AbortAll
| Subscribe (queue : nat)
| Unsubscribe (queue : nat)
| NotifyShutdown
| WatcherRuns (task : nat) (p : watched_process)
| ProcessExits (process : nat) (returncode : Z)
| TimerFires (react : nat -> reaction) (tab_id run_id : string) (duration_seconds : pyval)
| Tick (now : string).

Section WithRuntime.
Context `{Runtime}.

Definition exec (c : call) (s : State) : State :=
  match c with
  | CreateTab tab_id title profile_id =>
      snd (TestExecutionManager.create_tab tab_id title profile_id s)
  | UpdateTab tab_id title profile_id =>
      snd (TestExecutionManager.update_tab tab_id title profile_id s)
  | DeleteTab tab_id => snd (TestExecutionManager.delete_tab tab_id s)
  | StartTest env tab_id profile =>
      snd (TestExecutionManager.start_test env tab_id profile s)
  | StopTest react tab_id => snd (TestExecutionManager.stop_test react tab_id s)
  | AbortAll => snd (TestExecutionManager.abort_all s)
  | Subscribe queue => snd (TestExecutionManager.subscribe queue s)
  | Unsubscribe queue => snd (TestExecutionManager.unsubscribe queue s)
  | NotifyShutdown => snd (TestExecutionManager.notify_shutdown s)
  | WatcherRuns task p => snd (TestExecutionManager.run_watcher task p s)
  | ProcessExits process returncode => process_exits process returncode s
  | TimerFires react tab_id run_id duration_seconds =>
      snd (TestExecutionManager._auto_stop_after_duration react tab_id run_id
             duration_seconds s)
  | Tick now => snd (TestExecutionManager.tick now s)
  end.

(** The state after a sequence of calls and events. *)
Definition run (cs : list call) (s : State) : State :=
  foldl (fun s c => exec c s) s cs.
End WithRuntime.
End Trace.

(** A tab with a profile for two interfaces, and the ways its start and its
    processes can go. *)
Module Example.
Import Py ProcessManager Engine.

Definition fresh : State :=
  Engine.init "20240101T000000Z" "/cap" "tcpdump" 500 None.

Definition idle : State :=
  snd (TestExecutionManager.create_tab "t1" (Some "Messung 1") None fresh).

Definition profile : Profile.t :=
  Profile.Make (Some "p1") (Some "Basic Traffic")
    (Some (VDict [("interfaces", VList [VStr "eth0"; VStr "eth1"]);
                  ("ringFileCount", VInt 10)])).

Definition capture_ids (i : nat) : string :=
  match i with O => "c0" | _ => "c1" end.

(** Both spawns succeed. *)
Definition spawns_ok : RunExecutor.start_env :=
  RunExecutor.StartEnv "r1" "m1" capture_ids
    (fun i => RunExecutor.Spawned (Some (100 + Z.of_nat i))).

(** The second spawn does not find the binary. *)
Definition second_missing : RunExecutor.start_env :=
  RunExecutor.StartEnv "r1" "m1" capture_ids
    (fun i => match i with
              | O => RunExecutor.Spawned (Some 100)
              | _ => RunExecutor.SpawnRaise
                       (Exn FileNotFoundError "[Errno 2] No such file or directory")
              end).

Definition running : State :=
  snd (TestExecutionManager.start_test spawns_ok "t1" profile idle).

(** Every process ends with status 0 on SIGTERM. *)
Definition obeys : nat -> reaction := fun _ => Reaction (Some 0) (Some (-9)).

(** A process that prints nothing and ends with status [rc]. *)
Definition quiet (rc : Z) : watched_process :=
  {| stdout := Some []; wait := WaitReturn rc; returncode_unwaited := None |}.
End Example.

(* ===================================================================== *)
(** * HTTP routes of the test tabs ([api/routes/tabs.py])                *)
(* ===================================================================== *)

(** The route functions of [create_tabs_router], without the web socket.
    A route returns a body, raises an [HTTPException], or lets another
    exception escape to the framework. *)
Module Routes.
Import Py Engine.

(** [fastapi.HTTPException(status_code=..., detail=...)] *)
Record http_exception := HTTPException {
  status_code : Z;
  detail : string;
}.

Inductive outcome (A : Type) :=
| Return (body : A)
| Abort (e : http_exception)
| Escape (e : exn).
Arguments Return {A} body.
Arguments Abort {A} e.
Arguments Escape {A} e.

Definition route (A : Type) : Type := State -> outcome A * State.

(** [api/utils/error_handling.py] *)
Definition raise_not_found {A} (detail : string) : outcome A :=
  Abort (HTTPException 404 detail).

Definition raise_bad_request {A} (detail : string) : outcome A :=
  Abort (HTTPException 400 detail).

Definition raise_conflict {A} (detail : string) : outcome A :=
  Abort (HTTPException 409 detail).

Definition raise_internal_error {A} (detail : string) : outcome A :=
  Abort (HTTPException 500 detail).

(** [api/enums.py] *)
Module ErrorMessages.
Definition TAB_NOT_FOUND : string := "Tab nicht gefunden".
Definition PROFILE_ID_REQUIRED : string := "profileId ist erforderlich".
End ErrorMessages.

(** [{"deleted": True}] *)
Record deleted_reply := DeletedReply { deleted : bool }.

(** [except (FileNotFoundError, KeyError, ValueError)] *)
Definition profile_missing (e : exn) : bool :=
  isinstance e FileNotFoundError || isinstance e KeyError || isinstance e ValueError.

Definition api_list_test_tabs : route (list Tab.dict) :=
  fun s =>
    match TestExecutionManager.list_tabs s with
    | (Ok tabs, s') => (Return tabs, s')
    | (Raise exc, s') => (Escape exc, s')
    end.

Definition api_delete_test_tab (tab_id : string) : route deleted_reply :=
  fun s =>
    match TestExecutionManager.delete_tab tab_id s with
    | (Ok _, s') => (Return (DeletedReply true), s')
    | (Raise exc, s') =>
        if isinstance exc KeyError then (raise_not_found ErrorMessages.TAB_NOT_FOUND, s')
        else if isinstance exc RuntimeError then (raise_conflict (exn_str exc), s')
        else (Escape exc, s')
    end.

Definition api_stop_test_tab (react : nat -> reaction) (tab_id : string) : route Tab.dict :=
  fun s =>
    match TestExecutionManager.stop_test react tab_id s with
    | (Ok snapshot, s') => (Return snapshot, s')
    | (Raise exc, s') =>
        if isinstance exc KeyError then (raise_not_found ErrorMessages.TAB_NOT_FOUND, s')
        else (Escape exc, s')
    end.

Definition api_get_test_tab_logs (tab_id : string) (after : option Z)
    : route TabManager.logs_reply :=
  fun s =>
    match TestExecutionManager.get_logs tab_id after s with
    | (Ok logs, s') => (Return logs, s')
    | (Raise exc, s') =>
        if isinstance exc KeyError then (raise_not_found ErrorMessages.TAB_NOT_FOUND, s')
        else (Escape exc, s')
    end.

Section WithProfiles.
Context `{Runtime}.

(** [load_profile_func(profile_id)]: the stored profile, or the
    exception of the profile service. *)
Variable load_profile_func : string -> result Profile.t.

(** The validation that the profile exists, at the head of the create
    and update routes; [None] lets the route go on. *)
Definition check_profile {A} (profileId : option string) : option (outcome A) :=
  if truthy_opt_str profileId then
    let profile_id := default "" profileId in
    match load_profile_func profile_id with
    | Ok _ => None
    | Raise exc =>
        if profile_missing exc
        then Some (raise_not_found ("Profil nicht gefunden: " +:+ profile_id))
        else Some (Escape exc)
    end
  else None.

(** [new_tab_id] is the value of [uuid4().hex] in [create_tab]. *)
Definition api_create_test_tab (new_tab_id : string) (title profileId : option string)
    : route Tab.dict :=
  fun s =>
    match check_profile profileId with
    | Some out => (out, s)
    | None =>
        match TestExecutionManager.create_tab new_tab_id title profileId s with
        | (Ok tab, s') => (Return tab, s')
        | (Raise exc, s') =>
            if isinstance exc KeyError
            then (raise_not_found ErrorMessages.TAB_NOT_FOUND, s')
            else if isinstance exc Exception_
            then (raise_internal_error "Fehler beim Erstellen des Tabs", s')
            else (Escape exc, s')
        end
    end.

Definition api_update_test_tab (tab_id : string) (title profileId : option string)
    : route Tab.dict :=
  fun s =>
    match check_profile profileId with
    | Some out => (out, s)
    | None =>
        match TestExecutionManager.update_tab tab_id title profileId s with
        | (Ok tab, s') => (Return tab, s')
        | (Raise exc, s') =>
            if isinstance exc KeyError
            then (raise_not_found ErrorMessages.TAB_NOT_FOUND, s')
            else (Escape exc, s')
        end
    end.

(** The end of the start route, once the profile id is known. *)
Definition start_with_profile (env : RunExecutor.start_env) (tab_id : string)
    (profile_id : option string) : route Tab.dict :=
  fun s =>
    if negb (truthy_opt_str profile_id)
    then (raise_bad_request ErrorMessages.PROFILE_ID_REQUIRED, s)
    else
      let profile_id := default "" profile_id in
      match load_profile_func profile_id with
      | Raise exc =>
          if profile_missing exc
          then (raise_not_found ("Profil nicht gefunden: " +:+ profile_id), s)
          else (Escape exc, s)
      | Ok profile =>
          match TestExecutionManager.start_test env tab_id profile s with
          | (Ok snapshot, s') => (Return snapshot, s')
          | (Raise exc, s') =>
              if isinstance exc KeyError
              then (raise_not_found ErrorMessages.TAB_NOT_FOUND, s')
              else if isinstance exc RuntimeError
              then (raise_conflict (exn_str exc), s')
              else (Escape exc, s')
          end
      end.

Definition api_start_test_tab (env : RunExecutor.start_env) (tab_id : string)
    (profileId : option string) : route Tab.dict :=
  fun s =>
    if negb (truthy_opt_str profileId) then
      (* If no profileId provided, try to get it from the tab *)
      match TestExecutionManager.get_tab tab_id s with
      | (Raise exc, s') =>
          if isinstance exc KeyError
          then (raise_not_found ErrorMessages.TAB_NOT_FOUND, s')
          else (Escape exc, s')
      | (Ok tab, s') => start_with_profile env tab_id (Tab.d_profileId tab) s'
      end
    else start_with_profile env tab_id profileId s.
End WithProfiles.
End Routes.

(* ===================================================================== *)
(** * Properties                                                         *)
(* ===================================================================== *)

(** ** Strings *)

Lemma lstrip_by_all p s : Py.all_chars p s = true -> Py.lstrip_by p s = "".
Proof.
  induction s as [|c s IH]; simpl; [done|].
  intros [Hc Hs]%andb_true_iff. rewrite Hc. auto.
Qed.

Lemma strip_by_all p s : Py.all_chars p s = true -> Py.strip_by p s = "".
Proof. intros Hs. unfold Py.strip_by. by rewrite lstrip_by_all. Qed.

Lemma or_str_nonempty a b : b <> "" -> or_str a b <> "".
Proof. unfold or_str. destruct a; simpl; [done|]. intros _. discriminate. Qed.

Lemma or_str_empty b : or_str "" b = b.
Proof. reflexivity. Qed.

(** ** Titles (claim C10) *)

(** A title argument that is [None], empty, or made of whitespace only. *)
Definition blank (title : option string) : Prop :=
  match title with
  | None => True
  | Some s => Py.all_chars Py.isspace s = true
  end.

(** The tab object that [create_tab] stores. *)
Definition created_tab (tab_id now : string) (title profile_id : option string)
    (m : TabManager.t) : option Tab.t :=
  TabManager._tabs (snd (TabManager.create_tab tab_id now title profile_id m)) !! tab_id.

(** The tab object that [update_tab] leaves. *)
Definition updated_tab (tab_id now : string) (title profile_id : option string)
    (m : TabManager.t) : option Tab.t :=
  TabManager._tabs (snd (TabManager.update_tab tab_id now title profile_id m)) !! tab_id.

Lemma created_tab_title tab_id now title profile_id m :
  exists tab,
    created_tab tab_id now title profile_id m = Some tab /\
    Tab.d_title (fst (TabManager.create_tab tab_id now title profile_id m))
      = Some (Tab.title tab) /\
    Tab.title tab = or_str (Py.strip (default "" title)) "Neuer Test".
Proof.
  unfold created_tab, TabManager.create_tab. simpl.
  rewrite lookup_insert_eq. eexists. split; [done|]. split; [done|]. simpl.
  destruct title as [[|c s]|]; reflexivity.
Qed.

Lemma updated_tab_title tab_id now title profile_id m tab :
  TabManager._tabs m !! tab_id = Some tab ->
  exists tab',
    updated_tab tab_id now title profile_id m = Some tab' /\
    fst (TabManager.update_tab tab_id now title profile_id m) = Py.Ok (Tab.to_dict tab') /\
    Tab.title tab' =
      match title with
      | Some t => or_str (Py.strip t) "Neuer Test"
      | None => Tab.title tab
      end.
Proof.
  intros Htab. unfold updated_tab, TabManager.update_tab. rewrite Htab. simpl.
  rewrite lookup_insert_eq. eexists. split; [done|]. split; [done|].
  destruct title, profile_id; reflexivity.
Qed.


(** A store holding one tab titled "Messung 1". *)
Definition one_tab_store : TabManager.t :=
  snd (TabManager.create_tab "t1" "20240101T000000Z" (Some "Messung 1") None
         (TabManager.init "20240101T000000Z" 500 None)).



(** ** Loading the persisted state (claim C8) *)

(** Two different status values. *)
Ltac status_neq H :=
  unfold TabStatus.IDLE, TabStatus.STARTING, TabStatus.RUNNING,
    TabStatus.COMPLETED, TabStatus.FAILED, TabStatus.CANCELLED in H;
  discriminate H.

(** The key under which [_load_state] files a stored tab. *)
Definition stored_key (tab_data : Tab.dict) : string :=
  Py.strip (or_str (default "" (Tab.d_id tab_data)) "").

Definition resumable (status : string) : Prop :=
  status = TabStatus.RUNNING \/ status = TabStatus.STARTING.

(** What [_load_state] makes of one stored tab [tab_data]. *)
Definition loaded_from (now : string) (max_log_entries : nat) (tab_data : Tab.dict)
    (tab : Tab.t) : Prop :=
  let stored := Tab.from_dict now tab_data max_log_entries in
  (resumable (Tab.status stored) ->
   Tab.status tab = TabStatus.IDLE /\ Tab.run tab = None) /\
  (~ resumable (Tab.status stored) -> tab = stored).

Lemma load_tab_lookup now max tabs tab_data tab_id tab :
  TabManager.load_tab now max tabs tab_data !! tab_id = Some tab ->
  tabs !! tab_id = Some tab \/
  (stored_key tab_data = tab_id /\ ~ resumable (Tab.status tab) /\
   loaded_from now max tab_data tab).
Proof.
  unfold TabManager.load_tab. fold (stored_key tab_data).
  remember (Tab.from_dict now tab_data max) as stored eqn:Hstored.
  destruct (Py.nonempty (stored_key tab_data)); cbn [negb]; cbv zeta; [|by left].
  destruct (decide (stored_key tab_data = tab_id)) as [<-|Hne].
  - rewrite lookup_insert_eq. intros [= <-]. right. split; [done|].
    unfold loaded_from, resumable. rewrite <- Hstored.
    destruct (bool_decide (Tab.status stored = TabStatus.RUNNING)) eqn:Hr; cbn [orb].
    + apply bool_decide_eq_true in Hr. split; [|split].
      * intros [H|H]; cbn in H; status_neq H.
      * done.
      * intros Hn. exfalso. apply Hn. by left.
    + apply bool_decide_eq_false in Hr.
      destruct (bool_decide (Tab.status stored = TabStatus.STARTING)) eqn:Hs.
      * apply bool_decide_eq_true in Hs. split; [|split].
        -- intros [H|H]; cbn in H; status_neq H.
        -- done.
        -- intros Hn. exfalso. apply Hn. by right.
      * apply bool_decide_eq_false in Hs. split; [|split].
        -- tauto.
        -- tauto.
        -- done.
  - rewrite lookup_insert_ne by done. by left.
Qed.

Lemma load_state_lookup now max (stored_tabs : list Tab.dict) tabs tab_id tab :
  foldl (TabManager.load_tab now max) tabs stored_tabs !! tab_id = Some tab ->
  tabs !! tab_id = Some tab \/
  exists tab_data,
    tab_data ∈ stored_tabs /\ stored_key tab_data = tab_id /\
    ~ resumable (Tab.status tab) /\ loaded_from now max tab_data tab.
Proof.
  revert tabs. induction stored_tabs as [|td rest IH]; simpl; intros tabs Hl.
  - by left.
  - apply IH in Hl as [Hl|(td' & Hin & Hrest)].
    + apply load_tab_lookup in Hl as [Hl|Hl]; [by left|].
      right. exists td. split; [apply list_elem_of_here|exact Hl].
    + right. exists td'. split; [by apply list_elem_of_further|exact Hrest].
Qed.

(** C8: every tab that the tab manager holds after loading the state file
    comes from a stored tab, is neither "running" nor "starting", and, if
    its stored status was one of these two, has status "idle" and no run. *)
Theorem load_state_resets_running_tabs
    (now : string) (max_log_entries : nat) (file : option (list Tab.dict))
    (tab_id : string) (tab : Tab.t)
    (Hloaded : TabManager._tabs (TabManager.init now max_log_entries file) !! tab_id
               = Some tab) :
  Tab.status tab <> TabStatus.RUNNING /\
  Tab.status tab <> TabStatus.STARTING /\
  exists stored_tabs tab_data,
    file = Some stored_tabs /\ tab_data ∈ stored_tabs /\
    stored_key tab_data = tab_id /\
    loaded_from now max_log_entries tab_data tab.
Proof.
  destruct file as [stored_tabs|]; simpl in Hloaded.
  - apply load_state_lookup in Hloaded as [Hl|(td & Hin & Hkey & Hnr & Hfrom)].
    + by rewrite lookup_empty in Hl.
    + unfold resumable in Hnr. split; [tauto|]. split; [tauto|].
      by exists stored_tabs, td.
  - by rewrite lookup_empty in Hloaded.
Qed.

(** A state file with one tab that was running when the agent went down. *)
Definition crashed_file : list Tab.dict :=
  [ Tab.Dict (Some "t1") (Some "Messung 1") None (Some "running")
      (Some "20240101T000000Z") (Some "20240101T000500Z")
      (Some (Run.to_dict (Run.new "r1" None "20240101T000400Z")))
      (Some []) (Some 0) None None ].

Lemma load_state_resets_running_tabs_witness :
  exists tab,
    TabManager._tabs (TabManager.init "20240102T000000Z" 500 (Some crashed_file)) !! "t1"
      = Some tab /\
    Tab.status tab = "idle" /\ Tab.run tab = None.
Proof.
  assert (Hl : exists tab,
             TabManager._tabs (TabManager.init "20240102T000000Z" 500 (Some crashed_file))
               !! "t1" = Some tab).
  { eexists. simpl. apply lookup_insert_eq. }
  destruct Hl as [tab Hl]. exists tab. split; [exact Hl|].
  destruct (load_state_resets_running_tabs _ _ _ _ _ Hl)
    as (_ & _ & tabs & td & Hfile & Hin & _ & Hfrom).
  injection Hfile as <-. apply list_elem_of_singleton in Hin as ->.
  apply Hfrom. left. reflexivity.
Defined.

(** ** Coroutines: what a computation can change *)

(** [within R m]: running [m] moves the state along [R], whatever [m]
    returns or raises. *)
Definition within {S A} (R : relation S) (m : M S A) : Prop :=
  forall s, R s (snd (m s)).

Section Within.
Context {S : Type} (R : relation S) `{!PreOrder R}.

Lemma within_ret {A} (a : A) : within R (Co.ret a).
Proof. intros s. simpl. reflexivity. Qed.

Lemma within_raise {A} e : within R (Co.raise_ (A:=A) e).
Proof. intros s. simpl. reflexivity. Qed.

Lemma within_lift {A} (r : Py.result A) : within R (Co.lift r).
Proof. intros s. simpl. reflexivity. Qed.

Lemma within_gets {A} (f : S -> A) : within R (Co.gets f).
Proof. intros s. simpl. reflexivity. Qed.

Lemma within_modify (f : S -> S) : (forall s, R s (f s)) -> within R (Co.modify f).
Proof. intros Hf s. simpl. apply Hf. Qed.

Lemma within_bind {A B} (m : M S A) (k : A -> M S B) :
  within R m -> (forall a, within R (k a)) -> within R (Co.bind m k).
Proof.
  intros Hm Hk s. unfold Co.bind. specialize (Hm s).
  destruct (m s) as [[a|e] s']; simpl in *; [|done].
  etrans; [exact Hm|apply Hk].
Qed.

Lemma within_try_except {A} (body : M S A) classes handler :
  within R body -> (forall e, within R (handler e)) ->
  within R (Co.try_except body classes handler).
Proof.
  intros Hb Hh s. unfold Co.try_except. specialize (Hb s).
  destruct (body s) as [[a|e] s']; simpl in *; [done|].
  destruct (existsb _ _); simpl; [|done].
  etrans; [exact Hb|apply Hh].
Qed.

Lemma within_for {A} (xs : list A) (body : A -> M S unit) :
  (forall x, within R (body x)) -> within R (Co.for_ xs body).
Proof.
  intros Hb. induction xs as [|x xs IH]; simpl.
  - apply within_ret.
  - apply within_bind; [apply Hb|]. intros _. exact IH.
Qed.

Lemma within_if {A} (b : bool) (m1 m2 : M S A) :
  within R m1 -> within R m2 -> within R (if b then m1 else m2).
Proof. by destruct b. Qed.
End Within.

(** A computation that cannot raise. *)
Definition total {S A} (m : M S A) : Prop :=
  forall s, exists a, fst (m s) = Py.Ok a.

Lemma total_run {S A} (m : M S A) s :
  total m -> exists a, m s = (Py.Ok a, snd (m s)).
Proof. intros Hm. destruct (Hm s) as [a Ha]. exists a. destruct (m s); simpl in *; by subst. Qed.

Lemma total_ret {S A} (a : A) : total (S:=S) (Co.ret a).
Proof. intros s. by exists a. Qed.

Lemma total_gets {S A} (f : S -> A) : total (Co.gets f).
Proof. intros s. by eexists. Qed.

Lemma total_modify {S} (f : S -> S) : total (Co.modify f).
Proof. intros s. by eexists. Qed.

Lemma total_bind {S A B} (m : M S A) (k : A -> M S B) :
  total m -> (forall a, total (k a)) -> total (Co.bind m k).
Proof.
  intros Hm Hk s. unfold Co.bind. destruct (Hm s) as [a Ha].
  destruct (m s) as [[a'|e] s']; simpl in *; [|done]. apply Hk.
Qed.

Lemma total_for {S A} (xs : list A) (body : A -> M S unit) :
  (forall x, total (body x)) -> total (Co.for_ xs body).
Proof.
  intros Hb. induction xs as [|x xs IH]; simpl.
  - apply total_ret.
  - apply total_bind; [apply Hb|]. intros _. exact IH.
Qed.

(** ** The frame of the engine's operations *)

Import Engine.

(** The tabs of the engine. *)
Definition tabs (s : State) : gmap string Tab.t := TabManager._tabs (tab_manager s).

(** [s'] has the same value of [f] as [s]. *)
Definition same {B} (f : State -> B) : relation State := fun s s' => f s' = f s.

#[global] Instance same_preorder {B} (f : State -> B) : PreOrder (same f).
Proof. split; [by intros s|]. intros s1 s2 s3 H1 H2. unfold same in *. congruence. Qed.

(** Everything of a tab but its log: what [append_log] does not assign. *)
Definition tab_core (tab : Tab.t) :=
  (Tab.id tab, Tab.title tab, Tab.status tab, Tab.created_utc tab,
   Tab.profile_id tab, Tab.run tab).

(** [s'] has the same tabs as [s], up to their logs and update stamps. *)
Definition same_cores : relation State :=
  fun s s' => forall tab_id, tab_core <$> (tabs s' !! tab_id) = tab_core <$> (tabs s !! tab_id).

#[global] Instance same_cores_preorder : PreOrder same_cores.
Proof.
  split; [by intros s id|]. intros s1 s2 s3 H1 H2 id. by rewrite H2, H1.
Qed.

(** What a call of [_append_log] leaves as it was. *)
Record log_frame (s s' : State) : Prop := {
  lf_runs : _runs s' = _runs s;
  lf_subprocesses : subprocesses s' = subprocesses s;
  lf_tasks : tasks s' = tasks s;
  lf_timers : timers s' = timers s;
  lf_journal : journal s' = journal s;
  lf_clock : clock s' = clock s;
  lf_capture_dir : capture_dir s' = capture_dir s;
  lf_tcpdump_bin : tcpdump_bin s' = tcpdump_bin s;
  lf_max : TabManager.max_log_entries (tab_manager s')
           = TabManager.max_log_entries (tab_manager s);
  lf_cores : same_cores s s';
}.

#[global] Instance log_frame_preorder : PreOrder log_frame.
Proof.
  split.
  - intros s. by split.
  - intros s1 s2 s3 [] []. split; try congruence; by etrans.
Qed.

Lemma append_log_core tab_id now message interface m id :
  tab_core <$> (TabManager._tabs (snd (TabManager.append_log tab_id now message interface m)) !! id)
  = tab_core <$> (TabManager._tabs m !! id).
Proof.
  unfold TabManager.append_log.
  destruct (TabManager._tabs m !! tab_id) as [tab|] eqn:Htab; simpl; [|done].
  destruct (decide (tab_id = id)) as [<-|Hne].
  - by rewrite lookup_insert_eq, Htab.
  - by rewrite lookup_insert_ne.
Qed.

Lemma broadcast_frame ev : within log_frame (TestExecutionManager._broadcast ev).
Proof. intros s. by split. Qed.

Lemma broadcast_total ev : total (TestExecutionManager._broadcast ev).
Proof. apply total_modify. Qed.

Lemma append_log_frame tab_id message interface :
  within log_frame (TestExecutionManager._append_log tab_id message interface).
Proof.
  unfold TestExecutionManager._append_log.
  apply within_bind; [apply _|apply within_gets, _|]. intros now.
  apply within_bind; [apply _| |].
  - intros s. unfold TestExecutionManager.on_tabs.
    destruct (TabManager.append_log _ _ _ _ _) as [r m] eqn:Hm. simpl.
    split; try done.
    + unfold TabManager.append_log in Hm.
      destruct (TabManager._tabs (tab_manager s) !! tab_id); by injection Hm as <- <-.
    + intros id. unfold tabs. simpl.
      replace m with (snd (TabManager.append_log tab_id now message interface (tab_manager s)))
        by (by rewrite Hm).
      apply append_log_core.
  - intros entry. apply within_bind; [apply _| |intros; apply within_ret, _].
    destruct entry; [|apply within_ret, _].
    apply within_bind; [apply _|apply broadcast_frame|]. intros _.
    apply within_bind; [apply _|apply within_gets, _|].
    intros [snap|]; [apply broadcast_frame|apply within_ret, _].
Qed.

Lemma append_log_total tab_id message interface :
  total (TestExecutionManager._append_log tab_id message interface).
Proof.
  unfold TestExecutionManager._append_log.
  apply total_bind; [apply total_gets|]. intros now.
  apply total_bind.
  { intros s. unfold TestExecutionManager.on_tabs.
    destruct (TabManager.append_log _ _ _ _ _). by eexists. }
  intros entry. apply total_bind; [|intros; apply total_ret].
  destruct entry; [|apply total_ret].
  apply total_bind; [apply broadcast_total|]. intros _.
  apply total_bind; [apply total_gets|].
  intros [snap|]; [apply broadcast_total|apply total_ret].
Qed.

Lemma log_callback_frame tab_id message interface :
  within log_frame (TestExecutionManager.log_callback tab_id message interface).
Proof.
  unfold TestExecutionManager.log_callback.
  apply within_bind; [apply _|apply append_log_frame|]. intros; apply within_ret, _.
Qed.

Lemma log_callback_total tab_id message interface :
  total (TestExecutionManager.log_callback tab_id message interface).
Proof.
  unfold TestExecutionManager.log_callback.
  apply total_bind; [apply append_log_total|]. intros; apply total_ret.
Qed.

(** Running a total computation that stays within a relation. *)
Lemma run_total_within {A} (R : relation State) (m : M State A) s :
  total m -> within R m -> exists a s', m s = (Py.Ok a, s') /\ R s s'.
Proof.
  intros Ht Hw. destruct (total_run m s Ht) as [a Ha].
  exists a, (snd (m s)). split; [exact Ha|apply Hw].
Qed.

Lemma append_log_run tab_id message interface s :
  exists r s',
    TestExecutionManager._append_log tab_id message interface s = (Py.Ok r, s') /\
    log_frame s s'.
Proof. apply run_total_within; [apply append_log_total|apply append_log_frame]. Qed.

(** ** Starting a tab that already runs (claim C2) *)

Definition already_running (tab_id : string) : string :=
  "Test läuft bereits in Tab '" +:+ tab_id +:+ "'".

(** C2: when the run executor holds a run for the tab, [start_test] raises
    the test-already-running error and leaves the whole state, so also the
    map of active runs, as it was; the run executor's own [start_test]
    refuses as well, without a change. *)
Theorem start_test_conflict_keeps_run `{Py.Runtime}
    (s : State) (env : RunExecutor.start_env) (tab_id : string) (profile : Profile.t)
    (tab : Tab.t) (run : ProcessManager.RunningTest)
    (Htab : tabs s !! tab_id = Some tab)
    (Hrun : _runs s !! tab_id = Some run) :
  TestExecutionManager.start_test env tab_id profile s
    = (Py.Raise (Py.Exn Py.TestAlreadyRunningError (already_running tab_id)), s) /\
  _runs (snd (TestExecutionManager.start_test env tab_id profile s)) = _runs s /\
  forall log_callback tab_name,
    RunExecutor.start_test log_callback env tab_id profile tab_name s
      = (Py.Raise (Py.Exn Py.TestExecutionError (already_running tab_id)), s).
Proof.
  assert (Hfacade :
    TestExecutionManager.start_test env tab_id profile s
    = (Py.Raise (Py.Exn Py.TestAlreadyRunningError (already_running tab_id)), s)).
  { unfold TestExecutionManager.start_test, TestExecutionManager.get_tab_object,
      RunExecutor.is_running, Co.bind, Co.gets, TabManager.get_tab_object.
    unfold tabs in Htab. rewrite Htab, Hrun. reflexivity. }
  split; [exact Hfacade|]. split; [by rewrite Hfacade|].
  intros cb name.
  unfold RunExecutor.start_test, RunExecutor.is_running, Co.bind, Co.gets.
  rewrite Hrun. reflexivity.
Qed.

Lemma start_test_conflict_keeps_run_witness :
  TestExecutionManager.start_test Example.spawns_ok "t1" Example.profile Example.running
    = (Py.Raise (Py.Exn Py.TestAlreadyRunningError (already_running "t1")),
       Example.running).
Proof.
  assert (Htab : exists tab, tabs Example.running !! "t1" = Some tab)
    by (eexists; vm_compute; reflexivity).
  assert (Hrun : exists run, _runs Example.running !! "t1" = Some run)
    by (eexists; vm_compute; reflexivity).
  destruct Htab as [tab Htab], Hrun as [run Hrun].
  exact (proj1 (start_test_conflict_keeps_run Example.running Example.spawns_ok "t1"
                  Example.profile tab run Htab Hrun)).
Defined.

(** ** Structural steps for [within] *)

Lemma within_weaken {S A} (R R' : relation S) (m : M S A) :
  (forall s s', R s s' -> R' s s') -> within R m -> within R' m.
Proof. intros Hsub Hm s. apply Hsub, Hm. Qed.

Ltac within_step :=
  lazymatch goal with
  | |- PreOrder _ => apply _
  | |- within _ (Co.ret _) => apply within_ret
  | |- within _ (Co.raise_ _) => apply within_raise
  | |- within _ (Co.lift _) => apply within_lift
  | |- within _ (Co.gets _) => apply within_gets
  | |- within _ (Co.bind _ _) => apply within_bind
  | |- within _ (Co.try_except _ _ _) => apply within_try_except
  | |- within _ (Co.for_ _ _) => apply within_for
  | |- within _ (if ?b then _ else _) => destruct b
  | |- within _ (match ?x with _ => _ end) => destruct x
  | |- within _ utcnow_iso => apply within_gets
  | |- within _ _ => fail
  | |- forall _, _ => intros ?
  end.

Create HintDb within discriminated.

Ltac within_auto := repeat within_step; eauto with within.

(** ** What stopping leaves as it was *)

(** The active runs and the tabs, up to their logs, are unchanged. *)
Record run_frame (s s' : State) : Prop := {
  rf_runs : _runs s' = _runs s;
  rf_cores : same_cores s s';
}.

#[global] Instance run_frame_preorder : PreOrder run_frame.
Proof.
  split.
  - intros s. by split.
  - intros s1 s2 s3 [] []. split; [congruence|by etrans].
Qed.

Lemma log_frame_run_frame s s' : log_frame s s' -> run_frame s s'.
Proof. intros []. by split. Qed.

Lemma log_callback_run_frame tab_id message interface :
  within run_frame (TestExecutionManager.log_callback tab_id message interface).
Proof. eapply within_weaken; [apply log_frame_run_frame|apply log_callback_frame]. Qed.

Lemma append_log_run_frame tab_id message interface :
  within run_frame (TestExecutionManager._append_log tab_id message interface).
Proof. eapply within_weaken; [apply log_frame_run_frame|apply append_log_frame]. Qed.

Lemma send_signal_run_frame h sig : within run_frame (send_signal h sig).
Proof.
  intros s. unfold send_signal.
  destruct (subprocesses s !! h) as [p|]; [|done].
  destruct (returncode p); by split.
Qed.

Lemma process_exits_run_frame h rc s : run_frame s (process_exits h rc s).
Proof.
  unfold process_exits.
  destruct (subprocesses s !! h) as [p|]; [|done].
  destruct (returncode p); by split.
Qed.

Lemma wait_for_exit_run_frame h outcome : within run_frame (wait_for_exit h outcome).
Proof.
  intros s. unfold wait_for_exit.
  destruct (process_returncode s h), outcome; simpl; try done.
  apply process_exits_run_frame.
Qed.

Lemma write_capture_metadata_run_frame row file :
  within run_frame (write_capture_metadata row file).
Proof. intros s. by split. Qed.

Lemma cancel_task_run_frame h : within run_frame (RunExecutor.cancel_task h).
Proof.
  intros s. unfold RunExecutor.cancel_task. simpl.
  destruct (tasks s !! h) as [w|]; [|done]. by destruct (w_status w).
Qed.

Lemma utcnow_iso_run_frame : within run_frame utcnow_iso.
Proof. apply within_gets, _. Qed.

#[global] Hint Resolve log_callback_run_frame append_log_run_frame send_signal_run_frame
  wait_for_exit_run_frame write_capture_metadata_run_frame cancel_task_run_frame
  utcnow_iso_run_frame : within.

Lemma terminate_process_safely_run_frame log_callback h r interface :
  (forall message i, within run_frame (log_callback message i)) ->
  within run_frame (terminate_process_safely log_callback h r interface).
Proof. intros Hcb. unfold terminate_process_safely. within_auto. Qed.

#[global] Hint Resolve terminate_process_safely_run_frame : within.

(** [RunExecutor.stop_test] removes the run of the tab and changes no other
    run and no tab (logs apart). *)
Lemma bind_gets {S A B} (f : S -> A) (k : A -> M S B) s :
  Co.bind (Co.gets f) k s = k (f s) s.
Proof. reflexivity. Qed.

Lemma bind_modify {S B} (f : S -> S) (k : unit -> M S B) s :
  Co.bind (Co.modify f) k s = k () (f s).
Proof. reflexivity. Qed.

Lemma bind_run {S A B} (m : M S A) (k : A -> M S B) s :
  Co.bind m k s = match m s with
                  | (Py.Ok a, s') => k a s'
                  | (Py.Raise e, s') => (Py.Raise e, s')
                  end.
Proof. reflexivity. Qed.

Lemma bind_ret {S A B} (a : A) (k : A -> M S B) s :
  Co.bind (Co.ret a) k s = k a s.
Proof. reflexivity. Qed.

Lemma executor_stop_test_effect tab_id react s :
  let s' := snd (RunExecutor.stop_test (TestExecutionManager.log_callback tab_id)
                   react tab_id s) in
  _runs s' = delete tab_id (_runs s) /\ same_cores s s'.
Proof.
  unfold RunExecutor.stop_test. rewrite bind_gets.
  destruct (_runs s !! tab_id) as [state|] eqn:Hrun.
  - rewrite bind_modify.
    match goal with
    | |- context [ Co.bind ?m ?k ?s0 ] =>
        assert (Hw : within run_frame (Co.bind m k)) by within_auto;
        destruct (Hw s0) as [Hr Hc]; revert Hr Hc;
        generalize (snd (Co.bind m k s0))
    end.
    intros s' Hr Hc. cbv zeta. split; [exact Hr|].
    intros id. rewrite (Hc id). reflexivity.
  - cbv zeta. simpl. split; [|done]. by rewrite delete_id.
Qed.

Lemma same_cores_is_Some s s' id :
  same_cores s s' -> is_Some (tabs s' !! id) <-> is_Some (tabs s !! id).
Proof.
  intros Hc. specialize (Hc id).
  destruct (tabs s' !! id), (tabs s !! id); simpl in Hc; try discriminate;
    split; intros [? ?]; eauto; discriminate.
Qed.

Lemma same_cores_lookup s s' id tab :
  same_cores s s' -> tabs s !! id = Some tab ->
  exists tab', tabs s' !! id = Some tab' /\ tab_core tab' = tab_core tab.
Proof.
  intros Hc Htab. specialize (Hc id). rewrite Htab in Hc.
  destruct (tabs s' !! id) as [tab'|]; simpl in Hc; [|discriminate].
  exists tab'. split; [done|]. congruence.
Qed.

(** ** Stopping a tab that does not run (claim C5) *)

Lemma stop_test_effect react tab_id s :
  let s' := snd (TestExecutionManager.stop_test react tab_id s) in
  _runs s' = delete tab_id (_runs s) /\
  forall id, is_Some (tabs s' !! id) <-> is_Some (tabs s !! id).
Proof.
  cbv zeta. unfold TestExecutionManager.stop_test. rewrite bind_run.
  pose proof (executor_stop_test_effect tab_id react s) as [Hr Hc].
  destruct (RunExecutor.stop_test _ react tab_id s) as [[res|e] s1]; cbn [snd] in *.
  2:{ split; [done|]. intros id. by apply same_cores_is_Some. }
  assert (Hdom : forall id, is_Some (tabs s1 !! id) <-> is_Some (tabs s !! id)).
  { intros id. by apply same_cores_is_Some. }
  unfold TestExecutionManager.get_tab_object, TabManager.get_tab_object.
  destruct res as [|run_id exit_codes file]; rewrite bind_gets.
  - destruct (TabManager._tabs (tab_manager s1) !! tab_id); by split.
  - destruct (TabManager._tabs (tab_manager s1) !! tab_id) as [tab|] eqn:Htab;
      [|by split].
    rewrite bind_run.
    destruct (Tab.run tab) as [run|]; [|by split].
    destruct (Py.truthy_opt_str (Run.finished_utc run)); [by split|].
    cbn. split; [done|]. intros id. unfold tabs at 1. cbn.
    destruct (decide (tab_id = id)) as [<-|Hne].
    + rewrite lookup_insert_eq. rewrite <- Hdom. unfold tabs. rewrite Htab.
      split; eauto.
    + rewrite lookup_insert_ne by done. apply Hdom.
Qed.

Definition tab_snapshot (s : State) (tab_id : string) : option Tab.dict :=
  Tab.to_dict <$> (tabs s !! tab_id).

Lemma stop_test_not_running react tab_id s tab :
  tabs s !! tab_id = Some tab ->
  _runs s !! tab_id = None ->
  RunExecutor.stop_test (TestExecutionManager.log_callback tab_id) react tab_id s
    = (Py.Ok RunExecutor.NotStopped, s) /\
  TestExecutionManager.stop_test react tab_id s = (Py.Ok (Tab.to_dict tab), s).
Proof.
  intros Htab Hrun.
  assert (He : RunExecutor.stop_test (TestExecutionManager.log_callback tab_id) react tab_id s
               = (Py.Ok RunExecutor.NotStopped, s)).
  { unfold RunExecutor.stop_test, Co.bind, Co.gets. by rewrite Hrun. }
  split; [exact He|].
  unfold TestExecutionManager.stop_test, Co.bind at 1. rewrite He.
  unfold Co.bind, TestExecutionManager.get_tab_object, Co.gets, TabManager.get_tab_object.
  unfold tabs in Htab. by rewrite Htab.
Qed.

(** C5: for a tab without a run in the run executor, the executor answers
    "not stopped" and [stop_test] returns the stored snapshot; neither
    raises nor changes the state.  After any first [stop_test] the tab has
    no run in the executor, so each further [stop_test] returns the same
    snapshot and leaves the whole state (status, run, logs, queues) as the
    first one left it. *)
Theorem stop_test_idempotent
    (s : State) (react : nat -> reaction) (tab_id : string) (tab : Tab.t)
    (Htab : tabs s !! tab_id = Some tab) :
  (_runs s !! tab_id = None ->
   RunExecutor.stop_test (TestExecutionManager.log_callback tab_id) react tab_id s
     = (Py.Ok RunExecutor.NotStopped, s) /\
   TestExecutionManager.stop_test react tab_id s = (Py.Ok (Tab.to_dict tab), s)) /\
  let s1 := snd (TestExecutionManager.stop_test react tab_id s) in
  exists snapshot,
    tab_snapshot s1 tab_id = Some snapshot /\
    forall reacts : list (nat -> reaction),
      Forall (fun r => TestExecutionManager.stop_test r tab_id s1 = (Py.Ok snapshot, s1))
             reacts /\
      foldl (fun s r => snd (TestExecutionManager.stop_test r tab_id s)) s1 reacts = s1.
Proof.
  split; [intros Hrun; by apply stop_test_not_running|].
  intros s1. destruct (stop_test_effect react tab_id s) as [Hr Hdom]. fold s1 in Hr, Hdom.
  assert (Hsome : is_Some (tabs s1 !! tab_id)) by (apply Hdom; eauto).
  destruct Hsome as [tab1 Htab1].
  assert (Hnone : _runs s1 !! tab_id = None) by (rewrite Hr; apply lookup_delete_eq).
  exists (Tab.to_dict tab1). split; [unfold tab_snapshot; by rewrite Htab1|].
  assert (Hstop : forall r, TestExecutionManager.stop_test r tab_id s1
                            = (Py.Ok (Tab.to_dict tab1), s1)).
  { intros r. by apply stop_test_not_running. }
  intros reacts. split.
  - apply Forall_forall. intros r _. apply Hstop.
  - induction reacts as [|r reacts IH]; simpl; [done|]. by rewrite Hstop.
Qed.

Lemma stop_test_idempotent_witness :
  exists snapshot,
    tab_snapshot (snd (TestExecutionManager.stop_test Example.obeys "t1" Example.running)) "t1"
      = Some snapshot /\
    Tab.d_status snapshot = Some "completed" /\
    foldl (fun s r => snd (TestExecutionManager.stop_test r "t1" s))
      (snd (TestExecutionManager.stop_test Example.obeys "t1" Example.running))
      [Example.obeys; Example.obeys]
    = snd (TestExecutionManager.stop_test Example.obeys "t1" Example.running).
Proof.
  assert (Htab : exists tab, tabs Example.running !! "t1" = Some tab)
    by (eexists; vm_compute; reflexivity).
  destruct Htab as [tab Htab].
  destruct (stop_test_idempotent Example.running Example.obeys "t1" tab Htab)
    as [_ (snapshot & Hsnap & Hrest)].
  exists snapshot. split; [exact Hsnap|]. split.
  - vm_compute in Hsnap. injection Hsnap as <-. reflexivity.
  - apply Hrest.
Defined.

(** ** The log buffer of a tab (claim C6) *)

(** The buffer of [tab] is bounded by [max] and holds a contiguous range of
    sequence numbers that ends at the tab's counter [log_seq]. *)
Definition log_inv (max : nat) (tab : Tab.t) : Prop :=
  let l := Deque.items (Tab.logs tab) in
  Deque.maxlen (Tab.logs tab) = Some max /\
  (length l <= max)%nat /\
  LogEntry.seq <$> l
    = seqZ (Tab.log_seq tab - Z.of_nat (length l) + 1) (Z.of_nat (length l)).

Lemma seqZ_tail m n : 0 < n -> tail (seqZ m n) = seqZ (m + 1) (n - 1).
Proof. intros Hn. rewrite seqZ_cons by done. simpl. f_equal; lia. Qed.

Lemma push_log_inv max tab entry :
  LogEntry.seq entry = Tab.log_seq tab + 1 ->
  log_inv max tab -> log_inv max (Tab.push_log tab entry).
Proof.
  intros Hseq (Hmax & Hlen & Hseqs). unfold log_inv, Tab.push_log. cbn [Tab.logs Tab.log_seq].
  unfold Deque.append. rewrite Hmax. cbn [Deque.maxlen Deque.items].
  remember (Deque.items (Tab.logs tab)) as l eqn:Hl. clear Hl.
  split; [done|].
  assert (Happ : LogEntry.seq <$> (l ++ [entry])
                 = seqZ (LogEntry.seq entry - Z.of_nat (length (l ++ [entry])) + 1)
                        (Z.of_nat (length (l ++ [entry])))).
  { rewrite fmap_app, Hseqs, length_app. simpl.
    replace (length l + 1)%nat with (S (length l)) by lia.
    rewrite seqZ_S. f_equal; [f_equal; lia|f_equal; lia]. }
  destruct (max <? length (l ++ [entry]))%nat eqn:Hfull.
  - apply Nat.ltb_lt in Hfull. rewrite length_app in Hfull. simpl in Hfull.
    destruct (l ++ [entry]) as [|e l'] eqn:Hl'.
    + split; [simpl; lia|done].
    + assert (length l' = length l) as Hlen'.
      { apply (f_equal length) in Hl'. rewrite length_app in Hl'. simpl in Hl'. lia. }
      cbn [tail]. split; [lia|].
      cbn [fmap list_fmap length] in Happ.
      rewrite seqZ_cons in Happ by lia.
      injection Happ as _ Happ. rewrite Happ. f_equal; lia.
  - apply Nat.ltb_ge in Hfull. split; [lia|exact Happ].
Qed.

(** ** How the tabs evolve under the operations of the engine *)

(** A run carries an error text only once it is finished. *)
Definition run_ok (r : Run.t) : Prop :=
  Run.finished_utc r = None -> Run.error r = None.

Definition run_inv (t : Tab.t) : Prop :=
  forall r, Tab.run t = Some r -> run_ok r.

(** A tab keeps its id, its log buffer stays well formed, and its run
    carries no error text while it is open. *)
Definition tab_evolves (max : nat) : relation Tab.t :=
  fun t t' =>
    Tab.id t' = Tab.id t /\ (log_inv max t -> log_inv max t') /\
    (run_inv t -> run_inv t').

#[global] Instance tab_evolves_preorder max : PreOrder (tab_evolves max).
Proof.
  split; [by intros t|].
  intros t1 t2 t3 (Hi1 & Hl1 & Hr1) (Hi2 & Hl2 & Hr2).
  split; [congruence|]. split; auto.
Qed.

(** The same tabs are stored, each one evolved. *)
Definition tm_evolve : relation TabManager.t :=
  fun m m' =>
    TabManager.max_log_entries m' = TabManager.max_log_entries m /\
    forall id, option_Forall2 (tab_evolves (TabManager.max_log_entries m))
                 (TabManager._tabs m !! id) (TabManager._tabs m' !! id).

#[global] Instance tm_evolve_preorder : PreOrder tm_evolve.
Proof.
  split.
  - intros m. split; [done|]. intros id. reflexivity.
  - intros m1 m2 m3 [Hm1 H1] [Hm2 H2]. split; [congruence|].
    intros id. specialize (H1 id). specialize (H2 id). rewrite Hm1 in H2.
    by etrans.
Qed.

Definition tabs_evolve : relation State :=
  fun s s' => tm_evolve (tab_manager s) (tab_manager s').

#[global] Instance tabs_evolve_preorder : PreOrder tabs_evolve.
Proof.
  split; [intros s; unfold tabs_evolve; reflexivity|].
  intros s1 s2 s3 H1 H2. unfold tabs_evolve in *. by etrans.
Qed.

Lemma same_tab_manager_evolve s s' : tab_manager s' = tab_manager s -> tabs_evolve s s'.
Proof. intros Hm. unfold tabs_evolve. rewrite Hm. reflexivity. Qed.

Lemma tm_evolve_insert m m' id t t' :
  TabManager.max_log_entries m' = TabManager.max_log_entries m ->
  TabManager._tabs m' = <[id := t']> (TabManager._tabs m) ->
  TabManager._tabs m !! id = Some t ->
  tab_evolves (TabManager.max_log_entries m) t t' ->
  tm_evolve m m'.
Proof.
  intros Hmax Htabs Ht Hev. split; [done|]. intros id'. rewrite Htabs.
  destruct (decide (id = id')) as [<-|Hne].
  - rewrite lookup_insert_eq, Ht. by constructor.
  - rewrite lookup_insert_ne by done. reflexivity.
Qed.

Lemma tm_evolve_same_tabs m m' :
  TabManager.max_log_entries m' = TabManager.max_log_entries m ->
  TabManager._tabs m' = TabManager._tabs m ->
  tm_evolve m m'.
Proof. intros Hmax Htabs. split; [done|]. intros id. rewrite Htabs. reflexivity. Qed.

(** An assignment to a field other than the id and the log. *)
Lemma tab_evolves_fields max t t' :
  Tab.id t' = Tab.id t -> Tab.logs t' = Tab.logs t -> Tab.log_seq t' = Tab.log_seq t ->
  (run_inv t -> run_inv t') ->
  tab_evolves max t t'.
Proof.
  intros Hid Hlogs Hseq Hrun. split; [done|]. split; [|done].
  unfold log_inv. by rewrite Hlogs, Hseq.
Qed.

Lemma run_inv_same_run t t' : Tab.run t' = Tab.run t -> run_inv t -> run_inv t'.
Proof. intros Hrun Hinv r. rewrite Hrun. apply Hinv. Qed.

Lemma run_inv_set_run t run :
  (forall r, run = Some r -> run_ok r) -> run_inv (Tab.set_run t run).
Proof. intros Hrun r. simpl. apply Hrun. Qed.

Lemma update_tab_evolve tab_id now title profile_id m :
  tm_evolve m (snd (TabManager.update_tab tab_id now title profile_id m)).
Proof.
  unfold TabManager.update_tab.
  destruct (TabManager._tabs m !! tab_id) as [tab|] eqn:Htab; [|reflexivity].
  eapply tm_evolve_insert; [done|done|exact Htab|].
  destruct title, profile_id; by apply tab_evolves_fields.
Qed.

(** The run given to [update_tab_status], if any, is open and without
    error text. *)
Definition fresh_run (run : option Run.t) : Prop :=
  forall r, run = Some r -> run_ok r.

Lemma update_tab_status_evolve tab_id now status run save m :
  fresh_run run ->
  tm_evolve m (snd (TabManager.update_tab_status tab_id now status run save m)).
Proof.
  intros Hrun. unfold TabManager.update_tab_status.
  destruct (TabManager._tabs m !! tab_id) as [tab|] eqn:Htab; [|reflexivity].
  eapply tm_evolve_insert; [..|exact Htab|].
  - by destruct save.
  - by destruct save.
  - destruct run as [r|]; apply tab_evolves_fields; try done.
Qed.

Lemma append_log_evolve tab_id now message interface m :
  tm_evolve m (snd (TabManager.append_log tab_id now message interface m)).
Proof.
  unfold TabManager.append_log.
  destruct (TabManager._tabs m !! tab_id) as [tab|] eqn:Htab; [|reflexivity].
  eapply tm_evolve_insert; [done|done|exact Htab|].
  split; [done|]. split; [|done]. intros Hinv.
  eapply (push_log_inv _ tab (LogEntry.Make (Tab.log_seq tab + 1) now message tab_id interface))
    in Hinv; [|reflexivity].
  destruct Hinv as (H1 & H2 & H3). by split.
Qed.

(** Storing back a tab that was read from the store, with a new status and
    run. *)
Lemma store_tab_evolve s s' tab_id tab status run now codes err :
  tabs s !! tab_id = Some tab ->
  TabManager.max_log_entries (tab_manager s') = TabManager.max_log_entries (tab_manager s) ->
  tabs s' = <[tab_id := Tab.set_status
                          (Tab.set_run tab (Some (Run.finish run now codes err))) status]>
              (tabs s) ->
  tabs_evolve s s'.
Proof.
  intros Htab Hmax Htabs. unfold tabs_evolve.
  eapply tm_evolve_insert; [exact Hmax|exact Htabs|exact Htab|].
  apply tab_evolves_fields; try done.
  intros _ r. simpl. intros [= <-]. intros Hfin. discriminate Hfin.
Qed.

(** *** Every operation but [create_tab] and [delete_tab] *)

Lemma broadcast_evolve ev : within tabs_evolve (TestExecutionManager._broadcast ev).
Proof. intros s. by apply same_tab_manager_evolve. Qed.

Lemma on_tabs_evolve {A} (f : TabManager.t -> A * TabManager.t) :
  (forall m, tm_evolve m (snd (f m))) -> within tabs_evolve (TestExecutionManager.on_tabs f).
Proof.
  intros Hf s. unfold TestExecutionManager.on_tabs, tabs_evolve.
  specialize (Hf (tab_manager s)). by destruct (f (tab_manager s)).
Qed.

Lemma on_tabs_raising_evolve {A} (f : TabManager.t -> Py.result A * TabManager.t) :
  (forall m, tm_evolve m (snd (f m))) ->
  within tabs_evolve (TestExecutionManager.on_tabs_raising f).
Proof.
  intros Hf s. unfold TestExecutionManager.on_tabs_raising, tabs_evolve.
  specialize (Hf (tab_manager s)). by destruct (f (tab_manager s)).
Qed.

Lemma append_log_tabs_evolve tab_id message interface :
  within tabs_evolve (TestExecutionManager._append_log tab_id message interface).
Proof.
  unfold TestExecutionManager._append_log.
  pose proof broadcast_evolve. within_auto.
  apply on_tabs_evolve. intros m. apply append_log_evolve.
Qed.

Lemma log_callback_tabs_evolve tab_id message interface :
  within tabs_evolve (TestExecutionManager.log_callback tab_id message interface).
Proof.
  unfold TestExecutionManager.log_callback.
  pose proof append_log_tabs_evolve. within_auto.
Qed.

Lemma modify_evolve (f : State -> State) :
  (forall s, tab_manager (f s) = tab_manager s) -> within tabs_evolve (Co.modify f).
Proof. intros Hf s. apply same_tab_manager_evolve, Hf. Qed.

Lemma send_signal_evolve h sig : within tabs_evolve (send_signal h sig).
Proof.
  intros s. apply same_tab_manager_evolve. unfold send_signal.
  destruct (subprocesses s !! h) as [p|]; [|done]. by destruct (returncode p).
Qed.

Lemma process_exits_evolve h rc s : tabs_evolve s (process_exits h rc s).
Proof.
  apply same_tab_manager_evolve. unfold process_exits.
  destruct (subprocesses s !! h) as [p|]; [|done]. by destruct (returncode p).
Qed.

Lemma wait_for_exit_evolve h outcome : within tabs_evolve (wait_for_exit h outcome).
Proof.
  intros s. unfold wait_for_exit.
  destruct (process_returncode s h), outcome; simpl; try reflexivity.
  apply process_exits_evolve.
Qed.

Lemma write_capture_metadata_evolve row file :
  within tabs_evolve (write_capture_metadata row file).
Proof. by apply modify_evolve. Qed.

Lemma cancel_task_evolve h : within tabs_evolve (RunExecutor.cancel_task h).
Proof.
  apply modify_evolve. intros s.
  destruct (tasks s !! h) as [w|]; [|done]. by destruct (w_status w).
Qed.

Lemma remove_run_evolve tab_id : within tabs_evolve (RunExecutor.remove_run tab_id).
Proof. intros s. by apply same_tab_manager_evolve. Qed.

Lemma set_watcher_task_evolve tab_id interface task :
  within tabs_evolve (RunExecutor.set_watcher_task tab_id interface task).
Proof. apply modify_evolve. intros s. by destruct (_runs s !! tab_id). Qed.

Lemma create_watcher_task_evolve tab_id run_id iproc :
  within tabs_evolve (TestExecutionManager.create_watcher_task tab_id run_id iproc).
Proof. intros s. by apply same_tab_manager_evolve. Qed.

Lemma save_state_evolve : within tabs_evolve TestExecutionManager.save_state.
Proof. intros s. unfold tabs_evolve. simpl. by apply tm_evolve_same_tabs. Qed.

#[global] Hint Resolve broadcast_evolve append_log_tabs_evolve log_callback_tabs_evolve
  send_signal_evolve wait_for_exit_evolve write_capture_metadata_evolve cancel_task_evolve
  remove_run_evolve set_watcher_task_evolve create_watcher_task_evolve save_state_evolve
  : within.

Lemma terminate_process_safely_evolve log_callback h r interface :
  (forall message i, within tabs_evolve (log_callback message i)) ->
  within tabs_evolve (terminate_process_safely log_callback h r interface).
Proof. intros Hcb. unfold terminate_process_safely. within_auto. Qed.

#[global] Hint Resolve terminate_process_safely_evolve : within.

(** *** The watcher, for any relation that its callbacks respect *)

Section WatchWithin.
Context {S : Type} (R : relation S) `{!PreOrder R}.
Variable log_callback : string -> option string -> M S unit.
Variable exit_callback : option Z -> option string -> M S unit.
Hypothesis log_within : forall message i, within R (log_callback message i).
Hypothesis exit_within : forall rc err, within R (exit_callback rc err).

Lemma read_loop_within interface reads :
  within R (ProcessManager.read_loop log_callback interface reads).
Proof.
  induction reads as [|[line|e] rest IH]; simpl.
  - apply within_ret, _.
  - destruct (negb (Py.nonempty line)); [apply within_ret, _|].
    apply within_bind; [apply _| |intros _; exact IH].
    apply within_try_except; [apply _|apply log_within|intros; apply within_ret, _].
  - repeat (destruct (Py.isinstance e _));
      first [apply within_ret, _|apply within_raise, _].
Qed.

Lemma report_error_within p interface prefix exc :
  within R (ProcessManager.report_error log_callback exit_callback p interface prefix exc).
Proof.
  unfold ProcessManager.report_error.
  apply within_bind; [apply _| |intros _].
  - apply within_try_except; [apply _|apply log_within|intros; apply within_ret, _].
  - apply within_try_except; [apply _|apply exit_within|intros; apply within_ret, _].
Qed.

Lemma watch_interface_process_within p interface capture_id :
  within R (ProcessManager.watch_interface_process log_callback exit_callback
              p interface capture_id).
Proof.
  intros s. unfold ProcessManager.watch_interface_process.
  match goal with
  | |- context [ match ?body s with _ => _ end ] =>
      assert (Hbody : within R body)
  end.
  { apply within_bind; [apply _| |intros _].
    - destruct (ProcessManager.stdout p); [apply read_loop_within|apply within_ret, _].
    - apply within_bind; [apply _|apply within_lift, _|intros rc; apply exit_within]. }
  specialize (Hbody s).
  match goal with
  | |- context [ match ?body s with _ => _ end ] => destruct (body s) as [[[]|exc] s']
  end; cbn [snd] in *; [exact Hbody|].
  repeat (destruct (Py.isinstance exc _)); cbn [snd]; try exact Hbody;
    (etrans; [exact Hbody|apply report_error_within]).
Qed.
End WatchWithin.

(** *** The finalisations *)

Lemma mark_run_failed_evolve tab_id run_id message :
  within tabs_evolve (TestExecutionManager._mark_run_failed tab_id run_id message).
Proof.
  unfold TestExecutionManager._mark_run_failed.
  apply within_bind; [apply _|apply append_log_tabs_evolve|intros _].
  intros s. unfold TestExecutionManager.get_tab_object, TabManager.get_tab_object.
  rewrite bind_gets.
  destruct (TabManager._tabs (tab_manager s) !! tab_id) as [tab|] eqn:Htab; [|reflexivity].
  destruct (Tab.run tab) as [run|]; [|reflexivity].
  destruct (_ && _); [reflexivity|].
  eapply store_tab_evolve; [exact Htab|reflexivity|reflexivity].
Qed.

Lemma handle_exit_evolve tab_id run_id interface capture_id pid returncode error :
  within tabs_evolve
    (TestExecutionManager._handle_interface_process_exit tab_id run_id interface
       capture_id pid returncode error).
Proof.
  unfold TestExecutionManager._handle_interface_process_exit.
  apply within_bind; [apply _|apply within_gets, _|intros file].
  apply within_bind; [apply _|apply within_gets, _|intros now].
  apply within_bind; [apply _|apply write_capture_metadata_evolve|intros _].
  apply within_bind; [apply _|apply append_log_tabs_evolve|intros _].
  apply within_bind; [apply _|apply within_gets, _|intros [all_done exit_codes]].
  destruct all_done; [|apply within_ret, _].
  intros s. unfold TestExecutionManager.get_tab_object, TabManager.get_tab_object.
  rewrite bind_gets.
  destruct (TabManager._tabs (tab_manager s) !! tab_id) as [tab|] eqn:Htab; [|reflexivity].
  destruct (Tab.run tab) as [run|]; [|reflexivity].
  destruct (negb _); [reflexivity|].
  destruct (Py.truthy_opt_str (Run.finished_utc run)); [reflexivity|].
  unfold utcnow_iso, TestExecutionManager.store_tab, TestExecutionManager.save_state,
    TestExecutionManager._broadcast at 1, RunExecutor.remove_run.
  rewrite bind_gets, bind_modify, bind_run. cbv beta iota.
  rewrite !bind_modify.
  match goal with
  | |- tabs_evolve s (snd (Co.bind ?m ?k ?s1)) =>
      assert (Hs1 : tabs_evolve s s1);
      [|etrans; [exact Hs1|];
        assert (Hw : within tabs_evolve (Co.bind m k))
          by (apply within_bind;
              [apply _|apply append_log_tabs_evolve|intros; apply within_ret, _]);
        apply Hw]
  end.
  eapply store_tab_evolve; [exact Htab|reflexivity|reflexivity].
Qed.

Lemma stop_test_evolve react tab_id :
  within tabs_evolve (TestExecutionManager.stop_test react tab_id).
Proof.
  unfold TestExecutionManager.stop_test.
  apply within_bind; [apply _| |intros res].
  { unfold RunExecutor.stop_test. within_auto; by apply modify_evolve. }
  intros s. unfold TestExecutionManager.get_tab_object, TabManager.get_tab_object.
  destruct res as [|run_id exit_codes file]; rewrite bind_gets.
  - destruct (TabManager._tabs (tab_manager s) !! tab_id); reflexivity.
  - destruct (TabManager._tabs (tab_manager s) !! tab_id) as [tab|] eqn:Htab; [|reflexivity].
    rewrite bind_run.
    destruct (Tab.run tab) as [run|]; [|by apply same_tab_manager_evolve].
    destruct (Py.truthy_opt_str (Run.finished_utc run));
      [by apply same_tab_manager_evolve|].
    eapply store_tab_evolve; [exact Htab|reflexivity|reflexivity].
Qed.

#[global] Hint Resolve mark_run_failed_evolve handle_exit_evolve stop_test_evolve : within.

Lemma watch_and_handle_exit_evolve tab_id run_id iproc p :
  within tabs_evolve (TestExecutionManager._watch_and_handle_exit tab_id run_id iproc p).
Proof.
  unfold TestExecutionManager._watch_and_handle_exit.
  apply watch_interface_process_within; [apply _|..]; intros; eauto with within.
Qed.

Lemma run_watcher_evolve h p : within tabs_evolve (TestExecutionManager.run_watcher h p).
Proof.
  intros s. unfold TestExecutionManager.run_watcher.
  destruct (tasks s !! h) as [[tab_id run_id iproc []]|]; try reflexivity.
  match goal with
  | |- context [ TestExecutionManager._watch_and_handle_exit _ _ _ _ ?s1 ] =>
      assert (Hs1 : tabs_evolve s s1)
        by (destruct (ProcessManager.wait p);
            [apply process_exits_evolve|reflexivity]);
      pose proof (watch_and_handle_exit_evolve tab_id run_id iproc p s1) as Hw;
      destruct (TestExecutionManager._watch_and_handle_exit tab_id run_id iproc p s1)
        as [r s2]
  end.
  cbn [snd] in *. etrans; [exact Hs1|]. etrans; [exact Hw|].
  by apply same_tab_manager_evolve.
Qed.

Lemma abort_all_evolve : within tabs_evolve TestExecutionManager.abort_all.
Proof.
  unfold TestExecutionManager.abort_all, RunExecutor.abort_all.
  within_auto; by apply modify_evolve.
Qed.

Lemma auto_stop_evolve `{Py.Runtime} react tab_id run_id duration :
  within tabs_evolve
    (TestExecutionManager._auto_stop_after_duration react tab_id run_id duration).
Proof.
  unfold TestExecutionManager._auto_stop_after_duration, TestExecutionManager.sleep,
    TestExecutionManager.get_tab_object, RunExecutor.is_running.
  within_auto.
Qed.

(** *** Starting *)

Lemma cleanup_evolve ps : within tabs_evolve (RunExecutor._cleanup_started_processes ps).
Proof. unfold RunExecutor._cleanup_started_processes. within_auto. Qed.

#[global] Hint Resolve cleanup_evolve : within.

Lemma spawn_all_evolve `{Py.Runtime} log_callback env tab_name profile ctx ts mc gen idx
    ctxs acc :
  (forall message i, within tabs_evolve (log_callback message i)) ->
  within tabs_evolve
    (RunExecutor.spawn_all log_callback env tab_name profile ctx ts mc gen idx ctxs acc).
Proof.
  intros Hcb. revert idx acc. induction ctxs as [|c rest IH]; intros idx acc; simpl.
  - apply within_ret, _.
  - destruct (RunExecutor.spawn env idx) as [pid|exc].
    + apply within_bind; [apply _| |intros handle].
      { intros s. by apply same_tab_manager_evolve. }
      apply within_bind; [apply _|apply write_capture_metadata_evolve|intros _].
      apply within_bind; [apply _|apply Hcb|intros _]. apply IH.
    + unfold RunExecutor.spawn_failed. within_auto.
Qed.

Lemma executor_start_test_evolve `{Py.Runtime} log_callback env tab_id profile tab_name :
  (forall message i, within tabs_evolve (log_callback message i)) ->
  within tabs_evolve (RunExecutor.start_test log_callback env tab_id profile tab_name).
Proof.
  intros Hcb. unfold RunExecutor.start_test, RunExecutor.is_running.
  pose proof (spawn_all_evolve log_callback) as Hspawn.
  within_auto; first [by apply modify_evolve|intros s; reflexivity].
Qed.

Lemma start_duration_timer_evolve `{Py.Runtime} tab_id run_id profile :
  within tabs_evolve (TestExecutionManager.start_duration_timer tab_id run_id profile).
Proof.
  unfold TestExecutionManager.start_duration_timer. within_auto; by apply modify_evolve.
Qed.

Lemma start_test_evolve `{Py.Runtime} env tab_id profile :
  within tabs_evolve (TestExecutionManager.start_test env tab_id profile).
Proof.
  unfold TestExecutionManager.start_test, TestExecutionManager.get_tab_object,
    RunExecutor.is_running.
  pose proof (executor_start_test_evolve (TestExecutionManager.log_callback tab_id) env
                tab_id profile) as Hstart.
  pose proof start_duration_timer_evolve as Htimer.
  within_auto;
    first [apply on_tabs_evolve; intros m; apply update_tab_status_evolve;
           intros r Hr; first [discriminate Hr|injection Hr as <-; by intros _]
          |intros s; reflexivity].
Qed.

(** *** Invariants of the tab store along a run of the engine *)

Definition max_logs (s : State) : nat := TabManager.max_log_entries (tab_manager s).

(** Every stored tab has a well-formed log buffer. *)
Definition logs_ok (s : State) : Prop :=
  forall id tab, tabs s !! id = Some tab -> log_inv (max_logs s) tab.

(** No open run of a stored tab carries an error text. *)
Definition runs_ok (s : State) : Prop :=
  forall id tab, tabs s !! id = Some tab -> run_inv tab.

(** Every tab is stored under its own id. *)
Definition well_keyed (s : State) : Prop :=
  forall id tab, tabs s !! id = Some tab -> Tab.id tab = id.

Lemma evolve_lookup s s' id tab' :
  tabs_evolve s s' -> tabs s' !! id = Some tab' ->
  exists tab, tabs s !! id = Some tab /\ tab_evolves (max_logs s) tab tab'.
Proof.
  intros [_ Hev] Htab'. specialize (Hev id). unfold tabs in *. rewrite Htab' in Hev.
  inversion Hev as [tab ? Hstep|]; subst. by exists tab.
Qed.

Lemma evolve_absent s s' id :
  tabs_evolve s s' -> tabs s !! id = None -> tabs s' !! id = None.
Proof.
  intros [_ Hev] Hnone. specialize (Hev id). unfold tabs in *. rewrite Hnone in Hev.
  by inversion Hev.
Qed.

Lemma evolve_max s s' : tabs_evolve s s' -> max_logs s' = max_logs s.
Proof. by intros [Hmax _]. Qed.

Lemma evolve_logs_ok s s' : tabs_evolve s s' -> logs_ok s -> logs_ok s'.
Proof.
  intros Hev Hok id tab' Htab'.
  destruct (evolve_lookup _ _ _ _ Hev Htab') as (tab & Htab & _ & Hlog & _).
  rewrite (evolve_max _ _ Hev). apply Hlog. by apply (Hok id).
Qed.

Lemma evolve_runs_ok s s' : tabs_evolve s s' -> runs_ok s -> runs_ok s'.
Proof.
  intros Hev Hok id tab' Htab'.
  destruct (evolve_lookup _ _ _ _ Hev Htab') as (tab & Htab & _ & _ & Hrun).
  apply Hrun. by apply (Hok id).
Qed.

Lemma evolve_well_keyed s s' : tabs_evolve s s' -> well_keyed s -> well_keyed s'.
Proof.
  intros Hev Hok id tab' Htab'.
  destruct (evolve_lookup _ _ _ _ Hev Htab') as (tab & Htab & Hid & _).
  rewrite Hid. by apply Hok.
Qed.

(** The calls that add or remove a tab. *)
Definition creates (tab_id : string) (c : Trace.call) : Prop :=
  match c with
  | Trace.CreateTab id _ _ => id = tab_id
  | _ => False
  end.

Lemma create_tab_tabs tab_id title profile_id s :
  exists tab,
    tabs (snd (TestExecutionManager.create_tab tab_id title profile_id s))
      = <[tab_id := tab]> (tabs s) /\
    max_logs (snd (TestExecutionManager.create_tab tab_id title profile_id s)) = max_logs s /\
    Tab.id tab = tab_id /\ log_inv (max_logs s) tab /\ run_inv tab.
Proof.
  eexists. split; [reflexivity|]. split; [reflexivity|]. split; [reflexivity|].
  split; [|intros r; discriminate].
  unfold log_inv. cbn. split; [reflexivity|]. split; [lia|reflexivity].
Qed.

Lemma delete_tab_tabs tab_id s :
  max_logs (snd (TestExecutionManager.delete_tab tab_id s)) = max_logs s /\
  (tabs (snd (TestExecutionManager.delete_tab tab_id s)) = tabs s \/
   tabs (snd (TestExecutionManager.delete_tab tab_id s)) = delete tab_id (tabs s)).
Proof.
  unfold TestExecutionManager.delete_tab, RunExecutor.get_running_tab_ids.
  rewrite bind_gets, bind_run.
  unfold TestExecutionManager.on_tabs_raising, TabManager.delete_tab.
  destruct (bool_decide (tab_id ∈ dom (_runs s))); [by split; [|left]|].
  destruct (TabManager._tabs (tab_manager s) !! tab_id); [|by split; [|left]].
  split; [done|]. by right.
Qed.

Section Runs.
Context `{Py.Runtime}.

(** Every other call or event lets the tabs evolve. *)
Lemma exec_evolve c s :
  match c with
  | Trace.CreateTab _ _ _ | Trace.DeleteTab _ => True
  | _ => tabs_evolve s (Trace.exec c s)
  end.
Proof.
  destruct c; try exact I; simpl.
  - (* update_tab *)
    unfold TestExecutionManager.update_tab, utcnow_iso. rewrite bind_gets, bind_run.
    pose proof (update_tab_evolve tab_id (clock s) title profile_id (tab_manager s)) as Hev.
    unfold TestExecutionManager.on_tabs_raising.
    destruct (TabManager.update_tab _ _ _ _ _) as [[d|e] m]; exact Hev.
  - apply start_test_evolve.
  - apply stop_test_evolve.
  - apply abort_all_evolve.
  - by apply same_tab_manager_evolve.
  - by apply same_tab_manager_evolve.
  - by apply same_tab_manager_evolve.
  - apply run_watcher_evolve.
  - apply process_exits_evolve.
  - apply auto_stop_evolve.
  - by apply same_tab_manager_evolve.
Qed.

Lemma exec_create tab_id title profile_id s :
  Trace.exec (Trace.CreateTab tab_id title profile_id) s
  = snd (TestExecutionManager.create_tab tab_id title profile_id s).
Proof. reflexivity. Qed.

Lemma exec_delete tab_id s :
  Trace.exec (Trace.DeleteTab tab_id) s = snd (TestExecutionManager.delete_tab tab_id s).
Proof. reflexivity. Qed.

Lemma exec_max c s : max_logs (Trace.exec c s) = max_logs s.
Proof.
  pose proof (exec_evolve c s) as Hev.
  destruct c; try (by apply evolve_max).
  - rewrite exec_create.
    by destruct (create_tab_tabs tab_id title profile_id s) as (tab & _ & Hmax & _).
  - rewrite exec_delete. apply delete_tab_tabs.
Qed.

Lemma exec_logs_ok c s : logs_ok s -> logs_ok (Trace.exec c s).
Proof.
  intros Hok. pose proof (exec_evolve c s) as Hev.
  destruct c; try (by eapply evolve_logs_ok).
  - destruct (create_tab_tabs tab_id title profile_id s)
      as (tab & Htabs & Hmax & _ & Hlog & _).
    intros id tab'. rewrite exec_create, Htabs, Hmax.
    destruct (decide (tab_id = id)) as [<-|Hne].
    + rewrite lookup_insert_eq. by intros [= <-].
    + rewrite lookup_insert_ne by done. apply Hok.
  - destruct (delete_tab_tabs tab_id s) as [Hmax [Htabs|Htabs]];
      intros id tab'; rewrite exec_delete, Htabs, Hmax.
    + apply Hok.
    + intros [_ Hl]%lookup_delete_Some. by apply (Hok id).
Qed.

Lemma exec_runs_ok c s : runs_ok s -> runs_ok (Trace.exec c s).
Proof.
  intros Hok. pose proof (exec_evolve c s) as Hev.
  destruct c; try (by eapply evolve_runs_ok).
  - destruct (create_tab_tabs tab_id title profile_id s)
      as (tab & Htabs & _ & _ & _ & Hrun).
    intros id tab'. rewrite exec_create, Htabs.
    destruct (decide (tab_id = id)) as [<-|Hne].
    + rewrite lookup_insert_eq. by intros [= <-].
    + rewrite lookup_insert_ne by done. apply Hok.
  - destruct (delete_tab_tabs tab_id s) as [_ [Htabs|Htabs]];
      intros id tab'; rewrite exec_delete, Htabs.
    + apply Hok.
    + intros [_ Hl]%lookup_delete_Some. by apply (Hok id).
Qed.

Lemma exec_well_keyed c s : well_keyed s -> well_keyed (Trace.exec c s).
Proof.
  intros Hok. pose proof (exec_evolve c s) as Hev.
  destruct c; try (by eapply evolve_well_keyed).
  - destruct (create_tab_tabs tab_id title profile_id s) as (tab & Htabs & _ & Hid & _).
    intros id tab'. rewrite exec_create, Htabs.
    destruct (decide (tab_id = id)) as [<-|Hne].
    + rewrite lookup_insert_eq. by intros [= <-].
    + rewrite lookup_insert_ne by done. apply Hok.
  - destruct (delete_tab_tabs tab_id s) as [_ [Htabs|Htabs]];
      intros id tab'; rewrite exec_delete, Htabs.
    + apply Hok.
    + intros [_ Hl]%lookup_delete_Some. by apply (Hok id).
Qed.

Lemma exec_absent c s id :
  ~ creates id c -> tabs s !! id = None -> tabs (Trace.exec c s) !! id = None.
Proof.
  intros Hc Hnone. pose proof (exec_evolve c s) as Hev.
  destruct c; try (by eapply evolve_absent).
  - destruct (create_tab_tabs tab_id title profile_id s) as (tab & Htabs & _).
    rewrite exec_create, Htabs. by rewrite lookup_insert_ne.
  - destruct (delete_tab_tabs tab_id s) as [_ [Htabs|Htabs]];
      rewrite exec_delete, Htabs.
    + done.
    + apply lookup_delete_None. by right.
Qed.

Lemma run_logs_ok cs s : logs_ok s -> logs_ok (Trace.run cs s).
Proof.
  revert s. induction cs as [|c cs IH]; intros s Hok; simpl; [done|].
  apply IH. by apply exec_logs_ok.
Qed.

Lemma run_runs_ok cs s : runs_ok s -> runs_ok (Trace.run cs s).
Proof.
  revert s. induction cs as [|c cs IH]; intros s Hok; simpl; [done|].
  apply IH. by apply exec_runs_ok.
Qed.

Lemma run_max cs s : max_logs (Trace.run cs s) = max_logs s.
Proof.
  revert s. induction cs as [|c cs IH]; intros s; simpl; [done|].
  by rewrite IH, exec_max.
Qed.

Lemma run_well_keyed cs s : well_keyed s -> well_keyed (Trace.run cs s).
Proof.
  revert s. induction cs as [|c cs IH]; intros s Hok; simpl; [done|].
  apply IH. by apply exec_well_keyed.
Qed.

Lemma run_absent cs s id :
  Forall (fun c => ~ creates id c) cs ->
  tabs s !! id = None -> tabs (Trace.run cs s) !! id = None.
Proof.
  revert s. induction cs as [|c cs IH]; intros s Hcs Hnone; simpl; [done|].
  inversion Hcs; subst. apply IH; [done|]. by apply exec_absent.
Qed.
End Runs.

Lemma init_logs_ok now capture_dir tcpdump_bin max :
  logs_ok (Engine.init now capture_dir tcpdump_bin max None).
Proof. intros id tab. unfold tabs. simpl. by rewrite lookup_empty. Qed.

Lemma init_runs_ok now capture_dir tcpdump_bin max :
  runs_ok (Engine.init now capture_dir tcpdump_bin max None).
Proof. intros id tab. unfold tabs. simpl. by rewrite lookup_empty. Qed.

Lemma init_well_keyed now capture_dir tcpdump_bin max :
  well_keyed (Engine.init now capture_dir tcpdump_bin max None).
Proof. intros id tab. unfold tabs. simpl. by rewrite lookup_empty. Qed.

(** The entry at position [i] of a well-formed buffer. *)
Lemma log_inv_lookup max tab i entry :
  log_inv max tab ->
  Deque.items (Tab.logs tab) !! i = Some entry ->
  LogEntry.seq entry
    = Tab.log_seq tab - Z.of_nat (length (Deque.items (Tab.logs tab))) + 1 + Z.of_nat i.
Proof.
  intros (_ & _ & Hseqs) Hi.
  assert (Hl : (LogEntry.seq <$> Deque.items (Tab.logs tab)) !! i = Some (LogEntry.seq entry))
    by (by rewrite list_lookup_fmap, Hi).
  rewrite Hseqs in Hl. apply lookup_seqZ in Hl. lia.
Qed.



(** ** Deleting a tab (claim C9) *)

Definition still_running (tab_id : string) : string :=
  "Test läuft noch in Tab '" +:+ tab_id +:+ "', zuerst stoppen".

(** The result of [list_tabs] in state [s]. *)
Definition listed (s : State) : list Tab.dict := TabManager.list_tabs (tab_manager s).

Lemma elem_of_listed s d :
  d ∈ listed s <-> exists id tab, tabs s !! id = Some tab /\ d = Tab.to_dict tab.
Proof.
  unfold listed, TabManager.list_tabs, tabs. rewrite list_elem_of_fmap. split.
  - intros (tab & -> & Hin). apply list_elem_of_fmap in Hin as ([id tab'] & -> & Hin).
    apply elem_of_map_to_list in Hin. eauto.
  - intros (id & tab & Hl & ->). exists tab. split; [done|].
    apply list_elem_of_fmap. exists (id, tab). split; [done|].
    by apply elem_of_map_to_list.
Qed.

Lemma delete_tab_running tab_id s :
  tab_id ∈ dom (_runs s) ->
  TestExecutionManager.delete_tab tab_id s
    = (Py.Raise (Py.Exn Py.TestAlreadyRunningError (still_running tab_id)), s).
Proof.
  intros Hrun. unfold TestExecutionManager.delete_tab, RunExecutor.get_running_tab_ids.
  rewrite bind_gets, bind_run.
  unfold TestExecutionManager.on_tabs_raising, TabManager.delete_tab.
  rewrite bool_decide_eq_true_2 by done. by destruct s.
Qed.

Lemma delete_tab_idle tab_id s tab :
  tabs s !! tab_id = Some tab ->
  tab_id ∉ dom (_runs s) ->
  fst (TestExecutionManager.delete_tab tab_id s) = Py.Ok () /\
  tabs (snd (TestExecutionManager.delete_tab tab_id s)) = delete tab_id (tabs s).
Proof.
  intros Htab Hrun. unfold TestExecutionManager.delete_tab, RunExecutor.get_running_tab_ids.
  rewrite bind_gets, bind_run.
  unfold TestExecutionManager.on_tabs_raising, TabManager.delete_tab.
  rewrite bool_decide_eq_false_2 by done. unfold tabs in Htab. rewrite Htab. by split.
Qed.

(** C9: [delete_tab] on a tab whose id is in the run executor's active set
    raises the conflict error and leaves the whole state as it was, so the
    tab is still listed; on a stored tab that is not running it succeeds,
    and the tab id is then absent from the store and from the result of
    [list_tabs], and stays so over any later calls and events in which no
    tab is created under that id again. *)
Theorem delete_tab_running_conflict_else_gone `{Py.Runtime}
    (s : State) (tab_id : string) (tab : Tab.t)
    (Htab : tabs s !! tab_id = Some tab)
    (Hkeys : well_keyed s) :
  (tab_id ∈ dom (_runs s) ->
   TestExecutionManager.delete_tab tab_id s
     = (Py.Raise (Py.Exn Py.TestAlreadyRunningError (still_running tab_id)), s) /\
   Tab.to_dict tab ∈ listed (snd (TestExecutionManager.delete_tab tab_id s))) /\
  (tab_id ∉ dom (_runs s) ->
   fst (TestExecutionManager.delete_tab tab_id s) = Py.Ok () /\
   forall later : list Trace.call,
     Forall (fun c => ~ creates tab_id c) later ->
     let s' := Trace.run later (snd (TestExecutionManager.delete_tab tab_id s)) in
     tabs s' !! tab_id = None /\
     forall d, d ∈ listed s' -> Tab.d_id d <> Some tab_id).
Proof.
  split.
  - intros Hrun. rewrite delete_tab_running by done. split; [done|].
    apply elem_of_listed. eauto.
  - intros Hrun. destruct (delete_tab_idle tab_id s tab Htab Hrun) as [Hok Htabs].
    split; [exact Hok|]. intros later Hlater s'.
    assert (Hgone : tabs s' !! tab_id = None).
    { apply run_absent; [done|]. rewrite Htabs. apply lookup_delete_eq. }
    split; [exact Hgone|].
    assert (Hkeys' : well_keyed s').
    { apply run_well_keyed. rewrite <- exec_delete. by apply exec_well_keyed. }
    intros d (id & tab' & Hl & ->)%elem_of_listed [= Hid].
    rewrite (Hkeys' _ _ Hl) in Hid. subst id. by rewrite Hgone in Hl.
Qed.

Lemma running_as_run :
  Example.running
  = Trace.run [Trace.CreateTab "t1" (Some "Messung 1") None;
               Trace.StartTest Example.spawns_ok "t1" Example.profile] Example.fresh.
Proof. reflexivity. Qed.

Lemma idle_as_run :
  Example.idle = Trace.run [Trace.CreateTab "t1" (Some "Messung 1") None] Example.fresh.
Proof. reflexivity. Qed.

Lemma running_well_keyed : well_keyed Example.running.
Proof. rewrite running_as_run. apply run_well_keyed, init_well_keyed. Qed.

Lemma idle_well_keyed : well_keyed Example.idle.
Proof. rewrite idle_as_run. apply run_well_keyed, init_well_keyed. Qed.

Lemma running_has_tab : exists tab, tabs Example.running !! "t1" = Some tab.
Proof. eexists. vm_compute. reflexivity. Qed.

Lemma running_has_run : exists run, _runs Example.running !! "t1" = Some run.
Proof. eexists. vm_compute. reflexivity. Qed.

Lemma idle_has_tab : exists tab, tabs Example.idle !! "t1" = Some tab.
Proof. eexists. vm_compute. reflexivity. Qed.

Lemma idle_has_no_run : _runs Example.idle !! "t1" = None.
Proof. vm_compute. reflexivity. Qed.

Lemma delete_tab_running_conflict_else_gone_witness :
  (TestExecutionManager.delete_tab "t1" Example.running
     = (Py.Raise (Py.Exn Py.TestAlreadyRunningError (still_running "t1")),
        Example.running)) /\
  (fst (TestExecutionManager.delete_tab "t1" Example.idle) = Py.Ok () /\
   tabs (Trace.run [Trace.CreateTab "t2" None None; Trace.Tick "20240101T000100Z"]
           (snd (TestExecutionManager.delete_tab "t1" Example.idle))) !! "t1" = None).
Proof.
  split.
  - destruct running_has_tab as [tab Htab]. destruct running_has_run as [run Hrun].
    destruct (delete_tab_running_conflict_else_gone Example.running "t1" tab Htab
                running_well_keyed) as [Hconflict _].
    apply Hconflict. apply elem_of_dom. by exists run.
  - destruct idle_has_tab as [tab Htab].
    destruct (delete_tab_running_conflict_else_gone Example.idle "t1" tab Htab
                idle_well_keyed) as [_ Hgone].
    assert (Hno : "t1" ∉ dom (_runs Example.idle)).
    { apply not_elem_of_dom. apply idle_has_no_run. }
    destruct (Hgone Hno) as [Hok Hlater]. split; [exact Hok|].
    apply Hlater. repeat constructor; simpl; [discriminate|tauto].
Defined.

(** ** The status of a finished run (claim C1) *)

(** The exit codes of the processes of a run, in the order of their start. *)
Definition exit_codes_of (s : State) (rt : ProcessManager.RunningTest) : list (option Z) :=
  map (fun iproc => process_returncode s (ProcessManager.process iproc))
      (ProcessManager.processes rt).

(** Every process of the run has reported an exit code. *)
Definition all_reported (s : State) (rt : ProcessManager.RunningTest) : Prop :=
  Forall is_Some (exit_codes_of s rt).

Lemma check_all_processes_done_run tab_id rt s :
  _runs s !! tab_id = Some rt ->
  exists all_done,
    RunExecutor.check_all_processes_done tab_id s = (Py.Ok (all_done, exit_codes_of s rt), s) /\
    (all_done = true <-> all_reported s rt).
Proof.
  intros Hrt. unfold RunExecutor.check_all_processes_done, Co.gets. rewrite Hrt.
  eexists. split; [reflexivity|].
  unfold all_reported, exit_codes_of.
  rewrite Forall_map, forallb_forall, List.Forall_forall.
  split; intros Hall x Hx.
  - apply Hall in Hx. by apply bool_decide_eq_true in Hx.
  - by apply bool_decide_eq_true, Hall.
Qed.

(** What a call of the exit handler leaves as it was while the run waits
    for other processes. *)
Record exit_frame (s s' : State) : Prop := {
  ef_runs : _runs s' = _runs s;
  ef_subprocesses : subprocesses s' = subprocesses s;
  ef_tasks : tasks s' = tasks s;
  ef_clock : clock s' = clock s;
  ef_cores : same_cores s s';
}.

#[global] Instance exit_frame_preorder : PreOrder exit_frame.
Proof.
  split.
  - intros s. by split.
  - intros s1 s2 s3 [] []. split; try congruence; by etrans.
Qed.

Lemma log_frame_exit_frame s s' : log_frame s s' -> exit_frame s s'.
Proof. intros []. by split. Qed.

Lemma exit_frame_codes s s' rt : exit_frame s s' -> exit_codes_of s' rt = exit_codes_of s rt.
Proof.
  intros [_ Hsub _ _ _]. unfold exit_codes_of, process_returncode. by rewrite Hsub.
Qed.

(** The handler up to its test of the exit codes. *)
Ltac handler_prefix s1 Hframe :=
  unfold TestExecutionManager._handle_interface_process_exit,
    RunExecutor.get_test_metadata_file, utcnow_iso, write_capture_metadata;
  rewrite !bind_gets, bind_modify, bind_run;
  match goal with
  | |- context [ TestExecutionManager._append_log ?a ?b ?c ?s0 ] =>
      let r := fresh "r" in
      let Hrun := fresh "Hrun" in
      let Hlog := fresh "Hlog" in
      destruct (append_log_run a b c s0) as (r & s1 & Hrun & Hlog);
      rewrite Hrun;
      assert (Hframe : exit_frame s0 s1) by (by apply log_frame_exit_frame);
      clear Hrun Hlog
  end.

(** While a process of the run has not reported, the handler changes
    neither the run nor the tab (its log apart). *)
Lemma handle_exit_waits tab_id run_id interface capture_id pid returncode error rt s :
  _runs s !! tab_id = Some rt ->
  ~ all_reported s rt ->
  exists s',
    TestExecutionManager._handle_interface_process_exit tab_id run_id interface capture_id
      pid returncode error s = (Py.Ok (), s') /\
    exit_frame s s'.
Proof.
  intros Hrt Hnot. handler_prefix s1 Hframe.
  destruct Hframe as [Hruns Hsub Htasks Hclock Hcores]. cbn in Hruns, Hsub, Htasks, Hclock.
  rewrite bind_run.
  destruct (check_all_processes_done_run tab_id rt s1) as (all_done & -> & Hdone).
  { by rewrite Hruns. }
  destruct all_done.
  - exfalso. apply Hnot. destruct Hdone as [Hdone _].
    specialize (Hdone eq_refl). unfold all_reported, exit_codes_of, process_returncode in *.
    by rewrite <- Hsub.
  - eexists. split; [reflexivity|]. by split.
Qed.

(** The status that the exit handler gives to a run that ends with
    [exit_codes] and [error]. *)
Definition handler_status (exit_codes : list (option Z)) (error : option string) : string :=
  if Py.truthy_opt_str error then TabStatus.FAILED
  else if TestExecutionManager.any_failed exit_codes then TabStatus.FAILED
  else TabStatus.COMPLETED.

(** Once every process of the live, open run has reported, the handler
    finishes the run. *)
Lemma handle_exit_finalizes tab_id interface capture_id pid returncode error rt tab run s :
  _runs s !! tab_id = Some rt ->
  all_reported s rt ->
  tabs s !! tab_id = Some tab ->
  Tab.run tab = Some run ->
  Py.truthy_opt_str (Run.finished_utc run) = false ->
  exists s' tab',
    TestExecutionManager._handle_interface_process_exit tab_id (Run.id run) interface
      capture_id pid returncode error s = (Py.Ok (), s') /\
    tabs s' !! tab_id = Some tab' /\
    Tab.status tab' = handler_status (exit_codes_of s rt) error /\
    Tab.run tab' = Some (Run.finish run (clock s) (exit_codes_of s rt) error) /\
    _runs s' = delete tab_id (_runs s) /\
    subprocesses s' = subprocesses s /\ tasks s' = tasks s /\ clock s' = clock s /\
    (forall id, id <> tab_id -> tab_core <$> (tabs s' !! id) = tab_core <$> (tabs s !! id)).
Proof.
  intros Hrt Hall Htab Hrun Hopen. handler_prefix s1 Hframe.
  pose proof (exit_frame_codes _ _ rt Hframe) as Hcodes.
  destruct Hframe as [Hruns Hsub Htasks Hclock Hcores]. cbn in Hruns, Hsub, Htasks, Hclock.
  rewrite bind_run.
  destruct (check_all_processes_done_run tab_id rt s1) as (all_done & -> & Hdone).
  { by rewrite Hruns. }
  assert (Hcodes' : exit_codes_of s1 rt = exit_codes_of s rt).
  { rewrite Hcodes. unfold exit_codes_of, process_returncode. reflexivity. }
  assert (all_done = true) as ->.
  { apply Hdone. unfold all_reported. by rewrite Hcodes'. }
  rewrite Hcodes'. clear Hcodes Hcodes' Hdone.
  destruct (same_cores_lookup _ s1 tab_id tab Hcores) as (tab1 & Htab1 & Hcore1).
  { exact Htab. }
  unfold TestExecutionManager.get_tab_object, TabManager.get_tab_object. rewrite bind_gets.
  unfold tabs in Htab1. rewrite Htab1.
  assert (Hrun1 : Tab.run tab1 = Some run).
  { unfold tab_core in Hcore1. injection Hcore1 as _ _ _ _ _ ->. exact Hrun. }
  rewrite Hrun1, String.eqb_refl, Hopen. cbn [negb].
  unfold utcnow_iso, TestExecutionManager.store_tab, RunExecutor.remove_run,
    TestExecutionManager.save_state, TestExecutionManager._broadcast.
  rewrite bind_gets, bind_modify.
  rewrite bind_run, !bind_modify, bind_run.
  match goal with
  | |- context [ TestExecutionManager._append_log ?a ?b ?c ?s2 ] =>
      destruct (append_log_run a b c s2) as (r2 & s3 & -> & Hlog);
      remember s2 as s2' eqn:Hs2
  end.
  destruct Hlog as [Hruns3 Hsub3 Htasks3 _ _ Hclock3 _ _ _ Hcores3].
  assert (Htabs2 : tabs s2' = <[tab_id := Tab.set_status
                      (Tab.set_run tab1
                         (Some (Run.finish run (clock s1) (exit_codes_of s rt) error)))
                      (handler_status (exit_codes_of s rt) error)]> (tabs s1)).
  { subst s2'. reflexivity. }
  edestruct (same_cores_lookup s2' s3 tab_id) as (tab3 & Htab3 & Hcore3);
    [exact Hcores3|rewrite Htabs2; apply lookup_insert_eq|].
  exists s3, tab3. split; [reflexivity|]. split; [exact Htab3|].
  unfold tab_core in Hcore3. injection Hcore3 as _ _ Hstatus _ _ Hrun3.
  split; [exact Hstatus|]. split; [by rewrite Hrun3, Hclock|].
  split; [rewrite Hruns3; subst s2'; cbn; by rewrite Hruns|].
  split; [rewrite Hsub3; subst s2'; cbn; exact Hsub|].
  split; [rewrite Htasks3; subst s2'; cbn; exact Htasks|].
  split; [rewrite Hclock3; subst s2'; cbn; exact Hclock|].
  intros id Hne. rewrite (Hcores3 id), Htabs2, lookup_insert_ne by done.
  rewrite (Hcores id). reflexivity.
Qed.

(** *** The stop path *)

Lemma bind_total_run {S A B} (m : M S A) (k : A -> M S B) s :
  total m -> exists a, Co.bind m k s = k a (snd (m s)).
Proof.
  intros Hm. destruct (total_run m s Hm) as [a Ha]. exists a.
  unfold Co.bind. by rewrite Ha.
Qed.

Lemma try_send_total h sig (handler : Py.exn -> M State bool) :
  total (Co.try_except
           (Co.try_except (send_signal h sig ;ᶜ Co.ret true)
              [Py.ProcessLookupError] (fun _ => Co.ret false))
           [Py.Exception_] handler).
Proof.
  intros s. unfold Co.try_except, Co.bind, send_signal.
  destruct (subprocesses s !! h) as [p|]; [|by eexists].
  destruct (returncode p); by eexists.
Qed.

Lemma wait_for_exit_total h outcome : total (wait_for_exit h outcome).
Proof.
  intros s. unfold wait_for_exit. destruct (process_returncode s h), outcome; by eexists.
Qed.

Lemma terminate_process_safely_total log_callback h r interface :
  (forall message i, total (log_callback message i)) ->
  total (terminate_process_safely log_callback h r interface).
Proof.
  intros Hcb. unfold terminate_process_safely.
  apply total_bind; [apply total_gets|]. intros [rc|]; [apply total_ret|].
  apply total_bind; [apply Hcb|]. intros _.
  apply total_bind; [apply try_send_total|]. intros [|]; [|apply total_ret].
  apply total_bind; [apply wait_for_exit_total|]. intros [|]; [apply total_ret|].
  apply total_bind; [apply Hcb|]. intros _.
  apply total_bind; [apply try_send_total|]. intros [|]; [|apply total_ret].
  apply total_bind; [apply wait_for_exit_total|]. intros [|]; [apply total_ret|].
  apply Hcb.
Qed.

Ltac total_step tac :=
  match goal with
  | |- context [ Co.bind ?m ?k ?s0 ] =>
      let Ht := fresh "Ht" in
      assert (Ht : total m) by tac;
      destruct (bind_total_run m k s0 Ht) as [? ->]; clear Ht;
      generalize (snd (m s0)); intro
  end.

(** The executor stops a registered run: it answers with the exit codes
    that the processes have at the end of the termination protocol. *)
Lemma executor_stop_test_run tab_id react rt s :
  _runs s !! tab_id = Some rt ->
  exists s',
    RunExecutor.stop_test (TestExecutionManager.log_callback tab_id) react tab_id s
    = (Py.Ok (RunExecutor.Stopped (ProcessManager.run_id rt) (exit_codes_of s' rt)
                (ProcessManager.test_metadata_file rt)), s').
Proof.
  intros Hrt. unfold RunExecutor.stop_test. rewrite bind_gets, Hrt, bind_modify.
  total_step ltac:(apply total_for; intros iproc;
                   destruct (ProcessManager.task iproc);
                   [apply total_modify|apply total_ret]).
  total_step ltac:(destruct (1 <? _)%nat; apply log_callback_total).
  total_step ltac:(apply total_for; intros iproc; apply terminate_process_safely_total;
                   intros; apply log_callback_total).
  total_step ltac:(apply total_for; intros iproc;
                   apply total_bind; [apply total_gets|intros; apply total_modify]).
  rewrite bind_gets.
  match goal with
  | |- context [ Co.bind ?m ?k ?s0 ] =>
      destruct (run_total_within log_frame m s0) as (? & s' & Hrun & Hframe);
        [apply log_callback_total|apply log_callback_frame|];
      rewrite bind_run, Hrun
  end.
  exists s'. unfold Co.ret, exit_codes_of, process_returncode.
  by rewrite (lf_subprocesses _ _ Hframe).
Qed.

(** The status that an explicit stop gives to a run that ends with
    [exit_codes]. *)
Definition stop_status (exit_codes : list (option Z)) : string :=
  if TestExecutionManager.any_failed exit_codes then TabStatus.FAILED
  else TabStatus.COMPLETED.

(** An explicit stop finishes the live, open run. *)
Lemma stop_test_finalizes react tab_id rt tab run s :
  _runs s !! tab_id = Some rt ->
  tabs s !! tab_id = Some tab ->
  Tab.run tab = Some run ->
  Py.truthy_opt_str (Run.finished_utc run) = false ->
  exists s' tab',
    TestExecutionManager.stop_test react tab_id s = (Py.Ok (Tab.to_dict tab'), s') /\
    tabs s' !! tab_id = Some tab' /\
    Tab.status tab' = stop_status (exit_codes_of s' rt) /\
    Tab.run tab' = Some (Run.finish run (clock s') (exit_codes_of s' rt) (Run.error run)) /\
    _runs s' = delete tab_id (_runs s).
Proof.
  intros Hrt Htab Hrun Hopen. unfold TestExecutionManager.stop_test. rewrite bind_run.
  pose proof (executor_stop_test_effect tab_id react s) as [Hruns Hcores].
  destruct (executor_stop_test_run tab_id react rt s Hrt) as (s1 & Hstop).
  rewrite Hstop in *. cbn [snd] in Hruns, Hcores.
  destruct (same_cores_lookup _ s1 tab_id tab Hcores Htab) as (tab1 & Htab1 & Hcore1).
  assert (Hrun1 : Tab.run tab1 = Some run).
  { unfold tab_core in Hcore1. injection Hcore1 as _ _ _ _ _ ->. exact Hrun. }
  unfold TestExecutionManager.get_tab_object, TabManager.get_tab_object. rewrite bind_gets.
  unfold tabs in Htab1. rewrite Htab1, Hrun1, Hopen. cbn [negb].
  eexists _, _. split; [reflexivity|].
  split; [apply lookup_insert_eq|]. split; [reflexivity|]. split; [reflexivity|].
  exact Hruns.
Qed.

(** *** Natural exits, in any order *)

Lemma total_try_except {S A} (body : M S A) classes handler :
  total body -> total (Co.try_except body classes handler).
Proof.
  intros Hb s. unfold Co.try_except. destruct (Hb s) as [a Ha].
  destruct (body s) as [[a'|e] s']; simpl in *; [by eexists|done].
Qed.

(** A read of the process output that does not end the watcher: a line, the
    end of the output, or an error other than a cancellation. *)
Definition benign (r : ProcessManager.read_outcome) : Prop :=
  match r with
  | ProcessManager.ReadLine _ => True
  | ProcessManager.ReadRaise e =>
      Py.isinstance e Py.CancelledError = false /\ Py.isinstance e Py.Exception_ = true
  end.

(** The process behaves as [p] and ends by itself with status [rc]. *)
Definition reports (p : ProcessManager.watched_process) (rc : Z) : Prop :=
  ProcessManager.wait p = ProcessManager.WaitReturn rc /\
  forall reads, ProcessManager.stdout p = Some reads -> Forall benign reads.

Lemma read_loop_total {S} (log_callback : string -> option string -> M S unit)
    interface reads :
  (forall message i, total (log_callback message i)) ->
  Forall benign reads ->
  total (ProcessManager.read_loop log_callback interface reads).
Proof.
  intros Hcb Hreads. induction Hreads as [|[line|e] rest Hr _ IH]; simpl.
  - apply total_ret.
  - destruct (negb (Py.nonempty line)); [apply total_ret|].
    apply total_bind; [|intros _; exact IH].
    apply total_try_except, Hcb.
  - destruct Hr as [-> Hexc].
    destruct (Py.isinstance e Py.OSError); [apply total_ret|].
    rewrite Hexc. apply total_ret.
Qed.

(** The watcher of a process that ends by itself calls the exit handler
    with the exit status and no error text, after some logging. *)
Lemma watch_and_handle_exit_reports tab_id run_id iproc p rc s :
  reports p rc ->
  exists s1,
    log_frame s s1 /\
    forall s2,
      TestExecutionManager._handle_interface_process_exit tab_id run_id
        (ProcessManager.interface iproc) (ProcessManager.capture_id iproc)
        (ProcessManager.pid iproc) (Some rc) None s1 = (Py.Ok (), s2) ->
      TestExecutionManager._watch_and_handle_exit tab_id run_id iproc p s = (Py.Ok (), s2).
Proof.
  intros [Hwait Hreads].
  unfold TestExecutionManager._watch_and_handle_exit, ProcessManager.watch_interface_process.
  rewrite Hwait.
  match goal with
  | |- context [ Co.bind ?m ?k s ] =>
      destruct (run_total_within log_frame m s) as ([] & s1 & Hrun & Hframe)
  end.
  - destruct (ProcessManager.stdout p) as [reads|]; [|apply total_ret].
    apply read_loop_total; [intros; apply log_callback_total|by apply Hreads].
  - destruct (ProcessManager.stdout p) as [reads|]; [|apply within_ret, _].
    apply read_loop_within; [apply _|intros; apply log_callback_frame].
  - exists s1. split; [exact Hframe|]. intros s2 Hhandler.
    rewrite bind_run, Hrun. unfold Co.lift. rewrite bind_run. by rewrite Hhandler.
Qed.

Lemma process_exits_returncode h rc sp s h' :
  subprocesses s !! h = Some sp -> returncode sp = None ->
  process_returncode (process_exits h rc s) h'
  = if decide (h' = h) then Some rc else process_returncode s h'.
Proof.
  intros Hsp Hrc. unfold process_exits, process_returncode. rewrite Hsp, Hrc. cbn.
  destruct (decide (h' = h)) as [->|Hne].
  - rewrite list_lookup_insert_eq; [done|]. by eapply lookup_lt_Some.
  - by rewrite list_lookup_insert_ne.
Qed.

Lemma process_exits_lookup h rc s h' :
  h' <> h -> subprocesses (process_exits h rc s) !! h' = subprocesses s !! h'.
Proof.
  intros Hne. unfold process_exits.
  destruct (subprocesses s !! h) as [sp|]; [|done].
  destruct (returncode sp); [done|]. cbn. by rewrite list_lookup_insert_ne.
Qed.

Lemma NoDup_fmap_inj {A B} (f : A -> B) (l : list A) x y :
  NoDup (map f l) -> x ∈ l -> y ∈ l -> f x = f y -> x = y.
Proof.
  induction l as [|a l IH]; simpl; [by intros _ ?%elem_of_nil|].
  intros [Hnotin Hnodup]%NoDup_cons [->|Hx]%elem_of_cons [->|Hy]%elem_of_cons Heq; auto.
  - exfalso. apply Hnotin. rewrite Heq. by apply (list_elem_of_fmap_2 f).
  - exfalso. apply Hnotin. rewrite <- Heq. by apply (list_elem_of_fmap_2 f).
Qed.

(** The process of [iproc] runs and its watcher task is pending, bound to
    the tab and the run. *)
Definition watched (s : State) (tab_id run_id : string)
    (iproc : ProcessManager.InterfaceProcess) : Prop :=
  exists h iproc' sp,
    ProcessManager.task iproc = Some h /\
    tasks s !! h = Some (Watcher tab_id run_id iproc' Pending) /\
    ProcessManager.process iproc' = ProcessManager.process iproc /\
    subprocesses s !! ProcessManager.process iproc = Some sp /\
    returncode sp = None.

(** The process of [iproc] ends by itself, as [p] tells for its handle, and
    its watcher task runs to its end. *)
Definition watcher_ends (p : nat -> ProcessManager.watched_process)
    (iproc : ProcessManager.InterfaceProcess) : Trace.call :=
  Trace.WatcherRuns (default 0%nat (ProcessManager.task iproc))
    (p (ProcessManager.process iproc)).

Section NaturalExits.
Context `{Py.Runtime}.
Variables (tab_id : string) (rt : ProcessManager.RunningTest) (run : Run.t).
Variable p : nat -> ProcessManager.watched_process.
Variable rc : nat -> Z.
Hypothesis p_reports : forall h, reports (p h) (rc h).
Hypothesis distinct_processes :
  NoDup (map ProcessManager.process (ProcessManager.processes rt)).
Hypothesis distinct_tasks :
  NoDup (map ProcessManager.task (ProcessManager.processes rt)).
Hypothesis run_open : Py.truthy_opt_str (Run.finished_utc run) = false.

(** The exit codes of the run once all its processes have ended. *)
Definition natural_codes : list (option Z) :=
  map (fun iproc => Some (rc (ProcessManager.process iproc)))
      (ProcessManager.processes rt).

(** The run waits for the processes [todo]; the others have ended. *)
Record awaiting (s0 s : State) (todo : list ProcessManager.InterfaceProcess) : Prop := {
  aw_registered : _runs s !! tab_id = Some rt;
  aw_tab : exists tab, tabs s !! tab_id = Some tab /\ Tab.run tab = Some run;
  aw_clock : clock s = clock s0;
  aw_todo : Forall (watched s tab_id (Run.id run)) todo;
  aw_done : forall iproc,
    iproc ∈ ProcessManager.processes rt -> iproc ∉ todo ->
    process_returncode s (ProcessManager.process iproc)
    = Some (rc (ProcessManager.process iproc));
}.

(** The run is finished, with the status of the handler. *)
Definition finalized (s0 s : State) : Prop :=
  exists tab,
    tabs s !! tab_id = Some tab /\
    Tab.status tab = handler_status natural_codes None /\
    Tab.run tab = Some (Run.finish run (clock s0) natural_codes None) /\
    _runs s !! tab_id = None.

Lemma watcher_ends_run s iproc :
  watched s tab_id (Run.id run) iproc ->
  exists h iproc' s1,
    ProcessManager.task iproc = Some h /\
    log_frame (process_exits (ProcessManager.process iproc)
                 (rc (ProcessManager.process iproc)) s) s1 /\
    forall s2,
      TestExecutionManager._handle_interface_process_exit tab_id (Run.id run)
        (ProcessManager.interface iproc') (ProcessManager.capture_id iproc')
        (ProcessManager.pid iproc') (Some (rc (ProcessManager.process iproc))) None s1
      = (Py.Ok (), s2) ->
      Trace.exec (watcher_ends p iproc) s
      = with_tasks s2 (<[h := Watcher tab_id (Run.id run) iproc' Done]> (tasks s2)).
Proof.
  intros (h & iproc' & sp & Htask & Hwatcher & Hproc & _).
  destruct (p_reports (ProcessManager.process iproc)) as [Hwait Hreads].
  destruct (watch_and_handle_exit_reports tab_id (Run.id run) iproc'
              (p (ProcessManager.process iproc)) (rc (ProcessManager.process iproc))
              (process_exits (ProcessManager.process iproc)
                 (rc (ProcessManager.process iproc)) s))
    as (s1 & Hframe & Hrun); [by split|].
  exists h, iproc', s1. split; [done|]. split; [done|].
  intros s2 Hhandler. specialize (Hrun s2 Hhandler).
  unfold watcher_ends. rewrite Htask. cbn.
  unfold TestExecutionManager.run_watcher. rewrite Hwatcher, Hwait, Hproc, Hrun.
  reflexivity.
Qed.

Lemma process_exits_fields h code s :
  _runs (process_exits h code s) = _runs s /\
  tab_manager (process_exits h code s) = tab_manager s /\
  tasks (process_exits h code s) = tasks s /\
  clock (process_exits h code s) = clock s.
Proof.
  unfold process_exits. destruct (subprocesses s !! h) as [sp|]; [|done].
  by destruct (returncode sp).
Qed.

(** The exit code of a process after a process of the run ended. *)
Lemma returncode_after_exit s s1 iproc h :
  watched s tab_id (Run.id run) iproc ->
  subprocesses s1
  = subprocesses (process_exits (ProcessManager.process iproc)
                    (rc (ProcessManager.process iproc)) s) ->
  process_returncode s1 h
  = if decide (h = ProcessManager.process iproc)
    then Some (rc (ProcessManager.process iproc))
    else process_returncode s h.
Proof.
  intros (_ & _ & sp & _ & _ & _ & Hsp & Hrc) Hsub.
  unfold process_returncode at 1. rewrite Hsub.
  by apply (process_exits_returncode _ _ sp).
Qed.

Lemma watched_after_exit s s' iproc h x :
  watched s tab_id (Run.id run) iproc ->
  ProcessManager.task iproc = Some h ->
  iproc ∈ ProcessManager.processes rt -> x ∈ ProcessManager.processes rt ->
  x <> iproc ->
  subprocesses s'
  = subprocesses (process_exits (ProcessManager.process iproc)
                    (rc (ProcessManager.process iproc)) s) ->
  (forall h', h' <> h -> tasks s' !! h' = tasks s !! h') ->
  watched s tab_id (Run.id run) x ->
  watched s' tab_id (Run.id run) x.
Proof.
  intros Hw Htask Hin Hx Hne Hsub Htasks (hx & x' & sp & Htx & Hwx & Hpx & Hsp & Hrc).
  exists hx, x', sp. split; [done|]. split; [|split; [done|split; [|done]]].
  - rewrite Htasks; [done|]. intros ->. apply Hne.
    eapply (NoDup_fmap_inj ProcessManager.task); eauto. congruence.
  - rewrite Hsub, process_exits_lookup; [done|]. intros Heq. apply Hne.
    by eapply (NoDup_fmap_inj ProcessManager.process).
Qed.

(** A process ends while others of the run are still to end. *)
Lemma step_waits s0 s iproc rest :
  rest <> [] -> NoDup (iproc :: rest) ->
  (forall x, x ∈ iproc :: rest -> x ∈ ProcessManager.processes rt) ->
  awaiting s0 s (iproc :: rest) ->
  awaiting s0 (Trace.exec (watcher_ends p iproc) s) rest.
Proof.
  intros Hne [Hnotin Hnodup]%NoDup_cons Hsub [Hreg (tab & Htab & Hrun) Hclock Htodo Hdone].
  apply Forall_cons in Htodo as [Hw Hrest].
  destruct (watcher_ends_run s iproc Hw) as (h & iproc' & s1 & Htask & Hframe & Hexec).
  apply log_frame_exit_frame in Hframe.
  destruct (process_exits_fields (ProcessManager.process iproc)
              (rc (ProcessManager.process iproc)) s) as (Hruns_a & Htm_a & Htasks_a & Hclock_a).
  assert (Hin : iproc ∈ ProcessManager.processes rt) by (apply Hsub; left).
  assert (Hnot : ~ all_reported s1 rt).
  { destruct rest as [|j rest']; [done|]. intros Hall.
    unfold all_reported, exit_codes_of in Hall.
    rewrite Forall_map, Forall_forall in Hall.
    assert (Hj : j ∈ ProcessManager.processes rt) by (apply Hsub; right; left).
    specialize (Hall j Hj). cbn in Hall.
    rewrite (returncode_after_exit s s1 iproc) in Hall;
      [|done|apply (ef_subprocesses _ _ Hframe)].
    rewrite decide_False in Hall.
    - apply Forall_cons in Hrest as [(_ & _ & sp & _ & _ & _ & Hsp & Hrc) _].
      unfold process_returncode in Hall. rewrite Hsp in Hall. cbn in Hall.
      rewrite Hrc in Hall. by destruct Hall.
    - intros Heq. apply Hnotin.
      assert (j = iproc) as ->; [|left].
      by eapply (NoDup_fmap_inj ProcessManager.process). }
  destruct (handle_exit_waits tab_id (Run.id run) (ProcessManager.interface iproc')
              (ProcessManager.capture_id iproc') (ProcessManager.pid iproc')
              (Some (rc (ProcessManager.process iproc))) None rt s1)
    as (s2 & Hhandler & Hframe2); [|done|].
  { by rewrite (ef_runs _ _ Hframe), Hruns_a. }
  rewrite (Hexec s2 Hhandler).
  assert (Hframe' : exit_frame (process_exits (ProcessManager.process iproc)
                                  (rc (ProcessManager.process iproc)) s) s2) by (by etrans).
  destruct Hframe' as [Hruns Hsubs Htasks Hclock' Hcores].
  split.
  - cbn. by rewrite Hruns, Hruns_a.
  - edestruct (same_cores_lookup _ s2 tab_id tab Hcores) as (tab2 & Htab2 & Hcore2).
    { unfold tabs. by rewrite Htm_a. }
    exists tab2. split; [exact Htab2|].
    unfold tab_core in Hcore2. injection Hcore2 as _ _ _ _ _ ->. exact Hrun.
  - cbn. by rewrite Hclock', Hclock_a.
  - rewrite Forall_forall in Hrest. apply Forall_forall. intros x Hx.
    apply (watched_after_exit s _ iproc h x); try done.
    + apply Hsub. by right.
    + intros ->. by apply Hnotin.
    + cbn. intros h' Hh'. rewrite list_lookup_insert_ne by done.
      by rewrite Htasks, Htasks_a.
    + by apply Hrest.
  - intros x Hx Hnotx.
    rewrite (returncode_after_exit s _ iproc); [|done|exact Hsubs].
    destruct (decide (ProcessManager.process x = ProcessManager.process iproc))
      as [Heq|Hneq].
    + by rewrite Heq.
    + apply Hdone; [done|]. intros [->|Hin']%elem_of_cons; done.
Qed.

(** The last process of the run ends. *)
Lemma step_finalizes s0 s iproc :
  iproc ∈ ProcessManager.processes rt ->
  awaiting s0 s [iproc] ->
  finalized s0 (Trace.exec (watcher_ends p iproc) s).
Proof.
  intros Hin [Hreg (tab & Htab & Hrun) Hclock Htodo Hdone].
  apply Forall_cons in Htodo as [Hw _].
  destruct (watcher_ends_run s iproc Hw) as (h & iproc' & s1 & Htask & Hframe & Hexec).
  apply log_frame_exit_frame in Hframe.
  destruct (process_exits_fields (ProcessManager.process iproc)
              (rc (ProcessManager.process iproc)) s) as (Hruns_a & Htm_a & Htasks_a & Hclock_a).
  destruct Hframe as [Hruns Hsubs Htasks Hclock1 Hcores].
  assert (Hcodes : exit_codes_of s1 rt = natural_codes).
  { unfold exit_codes_of, natural_codes. apply map_ext_in. intros x Hx%list_elem_of_In.
    rewrite (returncode_after_exit s s1 iproc) by done.
    destruct (decide (ProcessManager.process x = ProcessManager.process iproc))
      as [Heq|Hneq]; [by rewrite Heq|].
    apply Hdone; [done|]. intros ->%list_elem_of_singleton. done. }
  edestruct (same_cores_lookup _ s1 tab_id tab Hcores) as (tab1 & Htab1 & Hcore1).
  { unfold tabs. by rewrite Htm_a. }
  assert (Hrun1 : Tab.run tab1 = Some run).
  { unfold tab_core in Hcore1. injection Hcore1 as _ _ _ _ _ ->. exact Hrun. }
  destruct (handle_exit_finalizes tab_id (ProcessManager.interface iproc')
              (ProcessManager.capture_id iproc') (ProcessManager.pid iproc')
              (Some (rc (ProcessManager.process iproc))) None rt tab1 run s1)
    as (s2 & tab2 & Hhandler & Htab2 & Hstatus & Hrun2 & Hruns2 & _); try done.
  { by rewrite Hruns, Hruns_a. }
  { unfold all_reported. rewrite Hcodes. unfold natural_codes.
    apply Forall_map, Forall_forall. intros x _. by eexists. }
  rewrite (Hexec s2 Hhandler). exists tab2. split; [exact Htab2|].
  rewrite Hcodes in Hstatus, Hrun2. split; [exact Hstatus|]. split.
  - by rewrite Hrun2, Hclock1, Hclock_a, Hclock.
  - cbn. rewrite Hruns2. apply lookup_delete_eq.
Qed.

(** The processes of the run end one after the other, in the order of
    [todo]: the run is finished when the last one has ended. *)
Lemma exits_finalize s0 todo s :
  todo <> [] -> NoDup todo ->
  (forall x, x ∈ todo -> x ∈ ProcessManager.processes rt) ->
  awaiting s0 s todo ->
  finalized s0 (Trace.run (map (watcher_ends p) todo) s).
Proof.
  revert s. induction todo as [|iproc rest IH]; intros s Hne Hnodup Hsub Haw; [done|].
  simpl. destruct rest as [|j rest].
  - simpl. apply step_finalizes; [apply Hsub; left|done].
  - apply IH; [done|by apply NoDup_cons in Hnodup as [_ ?]| |].
    + intros x Hx. apply Hsub. by right.
    + by apply step_waits.
Qed.
End NaturalExits.

(** *** The status rule *)

(** Every exit code is zero. *)
Definition all_zero (exit_codes : list (option Z)) : Prop :=
  Forall (fun c => c = Some 0) exit_codes.

(** No process has reported an exit code other than zero. *)
Definition clean (exit_codes : list (option Z)) : Prop :=
  forall c, Some c ∈ exit_codes -> c = 0.

(** No error text is set: [error] is [None] or empty. *)
Definition no_error_text (error : option string) : Prop :=
  Py.truthy_opt_str error = false.

(** The status is "completed" if [ok] holds and "failed" otherwise. *)
Definition status_rule (ok : Prop) (status : string) : Prop :=
  (ok /\ status = TabStatus.COMPLETED) \/ (~ ok /\ status = TabStatus.FAILED).

(** In [s] the tab holds the finished run [run], has the status of the
    rule, and no run is active for it. *)
Definition finished_as (s : State) (tab_id : string) (run : Run.t) (ok : Prop) : Prop :=
  exists tab,
    tabs s !! tab_id = Some tab /\
    Tab.run tab = Some run /\
    status_rule ok (Tab.status tab) /\
    _runs s !! tab_id = None.

Lemma any_failed_clean exit_codes :
  TestExecutionManager.any_failed exit_codes = false <-> clean exit_codes.
Proof.
  unfold TestExecutionManager.any_failed, clean.
  induction exit_codes as [|c codes IH]; simpl.
  - split; [intros _ c Hc; by apply elem_of_nil in Hc|done].
  - rewrite orb_false_iff, IH. split.
    + intros [Hc Hcodes] c' [Heq|Hin]%elem_of_cons; [|by apply Hcodes].
      subst c. destruct (Z.eqb_spec c' 0) as [|Hne]; [done|discriminate Hc].
    + intros Hall. split.
      * destruct c as [c|]; [|done].
        assert (c = 0) as -> by (apply Hall; left). done.
      * intros c' Hc'. apply Hall. by right.
Qed.

Lemma clean_all_zero exit_codes :
  Forall is_Some exit_codes -> clean exit_codes <-> all_zero exit_codes.
Proof.
  intros Hsome. unfold clean, all_zero. rewrite Forall_forall. split.
  - intros Hclean c Hc. rewrite Forall_forall in Hsome.
    destruct (Hsome c Hc) as [z ->]. f_equal. by apply Hclean.
  - intros Hzero c Hc. specialize (Hzero _ Hc). by injection Hzero.
Qed.

Lemma handler_status_rule exit_codes error :
  status_rule (clean exit_codes /\ no_error_text error) (handler_status exit_codes error).
Proof.
  unfold status_rule, handler_status, no_error_text.
  destruct (Py.truthy_opt_str error); [right; split; [by intros [_ ?]|done]|].
  destruct (TestExecutionManager.any_failed exit_codes) eqn:Hfailed.
  - right. split; [|done]. intros [Hclean%any_failed_clean _]. congruence.
  - left. split; [|done]. split; [by apply any_failed_clean|done].
Qed.

Lemma stop_status_rule exit_codes :
  status_rule (clean exit_codes /\ no_error_text None) (stop_status exit_codes).
Proof.
  pose proof (handler_status_rule exit_codes None) as Hrule.
  unfold handler_status in Hrule. exact Hrule.
Qed.

Lemma status_rule_iff (ok ok' : Prop) status :
  (ok <-> ok') -> status_rule ok status -> status_rule ok' status.
Proof. unfold status_rule. intros Hiff. by rewrite Hiff. Qed.

(** Claim C1.  Let a run be the live record of its tab and not yet
    finished, in a state where open runs carry no error text (as in every
    state reached from an empty store).  (1) When every process of the run
    has reported an exit code, the exit handler finishes the run: the tab is
    "completed" if every exit code is zero and no error text is given, and
    "failed" otherwise, and the run leaves the active runs.  (2) When the
    processes of the run end by themselves, one after the other, the run is
    finished after the last exit with the exit codes in the order of the
    start, whatever the order of the exits: "completed" if all codes are
    zero, "failed" otherwise.  (3) An explicit stop finishes the run by the
    same rule, over the exit codes that the processes have after the
    termination protocol; a process that has not ended by then has no code
    and does not count as failed. *)
Theorem finalization_status_rule `{Py.Runtime} (s : State) (tab_id : string)
    (rt : ProcessManager.RunningTest) (tab : Tab.t) (run : Run.t) :
  _runs s !! tab_id = Some rt ->
  tabs s !! tab_id = Some tab ->
  Tab.run tab = Some run ->
  Run.finished_utc run = None ->
  runs_ok s ->
  (all_reported s rt ->
   forall interface capture_id pid returncode error,
     exists s',
       TestExecutionManager._handle_interface_process_exit tab_id (Run.id run) interface
         capture_id pid returncode error s = (Py.Ok (), s') /\
       finished_as s' tab_id (Run.finish run (clock s) (exit_codes_of s rt) error)
         (all_zero (exit_codes_of s rt) /\ no_error_text error)) /\
  (NoDup (map ProcessManager.process (ProcessManager.processes rt)) ->
   NoDup (map ProcessManager.task (ProcessManager.processes rt)) ->
   Forall (watched s tab_id (Run.id run)) (ProcessManager.processes rt) ->
   ProcessManager.processes rt <> [] ->
   forall p rc order,
     (forall h, reports (p h) (rc h)) ->
     order ≡ₚ ProcessManager.processes rt ->
     finished_as (Trace.run (map (watcher_ends p) order) s) tab_id
       (Run.finish run (clock s) (natural_codes rt rc) None)
       (all_zero (natural_codes rt rc))) /\
  (forall react,
     exists s' tab',
       TestExecutionManager.stop_test react tab_id s = (Py.Ok (Tab.to_dict tab'), s') /\
       finished_as s' tab_id (Run.finish run (clock s') (exit_codes_of s' rt) None)
         (clean (exit_codes_of s' rt) /\ no_error_text None)).
Proof.
  intros Hrt Htab Hrun Hopen Hok.
  assert (Hopen' : Py.truthy_opt_str (Run.finished_utc run) = false) by (by rewrite Hopen).
  split; [|split].
  - intros Hall interface capture_id pid returncode error.
    destruct (handle_exit_finalizes tab_id interface capture_id pid returncode error
                rt tab run s Hrt Hall Htab Hrun Hopen')
      as (s' & tab' & Hrun' & Htab' & Hstatus & Hfinished & Hruns & _).
    exists s'. split; [exact Hrun'|]. exists tab'. split; [exact Htab'|].
    split; [exact Hfinished|]. split; [|rewrite Hruns; apply lookup_delete_eq].
    rewrite Hstatus.
    eapply status_rule_iff; [|apply handler_status_rule].
    by rewrite (clean_all_zero _ Hall).
  - intros Hprocs Htasks Hwatched Hne p rc order Hreports Hperm.
    destruct (exits_finalize tab_id rt run p rc Hreports Hprocs Htasks Hopen' s order s)
      as (tab' & Htab' & Hstatus & Hfinished & Hruns).
    + intros ->. apply Permutation_nil_l in Hperm. by apply Hne.
    + rewrite Hperm. by eapply NoDup_fmap_1.
    + intros x. by rewrite Hperm.
    + split; [done|by exists tab|done|by rewrite Hperm|].
      intros x Hx. by rewrite Hperm.
    + exists tab'. split; [exact Htab'|]. split; [exact Hfinished|]. split; [|exact Hruns].
      rewrite Hstatus.
      eapply status_rule_iff; [|apply handler_status_rule].
      unfold no_error_text. rewrite clean_all_zero; [cbn; tauto|].
      unfold natural_codes. apply Forall_map, Forall_forall. intros x _. by eexists.
  - intros react.
    destruct (stop_test_finalizes react tab_id rt tab run s Hrt Htab Hrun Hopen')
      as (s' & tab' & Hstop & Htab' & Hstatus & Hfinished & Hruns).
    exists s', tab'. split; [exact Hstop|]. exists tab'. split; [exact Htab'|].
    rewrite (Hok tab_id tab Htab run Hrun Hopen) in Hfinished.
    split; [exact Hfinished|]. split; [|rewrite Hruns; apply lookup_delete_eq].
    rewrite Hstatus. apply stop_status_rule.
Qed.

(** The run of the example tab, with its two processes and their watchers. *)
Lemma running_is_live :
  exists rt tab run a b,
    _runs Example.running !! "t1" = Some rt /\
    tabs Example.running !! "t1" = Some tab /\
    Tab.run tab = Some run /\
    Run.finished_utc run = None /\
    ProcessManager.processes rt = [a; b] /\
    (ProcessManager.process a = 0%nat /\ ProcessManager.task a = Some 0%nat) /\
    (ProcessManager.process b = 1%nat /\ ProcessManager.task b = Some 1%nat) /\
    Forall (watched Example.running "t1" (Run.id run)) [a; b].
Proof.
  eexists _, _, _, _, _.
  split; [vm_compute; reflexivity|]. split; [vm_compute; reflexivity|].
  split; [reflexivity|]. split; [reflexivity|]. split; [reflexivity|].
  split; [split; reflexivity|]. split; [split; reflexivity|].
  repeat constructor; eexists _, _, _; (split; [reflexivity|]);
    (split; [vm_compute; reflexivity|]); (split; [reflexivity|]);
    (split; [vm_compute; reflexivity|reflexivity]).
Qed.

Lemma running_runs_ok : runs_ok Example.running.
Proof. rewrite running_as_run. apply run_runs_ok, init_runs_ok. Qed.

(** The exit codes of the example: the process on the second interface ends
    with status 3. *)
Definition example_codes (h : nat) : Z := if (h =? 1)%nat then 3 else 0.

Lemma finalization_status_rule_witness :
  (exists tab,
     tabs (Trace.run [Trace.WatcherRuns 1 (Example.quiet 3);
                      Trace.WatcherRuns 0 (Example.quiet 0)] Example.running) !! "t1"
     = Some tab /\
     Tab.status tab = TabStatus.FAILED) /\
  (exists s tab,
     TestExecutionManager.stop_test Example.obeys "t1" Example.running
     = (Py.Ok (Tab.to_dict tab), s) /\
     _runs s !! "t1" = None).
Proof.
  destruct running_is_live
    as (rt & tab & run & a & b & Hrt & Htab & Hrun & Hopen & Hprocs & [Hpa Hta] & [Hpb Htb]
        & Hwatched).
  destruct (finalization_status_rule Example.running "t1" rt tab run Hrt Htab Hrun Hopen
              running_runs_ok) as (_ & Hexits & Hstop).
  split.
  - destruct (Hexits) with (p := fun h => Example.quiet (example_codes h))
                           (rc := example_codes) (order := [b; a])
      as (tab' & Htab' & _ & Hrule & _).
    + rewrite Hprocs. simpl. rewrite Hpa, Hpb.
      apply NoDup_cons; split; [by intros [?|[]%elem_of_nil]%elem_of_cons|].
      apply NoDup_singleton.
    + rewrite Hprocs. simpl. rewrite Hta, Htb.
      apply NoDup_cons; split; [by intros [?|[]%elem_of_nil]%elem_of_cons|].
      apply NoDup_singleton.
    + by rewrite Hprocs.
    + by rewrite Hprocs.
    + intros h. split; [reflexivity|]. intros reads [= <-]. constructor.
    + rewrite Hprocs. apply Permutation_swap.
    + exists tab'. split.
      * assert (Hcalls : map (watcher_ends (fun h => Example.quiet (example_codes h))) [b; a]
                         = [Trace.WatcherRuns 1 (Example.quiet 3);
                            Trace.WatcherRuns 0 (Example.quiet 0)]).
        { unfold watcher_ends. cbn [map]. rewrite Hta, Htb, Hpa, Hpb. reflexivity. }
        rewrite <- Hcalls. exact Htab'.
      * destruct Hrule as [[Hzero _]|[_ Hfailed]]; [exfalso|exact Hfailed].
        revert Hzero. unfold all_zero, natural_codes. rewrite Hprocs. simpl.
        rewrite Hpa, Hpb. intros Hzero.
        apply Forall_cons in Hzero as [_ Hzero]. apply Forall_cons in Hzero as [Hzero _].
        discriminate Hzero.
  - destruct (Hstop Example.obeys) as (s' & tab' & Hrun' & (_ & _ & _ & _ & Hnone)).
    exists s', tab'. split; [exact Hrun'|exact Hnone].
Defined.

(** ** A spawn that fails (claim C7) *)

(** The subprocess after [kill()]. *)
Definition killed (sp : subprocess) : subprocess := add_signal sp ProcessManager.KILL.

(** A subprocess that runs and has received no signal. *)
Definition untouched (sp : subprocess) : Prop := returncode sp = None /\ signals sp = [].

(** A subprocess that has received SIGKILL, and nothing else. *)
Definition only_killed (sp : subprocess) : Prop :=
  returncode sp = None /\ signals sp = [ProcessManager.KILL].

Lemma killed_only_killed sp : untouched sp -> only_killed (killed sp).
Proof. intros [Hrc Hsig]. split; [exact Hrc|]. simpl. by rewrite Hsig. Qed.

(** [_cleanup_started_processes] on the processes [fresh], the last ones
    that were started: each of them is killed. *)
Lemma cleanup_kills procs old fresh s :
  subprocesses s = old ++ fresh ->
  map ProcessManager.process procs = seq (length old) (length fresh) ->
  Forall untouched fresh ->
  exists s',
    RunExecutor._cleanup_started_processes procs s = (Py.Ok (), s') /\
    subprocesses s' = old ++ map killed fresh /\
    run_frame s s'.
Proof.
  unfold RunExecutor._cleanup_started_processes.
  revert old fresh s. induction procs as [|iproc procs IH]; intros old fresh s Hsub Hprocs Hfresh.
  - destruct fresh; [|done]. exists s. by rewrite Hsub.
  - destruct fresh as [|sp fresh]; [done|]. simpl in Hprocs.
    injection Hprocs as Hproc Hprocs.
    apply Forall_cons in Hfresh as [[Hrc Hsig] Hfresh].
    cbn [Co.for_]. rewrite bind_run. unfold Co.try_except at 1, send_signal at 1.
    rewrite Hproc, Hsub, lookup_app_r, Nat.sub_diag by lia. cbn. rewrite Hrc.
    destruct (IH (old ++ [killed sp]) fresh
                (with_subprocesses s
                   (<[length old := add_signal sp ProcessManager.KILL]> (old ++ sp :: fresh))))
      as (s' & Hrun & Hsub' & Hframe).
    + cbn. rewrite insert_app_r_alt, Nat.sub_diag by lia. cbn.
      by rewrite <- app_assoc.
    + rewrite length_app. simpl. rewrite Hprocs. f_equal. lia.
    + exact Hfresh.
    + exists s'. split; [exact Hrun|]. split.
      * rewrite Hsub'. rewrite <- app_assoc. reflexivity.
      * etrans; [|exact Hframe]. by split.
Qed.

Section SpawnFails.
Context `{Py.Runtime}.
Variable log_callback : string -> option string -> M State unit.
Hypothesis log_total : forall message i, total (log_callback message i).
Hypothesis log_frames : forall message i, within log_frame (log_callback message i).

Lemma log_callback_run message i s :
  exists s', log_callback message i s = (Py.Ok (), s') /\ log_frame s s'.
Proof.
  destruct (run_total_within log_frame (log_callback message i) s) as ([] & s' & ? & ?);
    eauto.
Qed.

(** The spawn of interface [idx] raises [exc] after the processes [fresh]
    were started. *)
Lemma spawn_failed_kills acc interface exc old fresh s :
  Py.isinstance exc Py.Exception_ = true ->
  subprocesses s = old ++ fresh ->
  map ProcessManager.process (RunExecutor.interface_processes acc)
  = seq (length old) (length fresh) ->
  Forall untouched fresh ->
  exists message s',
    RunExecutor.spawn_failed log_callback acc interface exc s
    = (Py.Raise (Py.Exn Py.TestExecutionError message), s') /\
    subprocesses s' = old ++ map killed fresh /\
    run_frame s s'.
Proof.
  intros Hexc Hsub Hprocs Hfresh. unfold RunExecutor.spawn_failed.
  destruct (cleanup_kills _ old fresh s Hsub Hprocs Hfresh) as (s1 & Hclean & Hsub1 & Hframe1).
  rewrite Hexc, !orb_true_r.
  destruct (Py.isinstance exc Py.FileNotFoundError);
    rewrite bind_run, Hclean, bind_run;
    match goal with
    | |- context [ log_callback ?m ?i s1 ] =>
        destruct (log_callback_run m i s1) as (s2 & -> & Hframe2)
    end;
    (eexists _, s2; split; [reflexivity|]; split;
     [by rewrite (lf_subprocesses _ _ Hframe2)
     |etrans; [exact Hframe1|by apply log_frame_run_frame]]).
Qed.

(** The spawn loop when the first [k] spawns succeed and the next one
    raises. *)
Lemma spawn_all_fails env tab_name profile ctx ts mc gen k exc :
  Py.isinstance exc Py.Exception_ = true ->
  forall idx ctxs acc old fresh s,
    (k < length ctxs)%nat ->
    (forall i, (i < k)%nat -> exists pid, RunExecutor.spawn env (idx + i) = RunExecutor.Spawned pid) ->
    RunExecutor.spawn env (idx + k) = RunExecutor.SpawnRaise exc ->
    subprocesses s = old ++ fresh ->
    map ProcessManager.process (RunExecutor.interface_processes acc)
    = seq (length old) (length fresh) ->
    Forall untouched fresh ->
    exists message s' new,
      RunExecutor.spawn_all log_callback env tab_name profile ctx ts mc gen idx ctxs acc s
      = (Py.Raise (Py.Exn Py.TestExecutionError message), s') /\
      subprocesses s' = old ++ new /\
      length new = (length fresh + k)%nat /\
      Forall only_killed new /\
      run_frame s s'.
Proof.
  intros Hexc. induction k as [|k IH]; intros idx ctxs acc old fresh s Hlen Hok Hfail Hsub
    Hprocs Hfresh; (destruct ctxs as [|c rest]; [simpl in Hlen; lia|]); cbn [RunExecutor.spawn_all].
  - rewrite Nat.add_0_r in Hfail. rewrite Hfail.
    edestruct spawn_failed_kills as (message & s' & Hrun & Hsub' & Hframe);
      [exact Hexc|exact Hsub| |exact Hfresh|].
    2:{ exists message, s', (map killed fresh). split; [exact Hrun|].
        split; [exact Hsub'|]. split; [rewrite length_map; lia|]. split; [|exact Hframe].
        apply Forall_map. eapply Forall_impl; [exact Hfresh|]. apply killed_only_killed. }
    exact Hprocs.
  - destruct (Hok 0%nat ltac:(lia)) as [pid Hpid]. rewrite Nat.add_0_r in Hpid.
    rewrite Hpid. rewrite bind_run. cbv beta iota.
    unfold write_capture_metadata. rewrite bind_modify, bind_run.
    match goal with
    | |- context [ log_callback ?m ?i ?s1 ] =>
        destruct (log_callback_run m i s1) as (s2 & -> & Hframe2)
    end.
    match goal with
    | |- context [ RunExecutor.spawn_all _ _ _ _ _ _ _ _ (S idx) rest ?acc' s2 ] =>
        destruct (IH (S idx) rest acc' old
                    (fresh ++ [Subprocess (Build.command c) pid None []]) s2)
          as (message & s' & new & Hrun & Hsub' & Hlen' & Hnew & Hframe)
    end.
    + simpl in Hlen. lia.
    + intros i Hi. destruct (Hok (S i) ltac:(lia)) as [pid' Hpid'].
      exists pid'. by rewrite <- Hpid', Nat.add_succ_r.
    + by rewrite <- Hfail, Nat.add_succ_r.
    + rewrite (lf_subprocesses _ _ Hframe2). cbn. by rewrite Hsub, <- app_assoc.
    + cbn. rewrite map_app, Hprocs, Hsub, !length_app. cbn [length map].
      by rewrite Nat.add_1_r, seq_S.
    + apply Forall_app. split; [exact Hfresh|]. by repeat constructor.
    + exists message, s', new. split; [exact Hrun|]. split; [exact Hsub'|].
      split; [rewrite Hlen', length_app; simpl; lia|]. split; [exact Hnew|].
      etrans; [|exact Hframe]. etrans; [|by apply log_frame_run_frame]. by split.
Qed.
End SpawnFails.

(** The profile has no settings, or its settings are a dictionary. *)
Definition settings_is_dict (profile : Profile.t) : Prop :=
  match Profile.settings profile with
  | None | Some (Py.VDict _) => True
  | Some _ => False
  end.

Section StartFails.
Context `{Py.Runtime}.
Variable log_callback : string -> option string -> M State unit.
Hypothesis log_total : forall message i, total (log_callback message i).
Hypothesis log_frames : forall message i, within log_frame (log_callback message i).

Ltac log_step s1 Hframe :=
  rewrite bind_run;
  match goal with
  | |- context [ match ?m ?s0 with _ => _ end ] =>
      let Hrun := fresh "Hrun" in
      destruct (run_total_within log_frame m s0) as (? & s1 & Hrun & Hframe);
      [|
       |rewrite Hrun; clear Hrun]
  end.

(** [RunExecutor.start_test] when the first [k] spawns succeed and the
    next one raises. *)
Lemma executor_start_test_fails env tab_id profile tab_name ctx k exc s :
  _runs s !! tab_id = None ->
  Build._build_run_context (capture_dir s) (tcpdump_bin s) (clock s) profile = Py.Ok ctx ->
  settings_is_dict profile ->
  (k < length (Build.interface_contexts ctx))%nat ->
  (forall i, (i < k)%nat -> exists pid, RunExecutor.spawn env i = RunExecutor.Spawned pid) ->
  RunExecutor.spawn env k = RunExecutor.SpawnRaise exc ->
  Py.isinstance exc Py.Exception_ = true ->
  exists message s' new,
    RunExecutor.start_test log_callback env tab_id profile tab_name s
    = (Py.Raise (Py.Exn Py.TestExecutionError message), s') /\
    subprocesses s' = subprocesses s ++ new /\
    length new = k /\
    Forall only_killed new /\
    run_frame s s'.
Proof.
  intros Hnone Hbuild Hdict Hlen Hok Hfail Hexc.
  unfold RunExecutor.start_test, RunExecutor.is_running. rewrite bind_gets.
  rewrite Hnone, bool_decide_eq_false_2 by (by intros [? ?]).
  rewrite bind_run. unfold Co.try_except at 1. rewrite Hbuild.
  log_step s1 Hframe1;
    [apply total_for; intros; apply log_total
    |apply within_for; [apply _|intros; apply log_frames]|].
  log_step s2 Hframe2;
    [destruct (1 <? _)%nat; [apply log_total|apply total_ret]
    |destruct (1 <? _)%nat; [apply log_frames|apply within_ret, _]|].
  log_step s3 Hframe3;
    [apply total_for; intros; apply log_total
    |apply within_for; [apply _|intros; apply log_frames]|].
  assert (Hframe : log_frame s s3) by (etrans; [|exact Hframe3]; by etrans).
  clear Hframe1 Hframe2 Hframe3.
  unfold utcnow_iso. rewrite bind_gets, bind_run.
  assert (Hgen : exists gen,
             match Profile.settings profile with
             | None => Py.Ok (Py.VBool false)
             | Some (Py.VDict profile_settings) =>
                 Py.Ok (Py.get_default profile_settings "generateTestMetadataFile"
                          (Py.VBool false))
             | Some _ => Py.raise Py.AttributeError "object has no attribute 'get'"
             end = Py.Ok gen).
  { unfold settings_is_dict in Hdict.
    destruct (Profile.settings profile) as [[]|]; try done; by eexists. }
  destruct Hgen as [gen Hgen]. unfold Co.lift at 1. rewrite Hgen, bind_run.
  destruct (spawn_all_fails log_callback log_total log_frames env tab_name profile ctx
              (clock s3) (RunExecutor.new_main_capture_id env) gen k exc Hexc
              0%nat (Build.interface_contexts ctx) (RunExecutor.SpawnAcc [] [] [] [] None)
              (subprocesses s3) [] s3)
    as (message & s' & new & Hrun & Hsub & Hlen' & Hnew & Hframe'); try done.
  { by rewrite app_nil_r. }
  exists message, s', new. rewrite Hrun. split; [reflexivity|].
  split; [by rewrite Hsub, (lf_subprocesses _ _ Hframe)|].
  split; [exact Hlen'|]. split; [exact Hnew|].
  etrans; [by apply log_frame_run_frame|exact Hframe'].
Qed.
End StartFails.

(** Claim C7.  The tab exists and has no active run, its profile builds to
    a run context, the spawns of the first [k] interfaces succeed and the
    spawn of the next interface raises an exception (a missing binary, a
    refused permission, another OS error or any other [Exception]).  Then
    [start_test] raises [TestExecutionError]; the [k] processes that were
    started are the only new ones, and each of them has been sent SIGKILL;
    the active runs are as they were, so no run is registered for the tab;
    and the tab is left in status "failed". *)
Theorem spawn_failure_is_all_or_nothing `{Py.Runtime} (env : RunExecutor.start_env)
    (tab_id : string) (profile : Profile.t) (ctx : Build.run_context) (k : nat)
    (exc : Py.exn) (s : State) (tab : Tab.t) :
  tabs s !! tab_id = Some tab ->
  _runs s !! tab_id = None ->
  Build._build_run_context (capture_dir s) (tcpdump_bin s) (clock s) profile = Py.Ok ctx ->
  settings_is_dict profile ->
  (k < length (Build.interface_contexts ctx))%nat ->
  (forall i, (i < k)%nat -> exists pid, RunExecutor.spawn env i = RunExecutor.Spawned pid) ->
  RunExecutor.spawn env k = RunExecutor.SpawnRaise exc ->
  Py.isinstance exc Py.Exception_ = true ->
  exists message s' tab' new,
    TestExecutionManager.start_test env tab_id profile s
    = (Py.Raise (Py.Exn Py.TestExecutionError message), s') /\
    subprocesses s' = subprocesses s ++ new /\
    length new = k /\
    Forall only_killed new /\
    _runs s' = _runs s /\
    tabs s' !! tab_id = Some tab' /\
    Tab.status tab' = TabStatus.FAILED.
Proof.
  intros Htab Hnone Hbuild Hdict Hlen Hok Hfail Hexc.
  unfold TestExecutionManager.start_test, TestExecutionManager.get_tab_object,
    TabManager.get_tab_object, RunExecutor.is_running, utcnow_iso.
  rewrite bind_gets. unfold tabs in Htab. rewrite Htab.
  rewrite bind_gets, Hnone, bool_decide_eq_false_2 by (by intros [? ?]).
  rewrite bind_gets, bind_run.
  unfold TestExecutionManager.on_tabs at 1, TabManager.update_tab_status at 1.
  rewrite Htab. cbv zeta. cbn [TabManager._save_state_locked].
  rewrite bind_run. unfold TestExecutionManager._broadcast at 1, Co.modify at 1.
  rewrite bind_run. unfold Co.try_except at 1.
  match goal with
  | |- context [ RunExecutor.start_test ?cb env tab_id profile ?name ?s2 ] =>
      destruct (executor_start_test_fails cb
                  (log_callback_total tab_id) (log_callback_frame tab_id)
                  env tab_id profile name ctx k exc s2)
        as (message & s3 & new & Hrun & Hsub & Hlen' & Hnew & Hframe); try done;
      remember s2 as s2' eqn:Hs2
  end.
  rewrite Hrun. cbn [existsb].
  assert (Hcaught : Py.isinstance (Py.Exn Py.TestExecutionError message)
                      Py.TestExecutionError = true) by reflexivity.
  rewrite Hcaught, orb_true_r. clear Hcaught Hrun.
  rewrite bind_run. unfold TestExecutionManager._mark_run_failed. rewrite bind_run.
  match goal with
  | |- context [ TestExecutionManager._append_log ?a ?b ?c s3 ] =>
      destruct (append_log_run a b c s3) as (r & s4 & -> & Hlog)
  end.
  assert (Htab2 : exists tab2, tabs s2' !! tab_id = Some tab2 /\ is_Some (Tab.run tab2)).
  { subst s2'. eexists. split; [apply lookup_insert_eq|]. by eexists. }
  destruct Htab2 as (tab2 & Htab2 & run & Hrun2).
  destruct (same_cores_lookup s2' s4 tab_id tab2) as (tab4 & Htab4 & Hcore4);
    [etrans; [apply (rf_cores _ _ Hframe)|apply (lf_cores _ _ Hlog)]|exact Htab2|].
  assert (Hrun4 : Tab.run tab4 = Some run).
  { unfold tab_core in Hcore4. injection Hcore4 as _ _ _ _ _ ->. exact Hrun2. }
  unfold TestExecutionManager.get_tab_object, TabManager.get_tab_object. rewrite bind_gets.
  unfold tabs in Htab4. rewrite Htab4, Hrun4.
  cbn [Py.nonempty andb].
  destruct Hframe as [Hruns3 _]. destruct Hlog as [Hruns4 Hsub4 _ _ _ _ _ _ _ _].
  eexists message, _, _, new. split; [reflexivity|]. cbn.
  split; [rewrite Hsub4, Hsub; by subst s2'|]. split; [exact Hlen'|].
  split; [exact Hnew|]. split.
  - rewrite Hruns4, Hruns3. subst s2'. cbn. by apply delete_id.
  - split; [apply lookup_insert_eq|reflexivity].
Qed.

Lemma idle_builds :
  exists ctx,
    Build._build_run_context (capture_dir Example.idle) (tcpdump_bin Example.idle)
      (clock Example.idle) Example.profile = Py.Ok ctx /\
    length (Build.interface_contexts ctx) = 2%nat.
Proof. eexists. split; [vm_compute; reflexivity|reflexivity]. Qed.

Lemma idle_has_no_process : subprocesses Example.idle = [].
Proof. reflexivity. Qed.

Lemma spawn_failure_is_all_or_nothing_witness :
  exists message s tab sp,
    TestExecutionManager.start_test Example.second_missing "t1" Example.profile Example.idle
    = (Py.Raise (Py.Exn Py.TestExecutionError message), s) /\
    subprocesses s = [sp] /\
    signals sp = [ProcessManager.KILL] /\
    _runs s !! "t1" = None /\
    tabs s !! "t1" = Some tab /\
    Tab.status tab = TabStatus.FAILED.
Proof.
  destruct idle_has_tab as [tab Htab]. destruct idle_builds as (ctx & Hbuild & Hlen).
  destruct (spawn_failure_is_all_or_nothing Example.second_missing "t1" Example.profile ctx
              1%nat (Py.Exn Py.FileNotFoundError "[Errno 2] No such file or directory")
              Example.idle tab Htab idle_has_no_run Hbuild I)
    as (message & s & tab' & new & Hrun & Hsub & Hnew & Hkilled & Hruns & Htab' & Hstatus).
  - rewrite Hlen. lia.
  - intros i Hi. assert (i = 0)%nat as -> by lia. by eexists.
  - reflexivity.
  - reflexivity.
  - destruct new as [|sp [|? ?]]; try discriminate Hnew.
    apply Forall_cons in Hkilled as [[_ Hsig] _].
    exists message, s, tab', sp. split; [exact Hrun|].
    split; [rewrite Hsub, idle_has_no_process; reflexivity|]. split; [exact Hsig|].
    split; [rewrite Hruns; exact idle_has_no_run|]. split; [exact Htab'|exact Hstatus].
Defined.

(** ** Building the run context (claim C3) *)

(** *** Interfaces *)

Lemma select_step_prefix acc i :
  snd acc `prefix_of` snd (Build.select_step acc i).
Proof.
  destruct acc as [selected warnings]. unfold Build.select_step.
  destruct i; try done. destruct (Py.nonempty (Py.strip s)); [|done].
  destruct (FilterBuilder.validate_interface_name (Py.strip s)); [done|].
  by apply prefix_app_r.
Qed.

Lemma select_steps_prefix items acc :
  snd acc `prefix_of` snd (foldl Build.select_step acc items).
Proof.
  revert acc. induction items as [|i items IH]; intros acc; simpl; [done|].
  etrans; [apply select_step_prefix|apply IH].
Qed.

Lemma select_fallback_spec settings warnings :
  fst (Build.select_fallback settings warnings) <> [] /\
  warnings `prefix_of` snd (Build.select_fallback settings warnings).
Proof.
  unfold Build.select_fallback.
  destruct (Py.get settings "interface") as [| | | |manual| |];
    try (split; [done|by apply prefix_app_r]).
  destruct (Py.nonempty (Py.strip manual)); [|split; [done|by apply prefix_app_r]].
  destruct (FilterBuilder.validate_interface_name (Py.strip manual)); [done|].
  split; [done|]. simpl. rewrite <- app_assoc. by apply prefix_app_r.
Qed.

(** [_select_interfaces] returns at least one interface and only appends
    warnings. *)
Lemma select_interfaces_spec settings warnings :
  fst (Build._select_interfaces settings warnings) <> [] /\
  warnings `prefix_of` snd (Build._select_interfaces settings warnings).
Proof.
  unfold Build._select_interfaces.
  destruct (Py.get settings "interfaces") as [| | | | |[|i rest]|];
    try apply select_fallback_spec.
  pose proof (select_steps_prefix (i :: rest) ([], warnings)) as Hprefix.
  destruct (foldl Build.select_step ([], warnings) (i :: rest)) as [selected warnings'].
  destruct selected; [|done].
  destruct (select_fallback_spec settings warnings') as [Hne Hprefix'].
  split; [exact Hne|by etrans].
Qed.

(** *** Guarded conversions *)

(** [value] is not an infinite float, the one value that [int()] rejects
    with an [OverflowError]. *)
Definition not_infinite (value : Py.pyval) : Prop :=
  match value with
  | Py.VFloat (S754_infinity _) => False
  | _ => True
  end.

Lemma int_raises value e :
  Py.int_ value = Py.Raise e ->
  Py.exn_cls e = Py.TypeError \/ Py.exn_cls e = Py.ValueError \/
  (Py.exn_cls e = Py.OverflowError /\ ~ not_infinite value).
Proof.
  destruct value as [| | |f| | |]; simpl; try discriminate;
    try (intros [= <-]; by left).
  - destruct f; try discriminate; intros [= <-]; [|by right; left].
    right; right. split; [done|]. by intros [].
  - destruct (Py.int_of_str s); [discriminate|]. intros [= <-]. by right; left.
Qed.

(** [_coerce_positive_int] returns for every value but an infinite float:
    the converted value if it reaches the minimum, else the default with
    one more warning. *)
Lemma coerce_positive_int_spec value default_ minimum field warnings :
  not_infinite value ->
  exists n extra,
    Build._coerce_positive_int value default_ minimum field warnings
    = Py.Ok (n, warnings ++ extra) /\
    ((Py.int_ value = Py.Ok n /\ minimum <= n /\ extra = []) \/
     (n = default_ /\ length extra = 1%nat)).
Proof.
  intros Hfinite. unfold Build._coerce_positive_int.
  destruct (Py.int_ value) as [ivalue|e] eqn:Hint; simpl.
  - destruct (Z.ltb_spec ivalue minimum); simpl.
    + eexists _, [_]. split; [reflexivity|]. by right.
    + exists ivalue, []. rewrite app_nil_r. split; [reflexivity|]. by left.
  - destruct (int_raises value e Hint) as [Hcls|[Hcls|[_ Hinf]]]; [| |done];
      unfold Py.isinstance; rewrite Hcls; simpl;
      (eexists _, [_]; split; [reflexivity|]; by right).
Qed.

(** The outcome of a guarded step: it returns with the warnings it was
    given, and possibly more; if it raises, then an [OverflowError]. *)
Definition guarded (warnings : list string) (r : Py.result (Z * list string)) : Prop :=
  match r with
  | Py.Ok (_, warnings') => warnings `prefix_of` warnings'
  | Py.Raise e => Py.exn_cls e = Py.OverflowError
  end.

Lemma coerce_positive_int_guarded value default_ minimum field warnings :
  guarded warnings (Build._coerce_positive_int value default_ minimum field warnings).
Proof.
  unfold Build._coerce_positive_int.
  destruct (Py.int_ value) as [ivalue|e] eqn:Hint; simpl.
  - destruct (ivalue <? minimum); simpl; [by apply prefix_app_r|done].
  - destruct (int_raises value e Hint) as [Hcls|[Hcls|[Hcls _]]];
      unfold Py.isinstance; rewrite Hcls; simpl; first [by apply prefix_app_r|done].
Qed.

Section BuildWithRuntime.
Context `{Py.Runtime}.

Lemma float_raises value e :
  Py.float_ value = Py.Raise e ->
  Py.exn_cls e = Py.TypeError \/ Py.exn_cls e = Py.ValueError \/
  Py.exn_cls e = Py.OverflowError.
Proof.
  destruct value as [| |z| |s| |]; simpl; try discriminate;
    try (intros [= <-]; by left).
  - destruct (Py.float_of_Z z); try discriminate. intros [= <-]. by right; right.
  - destruct (Py.float_of_str s); [discriminate|]. intros [= <-]. by right; left.
Qed.

Lemma calculate_ring_file_size_mb_guarded settings warnings :
  guarded warnings (Build._calculate_ring_file_size_mb settings warnings).
Proof.
  unfold Build._calculate_ring_file_size_mb.
  set (size_value := Py.get settings "ringFileSizeValue").
  assert (Hbody : guarded warnings
            (Py.try_except
               (value ← Py.float_ size_value;
                if Py.float_le value (S754_zero false) then
                  Py.Ok (Build.DEFAULT_RING_FILE_SIZE_MB,
                         warnings ++ ["Ringpuffergröße muss positiv sein, verwende "
                                        +:+ Py.str_of_int Build.DEFAULT_RING_FILE_SIZE_MB
                                        +:+ " MB."])
                else
                  multiplier ← Build.unit_multiplier
                                 (Py.get_default settings "ringFileSizeUnit"
                                    (Py.VStr "megabytes"));
                  rounded ← Py.round_ (Py.float_mul value multiplier);
                  Py.Ok (Z.max 1 rounded, warnings))
               [Py.TypeError; Py.ValueError]
               (fun _ => Py.Ok (Build.DEFAULT_RING_FILE_SIZE_MB,
                                warnings ++ ["Ringpuffergröße ungültig, verwende "
                                               +:+ Py.str_of_int Build.DEFAULT_RING_FILE_SIZE_MB
                                               +:+ " MB."])))).
  { destruct (Py.float_ size_value) as [value|e] eqn:Hfloat; simpl.
    - destruct (Py.float_le value (S754_zero false)); simpl; [by apply prefix_app_r|].
      unfold Build.unit_multiplier.
      destruct (negb (Py.is_hashable _)); simpl; [by apply prefix_app_r|].
      repeat (destruct (Py.eq_str _ _)); simpl;
        (destruct (Py.float_mul _ _); simpl; first [done|by apply prefix_app_r]).
    - destruct (float_raises _ _ Hfloat) as [Hcls|[Hcls|Hcls]];
        unfold Py.isinstance; rewrite Hcls; simpl; first [by apply prefix_app_r|done]. }
  destruct size_value; try exact Hbody.
  destruct (Py.get settings "ringFileSizeMB"); try apply coerce_positive_int_guarded.
  simpl. reflexivity.
Qed.

(** A ring-file size that [float()] rejects with a [TypeError] or a
    [ValueError] is replaced by the default, with a warning. *)
Lemma calculate_ring_file_size_mb_rejected settings warnings e :
  Py.get settings "ringFileSizeValue" <> Py.VNone ->
  Py.float_ (Py.get settings "ringFileSizeValue") = Py.Raise e ->
  Py.exn_cls e <> Py.OverflowError ->
  exists warning,
    Build._calculate_ring_file_size_mb settings warnings
    = Py.Ok (Build.DEFAULT_RING_FILE_SIZE_MB, warnings ++ [warning]).
Proof.
  intros Hvalue Hfloat Hcls. unfold Build._calculate_ring_file_size_mb.
  destruct (float_raises _ _ Hfloat) as [Hcls'|[Hcls'|Hcls']]; [| |done];
    destruct (Py.get settings "ringFileSizeValue"); try done;
    rewrite Hfloat; simpl; unfold Py.isinstance; rewrite Hcls'; simpl; by eexists.
Qed.

(** *** Unguarded conversions *)

(** [text] is not empty and [int()] rejects it. *)
Definition not_an_integer (text : string) : Prop :=
  Py.nonempty text = true /\ Py.int_of_str text = None.

Definition invalid_literal (text : string) : Py.exn :=
  Py.Exn Py.ValueError ("invalid literal for int() with base 10: '" +:+ text +:+ "'").

(** Under [headerOnly] the snapshot length is a guarded conversion. *)
Lemma determine_snap_length_header_only settings warnings :
  Py.truthy (Py.get settings "headerOnly") = true ->
  Build._determine_snap_length settings warnings
  = Build._coerce_positive_int (Py.get settings "headerSnaplen")
      Build.DEFAULT_HEADER_SNAPLEN 64 "Header-Snaplen" warnings.
Proof. intros Hheader. unfold Build._determine_snap_length. by rewrite Hheader. Qed.

(** Without [headerOnly], an explicit snapshot length that is not an
    integer raises. *)
Lemma determine_snap_length_raises settings warnings text :
  Py.truthy (Py.get settings "headerOnly") = false ->
  Py.get settings "snapLength" = Py.VStr text ->
  not_an_integer text ->
  Build._determine_snap_length settings warnings = Py.Raise (invalid_literal text).
Proof.
  intros Hheader Hsnap [Hne Hint]. unfold Build._determine_snap_length.
  rewrite Hheader, Hsnap. simpl. rewrite Hne.
  unfold Py.get_default. unfold Py.get in Hsnap.
  destruct (Py.dict_lookup settings "snapLength") as [v|]; [|discriminate].
  subst v. simpl. by rewrite Hint.
Qed.

(** A buffer size that is not an integer raises. *)
Lemma build_tcpdump_command_raises tcpdump_bin interface settings filename_base
    snap_length ring_file_size_mb ring_file_count bpf_filter text :
  Py.get settings "bufferSize" = Py.VStr text ->
  not_an_integer text ->
  Build._build_tcpdump_command tcpdump_bin interface settings filename_base snap_length
    ring_file_size_mb ring_file_count bpf_filter = Py.Raise (invalid_literal text).
Proof.
  intros Hbuffer [Hne Hint]. unfold Build._build_tcpdump_command.
  unfold Py.get_default. unfold Py.get in Hbuffer.
  destruct (Py.dict_lookup settings "bufferSize") as [v|]; [|discriminate].
  subst v. simpl. rewrite Hne. simpl. by rewrite Hint.
Qed.
End BuildWithRuntime.

Section ContextWithRuntime.
Context `{Py.Runtime}.

(** With an explicit snapshot length that is not an integer, the build
    raises: the [ValueError] of [int()], unless the ring-file size or
    count overflowed before. *)
Lemma build_run_context_snap_length_raises capture_dir tcpdump_bin now profile settings
    text :
  Profile.settings profile = Some (Py.VDict settings) ->
  Py.truthy (Py.get settings "headerOnly") = false ->
  Py.get settings "snapLength" = Py.VStr text ->
  not_an_integer text ->
  exists e,
    Build._build_run_context capture_dir tcpdump_bin now profile = Py.Raise e /\
    (e = invalid_literal text \/ Py.exn_cls e = Py.OverflowError).
Proof.
  intros Hsettings Hheader Hsnap Htext. unfold Build._build_run_context.
  rewrite Hsettings.
  destruct (Build._select_interfaces settings []) as [interfaces warnings].
  pose proof (calculate_ring_file_size_mb_guarded settings warnings) as Hsize.
  destruct (Build._calculate_ring_file_size_mb settings warnings) as [[size warnings1]|e];
    simpl in *; [|by eauto].
  pose proof (coerce_positive_int_guarded (Py.get settings "ringFileCount")
                Build.DEFAULT_RING_FILE_COUNT 1 "Ring-Dateianzahl" warnings1) as Hcount.
  destruct (Build._coerce_positive_int _ _ _ _ warnings1) as [[count warnings2]|e];
    simpl in *; [|by eauto].
  rewrite (determine_snap_length_raises settings warnings2 text) by done.
  simpl. eauto.
Qed.

(** With a buffer size that is not an integer, the build does not return. *)
Lemma build_run_context_buffer_size_raises capture_dir tcpdump_bin now profile settings
    text :
  Profile.settings profile = Some (Py.VDict settings) ->
  Py.get settings "bufferSize" = Py.VStr text ->
  not_an_integer text ->
  exists e, Build._build_run_context capture_dir tcpdump_bin now profile = Py.Raise e.
Proof.
  intros Hsettings Hbuffer Htext. unfold Build._build_run_context.
  rewrite Hsettings.
  pose proof (select_interfaces_spec settings []) as [Hne _].
  destruct (Build._select_interfaces settings []) as [interfaces warnings].
  simpl in Hne.
  destruct (Build._calculate_ring_file_size_mb settings warnings) as [[size warnings1]|e];
    simpl; [|by eauto].
  destruct (Build._coerce_positive_int _ _ _ _ warnings1) as [[count warnings2]|e];
    simpl; [|by eauto].
  destruct (Build._determine_snap_length settings warnings2) as [[snap warnings3]|e];
    simpl; [|by eauto].
  destruct (FilterBuilder.build_bpf_filter settings) as [bpf|e]; simpl; [|by eauto].
  destruct interfaces as [|interface rest]; [done|]. simpl.
  rewrite (build_tcpdump_command_raises _ _ _ _ _ _ _ _ text) by done.
  simpl. eauto.
Qed.

(** [RunExecutor.start_test] turns a [ValueError] of the build into an
    [InvalidConfigurationError], and changes nothing. *)
Lemma executor_start_test_invalid log_callback env tab_id profile tab_name e s :
  _runs s !! tab_id = None ->
  Build._build_run_context (capture_dir s) (tcpdump_bin s) (clock s) profile = Py.Raise e ->
  Py.exn_cls e = Py.ValueError ->
  RunExecutor.start_test log_callback env tab_id profile tab_name s
  = (Py.Raise (Py.Exn Py.InvalidConfigurationError
                 ("Konfiguration ungültig: " +:+ Py.exn_str e)), s).
Proof.
  intros Hnone Hbuild Hcls.
  unfold RunExecutor.start_test, RunExecutor.is_running. rewrite bind_gets.
  rewrite Hnone, bool_decide_eq_false_2 by (by intros [? ?]).
  rewrite bind_run. unfold Co.try_except. rewrite Hbuild.
  unfold Py.isinstance. rewrite Hcls. reflexivity.
Qed.
End ContextWithRuntime.

(** [start_test] on a profile whose build raises a [ValueError]: the error
    is reported as an [InvalidConfigurationError], no process is started,
    no run is registered and the tab is left in status "failed". *)
Lemma start_test_invalid `{Py.Runtime} env tab_id profile e s tab :
  tabs s !! tab_id = Some tab ->
  _runs s !! tab_id = None ->
  Build._build_run_context (capture_dir s) (tcpdump_bin s) (clock s) profile = Py.Raise e ->
  Py.exn_cls e = Py.ValueError ->
  exists s' tab',
    TestExecutionManager.start_test env tab_id profile s
    = (Py.Raise (Py.Exn Py.InvalidConfigurationError
                   ("Konfiguration ungültig: " +:+ Py.exn_str e)), s') /\
    subprocesses s' = subprocesses s /\
    _runs s' = _runs s /\
    tabs s' !! tab_id = Some tab' /\
    Tab.status tab' = TabStatus.FAILED.
Proof.
  intros Htab Hnone Hbuild Hcls.
  unfold TestExecutionManager.start_test, TestExecutionManager.get_tab_object,
    TabManager.get_tab_object, RunExecutor.is_running, utcnow_iso.
  rewrite bind_gets. unfold tabs in Htab. rewrite Htab.
  rewrite bind_gets, Hnone, bool_decide_eq_false_2 by (by intros [? ?]).
  rewrite bind_gets, bind_run.
  unfold TestExecutionManager.on_tabs at 1, TabManager.update_tab_status at 1.
  rewrite Htab. cbv zeta. cbn [TabManager._save_state_locked].
  rewrite bind_run. unfold TestExecutionManager._broadcast at 1, Co.modify at 1.
  rewrite bind_run. unfold Co.try_except at 1.
  match goal with
  | |- context [ RunExecutor.start_test ?cb env tab_id profile ?name ?s2 ] =>
      rewrite (executor_start_test_invalid cb env tab_id profile name e s2) by done;
      remember s2 as s2' eqn:Hs2
  end.
  cbn [existsb].
  assert (Hcaught : forall m, Py.isinstance (Py.Exn Py.InvalidConfigurationError m)
                      Py.InvalidConfigurationError = true) by reflexivity.
  rewrite Hcaught, orb_true_l. clear Hcaught.
  rewrite bind_run. unfold TestExecutionManager._mark_run_failed. rewrite bind_run.
  match goal with
  | |- context [ TestExecutionManager._append_log ?a ?b ?c s2' ] =>
      destruct (append_log_run a b c s2') as (r & s4 & -> & Hlog)
  end.
  assert (Htab2 : exists tab2, tabs s2' !! tab_id = Some tab2 /\ is_Some (Tab.run tab2)).
  { subst s2'. eexists. split; [apply lookup_insert_eq|]. by eexists. }
  destruct Htab2 as (tab2 & Htab2 & run & Hrun2).
  destruct (same_cores_lookup s2' s4 tab_id tab2) as (tab4 & Htab4 & Hcore4);
    [apply (lf_cores _ _ Hlog)|exact Htab2|].
  assert (Hrun4 : Tab.run tab4 = Some run).
  { unfold tab_core in Hcore4. injection Hcore4 as _ _ _ _ _ ->. exact Hrun2. }
  unfold TestExecutionManager.get_tab_object, TabManager.get_tab_object. rewrite bind_gets.
  unfold tabs in Htab4. rewrite Htab4, Hrun4.
  cbn [Py.nonempty andb].
  destruct Hlog as [Hruns4 Hsub4 _ _ _ _ _ _ _ _].
  eexists _, _. split; [reflexivity|]. cbn.
  split; [rewrite Hsub4; by subst s2'|]. split.
  - rewrite Hruns4. subst s2'. cbn. by apply delete_id.
  - split; [apply lookup_insert_eq|reflexivity].
Qed.


(** A profile whose snapshot length is not a number. *)
Definition abc_profile : Profile.t :=
  Profile.Make (Some "p2") (Some "Broken")
    (Some (Py.VDict [("interfaces", Py.VList [Py.VStr "eth0"]);
                     ("ringFileCount", Py.VStr "many");
                     ("snapLength", Py.VStr "abc")])).

Lemma abc_profile_build_raises :
  Build._build_run_context (capture_dir Example.idle) (tcpdump_bin Example.idle)
    (clock Example.idle) abc_profile
  = Py.Raise (invalid_literal "abc").
Proof. vm_compute. reflexivity. Qed.



(** ** The watcher and its exit callback (claim C4) *)

(** The calls that a watcher makes to its callbacks. *)
Inductive callback_call :=
| LogCall (message : string) (interface : option string)
| ExitCall (returncode : option Z) (error : option string).

Definition is_exit_call (c : callback_call) : bool :=
  match c with ExitCall _ _ => true | LogCall _ _ => false end.

(** The calls of the exit callback among [calls]. *)
Definition exit_calls (calls : list callback_call) : list callback_call :=
  List.filter is_exit_call calls.

(** What the calls of a callback do, one after the other: return ([None])
    or raise. *)
Definition outcomes := nat -> option Py.exn.

Definition outcome (o : option Py.exn) : Py.result unit :=
  match o with None => Py.Ok () | Some e => Py.Raise e end.

(** Callbacks that record their calls; the state is the list of the calls
    made so far. *)
Definition recording_log (logs : outcomes) (message : string) (interface : option string)
    : M (list callback_call) unit :=
  fun calls =>
    (outcome (logs (length calls - length (exit_calls calls))%nat),
     calls ++ [LogCall message interface]).

Definition recording_exit (exits : outcomes) (returncode : option Z)
    (error : option string) : M (list callback_call) unit :=
  fun calls =>
    (outcome (exits (length (exit_calls calls))), calls ++ [ExitCall returncode error]).

(** The watcher of a process that behaves as [p], with recording
    callbacks. *)
Definition watch (logs exits : outcomes) (p : ProcessManager.watched_process)
    (interface capture_id : string) : Py.result unit * list callback_call :=
  ProcessManager.watch_interface_process (recording_log logs) (recording_exit exits)
    p interface capture_id [].

(** The exit callback always returns. *)
Definition returns : outcomes := fun _ => None.

(** [calls'] has the same calls of the exit callback as [calls]. *)
Definition same_exit_calls : relation (list callback_call) :=
  fun calls calls' => exit_calls calls' = exit_calls calls.

#[global] Instance same_exit_calls_preorder : PreOrder same_exit_calls.
Proof.
  split; [by intros calls|]. intros c1 c2 c3 H1 H2. unfold same_exit_calls in *. congruence.
Qed.

Lemma recording_log_same logs message interface :
  within same_exit_calls (recording_log logs message interface).
Proof.
  intros calls. unfold same_exit_calls, exit_calls. simpl.
  rewrite List.filter_app. simpl. by rewrite app_nil_r.
Qed.

Lemma recording_exit_adds exits returncode error calls :
  exit_calls (snd (recording_exit exits returncode error calls))
  = exit_calls calls ++ [ExitCall returncode error].
Proof. unfold exit_calls. simpl. by rewrite List.filter_app. Qed.

Lemma read_loop_same logs interface reads :
  within same_exit_calls (ProcessManager.read_loop (recording_log logs) interface reads).
Proof.
  induction reads as [|[line|e] rest IH]; simpl.
  - apply within_ret, _.
  - destruct (negb (Py.nonempty line)); [apply within_ret, _|].
    apply within_bind; [apply _| |intros _; exact IH].
    apply within_try_except; [apply _|apply recording_log_same|intros; apply within_ret, _].
  - repeat (destruct (Py.isinstance e _)); first [apply within_ret, _|apply within_raise, _].
Qed.

(** The watcher has called the exit callback once if it returned, and not
    at all if it raised. *)
Definition reported_once_or_never (r : Py.result unit * list callback_call) : Prop :=
  match fst r with
  | Py.Ok _ => length (exit_calls (snd r)) = 1%nat
  | Py.Raise _ => exit_calls (snd r) = []
  end.

Lemma report_error_once logs p interface prefix exc calls :
  exit_calls calls = [] ->
  reported_once_or_never
    (ProcessManager.report_error (recording_log logs) (recording_exit returns)
       p interface prefix exc calls).
Proof.
  intros Hnone. unfold ProcessManager.report_error. rewrite bind_run.
  unfold Co.try_except at 1.
  pose proof (recording_log_same logs
                ("[" +:+ interface +:+ "] " +:+ prefix +:+ Py.exn_str exc) (Some interface)
                calls) as Hsame.
  destruct (recording_log logs _ _ calls) as [[[]|e] calls1]; cbn [snd] in Hsame;
    unfold same_exit_calls in Hsame.
  - unfold reported_once_or_never, Co.try_except. simpl.
    unfold exit_calls in *. rewrite List.filter_app, Hsame, Hnone. reflexivity.
  - destruct (existsb (Py.isinstance e) [Py.Exception_]).
    + unfold reported_once_or_never, Co.try_except, Co.ret. simpl.
      unfold exit_calls in *. rewrite List.filter_app, Hsame, Hnone. reflexivity.
    + unfold reported_once_or_never. simpl. unfold exit_calls in *. by rewrite Hsame.
Qed.

(** With an exit callback that returns, the watcher that returns has
    called it exactly once, and the watcher that raises (because it was
    cancelled, or for another error that it does not handle) has not called
    it. *)
Lemma watch_reports_once_or_never logs p interface capture_id :
  reported_once_or_never (watch logs returns p interface capture_id).
Proof.
  unfold watch, ProcessManager.watch_interface_process. rewrite bind_run.
  assert (Hreads : within same_exit_calls
            (match ProcessManager.stdout p with
             | Some reads => ProcessManager.read_loop (recording_log logs) interface reads
             | None => Co.ret ()
             end)).
  { destruct (ProcessManager.stdout p); [apply read_loop_same|apply within_ret, _]. }
  specialize (Hreads []).
  destruct (match ProcessManager.stdout p with
            | Some reads => ProcessManager.read_loop (recording_log logs) interface reads
            | None => Co.ret ()
            end []) as [[[]|exc] calls]; cbn [snd] in Hreads;
    unfold same_exit_calls in Hreads; change (exit_calls []) with (@nil callback_call) in Hreads.
  - rewrite bind_run. unfold Co.lift.
    destruct (ProcessManager.wait p) as [rc|exc].
    + unfold reported_once_or_never. simpl.
      unfold exit_calls in *. rewrite List.filter_app, Hreads. reflexivity.
    + repeat (destruct (Py.isinstance exc _));
        first [by apply report_error_once|exact Hreads].
  - repeat (destruct (Py.isinstance exc _));
      first [by apply report_error_once|exact Hreads].
Qed.

(** An error that the watcher handles: an [Exception], which a
    cancellation is not. *)
Definition handled (e : Py.exn) : Prop := Py.isinstance e Py.Exception_ = true.

Lemma handled_not_cancelled e : handled e -> Py.isinstance e Py.CancelledError = false.
Proof. unfold handled, Py.isinstance. by destruct (Py.exn_cls e). Qed.

(** No cancellation reaches the watcher: the reads, the log callback and
    the wait return or raise errors that the watcher handles. *)
Record undisturbed (logs : outcomes) (p : ProcessManager.watched_process) : Prop := {
  und_logs : forall n e, logs n = Some e -> handled e;
  und_reads : forall reads, ProcessManager.stdout p = Some reads ->
              Forall (fun r => forall e, r = ProcessManager.ReadRaise e -> handled e) reads;
  und_wait : forall e, ProcessManager.wait p = ProcessManager.WaitRaise e -> handled e;
}.

Lemma guarded_log_total logs message interface :
  (forall n e, logs n = Some e -> handled e) ->
  total (Co.try_except (recording_log logs message interface) [Py.Exception_]
           (fun _ => Co.ret ())).
Proof.
  intros Hlogs calls. unfold Co.try_except, recording_log.
  destruct (logs _) as [e|] eqn:Hlog; simpl; [|by eexists].
  rewrite (Hlogs _ _ Hlog). simpl. by eexists.
Qed.

Lemma guarded_exit_total exits returncode error :
  (forall n e, exits n = Some e -> handled e) ->
  total (Co.try_except (recording_exit exits returncode error) [Py.Exception_]
           (fun _ => Co.ret ())).
Proof.
  intros Hexits calls. unfold Co.try_except, recording_exit.
  destruct (exits _) as [e|] eqn:Hexit; simpl; [|by eexists].
  rewrite (Hexits _ _ Hexit). simpl. by eexists.
Qed.

Lemma read_loop_undisturbed logs interface reads :
  (forall n e, logs n = Some e -> handled e) ->
  Forall (fun r => forall e, r = ProcessManager.ReadRaise e -> handled e) reads ->
  total (ProcessManager.read_loop (recording_log logs) interface reads).
Proof.
  intros Hlogs Hreads. induction Hreads as [|[line|e] rest Hr _ IH]; simpl.
  - apply total_ret.
  - destruct (negb (Py.nonempty line)); [apply total_ret|].
    apply total_bind; [by apply guarded_log_total|intros _; exact IH].
  - specialize (Hr e eq_refl). rewrite (handled_not_cancelled e Hr).
    destruct (Py.isinstance e Py.OSError); [apply total_ret|].
    unfold handled in Hr. rewrite Hr. apply total_ret.
Qed.

Lemma report_error_total logs exits p interface prefix exc :
  (forall n e, logs n = Some e -> handled e) ->
  (forall n e, exits n = Some e -> handled e) ->
  total (ProcessManager.report_error (recording_log logs) (recording_exit exits)
           p interface prefix exc).
Proof.
  intros Hlogs Hexits. unfold ProcessManager.report_error.
  apply total_bind; [by apply guarded_log_total|intros _; by apply guarded_exit_total].
Qed.

(** A watcher that no cancellation reaches returns, and with an exit
    callback that returns it has called it exactly once. *)
Lemma undisturbed_watch_reports_once logs p interface capture_id :
  undisturbed logs p ->
  fst (watch logs returns p interface capture_id) = Py.Ok () /\
  length (exit_calls (snd (watch logs returns p interface capture_id))) = 1%nat.
Proof.
  intros [Hlogs Hreads Hwait].
  assert (Hok : fst (watch logs returns p interface capture_id) = Py.Ok ()).
  { unfold watch, ProcessManager.watch_interface_process. rewrite bind_run.
    assert (Htotal : total
              (match ProcessManager.stdout p with
               | Some reads => ProcessManager.read_loop (recording_log logs) interface reads
               | None => Co.ret ()
               end)).
    { destruct (ProcessManager.stdout p) as [reads|] eqn:Hstdout; [|apply total_ret].
      apply read_loop_undisturbed; [done|by apply Hreads]. }
    destruct (total_run _ [] Htotal) as [[] ->].
    rewrite bind_run. unfold Co.lift.
    destruct (ProcessManager.wait p) as [rc|exc] eqn:Hw; [reflexivity|].
    specialize (Hwait exc eq_refl). rewrite (handled_not_cancelled exc Hwait).
    assert (Hreport : forall prefix calls,
               fst (ProcessManager.report_error (recording_log logs) (recording_exit returns)
                      p interface prefix exc calls) = Py.Ok ()).
    { intros prefix calls.
      destruct (total_run _ calls (report_error_total logs returns p interface prefix exc
                                     Hlogs ltac:(done))) as [[] ->]. reflexivity. }
    destruct (Py.isinstance exc Py.OSError); [apply Hreport|].
    unfold handled in Hwait. rewrite Hwait. apply Hreport. }
  split; [exact Hok|].
  pose proof (watch_reports_once_or_never logs p interface capture_id) as Honce.
  unfold reported_once_or_never in Honce. by rewrite Hok in Honce.
Qed.

(** A watcher that raises, as a cancelled one does, has not called an exit
    callback that returns. *)
Lemma raising_watch_never_reports logs p interface capture_id e :
  fst (watch logs returns p interface capture_id) = Py.Raise e ->
  exit_calls (snd (watch logs returns p interface capture_id)) = [].
Proof.
  intros Hraise.
  pose proof (watch_reports_once_or_never logs p interface capture_id) as Honce.
  unfold reported_once_or_never in Honce. by rewrite Hraise in Honce.
Qed.

(** A cancellation at the wait for the end of the process: the watcher
    raises it and has not called the exit callback. *)
Lemma cancelled_at_wait_never_reports logs exits p interface capture_id e :
  (forall n e, logs n = Some e -> handled e) ->
  (forall reads, ProcessManager.stdout p = Some reads ->
                 Forall (fun r => forall e, r = ProcessManager.ReadRaise e -> handled e) reads) ->
  ProcessManager.wait p = ProcessManager.WaitRaise e ->
  Py.isinstance e Py.CancelledError = true ->
  fst (watch logs exits p interface capture_id) = Py.Raise e /\
  exit_calls (snd (watch logs exits p interface capture_id)) = [].
Proof.
  intros Hlogs Hreads Hwait Hcancel.
  unfold watch, ProcessManager.watch_interface_process. rewrite bind_run.
  assert (Htotal : total
            (match ProcessManager.stdout p with
             | Some reads => ProcessManager.read_loop (recording_log logs) interface reads
             | None => Co.ret ()
             end)).
  { destruct (ProcessManager.stdout p) as [reads|] eqn:Hstdout; [|apply total_ret].
    apply read_loop_undisturbed; [done|by apply Hreads]. }
  assert (Hsame : within same_exit_calls
            (match ProcessManager.stdout p with
             | Some reads => ProcessManager.read_loop (recording_log logs) interface reads
             | None => Co.ret ()
             end)).
  { destruct (ProcessManager.stdout p); [apply read_loop_same|apply within_ret, _]. }
  specialize (Hsame []). destruct (total_run _ [] Htotal) as [[] Hrun].
  rewrite Hrun in *. rewrite bind_run. unfold Co.lift. rewrite Hwait, Hcancel.
  split; [reflexivity|exact Hsame].
Qed.

(** An exit callback whose first call fails to write the journal. *)
Definition disk_full : Py.exn := Py.Exn Py.OSError "[Errno 28] No space left on device".

Definition fails_first : outcomes :=
  fun n => match n with O => Some disk_full | _ => None end.

(** Claim C4.  The process on eth0 prints nothing and ends with status 0;
    no cancellation reaches the watcher; the first call of the exit callback
    raises an [OSError].  The watcher then calls the exit callback a second
    time, with the text of the error: the exit is reported twice, not once. *)
Theorem watcher_calls_exit_callback_twice :
  watch returns fails_first (Example.quiet 0) "eth0" "c0"
  = (Py.Ok (),
     [ExitCall (Some 0) None;
      LogCall "[eth0] I/O-Fehler beim Wachen: [Errno 28] No space left on device"
        (Some "eth0");
      ExitCall (Some 0) (Some "[Errno 28] No space left on device")]) /\
  undisturbed returns (Example.quiet 0) /\
  length (exit_calls (snd (watch returns fails_first (Example.quiet 0) "eth0" "c0"))) = 2%nat.
Proof.
  split; [reflexivity|]. split; [|reflexivity].
  split.
  - intros n e. discriminate.
  - intros reads [= <-]. constructor.
  - intros e. discriminate.
Qed.

(* ===================================================================== *)
(** * Further properties of the engine                                   *)
(* ===================================================================== *)

(** ** Serialisation of tabs ([tab_models.py]) *)

Lemma run_from_dict_to_dict now r : Run.from_dict now (Run.to_dict r) = r.
Proof. by destruct r. Qed.

Lemma log_from_dict_to_dict now entry :
  Tab.log_from_dict now (LogEntry.to_dict entry) = entry.
Proof. by destruct entry. Qed.

Lemma last_n_all {A} n (l : list A) : (length l <= n)%nat -> last_n n l = l.
Proof.
  intros Hlen. unfold last_n. destruct n; [done|].
  replace (length l - S n)%nat with 0%nat by lia. apply drop_0.
Qed.

(** Appending the entries of a list that fits to a bounded deque. *)
Lemma deque_fill {A B} (f : B -> A) max (l : list B) (done_ : list A) :
  (length done_ + length l <= max)%nat ->
  foldl (fun dq x => Deque.append dq (f x)) (Deque.Make (Some max) done_) l
  = Deque.Make (Some max) (done_ ++ map f l).
Proof.
  revert done_. induction l as [|x l IH]; intros done_ Hlen; simpl.
  - by rewrite app_nil_r.
  - unfold Deque.append at 2. cbn [Deque.maxlen Deque.items].
    simpl in Hlen.
    assert (Hfits : (max <? length (done_ ++ [f x]))%nat = false).
    { apply Nat.ltb_ge. rewrite length_app. simpl. lia. }
    rewrite Hfits, IH by (rewrite length_app; simpl; lia).
    by rewrite <- app_assoc.
Qed.

(** The fields that [Tab.from_dict] reads back from [Tab.to_dict]. *)
Lemma from_dict_of_to_dict (now : string) (max : nat) (tab : Tab.t) :
  Deque.maxlen (Tab.logs tab) = Some max ->
  (length (Deque.items (Tab.logs tab)) <= max)%nat ->
  Tab.from_dict now (Tab.to_dict tab) max
  = {| Tab.id := Tab.id tab; Tab.title := Tab.title tab; Tab.status := Tab.status tab;
       Tab.created_utc := Tab.created_utc tab; Tab.updated_utc := Tab.updated_utc tab;
       Tab.profile_id := Tab.profile_id tab; Tab.run := Tab.run tab;
       Tab.logs := Tab.logs tab; Tab.log_seq := Tab.log_seq tab;
       Tab.last_message := Tab.last_message tab; Tab.profile := None |}.
Proof.
  intros Hmax Hlen. unfold Tab.from_dict, Tab.to_dict. cbn.
  f_equal.
  - destruct (Tab.run tab) as [r|]; [|done]. cbn.
    unfold Run.dict_truthy. rewrite bool_decide_eq_false_2 by (by destruct r).
    cbn. by rewrite run_from_dict_to_dict.
  - rewrite last_n_all by (by rewrite length_map).
    unfold Deque.new. rewrite (deque_fill (Tab.log_from_dict now)) by (rewrite length_map; simpl; lia).
    rewrite map_map. cbn.
    rewrite (map_ext _ id) by (intros; apply log_from_dict_to_dict).
    rewrite map_id. destruct (Tab.logs tab) as [m items]. cbn in *. by subst.
Qed.

(** [Tab.from_dict] undoes [Tab.to_dict], for a tab whose log buffer has
    the bound [max] and respects it; only the [profile] field, which
    [to_dict] does not write, is lost. *)
Theorem tab_from_dict_to_dict (now : string) (max : nat) (tab : Tab.t) :
  Deque.maxlen (Tab.logs tab) = Some max ->
  (length (Deque.items (Tab.logs tab)) <= max)%nat ->
  Tab.from_dict now (Tab.to_dict tab) max
  = {| Tab.id := Tab.id tab; Tab.title := Tab.title tab; Tab.status := Tab.status tab;
       Tab.created_utc := Tab.created_utc tab; Tab.updated_utc := Tab.updated_utc tab;
       Tab.profile_id := Tab.profile_id tab; Tab.run := Tab.run tab;
       Tab.logs := Tab.logs tab; Tab.log_seq := Tab.log_seq tab;
       Tab.last_message := Tab.last_message tab; Tab.profile := None |}.
Proof. apply from_dict_of_to_dict. Qed.

(** A tab with two log entries. *)
Definition logged_tab : Tab.t :=
  {| Tab.id := "t1"; Tab.title := "Messung 1"; Tab.status := TabStatus.COMPLETED;
     Tab.created_utc := "20240101T000000Z"; Tab.updated_utc := "20240101T000500Z";
     Tab.profile_id := Some "p1";
     Tab.run := Some (Run.finish (Run.new "r1" (Some "p1") "20240101T000100Z")
                        "20240101T000500Z" [Some 0] None);
     Tab.logs := Deque.Make (Some 500%nat)
                   [LogEntry.Make 1 "20240101T000100Z" "Starte" "t1" None;
                    LogEntry.Make 2 "20240101T000500Z" "beendet" "t1" (Some "eth0")];
     Tab.log_seq := 2; Tab.last_message := Some "beendet"; Tab.profile := None |}.

Lemma tab_from_dict_to_dict_witness :
  Tab.from_dict "20240102T000000Z" (Tab.to_dict logged_tab) 500 = logged_tab.
Proof.
  apply (tab_from_dict_to_dict "20240102T000000Z" 500 logged_tab); [reflexivity|].
  simpl. lia.
Defined.

(** ** Restart of the tab store ([tab_manager.py]) *)

(** What a restart makes of a stored tab: the profile is not persisted, and
    a tab that was starting or running is idle again, without its run. *)
Definition restored (tab : Tab.t) : Tab.t :=
  let tab :=
    {| Tab.id := Tab.id tab; Tab.title := Tab.title tab; Tab.status := Tab.status tab;
       Tab.created_utc := Tab.created_utc tab; Tab.updated_utc := Tab.updated_utc tab;
       Tab.profile_id := Tab.profile_id tab; Tab.run := Tab.run tab;
       Tab.logs := Tab.logs tab; Tab.log_seq := Tab.log_seq tab;
       Tab.last_message := Tab.last_message tab; Tab.profile := None |} in
  if bool_decide (Tab.status tab = TabStatus.RUNNING)
     || bool_decide (Tab.status tab = TabStatus.STARTING)
  then Tab.set_run (Tab.set_status tab TabStatus.IDLE) None
  else tab.

(** The tab can be written to the state file and read back: it is stored
    under its own id, which is not empty and has no surrounding white space,
    and its log buffer respects the bound [max]. *)
Definition storable (max : nat) (id : string) (tab : Tab.t) : Prop :=
  Tab.id tab = id /\ Py.nonempty id = true /\ Py.strip id = id /\
  Deque.maxlen (Tab.logs tab) = Some max /\
  (length (Deque.items (Tab.logs tab)) <= max)%nat.

Lemma load_tab_to_dict now max tabs tab :
  storable max (Tab.id tab) tab ->
  TabManager.load_tab now max tabs (Tab.to_dict tab) = <[Tab.id tab := restored tab]> tabs.
Proof.
  intros (_ & Hne & Hstrip & Hmax & Hlen). unfold TabManager.load_tab.
  cbn [Tab.to_dict Tab.d_id default]. unfold or_str, id.
  rewrite Hne, Hstrip, Hne. cbn [negb]. by rewrite from_dict_of_to_dict.
Qed.

(** The tabs that the loop of [_load_state] reads from a written file. *)
Lemma load_tabs_found now max (l : list Tab.t) acc i t :
  Forall (fun tab => storable max (Tab.id tab) tab) l ->
  foldl (TabManager.load_tab now max) acc (map Tab.to_dict l) !! i = Some t ->
  (exists x, x ∈ l /\ Tab.id x = i /\ t = restored x) \/ acc !! i = Some t.
Proof.
  induction l as [|x l IH] using rev_ind; intros Hall; [by right|].
  apply Forall_app in Hall as [Hall Hx]. apply Forall_cons in Hx as [Hx _].
  rewrite map_app, foldl_app. cbn [map foldl]. rewrite load_tab_to_dict by done.
  destruct (decide (Tab.id x = i)) as [Hi|Hi].
  - rewrite Hi, lookup_insert_eq. intros [= <-]. left. exists x.
    split; [apply elem_of_app; right; left|done].
  - rewrite lookup_insert_ne by done. intros Hl.
    destruct (IH Hall Hl) as [(y & Hy & Hyi & Ht)|Hacc]; [left|by right].
    exists y. split; [apply elem_of_app; by left|done].
Qed.

Lemma load_tabs_loaded now max (l : list Tab.t) acc x :
  Forall (fun tab => storable max (Tab.id tab) tab) l ->
  x ∈ l ->
  exists y, y ∈ l /\ Tab.id y = Tab.id x /\
    foldl (TabManager.load_tab now max) acc (map Tab.to_dict l) !! Tab.id x
    = Some (restored y).
Proof.
  induction l as [|z l IH] using rev_ind; intros Hall Hin; [by apply elem_of_nil in Hin|].
  apply Forall_app in Hall as [Hall Hz]. apply Forall_cons in Hz as [Hz _].
  rewrite map_app, foldl_app. cbn [map foldl]. rewrite load_tab_to_dict by done.
  destruct (decide (Tab.id z = Tab.id x)) as [Hi|Hi].
  - exists z. split; [apply elem_of_app; right; left|]. split; [done|].
    by rewrite Hi, lookup_insert_eq.
  - apply elem_of_app in Hin as [Hin|Hin]; [|apply list_elem_of_singleton in Hin; by subst].
    destruct (IH Hall Hin) as (y & Hy & Hyi & Hl). exists y.
    split; [apply elem_of_app; by left|]. split; [done|].
    by rewrite lookup_insert_ne.
Qed.

(** Writing the state file and starting again on it gives every tab back,
    as [restored] tells: nothing is lost but the runs of the tabs that were
    starting or running. *)
Theorem load_state_restores_saved_tabs (now : string) (m : TabManager.t) :
  (forall id tab, TabManager._tabs m !! id = Some tab ->
                  storable (TabManager.max_log_entries m) id tab) ->
  TabManager._tabs
    (TabManager.init now (TabManager.max_log_entries m)
       (TabManager._tabs_file (TabManager._save_state_locked m)))
  = restored <$> TabManager._tabs m.
Proof.
  intros Hok. unfold TabManager.init, TabManager._load_state. cbn.
  set (l := (map_to_list (TabManager._tabs m)).*2).
  assert (Hl : forall x, x ∈ l <-> TabManager._tabs m !! Tab.id x = Some x).
  { intros x. unfold l. rewrite list_elem_of_fmap. split.
    - intros ([i y] & -> & Hin). apply elem_of_map_to_list in Hin. cbn.
      destruct (Hok i y Hin) as [-> _]. exact Hin.
    - intros Hx. exists (Tab.id x, x). split; [done|]. by apply elem_of_map_to_list. }
  assert (Hall : Forall (fun tab => storable (TabManager.max_log_entries m) (Tab.id tab) tab) l).
  { apply Forall_forall. intros x Hx%Hl. by apply Hok. }
  apply map_eq. intros i. rewrite lookup_fmap.
  destruct (TabManager._tabs m !! i) as [tab|] eqn:Htab; cbn.
  - destruct (Hok i tab Htab) as [Hid _]. subst i.
    destruct (load_tabs_loaded now (TabManager.max_log_entries m) l ∅ tab Hall) as
      (y & Hy & Hyi & Hload); [by apply Hl|].
    rewrite Hload. apply Hl in Hy. rewrite Hyi, Htab in Hy. by injection Hy as ->.
  - destruct (foldl _ _ _ !! i) as [t|] eqn:Hload; [|done].
    destruct (load_tabs_found _ _ _ _ _ _ Hall Hload) as [(x & Hx & Hxi & _)|Hempty].
    + apply Hl in Hx. rewrite Hxi in Hx. congruence.
    + by rewrite lookup_empty in Hempty.
Qed.

(** A store with one tab, which was running when the engine went down. *)
Definition interrupted_store : TabManager.t :=
  TabManager.Make 500
    {[ "t1" := Tab.set_status logged_tab TabStatus.RUNNING ]} None.

Lemma load_state_restores_saved_tabs_witness :
  TabManager._tabs
    (TabManager.init "20240102T000000Z" 500
       (TabManager._tabs_file (TabManager._save_state_locked interrupted_store)))
  = restored <$> TabManager._tabs interrupted_store.
Proof.
  apply (load_state_restores_saved_tabs "20240102T000000Z" interrupted_store).
  intros id tab Htab. cbn in Htab. apply lookup_singleton_Some in Htab as [<- <-].
  split; [reflexivity|]. split; [reflexivity|]. split; [reflexivity|].
  split; [reflexivity|]. simpl. lia.
Defined.

(** ** Reading the log ([get_logs]) *)

(** The entries of a contiguous log that are newer than [after]. *)
Lemma filter_newer (after : Z) (l : list LogEntry.t) (start : Z) :
  LogEntry.seq <$> l = seqZ start (Z.of_nat (length l)) ->
  LogEntry.seq <$> filter (fun entry => after < LogEntry.seq entry) l
  = seqZ (Z.max after (start - 1) + 1)
         (start + Z.of_nat (length l) - 1 - Z.max after (start - 1)).
Proof.
  revert start. induction l as [|e l IH]; intros start Hseqs.
  - simpl. rewrite seqZ_nil; [done|lia].
  - cbn [fmap list_fmap length] in Hseqs.
    rewrite Nat2Z.inj_succ, <- Z.add_1_r in Hseqs.
    rewrite seqZ_cons in Hseqs by lia. injection Hseqs as He Hseqs.
    replace (Z.pred (Z.of_nat (length l) + 1)) with (Z.of_nat (length l)) in Hseqs by lia.
    replace (Z.succ start) with (start + 1) in Hseqs by lia.
    specialize (IH (start + 1) Hseqs).
    replace (start + 1 - 1) with start in IH by lia.
    destruct (decide (after < LogEntry.seq e)) as [Hnew|Hold].
    + rewrite filter_cons_True by done. cbn [fmap list_fmap]. rewrite IH.
      rewrite He in *.
      replace (Z.max after start) with start by lia.
      replace (Z.max after (start - 1)) with (start - 1) by lia.
      cbn [length]. rewrite Nat2Z.inj_succ.
      replace (start - 1 + 1) with start by lia.
      replace (start + Z.succ (Z.of_nat (length l)) - 1 - (start - 1))
        with (Z.succ (Z.of_nat (length l))) by lia.
      rewrite (seqZ_cons start) by lia. f_equal. f_equal; lia.
    + rewrite filter_cons_False by done. rewrite IH. rewrite He in *.
      replace (Z.max after (start - 1)) with (Z.max after start) by lia.
      cbn [length]. f_equal. lia.
Qed.

(** In a state whose log buffers are well formed (as in every state reached
    from an empty store), [get_logs] with [after] answers with exactly the
    buffered entries newer than [after], oldest first: their sequence
    numbers run from [max(after, log_seq - n) + 1] to [log_seq], where [n] is
    the number of buffered entries, and [lastSeq] is [log_seq]. *)
Theorem get_logs_after_returns_the_newer_entries (s : State) (tab_id : string)
    (tab : Tab.t) (after : Z) :
  logs_ok s ->
  tabs s !! tab_id = Some tab ->
  let n := Z.of_nat (length (Deque.items (Tab.logs tab))) in
  let oldest := Z.max after (Tab.log_seq tab - n) in
  exists reply,
    TestExecutionManager.get_logs tab_id (Some after) s = (Py.Ok reply, s) /\
    TabManager.tabId reply = tab_id /\
    TabManager.lastSeq reply = Tab.log_seq tab /\
    LogEntry.d_seq <$> TabManager.entries reply
    = Some <$> seqZ (oldest + 1) (Tab.log_seq tab - oldest).
Proof.
  intros Hok Htab n oldest. destruct (Hok tab_id tab Htab) as (_ & _ & Hseqs).
  unfold TestExecutionManager.get_logs, TabManager.get_logs.
  unfold tabs in Htab. rewrite Htab. eexists. split; [reflexivity|].
  split; [reflexivity|]. split; [reflexivity|]. cbn [TabManager.entries].
  rewrite <- list_fmap_compose.
  change (LogEntry.d_seq ∘ LogEntry.to_dict) with (Some ∘ LogEntry.seq).
  rewrite list_fmap_compose, (filter_newer after _ _ Hseqs).
  f_equal. unfold oldest, n. f_equal; lia.
Qed.

Lemma running_logs_ok : logs_ok Example.running.
Proof. rewrite running_as_run. apply run_logs_ok, init_logs_ok. Qed.

Lemma get_logs_after_returns_the_newer_entries_witness :
  exists tab reply,
    tabs Example.running !! "t1" = Some tab /\
    TestExecutionManager.get_logs "t1" (Some (Tab.log_seq tab - 1)) Example.running
    = (Py.Ok reply, Example.running) /\
    TabManager.lastSeq reply = Tab.log_seq tab.
Proof.
  destruct running_has_tab as [tab Htab].
  destruct (get_logs_after_returns_the_newer_entries Example.running "t1" tab
              (Tab.log_seq tab - 1) running_logs_ok Htab)
    as (reply & Hreply & _ & Hlast & _).
  exists tab, reply. split; [exact Htab|]. split; [exact Hreply|exact Hlast].
Defined.

Lemma filter_none {A} (P : A -> Prop) `{!forall x, Decision (P x)} (l : list A) :
  Forall (fun x => ~ P x) l -> filter P l = [].
Proof.
  induction 1 as [|x l Hx _ IH]; [done|]. by rewrite filter_cons_False.
Qed.

(** No buffered entry is newer than the counter of the tab. *)
Lemma filter_newer_than_counter max tab :
  log_inv max tab ->
  filter (fun entry => Tab.log_seq tab < LogEntry.seq entry) (Deque.items (Tab.logs tab)) = [].
Proof.
  intros Hinv. apply filter_none, Forall_forall. intros entry Hin.
  apply list_elem_of_lookup in Hin as [i Hi].
  pose proof (log_inv_lookup max tab i entry Hinv Hi) as Hseq.
  apply lookup_lt_Some in Hi. lia.
Qed.



(** ** Operations on a tab that does not exist *)

(** The [TabNotFoundError] of the store. *)
Definition tab_not_found_error (tab_id : string) : Py.exn :=
  Py.Exn Py.TabNotFoundError ("Tab '" +:+ tab_id +:+ "' nicht gefunden").

(** For an id under which no tab is stored (and no run registered), every
    call of the engine raises [TabNotFoundError] and leaves the whole
    state as it was: nothing is stored, started, or sent to the
    subscribers.  [_append_log] does not raise: it returns [None], and the
    message is dropped. *)
Theorem unknown_tab_is_not_found_and_nothing_changes `{Py.Runtime} (s : State)
    (tab_id : string) :
  tabs s !! tab_id = None ->
  _runs s !! tab_id = None ->
  TestExecutionManager.get_tab tab_id s = (Py.Raise (tab_not_found_error tab_id), s) /\
  (forall title profile_id,
     TestExecutionManager.update_tab tab_id title profile_id s
     = (Py.Raise (tab_not_found_error tab_id), s)) /\
  TestExecutionManager.delete_tab tab_id s = (Py.Raise (tab_not_found_error tab_id), s) /\
  (forall after,
     TestExecutionManager.get_logs tab_id after s
     = (Py.Raise (tab_not_found_error tab_id), s)) /\
  (forall env profile,
     TestExecutionManager.start_test env tab_id profile s
     = (Py.Raise (tab_not_found_error tab_id), s)) /\
  (forall react,
     TestExecutionManager.stop_test react tab_id s
     = (Py.Raise (tab_not_found_error tab_id), s)) /\
  (forall message interface,
     TestExecutionManager._append_log tab_id message interface s = (Py.Ok None, s)).
Proof.
  intros Htab Hrun. unfold tabs in Htab.
  assert (Hsame : with_tab_manager s (tab_manager s) = s) by (by destruct s).
  split.
  { unfold TestExecutionManager.get_tab, TabManager.get_tab. by rewrite Htab. }
  split.
  { intros title profile_id.
    unfold TestExecutionManager.update_tab, utcnow_iso. rewrite bind_gets, bind_run.
    unfold TestExecutionManager.on_tabs_raising, TabManager.update_tab.
    by rewrite Htab, Hsame. }
  split.
  { unfold TestExecutionManager.delete_tab, RunExecutor.get_running_tab_ids.
    rewrite bind_gets, bind_run.
    unfold TestExecutionManager.on_tabs_raising, TabManager.delete_tab.
    rewrite bool_decide_eq_false_2 by (by apply not_elem_of_dom).
    by rewrite Htab, Hsame. }
  split.
  { intros after. unfold TestExecutionManager.get_logs, TabManager.get_logs.
    by rewrite Htab. }
  split.
  { intros env profile.
    unfold TestExecutionManager.start_test, TestExecutionManager.get_tab_object,
      TabManager.get_tab_object.
    rewrite bind_gets. by rewrite Htab. }
  split.
  { intros react. unfold TestExecutionManager.stop_test, RunExecutor.stop_test.
    rewrite bind_run, bind_gets, Hrun.
    unfold TestExecutionManager.get_tab_object, TabManager.get_tab_object, Co.ret.
    rewrite bind_gets. by rewrite Htab. }
  intros message interface.
  unfold TestExecutionManager._append_log, utcnow_iso. rewrite bind_gets, bind_run.
  unfold TestExecutionManager.on_tabs, TabManager.append_log. rewrite Htab, Hsame.
  reflexivity.
Qed.

Lemma unknown_tab_is_not_found_and_nothing_changes_witness :
  TestExecutionManager.delete_tab "t9" Example.running
  = (Py.Raise (tab_not_found_error "t9"), Example.running) /\
  TestExecutionManager._append_log "t9" "Hinweis" None Example.running
  = (Py.Ok None, Example.running).
Proof.
  destruct (unknown_tab_is_not_found_and_nothing_changes Example.running "t9")
    as (_ & _ & Hdelete & _ & _ & _ & Hlog).
  - by vm_compute.
  - by vm_compute.
  - split; [exact Hdelete|apply Hlog].
Defined.

(** ** The interfaces of a run ([_select_interfaces]) *)

Lemma substring_last s c :
  String.substring (String.length s - 1) 1 s = String c "" ->
  exists s', s = s' +:+ String c "".
Proof.
  induction s as [|a s IH]; [discriminate|].
  cbn [String.length]. rewrite Nat.sub_succ, Nat.sub_0_r.
  destruct s as [|b s'].
  - simpl. intros [= ->]. by exists "".
  - cbn [String.length String.substring]. intros Hsub.
    destruct IH as [r Hr].
    + cbn [String.length]. by rewrite Nat.sub_succ, Nat.sub_0_r.
    + exists (String a r). rewrite Hr. reflexivity.
Qed.

Lemma rstrip_by_last p t s' c :
  Py.rstrip_by p t = s' +:+ String c "" -> p c = false.
Proof.
  revert s'. induction t as [|a t IH]; intros s'; simpl.
  - destruct s'; discriminate.
  - destruct (Py.rstrip_by p t) as [|b r] eqn:Hr.
    + destruct (p a) eqn:Hpa; [destruct s'; discriminate|].
      destruct s' as [|d s']; simpl; [by intros [= <-]|].
      intros [= _ Heq]. destruct s'; discriminate.
    + destruct s' as [|d s']; simpl; [discriminate|].
      intros [= _ Heq]. by apply (IH s').
Qed.

(** A name that passes [validate_interface_name] after [strip()] is made
    of the characters of the pattern only. *)
Lemma validated_stripped_name text :
  FilterBuilder.validate_interface_name (Py.strip text) = true ->
  (1 <= String.length (Py.strip text) <= 15)%nat /\
  Py.all_chars FilterBuilder.iface_char (Py.strip text) = true.
Proof.
  unfold FilterBuilder.validate_interface_name, FilterBuilder.iface_regex_matches.
  destruct (Py.nonempty (Py.strip text)) eqn:Hne; [|discriminate]. cbn [negb orb].
  destruct (Nat.ltb_spec 15 (String.length (Py.strip text))); [discriminate|].
  destruct (String.eqb_spec
              (String.substring (String.length (Py.strip text) - 1) 1 (Py.strip text))
              (String "010" "")) as [Hnl|_].
  - apply substring_last in Hnl as [s' Hs']. unfold Py.strip, Py.strip_by in Hs'.
    apply rstrip_by_last in Hs'. discriminate.
  - intros [_ Hall]%andb_true_iff. split; [|exact Hall].
    split; [|lia]. destruct (Py.strip text); [discriminate|simpl; lia].
Qed.

(** An interface name that can stand on the command line of tcpdump: one to
    fifteen characters, each a letter, a digit, a dot, an underscore or a
    dash. *)
Definition interface_name_ok (name : string) : Prop :=
  (1 <= String.length name <= 15)%nat /\
  Py.all_chars FilterBuilder.iface_char name = true.

Lemma select_step_ok acc i :
  Forall interface_name_ok (fst acc) ->
  Forall interface_name_ok (fst (Build.select_step acc i)).
Proof.
  destruct acc as [selected warnings]. unfold Build.select_step. intros Hok.
  destruct i; try done. destruct (Py.nonempty (Py.strip s)); [|done].
  destruct (FilterBuilder.validate_interface_name (Py.strip s)) eqn:Hvalid; [|done].
  cbn. apply Forall_app. split; [exact Hok|].
  apply Forall_singleton. by apply validated_stripped_name.
Qed.

Lemma select_steps_ok items acc :
  Forall interface_name_ok (fst acc) ->
  Forall interface_name_ok (fst (foldl Build.select_step acc items)).
Proof.
  revert acc. induction items as [|i items IH]; intros acc Hok; simpl; [done|].
  by apply IH, select_step_ok.
Qed.

Lemma select_fallback_ok settings warnings :
  Forall interface_name_ok (fst (Build.select_fallback settings warnings)).
Proof.
  assert (Hdefault : interface_name_ok Build.DEFAULT_INTERFACE).
  { split; [simpl; lia|reflexivity]. }
  unfold Build.select_fallback.
  destruct (Py.get settings "interface") as [| | | |manual| |];
    try (by apply Forall_singleton).
  destruct (Py.nonempty (Py.strip manual)); [|by apply Forall_singleton].
  destruct (FilterBuilder.validate_interface_name (Py.strip manual)) eqn:Hvalid;
    [|by apply Forall_singleton].
  apply Forall_singleton. by apply validated_stripped_name.
Qed.

Lemma select_fallback_nonempty settings warnings :
  (fst (Build.select_fallback settings warnings) <> [])%type.
Proof.
  unfold Build.select_fallback.
  destruct (Py.get settings "interface") as [| | | |manual| |]; try done.
  destruct (Py.nonempty (Py.strip manual)); [|done].
  by destruct (FilterBuilder.validate_interface_name (Py.strip manual)).
Qed.

Lemma select_interfaces_ok (settings : Py.pydict)
    (warnings : list string) :
  (fst (Build._select_interfaces settings warnings) <> [])%type /\
  Forall interface_name_ok (fst (Build._select_interfaces settings warnings)).
Proof.
  unfold Build._select_interfaces.
  destruct (Py.get settings "interfaces") as [| | | | |[|i rest]|];
    try (split; [apply select_fallback_nonempty|apply select_fallback_ok]).
  pose proof (select_steps_ok (i :: rest) ([], warnings)) as Hok.
  destruct (foldl Build.select_step ([], warnings) (i :: rest)) as [selected warnings'].
  destruct selected as [|name selected];
    [split; [apply select_fallback_nonempty|apply select_fallback_ok]|].
  split; [done|]. apply Hok. constructor.
Qed.

(** Whatever the settings hold, [_select_interfaces] returns at least one
    interface, and only names of one to fifteen characters out of letters,
    digits, dot, underscore and dash; every other name is dropped (with a
    warning) or replaced by the default interface. *)
Theorem select_interfaces_returns_only_valid_names (settings : Py.pydict)
    (warnings : list string) :
  (fst (Build._select_interfaces settings warnings) <> [])%type /\
  Forall interface_name_ok (fst (Build._select_interfaces settings warnings)).
Proof. apply select_interfaces_ok. Qed.

(** ** The run context ([_build_run_context]) *)

Lemma coerce_positive_int_at_least value default_ minimum field warnings n warnings' :
  minimum <= default_ ->
  Build._coerce_positive_int value default_ minimum field warnings = Py.Ok (n, warnings') ->
  minimum <= n.
Proof.
  intros Hdefault. unfold Build._coerce_positive_int.
  destruct (Py.int_ value) as [ivalue|e]; simpl.
  - destruct (Z.ltb_spec ivalue minimum); intros [= <- _]; lia.
  - destruct (_ || _); [intros [= <- _]; lia|discriminate].
Qed.

Section ContextInvariants.
Context `{Py.Runtime}.

Lemma calculate_ring_file_size_mb_positive settings warnings n warnings' :
  Build._calculate_ring_file_size_mb settings warnings = Py.Ok (n, warnings') -> 1 <= n.
Proof.
  unfold Build._calculate_ring_file_size_mb.
  assert (Hbody : forall value,
             Py.try_except
               (value ← Py.float_ value;
                if Py.float_le value (S754_zero false) then
                  Py.Ok (Build.DEFAULT_RING_FILE_SIZE_MB,
                         warnings ++ ["Ringpuffergröße muss positiv sein, verwende "
                                        +:+ Py.str_of_int Build.DEFAULT_RING_FILE_SIZE_MB
                                        +:+ " MB."])
                else
                  multiplier ← Build.unit_multiplier
                                 (Py.get_default settings "ringFileSizeUnit"
                                    (Py.VStr "megabytes"));
                  rounded ← Py.round_ (Py.float_mul value multiplier);
                  Py.Ok (Z.max 1 rounded, warnings))
               [Py.TypeError; Py.ValueError]
               (fun _ => Py.Ok (Build.DEFAULT_RING_FILE_SIZE_MB,
                                warnings ++ ["Ringpuffergröße ungültig, verwende "
                                               +:+ Py.str_of_int Build.DEFAULT_RING_FILE_SIZE_MB
                                               +:+ " MB."]))
             = Py.Ok (n, warnings') -> 1 <= n).
  { intros value. unfold Py.try_except.
    destruct (Py.float_ value) as [f|e]; simpl.
    - destruct (Py.float_le f (S754_zero false)); simpl.
      { intros [= <- _]. unfold Build.DEFAULT_RING_FILE_SIZE_MB. lia. }
      destruct (Build.unit_multiplier _) as [m|e]; simpl.
      + destruct (Py.round_ _) as [rounded|e]; simpl.
        * intros [= <- _]. lia.
        * destruct (_ || _); [|discriminate].
          intros [= <- _]. unfold Build.DEFAULT_RING_FILE_SIZE_MB. lia.
      + destruct (_ || _); [|discriminate].
        intros [= <- _]. unfold Build.DEFAULT_RING_FILE_SIZE_MB. lia.
    - destruct (_ || _); [|discriminate].
      intros [= <- _]. unfold Build.DEFAULT_RING_FILE_SIZE_MB. lia. }
  destruct (Py.get settings "ringFileSizeValue"); try apply Hbody.
  destruct (Py.get settings "ringFileSizeMB");
    try (apply coerce_positive_int_at_least; unfold Build.DEFAULT_RING_FILE_SIZE_MB; lia).
  intros [= <- _]. unfold Build.DEFAULT_RING_FILE_SIZE_MB. lia.
Qed.

(** The shape of a command: it starts with the binary, the interface and
    [-nn], and the tokens of the filter are its last arguments. *)
Definition command_shape (tcpdump_bin interface bpf_filter : string)
    (command : list Py.pyval) : Prop :=
  (exists rest,
      command = Py.VStr tcpdump_bin :: Py.VStr "-i" :: Py.VStr interface
                  :: Py.VStr "-nn" :: rest) /\
  exists front tokens,
    command = front ++ map Py.VStr tokens /\
    if Py.nonempty bpf_filter then Py.shlex_split bpf_filter = Some tokens
    else tokens = [].

Lemma if_app {A} (b : bool) (c l : list A) :
  (if b then c ++ l else c) = c ++ (if b then l else []).
Proof. destruct b; [done|by rewrite app_nil_r]. Qed.

Lemma build_tcpdump_command_shape tcpdump_bin interface settings filename_base
    snap_length ring_file_size_mb ring_file_count bpf_filter command :
  Build._build_tcpdump_command tcpdump_bin interface settings filename_base snap_length
    ring_file_size_mb ring_file_count bpf_filter = Py.Ok command ->
  command_shape tcpdump_bin interface bpf_filter command.
Proof.
  unfold Build._build_tcpdump_command, command_shape. cbv zeta.
  rewrite !if_app.
  destruct (0 <? snap_length);
    (destruct (Py.truthy (Py.get_default settings "bufferSize" _) && _);
     [destruct (Py.int_ _) as [n|e]; [|discriminate]|]);
    cbn [mbind result_bind Py.bind]; rewrite ?if_app;
    (destruct (Py.nonempty bpf_filter);
     [destruct (Py.shlex_split bpf_filter) as [tokens|]; [|discriminate]|]);
    intros [= <-]; cbn [app];
    (split; [eexists; reflexivity|]);
    first [eexists (_ :: _ :: _ :: _ :: _), tokens; split; reflexivity
          |eexists _, []; split; [rewrite app_nil_r; reflexivity|reflexivity]].
Qed.

Lemma build_interface_commands_shape capture_dir tcpdump_bin interfaces settings
    filename_prefix timestamp snap_length ring_file_size_mb ring_file_count
    bpf_filter ctxs :
  Build._build_interface_commands capture_dir tcpdump_bin interfaces settings
    filename_prefix timestamp snap_length ring_file_size_mb ring_file_count
    bpf_filter = Py.Ok ctxs ->
  map Build.interface ctxs = interfaces /\
  Forall (fun ic => command_shape tcpdump_bin (Build.interface ic) bpf_filter
                      (Build.command ic)) ctxs.
Proof.
  revert ctxs. induction interfaces as [|interface rest IH]; intros ctxs; simpl.
  - by intros [= <-].
  - destruct (Build._build_tcpdump_command _ _ _ _ _ _ _ _) as [command|e] eqn:Hcommand;
      [|discriminate].
    cbn [mbind result_bind Py.bind].
    destruct (Build._build_interface_commands _ _ rest _ _ _ _ _ _ _) as [ctxs'|e];
      [|discriminate].
    cbn [mbind result_bind Py.bind]. intros [= <-].
    destruct (IH ctxs' eq_refl) as [Hnames Hshapes]. split.
    + simpl. by rewrite Hnames.
    + constructor; [|exact Hshapes]. simpl.
      by apply build_tcpdump_command_shape in Hcommand.
Qed.

(** Every run context that [_build_run_context] returns is well formed:
    it names at least one interface and only valid ones, its ring buffer
    has at least one file of at least one megabyte, and it holds one
    command per interface, in the order of the interfaces, each starting
    with the binary, [-i], the interface and [-nn] and ending with the
    tokens of the filter. *)
Theorem built_run_context_is_well_formed (capture_dir tcpdump_bin now : string)
    (profile : Profile.t) (ctx : Build.run_context) :
  Build._build_run_context capture_dir tcpdump_bin now profile = Py.Ok ctx ->
  (Build.interfaces ctx <> [])%type /\
  Forall interface_name_ok (Build.interfaces ctx) /\
  1 <= Build.ring_file_size_mb ctx /\
  1 <= Build.ring_file_count ctx /\
  map Build.interface (Build.interface_contexts ctx) = Build.interfaces ctx /\
  Forall (fun ic => command_shape tcpdump_bin (Build.interface ic)
                      (Build.bpf_filter ctx) (Build.command ic))
         (Build.interface_contexts ctx).
Proof.
  unfold Build._build_run_context.
  set (settings := match Profile.settings profile with
                   | Some (Py.VDict d) => d
                   | _ => []
                   end).
  pose proof (select_interfaces_ok settings []) as [Hne Hvalid].
  destruct (Build._select_interfaces settings []) as [interfaces warnings].
  destruct (Build._calculate_ring_file_size_mb settings warnings)
    as [[size warnings1]|e] eqn:Hsize; [|discriminate].
  cbn [mbind result_bind Py.bind].
  destruct (Build._coerce_positive_int _ _ _ _ _) as [[count warnings2]|e] eqn:Hcount;
    [|discriminate].
  cbn [mbind result_bind Py.bind].
  destruct (Build._determine_snap_length settings warnings2) as [[snap warnings3]|e];
    [|discriminate].
  cbn [mbind result_bind Py.bind].
  destruct (FilterBuilder.build_bpf_filter settings) as [bpf|e]; [|discriminate].
  cbn [mbind result_bind Py.bind].
  destruct (Build._build_interface_commands _ _ _ _ _ _ _ _ _ _) as [ctxs|e] eqn:Hctxs;
    [|discriminate].
  cbn [mbind result_bind Py.bind]. intros [= <-]. cbn.
  apply build_interface_commands_shape in Hctxs as [Hnames Hshapes].
  apply calculate_ring_file_size_mb_positive in Hsize.
  apply coerce_positive_int_at_least in Hcount;
    [|unfold Build.DEFAULT_RING_FILE_COUNT; lia].
  done.
Qed.
End ContextInvariants.

Lemma built_run_context_is_well_formed_witness :
  exists ctx,
    Build._build_run_context "/cap" "tcpdump" "20240101T000000Z" Example.profile
    = Py.Ok ctx /\
    Build.interfaces ctx = ["eth0"; "eth1"] /\
    1 <= Build.ring_file_count ctx /\
    map Build.interface (Build.interface_contexts ctx) = Build.interfaces ctx.
Proof.
  destruct idle_builds as (ctx & Hbuild & _). exists ctx.
  pose proof (built_run_context_is_well_formed _ _ _ _ _ Hbuild)
    as (_ & _ & _ & Hcount & Hnames & _).
  split; [exact Hbuild|]. split; [|by split].
  vm_compute in Hbuild. by injection Hbuild as <-.
Defined.

(** ** The termination protocol ([terminate_process_safely]) *)

(** The subprocess object after the protocol ran on a process that reacts
    as [r]: nothing is sent to a process that has exited; a live process
    gets SIGTERM, and SIGKILL only when it did not end in time. *)
Definition terminated (p : subprocess) (r : reaction) : subprocess :=
  match returncode p with
  | Some _ => p
  | None =>
      match after_term r with
      | Some rc => set_returncode (add_signal p ProcessManager.TERM) (Some rc)
      | None =>
          set_returncode (add_signal (add_signal p ProcessManager.TERM) ProcessManager.KILL)
            (after_kill r)
      end
  end.

Lemma log_callback_keeps_processes tab_id message interface s :
  exists s',
    TestExecutionManager.log_callback tab_id message interface s = (Py.Ok (), s') /\
    log_frame s s'.
Proof.
  destruct (run_total_within log_frame
              (TestExecutionManager.log_callback tab_id message interface) s)
    as ([] & s' & Hrun & Hframe);
    [apply log_callback_total|apply log_callback_frame|].
  by exists s'.
Qed.

Lemma send_signal_live h sig p (handler : Py.exn -> M State bool) s :
  subprocesses s !! h = Some p -> returncode p = None ->
  Co.try_except
    (Co.try_except (send_signal h sig ;ᶜ Co.ret true)
       [Py.ProcessLookupError] (fun _ => Co.ret false))
    [Py.Exception_] handler s
  = (Py.Ok true, with_subprocesses s (<[h := add_signal p sig]> (subprocesses s))).
Proof.
  intros Hp Hrc. unfold Co.try_except, Co.bind, send_signal. by rewrite Hp, Hrc.
Qed.

Lemma lookup_lt_insert_eq {A} (l : list A) i x y :
  l !! i = Some x -> <[i := y]> l !! i = Some y.
Proof. intros Hx. apply list_lookup_insert_eq. by eapply lookup_lt_Some. Qed.

(** What the protocol does to the process behind the handle [h]. *)
Lemma terminate_process_safely_effect (s : State) (tab_id : string) (h : nat)
    (r : reaction) (interface : string) (p : subprocess) :
  subprocesses s !! h = Some p ->
  exists s',
    terminate_process_safely (TestExecutionManager.log_callback tab_id) h r interface s
    = (Py.Ok (), s') /\
    subprocesses s' = <[h := terminated p r]> (subprocesses s) /\
    _runs s' = _runs s /\ tasks s' = tasks s /\ journal s' = journal s /\
    (is_Some (returncode p) -> s' = s).
Proof.
  intros Hp. unfold terminate_process_safely, terminated. rewrite bind_gets.
  unfold process_returncode at 1. rewrite Hp. cbn [mbind option_bind].
  destruct (returncode p) as [rc|] eqn:Hrc.
  { exists s. split; [reflexivity|]. rewrite list_insert_id by done. done. }
  rewrite bind_run.
  destruct (log_callback_keeps_processes tab_id
              ("[" +:+ interface +:+ "] Sende " +:+ ProcessManager.signal_value ProcessManager.TERM
                 +:+ "…") (Some interface) s) as (s1 & -> & Hf1).
  destruct Hf1 as [Hruns1 Hsub1 Htasks1 _ Hjournal1 _ _ _ _ _].
  rewrite bind_run, (send_signal_live h ProcessManager.TERM p) by (by rewrite ?Hsub1).
  cbn [negb]. rewrite bind_run. unfold wait_for_exit at 1, process_returncode at 1.
  cbn [subprocesses with_subprocesses].
  rewrite (lookup_lt_insert_eq _ _ p) by (by rewrite Hsub1).
  cbn [mbind option_bind add_signal returncode]. rewrite Hrc.
  destruct (after_term r) as [rc|].
  { eexists. split; [reflexivity|]. unfold process_exits. cbn.
    rewrite (lookup_lt_insert_eq _ _ p) by (by rewrite Hsub1). cbn. rewrite Hrc. cbn.
    rewrite list_insert_insert_eq, Hsub1.
    split; [reflexivity|]. split; [done|]. split; [done|]. split; [done|].
    by intros [? [=]]. }
  rewrite bind_run.
  match goal with
  | |- context [ TestExecutionManager.log_callback tab_id ?m ?i ?s0 ] =>
      destruct (log_callback_keeps_processes tab_id m i s0) as (s2 & -> & Hf2)
  end.
  destruct Hf2 as [Hruns2 Hsub2 Htasks2 _ Hjournal2 _ _ _ _ _].
  cbn in Hruns2, Hsub2, Htasks2, Hjournal2.
  assert (Hp2 : subprocesses s2 !! h = Some (add_signal p ProcessManager.TERM)).
  { rewrite Hsub2. apply (lookup_lt_insert_eq _ _ p). by rewrite Hsub1. }
  rewrite bind_run,
    (send_signal_live h ProcessManager.KILL (add_signal p ProcessManager.TERM))
    by first [exact Hp2|exact Hrc].
  cbn [negb]. rewrite bind_run. unfold wait_for_exit at 1, process_returncode at 1.
  cbn [subprocesses with_subprocesses].
  rewrite (lookup_lt_insert_eq _ _ _ _ Hp2).
  cbn [mbind option_bind add_signal returncode]. rewrite Hrc.
  destruct (after_kill r) as [rc|].
  { eexists. split; [reflexivity|]. unfold process_exits. cbn.
    rewrite (lookup_lt_insert_eq _ _ _ _ Hp2).
    cbn. rewrite Hrc. cbn.
    rewrite Hsub2, !list_insert_insert_eq, Hsub1.
    split; [reflexivity|]. split; [congruence|]. split; [congruence|].
    split; [congruence|]. by intros [? [=]]. }
  match goal with
  | |- context [ TestExecutionManager.log_callback tab_id ?m ?i ?s0 ] =>
      destruct (log_callback_keeps_processes tab_id m i s0) as (s3 & -> & Hf3)
  end.
  destruct Hf3 as [Hruns3 Hsub3 Htasks3 _ Hjournal3 _ _ _ _ _].
  cbn in Hruns3, Hsub3, Htasks3, Hjournal3.
  exists s3. split; [reflexivity|].
  split.
  { rewrite Hsub3, Hsub2, list_insert_insert_eq, Hsub1. f_equal.
    unfold set_returncode, add_signal. cbn. by rewrite Hrc. }
  split; [congruence|]. split; [congruence|]. split; [congruence|]. by intros [? [=]].
Qed.

(** The protocol on the process behind the handle [h]: it never raises,
    sends nothing to a process that has already exited (and then changes
    nothing at all), sends SIGTERM to a live process and SIGKILL only to a
    process that did not end in time after SIGTERM, and leaves every other
    process, the runs, the watcher tasks and the journal alone. *)
Theorem terminate_escalates_only_after_timeout (s : State) (tab_id : string) (h : nat)
    (r : reaction) (interface : string) (p : subprocess) :
  subprocesses s !! h = Some p ->
  exists s',
    terminate_process_safely (TestExecutionManager.log_callback tab_id) h r interface s
    = (Py.Ok (), s') /\
    subprocesses s' = <[h := terminated p r]> (subprocesses s) /\
    _runs s' = _runs s /\ tasks s' = tasks s /\ journal s' = journal s /\
    (is_Some (returncode p) -> s' = s).
Proof. apply terminate_process_safely_effect. Qed.

Lemma running_processes :
  exists p0 p1,
    subprocesses Example.running = [p0; p1] /\
    returncode p0 = None /\ signals p0 = [] /\
    returncode p1 = None /\ signals p1 = [].
Proof.
  eexists _, _. split; [vm_compute; reflexivity|].
  repeat split; reflexivity.
Qed.

Lemma terminate_escalates_only_after_timeout_witness :
  exists s' p0 p1,
    terminate_process_safely (TestExecutionManager.log_callback "t1") 0
      (Reaction None (Some (-9))) "eth0" Example.running = (Py.Ok (), s') /\
    subprocesses s' = [p0; p1] /\
    signals p0 = [ProcessManager.TERM; ProcessManager.KILL] /\
    returncode p0 = Some (-9) /\
    signals p1 = [] /\ returncode p1 = None.
Proof.
  destruct running_processes as (p0 & p1 & Hsub & Hrc0 & Hsig0 & Hrc1 & Hsig1).
  destruct (terminate_escalates_only_after_timeout Example.running "t1" 0
              (Reaction None (Some (-9))) "eth0" p0) as (s' & Hrun & Hsub' & _).
  { rewrite Hsub. reflexivity. }
  exists s', (terminated p0 (Reaction None (Some (-9)))), p1.
  split; [exact Hrun|]. split; [rewrite Hsub', Hsub; reflexivity|].
  unfold terminated. rewrite Hrc0. cbn [after_term after_kill set_returncode add_signal
    signals returncode]. rewrite Hsig0.
  split; [reflexivity|]. split; [reflexivity|]. split; [exact Hsig1|exact Hrc1].
Defined.

(** ** Stopping and the watcher tasks *)

(** The watcher task [h] will not run: it was cancelled, is done, or does
    not exist. *)
Definition not_pending (s : State) (h : nat) : Prop :=
  forall w, tasks s !! h = Some w -> w_status w <> Pending.

(** No task that was not pending becomes pending. *)
Definition settle : relation State :=
  fun s s' => forall h, not_pending s h -> not_pending s' h.

#[global] Instance settle_preorder : PreOrder settle.
Proof. split; [by intros s h|]. intros s1 s2 s3 H1 H2 h Hh. by apply H2, H1. Qed.

Lemma same_tasks_settle s s' : tasks s' = tasks s -> settle s s'.
Proof. intros Heq h Hh w. rewrite Heq. apply Hh. Qed.

Lemma log_callback_settle tab_id message interface :
  within settle (TestExecutionManager.log_callback tab_id message interface).
Proof.
  intros s. apply same_tasks_settle. by destruct (log_callback_frame tab_id message interface s).
Qed.

Lemma send_signal_settle h sig : within settle (send_signal h sig).
Proof.
  intros s. apply same_tasks_settle. unfold send_signal.
  destruct (subprocesses s !! h) as [p|]; [|done]. by destruct (returncode p).
Qed.

Lemma wait_for_exit_settle h outcome : within settle (wait_for_exit h outcome).
Proof.
  intros s. apply same_tasks_settle. unfold wait_for_exit, process_exits.
  destruct (process_returncode s h), outcome; simpl; try done.
  destruct (subprocesses s !! h) as [p|]; [|done]. by destruct (returncode p).
Qed.

Lemma write_capture_metadata_settle row file : within settle (write_capture_metadata row file).
Proof. intros s. by apply same_tasks_settle. Qed.

Lemma utcnow_iso_settle : within settle utcnow_iso.
Proof. apply within_gets, _. Qed.

Lemma cancel_task_cancels h s : not_pending (snd (RunExecutor.cancel_task h s)) h.
Proof.
  unfold RunExecutor.cancel_task, not_pending. simpl.
  destruct (tasks s !! h) as [w|] eqn:Hw; [|intros w'; by rewrite Hw].
  destruct (w_status w) eqn:Hst; cbn.
  - intros w'. rewrite list_lookup_insert_eq by (by eapply lookup_lt_Some).
    by intros [= <-].
  - intros w'. rewrite Hw. intros [= <-]. by rewrite Hst.
  - intros w'. rewrite Hw. intros [= <-]. by rewrite Hst.
Qed.

Lemma cancel_task_settle h : within settle (RunExecutor.cancel_task h).
Proof.
  intros s h' Hh'. destruct (decide (h' = h)) as [->|Hne]; [apply cancel_task_cancels|].
  unfold RunExecutor.cancel_task, not_pending. simpl.
  destruct (tasks s !! h) as [w|] eqn:Hw; [|exact Hh'].
  destruct (w_status w); cbn; try exact Hh'.
  intros w'. rewrite list_lookup_insert_ne by done. apply Hh'.
Qed.

#[global] Hint Resolve log_callback_settle send_signal_settle wait_for_exit_settle
  write_capture_metadata_settle utcnow_iso_settle cancel_task_settle : within.

Lemma terminate_process_safely_settle tab_id h r interface :
  within settle
    (terminate_process_safely (TestExecutionManager.log_callback tab_id) h r interface).
Proof. unfold terminate_process_safely. within_auto. Qed.

#[global] Hint Resolve terminate_process_safely_settle : within.

(** The loop of [stop_test] over the watcher tasks of the run. *)
Definition cancel_watchers (processes : list ProcessManager.InterfaceProcess) : M State unit :=
  Co.for_ processes (fun iproc =>
    match ProcessManager.task iproc with
    | Some h => RunExecutor.cancel_task h
    | None => Co.ret ()
    end).

Lemma cancel_watchers_settle processes : within settle (cancel_watchers processes).
Proof. unfold cancel_watchers. within_auto. Qed.

Lemma cancel_watchers_cancels processes s iproc h :
  iproc ∈ processes -> ProcessManager.task iproc = Some h ->
  not_pending (snd (cancel_watchers processes s)) h.
Proof.
  revert s. induction processes as [|x rest IH]; intros s Hin Htask.
  { by apply elem_of_nil in Hin. }
  unfold cancel_watchers. cbn [Co.for_]. rewrite bind_run.
  apply elem_of_cons in Hin as [<-|Hin].
  - rewrite Htask. unfold RunExecutor.cancel_task at 1, Co.modify at 1.
    apply (cancel_watchers_settle rest). apply cancel_task_cancels.
  - destruct (ProcessManager.task x) as [h'|].
    + unfold RunExecutor.cancel_task at 1, Co.modify at 1. by apply IH.
    + unfold Co.ret at 1. by apply IH.
Qed.

Lemma run_watcher_not_pending h p s :
  not_pending s h -> TestExecutionManager.run_watcher h p s = (Py.Ok (), s).
Proof.
  intros Hh. unfold TestExecutionManager.run_watcher.
  destruct (tasks s !! h) as [[tab_id run_id iproc status]|] eqn:Hw; [|done].
  destruct status; try done. by destruct (Hh _ Hw).
Qed.


Lemma running_watchers :
  exists rt i0 i1,
    _runs Example.running !! "t1" = Some rt /\
    ProcessManager.processes rt = [i0; i1] /\
    ProcessManager.task i0 = Some 0%nat /\ ProcessManager.task i1 = Some 1%nat.
Proof.
  eexists _, _, _. split; [vm_compute; reflexivity|]. repeat split; reflexivity.
Qed.


(** ** Aborting every run ([abort_all]) *)

(** What [abort_all] leaves as it was once it has emptied the table of
    runs: the tabs, the subscriber queues and the (empty) table. *)
Record abort_frame (s s' : State) : Prop := {
  af_tab_manager : tab_manager s' = tab_manager s;
  af_listeners : _listeners s' = _listeners s;
  af_runs : _runs s' = _runs s;
  af_settle : settle s s';
}.

#[global] Instance abort_frame_preorder : PreOrder abort_frame.
Proof.
  split.
  - intros s. by split.
  - intros s1 s2 s3 [] []. split; try congruence; by etrans.
Qed.

Lemma cancel_task_abort_frame h : within abort_frame (RunExecutor.cancel_task h).
Proof.
  intros s. split; [| | |apply cancel_task_settle];
    unfold RunExecutor.cancel_task; simpl;
    (destruct (tasks s !! h) as [w|]; [|done]); by destruct (w_status w).
Qed.

Lemma send_signal_abort_frame h sig : within abort_frame (send_signal h sig).
Proof.
  intros s. split; [| | |apply send_signal_settle];
    unfold send_signal;
    (destruct (subprocesses s !! h) as [p|]; [|done]); by destruct (returncode p).
Qed.

Lemma write_capture_metadata_abort_frame row file :
  within abort_frame (write_capture_metadata row file).
Proof. intros s. split; try done. apply write_capture_metadata_settle. Qed.

Lemma utcnow_iso_abort_frame : within abort_frame utcnow_iso.
Proof. apply within_gets, _. Qed.

#[global] Hint Resolve cancel_task_abort_frame send_signal_abort_frame
  write_capture_metadata_abort_frame utcnow_iso_abort_frame : within.

Lemma cancel_watchers_abort_frame processes : within abort_frame (cancel_watchers processes).
Proof. unfold cancel_watchers. within_auto. Qed.

Lemma cancel_watchers_total processes : total (cancel_watchers processes).
Proof.
  apply total_for. intros iproc.
  destruct (ProcessManager.task iproc); [apply total_modify|apply total_ret].
Qed.

(** The first loop of [abort_all]. *)
Definition cancel_all_watchers (running : list (string * ProcessManager.RunningTest))
    : M State unit :=
  Co.for_ running (fun '(tab_id, state) =>
    Co.for_ (ProcessManager.processes state) (fun iproc =>
      match ProcessManager.task iproc with
      | Some h => RunExecutor.cancel_task h
      | None => Co.ret ()
      end)).

Lemma cancel_all_watchers_abort_frame running : within abort_frame (cancel_all_watchers running).
Proof.
  unfold cancel_all_watchers. apply within_for; [apply _|]. intros [tab_id state].
  apply cancel_watchers_abort_frame.
Qed.

Lemma cancel_all_watchers_total running : total (cancel_all_watchers running).
Proof.
  apply total_for. intros [tab_id state]. apply cancel_watchers_total.
Qed.

Lemma cancel_all_watchers_cancels running s tab_id rt iproc h :
  (tab_id, rt) ∈ running -> iproc ∈ ProcessManager.processes rt ->
  ProcessManager.task iproc = Some h ->
  not_pending (snd (cancel_all_watchers running s)) h.
Proof.
  revert s. induction running as [|[id state] rest IH]; intros s Hin Hiproc Htask.
  { by apply elem_of_nil in Hin. }
  unfold cancel_all_watchers. cbn [Co.for_]. rewrite bind_run.
  fold (cancel_watchers (ProcessManager.processes state)).
  fold (cancel_all_watchers rest).
  destruct (total_run _ s (cancel_watchers_total (ProcessManager.processes state)))
    as [[] Hrun].
  rewrite Hrun.
  apply elem_of_cons in Hin as [[= <- <-]|Hin].
  - apply (af_settle _ _ (cancel_all_watchers_abort_frame rest _)).
    by apply (cancel_watchers_cancels _ _ iproc).
  - by apply IH.
Qed.

(** The second loop of [abort_all]. *)
Definition terminate_all (running : list (string * ProcessManager.RunningTest))
    : M State unit :=
  Co.for_ running (fun '(tab_id, state) =>
    Co.for_ (ProcessManager.processes state) (fun iproc =>
      Co.try_except (send_signal (ProcessManager.process iproc) ProcessManager.TERM)
        [Py.ProcessLookupError; Py.PermissionError] (fun _ => Co.ret ())) ;ᶜ
    Co.for_ (ProcessManager.processes state) (fun iproc =>
      now ←ᶜ utcnow_iso;
      write_capture_metadata (RunExecutor.stop_row now iproc)
        (ProcessManager.test_metadata_file state))).

Lemma terminate_all_abort_frame running : within abort_frame (terminate_all running).
Proof.
  unfold terminate_all. apply within_for; [apply _|]. intros [tab_id state]. within_auto.
Qed.

Lemma terminate_all_total running : total (terminate_all running).
Proof.
  apply total_for. intros [tab_id state]. apply total_bind.
  - apply total_for. intros iproc s. unfold Co.try_except, send_signal.
    destruct (subprocesses s !! ProcessManager.process iproc) as [p|]; [|by eexists].
    destruct (returncode p); by eexists.
  - intros _. apply total_for. intros iproc.
    apply total_bind; [apply total_gets|]. intros now. apply total_modify.
Qed.


(** ** Timers and watchers that outlive their run *)

(** The tab still has the open run [run_id], and the run executor still
    holds it. *)
Definition run_is_current (s : State) (tab_id run_id : string) : Prop :=
  exists tab run,
    tabs s !! tab_id = Some tab /\
    Tab.run tab = Some run /\
    Run.id run = run_id /\
    Py.truthy_opt_str (Run.finished_utc run) = false /\
    is_Some (_runs s !! tab_id).

(** A duration timer that fires when its run is no longer the current one
    (the tab was deleted, the run has finished or was stopped, or another
    run has been started in the tab) changes nothing: no log line, no
    signal, no event. *)
Theorem stale_timer_changes_nothing `{Py.Runtime} (s : State) (react : nat -> reaction)
    (tab_id run_id : string) (duration_seconds : Py.pyval) :
  ~ run_is_current s tab_id run_id ->
  snd (TestExecutionManager._auto_stop_after_duration react tab_id run_id
         duration_seconds s) = s.
Proof.
  intros Hstale. unfold TestExecutionManager._auto_stop_after_duration, Co.try_except.
  rewrite bind_run.
  assert (Hsleep : TestExecutionManager.sleep duration_seconds s = (Py.Ok (), s) \/
                   exists e, TestExecutionManager.sleep duration_seconds s = (Py.Raise e, s)).
  { unfold TestExecutionManager.sleep. destruct duration_seconds; eauto. }
  destruct Hsleep as [->|[e ->]]; [|by destruct (existsb _ _)].
  unfold TestExecutionManager.get_tab_object, TabManager.get_tab_object. rewrite bind_gets.
  destruct (TabManager._tabs (tab_manager s) !! tab_id) as [tab|] eqn:Htab; [|done].
  destruct (Tab.run tab) as [run|] eqn:Hrun; [|done].
  destruct (String.eqb_spec (Run.id run) run_id) as [Hid|Hne]; [|done]. cbn [negb].
  destruct (Py.truthy_opt_str (Run.finished_utc run)) eqn:Hfin; [done|].
  unfold RunExecutor.is_running. rewrite bind_gets.
  destruct (_runs s !! tab_id) as [rt|] eqn:Hrt.
  - exfalso. apply Hstale. exists tab, run. unfold tabs. rewrite Hrt. eauto 10.
  - by rewrite bool_decide_eq_false_2 by (by intros [? ?]).
Qed.

Lemma stale_timer_changes_nothing_witness :
  let stopped := snd (TestExecutionManager.stop_test Example.obeys "t1" Example.running) in
  snd (TestExecutionManager._auto_stop_after_duration Example.obeys "t1" "r1"
         (Py.VInt 60) stopped) = stopped.
Proof.
  intros stopped. apply stale_timer_changes_nothing.
  intros (tab & run & _ & _ & _ & _ & [rt Hrt]).
  destruct (stop_test_effect Example.obeys "t1" Example.running) as [Hruns _].
  fold stopped in Hruns. rewrite Hruns, lookup_delete_eq in Hrt. discriminate Hrt.
Defined.

(** A duration timer that fires while its run is still the current one
    stops the test: the run leaves the run executor, and the tab gets the
    finished run and the status that the exit codes of the stopped
    processes give. *)
Theorem due_timer_stops_the_run `{Py.Runtime} (s : State) (react : nat -> reaction)
    (tab_id : string) (seconds : Z) (tab : Tab.t) (run : Run.t)
    (rt : ProcessManager.RunningTest) :
  tabs s !! tab_id = Some tab ->
  Tab.run tab = Some run ->
  Py.truthy_opt_str (Run.finished_utc run) = false ->
  _runs s !! tab_id = Some rt ->
  exists s' tab',
    TestExecutionManager._auto_stop_after_duration react tab_id (Run.id run)
      (Py.VInt seconds) s = (Py.Ok (), s') /\
    _runs s' = delete tab_id (_runs s) /\
    tabs s' !! tab_id = Some tab' /\
    Tab.status tab' = stop_status (exit_codes_of s' rt) /\
    Tab.run tab'
    = Some (Run.finish run (clock s') (exit_codes_of s' rt) (Run.error run)).
Proof.
  intros Htab Hrun Hopen Hrt.
  unfold TestExecutionManager._auto_stop_after_duration, Co.try_except.
  rewrite bind_run. cbn [TestExecutionManager.sleep Co.ret].
  unfold TestExecutionManager.get_tab_object, TabManager.get_tab_object. rewrite bind_gets.
  unfold tabs in Htab. rewrite Htab, Hrun, String.eqb_refl, Hopen. cbn [negb].
  unfold RunExecutor.is_running. rewrite bind_gets, Hrt.
  rewrite bool_decide_eq_true_2 by eauto. cbn [negb]. rewrite bind_run.
  match goal with
  | |- context [ TestExecutionManager._append_log ?a ?b ?c s ] =>
      destruct (append_log_run a b c s) as (r & s1 & -> & Hlog)
  end.
  destruct (same_cores_lookup s s1 tab_id tab (lf_cores _ _ Hlog) Htab)
    as (tab1 & Htab1 & Hcore1).
  assert (Hrun1 : Tab.run tab1 = Some run).
  { unfold tab_core in Hcore1. injection Hcore1 as _ _ _ _ _ ->. exact Hrun. }
  destruct (stop_test_finalizes react tab_id rt tab1 run s1)
    as (s' & tab' & Hstop & Htab' & Hstatus & Hrun' & Hruns); try done.
  { by rewrite (lf_runs _ _ Hlog). }
  rewrite bind_run, Hstop. exists s', tab'. split; [reflexivity|].
  split; [by rewrite Hruns, (lf_runs _ _ Hlog)|]. done.
Qed.

Lemma due_timer_stops_the_run_witness :
  exists s' tab',
    TestExecutionManager._auto_stop_after_duration Example.obeys "t1" "r1" (Py.VInt 60)
      Example.running = (Py.Ok (), s') /\
    _runs s' !! "t1" = None /\
    tabs s' !! "t1" = Some tab' /\
    Tab.status tab' = TabStatus.COMPLETED.
Proof.
  eassert (Htab : tabs Example.running !! "t1" = Some _) by (vm_compute; reflexivity).
  eassert (Hrt : _runs Example.running !! "t1" = Some _) by (vm_compute; reflexivity).
  destruct (due_timer_stops_the_run Example.running Example.obeys "t1" 60 _ _ _
              Htab eq_refl eq_refl Hrt) as (s' & tab' & Hstop & Hruns & Htab' & Hstatus & _).
  exists s', tab'. split; [exact Hstop|].
  split; [rewrite Hruns; apply lookup_delete_eq|]. split; [exact Htab'|].
  rewrite Hstatus. vm_compute in Hstop. injection Hstop as <-. vm_compute. reflexivity.
Defined.

(** The exit handler of a watcher whose run is not the open run of the tab
    (the tab has started another run, or its run is already finished) does
    not finish anything: it never raises, the run executor keeps its runs,
    and every tab keeps its status and its run; only the stop row and the
    log line are written. *)
Theorem stale_exit_finishes_nothing (s : State) (tab_id run_id interface capture_id : string)
    (pid : Z) (returncode : option Z) (error : option string) (tab : Tab.t) (run : Run.t) :
  tabs s !! tab_id = Some tab ->
  Tab.run tab = Some run ->
  Run.id run <> run_id \/ Py.truthy_opt_str (Run.finished_utc run) = true ->
  exists s',
    TestExecutionManager._handle_interface_process_exit tab_id run_id interface capture_id
      pid returncode error s = (Py.Ok (), s') /\
    _runs s' = _runs s /\
    subprocesses s' = subprocesses s /\
    forall id, tab_core <$> (tabs s' !! id) = tab_core <$> (tabs s !! id).
Proof.
  intros Htab Hrun Hstale. handler_prefix s1 Hframe.
  destruct Hframe as [Hruns Hsub Htasks Hclock Hcores]. cbn in Hruns, Hsub, Htasks, Hclock.
  assert (Hcores' : forall id, tab_core <$> (tabs s1 !! id) = tab_core <$> (tabs s !! id)).
  { intros id. apply (Hcores id). }
  rewrite bind_run. unfold RunExecutor.check_all_processes_done at 1, Co.gets at 1.
  destruct (_runs s1 !! tab_id) as [rt|]; cbv beta iota;
    [|exists s1; split; [reflexivity|done]].
  destruct (forallb _ _); [|exists s1; split; [reflexivity|done]].
  unfold TestExecutionManager.get_tab_object, TabManager.get_tab_object. rewrite bind_gets.
  pose proof (Hcores' tab_id) as Hcore. rewrite Htab in Hcore.
  unfold tabs in Hcore at 1.
  destruct (TabManager._tabs (tab_manager s1) !! tab_id) as [tab1|]; [|discriminate Hcore].
  cbn in Hcore. injection Hcore as _ _ _ _ _ Hrun1. rewrite Hrun1, Hrun.
  destruct Hstale as [Hid|Hfin].
  - apply String.eqb_neq in Hid. rewrite Hid. cbn [negb].
    exists s1. split; [reflexivity|done].
  - rewrite Hfin. destruct (negb _); exists s1; (split; [reflexivity|done]).
Qed.

Lemma stale_exit_finishes_nothing_witness :
  exists s',
    TestExecutionManager._handle_interface_process_exit "t1" "r0" "eth0" "c0" 100
      (Some 0) None Example.running = (Py.Ok (), s') /\
    _runs s' = _runs Example.running /\
    tab_core <$> (tabs s' !! "t1") = tab_core <$> (tabs Example.running !! "t1").
Proof.
  eassert (Htab : tabs Example.running !! "t1" = Some _) by (vm_compute; reflexivity).
  destruct (stale_exit_finishes_nothing Example.running "t1" "r0" "eth0" "c0" 100
              (Some 0) None _ _ Htab eq_refl) as (s' & Hrun & Hruns & _ & Hcores).
  { left. intros Hid. discriminate Hid. }
  exists s'. split; [exact Hrun|]. split; [exact Hruns|]. apply Hcores.
Defined.

(** ** A start that succeeds *)

(** The row that the spawn loop writes to the metadata journal for the
    interface process [iproc]. *)
Definition start_row (start_timestamp main_capture_id : string) (ctx : Build.run_context)
    (tab_name : string) (profile : Profile.t) (iproc : ProcessManager.InterfaceProcess)
    : meta_row :=
  StartRow start_timestamp (ProcessManager.capture_id iproc) main_capture_id
    (ProcessManager.interface iproc) (Build.interfaces ctx) (Build.ring_file_size_mb ctx)
    (Build.ring_file_count ctx) (ProcessManager.filename_base iproc)
    (ProcessManager.pid iproc) (Build.bpf_filter ctx) tab_name (Profile.id profile)
    (Profile.name profile).

Section SpawnSucceeds.
Context `{Py.Runtime}.
Variable log_callback : string -> option string -> M State unit.
Hypothesis log_total : forall message i, total (log_callback message i).
Hypothesis log_frames : forall message i, within log_frame (log_callback message i).

(** The spawn loop when every spawn succeeds. *)
Lemma spawn_all_succeeds env tab_name profile ctx ts mc gen ctxs :
  forall idx acc s,
    (forall i, (i < length ctxs)%nat ->
               exists pid, RunExecutor.spawn env (idx + i) = RunExecutor.Spawned pid) ->
    exists acc' s' new fresh,
      RunExecutor.spawn_all log_callback env tab_name profile ctx ts mc gen idx ctxs acc s
      = (Py.Ok acc', s') /\
      subprocesses s' = subprocesses s ++ new /\
      map sp_command new = map Build.command ctxs /\
      Forall untouched new /\
      RunExecutor.interface_processes acc' = RunExecutor.interface_processes acc ++ fresh /\
      map ProcessManager.process fresh = seq (length (subprocesses s)) (length ctxs) /\
      map ProcessManager.interface fresh = map Build.interface ctxs /\
      fst <$> journal s'
      = (fst <$> journal s) ++ map (start_row ts mc ctx tab_name profile) fresh /\
      _runs s' = _runs s /\ tasks s' = tasks s /\ same_cores s s'.
Proof.
  induction ctxs as [|c rest IH]; intros idx acc s Hok; cbn [RunExecutor.spawn_all].
  - exists acc, s, [], []. cbn [map]. rewrite !app_nil_r. by repeat split.
  - destruct (Hok 0%nat ltac:(simpl; lia)) as [pid Hpid]. rewrite Nat.add_0_r in Hpid.
    rewrite Hpid, bind_run. cbv beta iota.
    unfold write_capture_metadata. rewrite bind_modify, bind_run.
    match goal with
    | |- context [ log_callback ?m ?i ?s1 ] =>
        destruct (log_callback_run log_callback log_total log_frames m i s1)
          as (s2 & -> & Hframe2)
    end.
    match goal with
    | |- context [ RunExecutor.spawn_all _ _ _ _ _ _ _ _ (S idx) rest ?acc' s2 ] =>
        destruct (IH (S idx) acc' s2)
          as (acc'' & s' & new & fresh & Hrun & Hsub & Hcmd & Hnew & Hprocs & Hhandles
              & Hifaces & Hjournal & Hruns & Htasks & Hcores)
    end.
    { intros i Hi. destruct (Hok (S i) ltac:(simpl; lia)) as [pid' Hpid'].
      exists pid'. by rewrite <- Hpid', Nat.add_succ_r. }
    destruct Hframe2 as [Hruns2 Hsub2 Htasks2 _ Hjournal2 _ _ _ _ Hcores2].
    cbn in Hruns2, Hsub2, Htasks2, Hjournal2.
    exists acc'', s', (Subprocess (Build.command c) pid None [] :: new).
    eexists (_ :: fresh). split; [exact Hrun|].
    split; [by rewrite Hsub, Hsub2, <- app_assoc|].
    split; [cbn; by rewrite Hcmd|].
    split; [constructor; [by split|exact Hnew]|].
    split; [rewrite Hprocs; cbn; by rewrite <- app_assoc|].
    split.
    { cbn. f_equal. rewrite Hhandles, Hsub2, length_app. cbn.
      by rewrite Nat.add_1_r. }
    split; [cbn; by rewrite Hifaces|].
    split.
    { rewrite Hjournal, Hjournal2, fmap_app. cbn. by rewrite <- app_assoc. }
    split; [by rewrite Hruns, Hruns2|]. split; [by rewrite Htasks, Htasks2|].
    etrans; [|exact Hcores]. intros id. rewrite (Hcores2 id). reflexivity.
Qed.
End SpawnSucceeds.

(** The run that [RunExecutor.start_test] registers. *)
Definition registered_run (env : RunExecutor.start_env) (ctx : Build.run_context)
    (acc : RunExecutor.spawn_acc) : ProcessManager.RunningTest :=
  {| ProcessManager.run_id := RunExecutor.new_run_id env;
     ProcessManager.interfaces := Build.interfaces ctx;
     ProcessManager.ring_file_size_mb := Build.ring_file_size_mb ctx;
     ProcessManager.ring_file_count := Build.ring_file_count ctx;
     ProcessManager.bpf_filter := Build.bpf_filter ctx;
     ProcessManager.processes := RunExecutor.interface_processes acc;
     ProcessManager.test_metadata_file := RunExecutor.test_metadata_file acc |}.

Section StartSucceeds.
Context `{Py.Runtime}.
Variable log_callback : string -> option string -> M State unit.
Hypothesis log_total : forall message i, total (log_callback message i).
Hypothesis log_frames : forall message i, within log_frame (log_callback message i).

Ltac log_step s1 Hframe :=
  rewrite bind_run;
  match goal with
  | |- context [ match ?m ?s0 with _ => _ end ] =>
      let Hrun := fresh "Hrun" in
      destruct (run_total_within log_frame m s0) as (? & s1 & Hrun & Hframe);
      [|
       |rewrite Hrun; clear Hrun]
  end.

(** [RunExecutor.start_test] when every spawn succeeds. *)
Lemma executor_start_test_succeeds env tab_id profile tab_name ctx s :
  _runs s !! tab_id = None ->
  Build._build_run_context (capture_dir s) (tcpdump_bin s) (clock s) profile = Py.Ok ctx ->
  settings_is_dict profile ->
  (forall i, (i < length (Build.interface_contexts ctx))%nat ->
             exists pid, RunExecutor.spawn env i = RunExecutor.Spawned pid) ->
  exists st acc s' new,
    RunExecutor.start_test log_callback env tab_id profile tab_name s = (Py.Ok st, s') /\
    RunExecutor.st_run_id st = RunExecutor.new_run_id env /\
    RunExecutor.st_interface_processes st = RunExecutor.interface_processes acc /\
    _runs s' = <[tab_id := registered_run env ctx acc]> (_runs s) /\
    map ProcessManager.process (RunExecutor.interface_processes acc)
    = seq (length (subprocesses s)) (length (Build.interface_contexts ctx)) /\
    map ProcessManager.interface (RunExecutor.interface_processes acc)
    = map Build.interface (Build.interface_contexts ctx) /\
    subprocesses s' = subprocesses s ++ new /\
    map sp_command new = map Build.command (Build.interface_contexts ctx) /\
    Forall untouched new /\
    fst <$> journal s'
    = (fst <$> journal s)
        ++ map (start_row (clock s) (RunExecutor.new_main_capture_id env) ctx tab_name
                  profile) (RunExecutor.interface_processes acc) /\
    tasks s' = tasks s /\ same_cores s s'.
Proof.
  intros Hnone Hbuild Hdict Hok.
  unfold RunExecutor.start_test, RunExecutor.is_running. rewrite bind_gets.
  rewrite Hnone, bool_decide_eq_false_2 by (by intros [? ?]).
  rewrite bind_run. unfold Co.try_except at 1. rewrite Hbuild.
  log_step s1 Hframe1;
    [apply total_for; intros; apply log_total
    |apply within_for; [apply _|intros; apply log_frames]|].
  log_step s2 Hframe2;
    [destruct (1 <? _)%nat; [apply log_total|apply total_ret]
    |destruct (1 <? _)%nat; [apply log_frames|apply within_ret, _]|].
  log_step s3 Hframe3;
    [apply total_for; intros; apply log_total
    |apply within_for; [apply _|intros; apply log_frames]|].
  assert (Hframe : log_frame s s3) by (etrans; [|exact Hframe3]; by etrans).
  clear Hframe1 Hframe2 Hframe3.
  unfold utcnow_iso. rewrite bind_gets, bind_run.
  assert (Hgen : exists gen,
             match Profile.settings profile with
             | None => Py.Ok (Py.VBool false)
             | Some (Py.VDict profile_settings) =>
                 Py.Ok (Py.get_default profile_settings "generateTestMetadataFile"
                          (Py.VBool false))
             | Some _ => Py.raise Py.AttributeError "object has no attribute 'get'"
             end = Py.Ok gen).
  { unfold settings_is_dict in Hdict.
    destruct (Profile.settings profile) as [[]|]; try done; by eexists. }
  destruct Hgen as [gen Hgen]. unfold Co.lift at 1. rewrite Hgen, bind_run.
  destruct (spawn_all_succeeds log_callback log_total log_frames env tab_name profile ctx
              (clock s3) (RunExecutor.new_main_capture_id env) gen
              (Build.interface_contexts ctx) 0%nat (RunExecutor.SpawnAcc [] [] [] [] None) s3)
    as (acc & s' & new & fresh & Hrun & Hsub & Hcmd & Hnew & Hprocs & Hhandles & Hifaces
        & Hjournal & Hruns & Htasks & Hcores); [exact Hok|].
  rewrite Hrun, bind_modify. cbn [app RunExecutor.interface_processes] in Hprocs.
  destruct Hframe as [Hruns3 Hsub3 Htasks3 _ Hjournal3 Hclock3 _ _ _ Hcores3].
  eexists _, acc, _, new. split; [reflexivity|]. cbn.
  split; [reflexivity|]. split; [reflexivity|].
  split; [by rewrite Hruns, Hruns3|].
  split; [by rewrite Hprocs, Hhandles, Hsub3|].
  split; [by rewrite Hprocs|].
  split; [by rewrite Hsub, Hsub3|]. split; [exact Hcmd|]. split; [exact Hnew|].
  split; [by rewrite Hjournal, Hjournal3, Hclock3, Hprocs|].
  split; [by rewrite Htasks, Htasks3|].
  intros id. etrans; [apply (Hcores id)|apply (Hcores3 id)].
Qed.
End StartSucceeds.

(** An interface process without its watcher task. *)
Definition untasked (iproc : ProcessManager.InterfaceProcess)
    : ProcessManager.InterfaceProcess :=
  ProcessManager.set_task iproc None.

(** What the watcher tasks leave of a run: everything but the task handles
    of its processes. *)
Definition run_shape (rt : ProcessManager.RunningTest) :=
  (ProcessManager.run_id rt, ProcessManager.interfaces rt,
   ProcessManager.ring_file_size_mb rt, ProcessManager.ring_file_count rt,
   ProcessManager.bpf_filter rt,
   map untasked (ProcessManager.processes rt),
   ProcessManager.test_metadata_file rt).

Lemma set_first_task_shape interface task ps :
  map untasked (RunExecutor.set_first_task interface task ps) = map untasked ps.
Proof.
  induction ps as [|iproc rest IH]; [done|]. cbn.
  destruct (String.eqb _ _); cbn; [done|]. by rewrite IH.
Qed.

Lemma map_untasked {A} (f : ProcessManager.InterfaceProcess -> A) ps ps' :
  (forall iproc, f (untasked iproc) = f iproc) ->
  map untasked ps = map untasked ps' -> map f ps = map f ps'.
Proof.
  intros Hf Heq.
  rewrite <- (map_ext (fun iproc => f (untasked iproc)) f Hf ps).
  rewrite <- (map_ext (fun iproc => f (untasked iproc)) f Hf ps').
  by rewrite <- !(map_map untasked f), Heq.
Qed.

(** What the creation of the watcher tasks of the tab [tab_id] leaves as
    it was. *)
Record watch_frame (tab_id : string) (s s' : State) : Prop := {
  wf_tab_manager : tab_manager s' = tab_manager s;
  wf_subprocesses : subprocesses s' = subprocesses s;
  wf_journal : journal s' = journal s;
  wf_others : forall id, id <> tab_id -> _runs s' !! id = _runs s !! id;
  wf_shape : run_shape <$> (_runs s' !! tab_id) = run_shape <$> (_runs s !! tab_id);
}.

#[global] Instance watch_frame_preorder tab_id : PreOrder (watch_frame tab_id).
Proof.
  split.
  - intros s. by split.
  - intros s1 s2 s3 [? ? ? Ho1 ?] [? ? ? Ho2 ?]. split; try congruence.
    intros id Hne. by rewrite Ho2, Ho1.
Qed.

(** The loop of [start_test] over the interface processes. *)
Definition watch_all (tab_id run_id : string) (procs : list ProcessManager.InterfaceProcess)
    : M State unit :=
  Co.for_ procs (fun iproc =>
    watcher ←ᶜ TestExecutionManager.create_watcher_task tab_id run_id iproc;
    RunExecutor.set_watcher_task tab_id (ProcessManager.interface iproc) watcher).

Lemma watch_all_run tab_id run_id procs s :
  exists s',
    watch_all tab_id run_id procs s = (Py.Ok (), s') /\
    watch_frame tab_id s s' /\
    tasks s' = tasks s ++ map (fun iproc => Watcher tab_id run_id iproc Pending) procs.
Proof.
  revert s. induction procs as [|iproc rest IH]; intros s.
  { exists s. rewrite app_nil_r. by repeat split. }
  unfold watch_all. cbn [Co.for_]. fold (watch_all tab_id run_id rest).
  rewrite bind_run, bind_run.
  unfold TestExecutionManager.create_watcher_task at 1.
  unfold RunExecutor.set_watcher_task at 1, Co.modify at 1.
  cbn [_runs with_tasks].
  match goal with
  | |- context [ watch_all tab_id run_id rest ?s1 ] =>
      destruct (IH s1) as (s' & Hrun & Hframe & Htasks);
      assert (Hstep : watch_frame tab_id s s1 /\
                      tasks s1 = tasks s ++ [Watcher tab_id run_id iproc Pending])
  end.
  { destruct (_runs s !! tab_id) as [rt|] eqn:Hrt; cbn; (split; [|reflexivity]).
    - split; try done; cbn.
      + intros id Hne. by rewrite lookup_insert_ne.
      + rewrite lookup_insert_eq, Hrt. cbn. unfold run_shape. cbn.
        by rewrite set_first_task_shape.
    - by split. }
  destruct Hstep as [Hframe1 Htasks1].
  exists s'. split; [exact Hrun|]. split; [by etrans|].
  rewrite Htasks, Htasks1, <- app_assoc. reflexivity.
Qed.

(** The profile asks for a manual stop: its settings, when it has any, are
    a dictionary whose [stopCondition] is not ["duration"]. *)
Definition manual_stop (profile : Profile.t) : Prop :=
  match Profile.settings profile with
  | None => True
  | Some (Py.VDict d) =>
      Py.eq_str (Py.get_default d "stopCondition" (Py.VStr "manual")) "duration" = false
  | Some _ => False
  end.

Lemma manual_stop_is_dict profile : manual_stop profile -> settings_is_dict profile.
Proof.
  unfold manual_stop, settings_is_dict. by destruct (Profile.settings profile) as [[]|].
Qed.

Lemma start_duration_timer_manual `{Py.Runtime} tab_id run_id profile s :
  manual_stop profile ->
  TestExecutionManager.start_duration_timer tab_id run_id profile s = (Py.Ok (), s).
Proof.
  unfold manual_stop, TestExecutionManager.start_duration_timer. intros Hmanual.
  rewrite bind_run. unfold Co.lift.
  destruct (Profile.settings profile) as [[]|]; try done. by rewrite Hmanual.
Qed.

(** A start that succeeds.  The tab exists and has no active run, its
    profile builds to a run context and asks for a manual stop, and every
    spawn succeeds.  Then [start_test] returns the snapshot of the tab in
    status "running"; the run is registered under the new run id with one
    process per interface, in order, on the subprocesses that were just
    created and have received no signal; no other run changes; the tab is
    running with the open run of that id; there is one more watcher task
    per interface; and the metadata journal has got one start row per
    process of the run, in order, with the capture id, the interface, the
    file name base and the pid of that process. *)
Theorem start_test_registers_the_run `{Py.Runtime} (env : RunExecutor.start_env)
    (tab_id : string) (profile : Profile.t) (ctx : Build.run_context) (s : State)
    (tab : Tab.t) :
  tabs s !! tab_id = Some tab ->
  _runs s !! tab_id = None ->
  Build._build_run_context (capture_dir s) (tcpdump_bin s) (clock s) profile = Py.Ok ctx ->
  manual_stop profile ->
  (forall i, (i < length (Build.interface_contexts ctx))%nat ->
             exists pid, RunExecutor.spawn env i = RunExecutor.Spawned pid) ->
  exists snap s' tab' run rt new,
    TestExecutionManager.start_test env tab_id profile s = (Py.Ok snap, s') /\
    Tab.d_status snap = Some TabStatus.RUNNING /\
    _runs s' !! tab_id = Some rt /\
    ProcessManager.run_id rt = RunExecutor.new_run_id env /\
    ProcessManager.interfaces rt = Build.interfaces ctx /\
    map ProcessManager.process (ProcessManager.processes rt)
    = seq (length (subprocesses s)) (length (Build.interface_contexts ctx)) /\
    (forall id, id <> tab_id -> _runs s' !! id = _runs s !! id) /\
    subprocesses s' = subprocesses s ++ new /\
    map sp_command new = map Build.command (Build.interface_contexts ctx) /\
    Forall untouched new /\
    tabs s' !! tab_id = Some tab' /\
    Tab.status tab' = TabStatus.RUNNING /\
    Tab.run tab' = Some run /\
    Run.id run = RunExecutor.new_run_id env /\
    Run.finished_utc run = None /\
    length (tasks s') = (length (tasks s) + length (Build.interface_contexts ctx))%nat /\
    fst <$> journal s'
    = (fst <$> journal s)
        ++ map (start_row (clock s) (RunExecutor.new_main_capture_id env) ctx
                  (or_str (Tab.title tab) "Test") profile) (ProcessManager.processes rt).
Proof.
  intros Htab Hnone Hbuild Hmanual Hok.
  unfold TestExecutionManager.start_test, TestExecutionManager.get_tab_object,
    TabManager.get_tab_object, RunExecutor.is_running, utcnow_iso.
  rewrite bind_gets. unfold tabs in Htab. rewrite Htab.
  rewrite bind_gets, Hnone, bool_decide_eq_false_2 by (by intros [? ?]).
  rewrite bind_gets, bind_run.
  unfold TestExecutionManager.on_tabs at 1, TabManager.update_tab_status at 1.
  rewrite Htab. cbv zeta. cbn [TabManager._save_state_locked].
  rewrite bind_run. unfold TestExecutionManager._broadcast at 1, Co.modify at 1.
  rewrite bind_run. unfold Co.try_except at 1.
  match goal with
  | |- context [ RunExecutor.start_test ?cb env tab_id profile ?name ?s2 ] =>
      destruct (executor_start_test_succeeds cb
                  (log_callback_total tab_id) (log_callback_frame tab_id)
                  env tab_id profile name ctx s2)
        as (st & acc & s3 & new & Hrun & Hid & Hprocs & Hruns & Hhandles & Hifaces & Hsub
            & Hcmd & Hnew & Hjournal & Htasks & Hcores);
        [exact Hnone|exact Hbuild|by apply manual_stop_is_dict|exact Hok|];
      remember s2 as s2' eqn:Hs2
  end.
  rewrite Hrun. clear Hrun. rewrite bind_run, Hprocs, Hid.
  fold (watch_all tab_id (RunExecutor.new_run_id env) (RunExecutor.interface_processes acc)).
  destruct (watch_all_run tab_id (RunExecutor.new_run_id env)
              (RunExecutor.interface_processes acc) s3)
    as (s4 & -> & [Htm4 Hsub4 Hjournal4 Hothers4 Hshape4] & Htasks4).
  assert (Htab2 : exists tab2, tabs s2' !! tab_id = Some tab2).
  { subst s2'. eexists. apply lookup_insert_eq. }
  destruct Htab2 as [tab2 Htab2].
  destruct (same_cores_lookup s2' s3 tab_id tab2 Hcores Htab2) as (tab3 & Htab3 & _).
  rewrite bind_gets, bind_run.
  unfold TestExecutionManager.on_tabs at 1, TabManager.update_tab_status at 1.
  rewrite Htm4. unfold tabs in Htab3. rewrite Htab3. cbv zeta.
  cbn [TabManager._save_state_locked].
  rewrite bind_run. unfold TestExecutionManager._broadcast at 1, Co.modify at 1.
  rewrite bind_run.
  match goal with
  | |- context [ TestExecutionManager._append_log ?a ?b ?c ?s5 ] =>
      destruct (append_log_run a b c s5) as (r & s6 & -> & Hlog);
      remember s5 as s5' eqn:Hs5
  end.
  rewrite bind_run, start_duration_timer_manual by exact Hmanual.
  destruct Hlog as [Hruns6 Hsub6 Htasks6 _ Hjournal6 _ _ _ _ Hcores6].
  assert (Htab5 : exists tab5, tabs s5' !! tab_id = Some tab5 /\
                    Tab.status tab5 = TabStatus.RUNNING /\
                    exists run, Tab.run tab5 = Some run /\
                      Run.id run = RunExecutor.new_run_id env /\
                      Run.finished_utc run = None).
  { subst s5'. eexists. split; [apply lookup_insert_eq|]. split; [reflexivity|].
    eexists. split; [reflexivity|]. split; [first [reflexivity|exact Hid]|reflexivity]. }
  destruct Htab5 as (tab5 & Htab5 & Hstatus5 & run & Hrun5 & Hrunid & Hfin).
  destruct (same_cores_lookup s5' s6 tab_id tab5 Hcores6 Htab5) as (tab6 & Htab6 & Hcore6).
  unfold tab_core in Hcore6. injection Hcore6 as _ _ Hstatus6 _ _ Hrun6.
  assert (Hruns5 : _runs s5' = _runs s4) by (by subst s5').
  assert (Hsub5 : subprocesses s5' = subprocesses s4) by (by subst s5').
  assert (Htasks5 : tasks s5' = tasks s4) by (by subst s5').
  assert (Hruns2 : _runs s2' = _runs s) by (by subst s2').
  assert (Hsub2 : subprocesses s2' = subprocesses s) by (by subst s2').
  assert (Htasks2 : tasks s2' = tasks s) by (by subst s2').
  assert (Hjournal5 : journal s5' = journal s4) by (by subst s5').
  assert (Hjournal2 : journal s2' = journal s) by (by subst s2').
  assert (Hclock2 : clock s2' = clock s) by (by subst s2').
  assert (Hrt : exists rt, _runs s6 !! tab_id = Some rt /\
                  run_shape rt = run_shape (registered_run env ctx acc)).
  { rewrite Hruns6, Hruns5. rewrite Hruns, lookup_insert_eq in Hshape4.
    destruct (_runs s4 !! tab_id) as [rt|]; [|discriminate Hshape4].
    exists rt. split; [reflexivity|].
    change (Some (run_shape rt) = Some (run_shape (registered_run env ctx acc))) in Hshape4.
    by apply (inj Some) in Hshape4. }
  destruct Hrt as (rt & Hrt & Hshape).
  unfold run_shape in Hshape. cbn in Hshape.
  injection Hshape as Hrid Hrifs _ _ _ Hrprocs _.
  eexists _, s6, tab6, run, rt, new. split; [reflexivity|].
  split; [reflexivity|]. split; [exact Hrt|]. split; [exact Hrid|].
  split; [exact Hrifs|].
  split.
  { rewrite (map_untasked ProcessManager.process _ _ (fun _ => eq_refl) Hrprocs).
    by rewrite Hhandles, Hsub2. }
  split.
  { intros id Hne. rewrite Hruns6, Hruns5, Hothers4, Hruns, lookup_insert_ne, Hruns2; done. }
  split; [by rewrite Hsub6, Hsub5, Hsub4, Hsub, Hsub2|].
  split; [exact Hcmd|]. split; [exact Hnew|]. split; [exact Htab6|].
  split; [by rewrite Hstatus6|]. split; [by rewrite Hrun6|].
  split; [exact Hrunid|]. split; [exact Hfin|].
  split.
  { rewrite Htasks6, Htasks5, Htasks4, Htasks, Htasks2, length_app, length_map.
    f_equal. rewrite <- (length_map ProcessManager.process), Hhandles. apply length_seq. }
  rewrite Hjournal6, Hjournal5, Hjournal4, Hjournal, Hjournal2, Hclock2. f_equal.
  symmetry. by apply map_untasked.
Qed.

Lemma start_test_registers_the_run_witness :
  exists snap s' rt,
    TestExecutionManager.start_test Example.spawns_ok "t1" Example.profile Example.idle
    = (Py.Ok snap, s') /\
    Tab.d_status snap = Some "running" /\
    _runs s' !! "t1" = Some rt /\
    ProcessManager.run_id rt = "r1" /\
    map ProcessManager.process (ProcessManager.processes rt) = [0; 1]%nat.
Proof.
  eassert (Htab : tabs Example.idle !! "t1" = Some _) by (vm_compute; reflexivity).
  eassert (Hbuild : Build._build_run_context (capture_dir Example.idle)
                      (tcpdump_bin Example.idle) (clock Example.idle) Example.profile
                    = Py.Ok _) by (vm_compute; reflexivity).
  destruct (start_test_registers_the_run Example.spawns_ok "t1" Example.profile _
              Example.idle _ Htab idle_has_no_run Hbuild)
    as (snap & s' & tab' & run & rt & new & Hrun & Hst & Hrt & Hid & _ & Hprocs & _).
  { vm_compute. reflexivity. }
  { intros i _. eexists. reflexivity. }
  exists snap, s', rt. split; [exact Hrun|]. split; [exact Hst|]. split; [exact Hrt|].
  split; [exact Hid|]. rewrite Hprocs. reflexivity.
Defined.

(** ** The runs of the executor and the tabs of the store *)

(** No run is registered but for the tabs in [X]. *)
Definition runs_within (X : gset string) : relation State :=
  fun s s' => forall id, is_Some (_runs s' !! id) -> is_Some (_runs s !! id) \/ id ∈ X.

#[global] Instance runs_within_preorder X : PreOrder (runs_within X).
Proof.
  split; [intros s id; by left|].
  intros s1 s2 s3 H1 H2 id Hid. destruct (H2 id Hid) as [Hid2|HX]; [|by right].
  by apply H1.
Qed.

Lemma same_runs_within X s s' : _runs s' = _runs s -> runs_within X s s'.
Proof. intros Heq id. rewrite Heq. by left. Qed.

Lemma run_frame_runs_within {A} X (m : M State A) :
  within run_frame m -> within (runs_within X) m.
Proof. intros Hm s. apply same_runs_within. by destruct (Hm s). Qed.

Lemma modify_runs_within X (f : State -> State) :
  (forall s, _runs (f s) = _runs s) -> within (runs_within X) (Co.modify f).
Proof. intros Hf s. apply same_runs_within, Hf. Qed.

Lemma log_callback_runs_within X tab_id message interface :
  within (runs_within X) (TestExecutionManager.log_callback tab_id message interface).
Proof. apply run_frame_runs_within, log_callback_run_frame. Qed.

Lemma append_log_runs_within X tab_id message interface :
  within (runs_within X) (TestExecutionManager._append_log tab_id message interface).
Proof. apply run_frame_runs_within, append_log_run_frame. Qed.

Lemma send_signal_runs_within X h sig : within (runs_within X) (send_signal h sig).
Proof. apply run_frame_runs_within, send_signal_run_frame. Qed.

Lemma write_capture_metadata_runs_within X row file :
  within (runs_within X) (write_capture_metadata row file).
Proof. apply run_frame_runs_within, write_capture_metadata_run_frame. Qed.

Lemma broadcast_runs_within X ev : within (runs_within X) (TestExecutionManager._broadcast ev).
Proof. by apply modify_runs_within. Qed.

Lemma store_tab_runs_within X tab_id tab :
  within (runs_within X) (TestExecutionManager.store_tab tab_id tab).
Proof. by apply modify_runs_within. Qed.

Lemma save_state_runs_within X : within (runs_within X) TestExecutionManager.save_state.
Proof. by apply modify_runs_within. Qed.

Lemma on_tabs_runs_within {A} X (f : TabManager.t -> A * TabManager.t) :
  within (runs_within X) (TestExecutionManager.on_tabs f).
Proof.
  intros s. apply same_runs_within. unfold TestExecutionManager.on_tabs.
  by destruct (f (tab_manager s)).
Qed.

Lemma on_tabs_raising_runs_within {A} X (f : TabManager.t -> Py.result A * TabManager.t) :
  within (runs_within X) (TestExecutionManager.on_tabs_raising f).
Proof.
  intros s. apply same_runs_within. unfold TestExecutionManager.on_tabs_raising.
  by destruct (f (tab_manager s)).
Qed.

Lemma remove_run_runs_within X tab_id : within (runs_within X) (RunExecutor.remove_run tab_id).
Proof.
  intros s id. cbn. intros [rt Hrt]. left.
  apply lookup_delete_Some in Hrt as [_ Hrt]. by exists rt.
Qed.

Lemma create_watcher_task_runs_within X tab_id run_id iproc :
  within (runs_within X) (TestExecutionManager.create_watcher_task tab_id run_id iproc).
Proof. intros s. by apply same_runs_within. Qed.

Lemma set_watcher_task_runs_within X tab_id interface task :
  within (runs_within X) (RunExecutor.set_watcher_task tab_id interface task).
Proof.
  intros s id. unfold RunExecutor.set_watcher_task. cbn.
  destruct (_runs s !! tab_id) as [rt|] eqn:Hrt; [|by left].
  cbn. intros Hid. left. destruct (decide (tab_id = id)) as [<-|Hne]; [by exists rt|].
  by rewrite lookup_insert_ne in Hid.
Qed.

#[global] Hint Resolve log_callback_runs_within append_log_runs_within send_signal_runs_within
  write_capture_metadata_runs_within broadcast_runs_within store_tab_runs_within
  save_state_runs_within on_tabs_runs_within on_tabs_raising_runs_within
  remove_run_runs_within create_watcher_task_runs_within set_watcher_task_runs_within
  : within.

Lemma stop_test_runs_within X react tab_id :
  within (runs_within X) (TestExecutionManager.stop_test react tab_id).
Proof.
  intros s id. destruct (stop_test_effect react tab_id s) as [Hruns _].
  rewrite Hruns. intros [rt Hrt]. left.
  apply lookup_delete_Some in Hrt as [_ Hrt]. by exists rt.
Qed.

Lemma handle_exit_runs_within X tab_id run_id interface capture_id pid returncode error :
  within (runs_within X)
    (TestExecutionManager._handle_interface_process_exit tab_id run_id interface
       capture_id pid returncode error).
Proof.
  unfold TestExecutionManager._handle_interface_process_exit,
    RunExecutor.get_test_metadata_file, RunExecutor.check_all_processes_done,
    TestExecutionManager.get_tab_object.
  within_auto.
Qed.

Lemma mark_run_failed_runs_within X tab_id run_id message :
  within (runs_within X) (TestExecutionManager._mark_run_failed tab_id run_id message).
Proof.
  unfold TestExecutionManager._mark_run_failed, TestExecutionManager.get_tab_object.
  within_auto.
Qed.

#[global] Hint Resolve stop_test_runs_within handle_exit_runs_within
  mark_run_failed_runs_within : within.

Lemma run_watcher_runs_within X h p :
  within (runs_within X) (TestExecutionManager.run_watcher h p).
Proof.
  intros s. unfold TestExecutionManager.run_watcher.
  destruct (tasks s !! h) as [[tab_id run_id iproc []]|]; try reflexivity.
  match goal with
  | |- context [ TestExecutionManager._watch_and_handle_exit _ _ _ _ ?s1 ] =>
      assert (Hs1 : runs_within X s s1)
        by (destruct (ProcessManager.wait p) as [rc|e];
            [apply same_runs_within;
             by destruct (process_exits_run_frame (ProcessManager.process iproc) rc s)
            |reflexivity]);
      assert (Hw : within (runs_within X)
                     (TestExecutionManager._watch_and_handle_exit tab_id run_id iproc p))
        by (unfold TestExecutionManager._watch_and_handle_exit;
            apply watch_interface_process_within; [apply _|..]; intros; eauto with within);
      specialize (Hw s1);
      destruct (TestExecutionManager._watch_and_handle_exit tab_id run_id iproc p s1)
        as [r s2]
  end.
  cbn [snd] in *. etrans; [exact Hs1|]. etrans; [exact Hw|]. by apply same_runs_within.
Qed.

Lemma abort_all_runs_within X : within (runs_within X) TestExecutionManager.abort_all.
Proof.
  unfold TestExecutionManager.abort_all, RunExecutor.abort_all.
  apply within_bind; [apply _|apply within_gets, _|intros running].
  apply within_bind; [apply _| |intros _].
  { intros s id. cbn. rewrite lookup_empty. by intros [? ?]. }
  assert (Hcancel : forall h, within (runs_within X) (RunExecutor.cancel_task h)).
  { intros h. apply run_frame_runs_within, cancel_task_run_frame. }
  within_auto.
Qed.

Lemma auto_stop_runs_within `{Py.Runtime} X react tab_id run_id duration :
  within (runs_within X)
    (TestExecutionManager._auto_stop_after_duration react tab_id run_id duration).
Proof.
  unfold TestExecutionManager._auto_stop_after_duration, TestExecutionManager.sleep,
    TestExecutionManager.get_tab_object, RunExecutor.is_running.
  within_auto.
Qed.

Lemma cleanup_runs_within X ps : within (runs_within X) (RunExecutor._cleanup_started_processes ps).
Proof. unfold RunExecutor._cleanup_started_processes. within_auto. Qed.

#[global] Hint Resolve cleanup_runs_within : within.

Lemma spawn_all_runs_within `{Py.Runtime} X log_callback env tab_name profile ctx ts mc gen
    idx ctxs acc :
  (forall message i, within (runs_within X) (log_callback message i)) ->
  within (runs_within X)
    (RunExecutor.spawn_all log_callback env tab_name profile ctx ts mc gen idx ctxs acc).
Proof.
  intros Hcb. revert idx acc. induction ctxs as [|c rest IH]; intros idx acc; simpl.
  - apply within_ret, _.
  - destruct (RunExecutor.spawn env idx) as [pid|exc].
    + apply within_bind; [apply _| |intros handle].
      { intros s. by apply same_runs_within. }
      apply within_bind; [apply _|apply write_capture_metadata_runs_within|intros _].
      apply within_bind; [apply _|apply Hcb|intros _]. apply IH.
    + unfold RunExecutor.spawn_failed. within_auto.
Qed.

Lemma executor_start_test_runs_within `{Py.Runtime} log_callback env tab_id profile tab_name :
  (forall message i, within (runs_within {[tab_id]}) (log_callback message i)) ->
  within (runs_within {[tab_id]})
    (RunExecutor.start_test log_callback env tab_id profile tab_name).
Proof.
  intros Hcb. unfold RunExecutor.start_test, RunExecutor.is_running.
  pose proof (spawn_all_runs_within {[tab_id]} log_callback) as Hspawn.
  within_auto; try (intros s; reflexivity).
  intros s id. cbn. destruct (decide (tab_id = id)) as [<-|Hne].
  - right. by apply elem_of_singleton.
  - rewrite lookup_insert_ne by done. by left.
Qed.

Lemma start_duration_timer_runs_within `{Py.Runtime} X tab_id run_id profile :
  within (runs_within X) (TestExecutionManager.start_duration_timer tab_id run_id profile).
Proof.
  unfold TestExecutionManager.start_duration_timer.
  within_auto; by apply modify_runs_within.
Qed.

Lemma start_test_runs_within `{Py.Runtime} env tab_id profile :
  within (runs_within {[tab_id]}) (TestExecutionManager.start_test env tab_id profile).
Proof.
  unfold TestExecutionManager.start_test, TestExecutionManager.get_tab_object,
    RunExecutor.is_running.
  pose proof (executor_start_test_runs_within (TestExecutionManager.log_callback tab_id) env
                tab_id profile) as Hstart.
  pose proof (start_duration_timer_runs_within {[tab_id]}) as Htimer.
  within_auto; intros s; reflexivity.
Qed.

(** Every run of the executor belongs to a stored tab. *)
Definition runs_have_tabs (s : State) : Prop :=
  forall id, is_Some (_runs s !! id) -> is_Some (tabs s !! id).

Lemma evolve_keeps_tab s s' id :
  tabs_evolve s s' -> is_Some (tabs s !! id) -> is_Some (tabs s' !! id).
Proof.
  intros [_ Hev] [tab Htab]. specialize (Hev id). unfold tabs in *. rewrite Htab in Hev.
  inversion Hev. eauto.
Qed.

Lemma runs_have_tabs_step s s' :
  runs_within ∅ s s' -> tabs_evolve s s' -> runs_have_tabs s -> runs_have_tabs s'.
Proof.
  intros Hruns Hev Hinv id Hid. destruct (Hruns id Hid) as [Hold|Hin].
  - by apply (evolve_keeps_tab s), Hinv.
  - by apply elem_of_empty in Hin.
Qed.

Lemma start_test_unknown `{Py.Runtime} env tab_id profile s :
  tabs s !! tab_id = None ->
  TestExecutionManager.start_test env tab_id profile s = (TabManager.tab_not_found tab_id, s).
Proof.
  intros Hnone. unfold TestExecutionManager.start_test, TestExecutionManager.get_tab_object,
    TabManager.get_tab_object.
  rewrite bind_gets. unfold tabs in Hnone. by rewrite Hnone.
Qed.

Section RunsAndTabs.
Context `{Py.Runtime}.

Lemma exec_runs_have_tabs c s : runs_have_tabs s -> runs_have_tabs (Trace.exec c s).
Proof.
  intros Hinv. pose proof (exec_evolve c s) as Hev.
  destruct c; cbn [Trace.exec].
  - (* create_tab *)
    destruct (create_tab_tabs tab_id title profile_id s) as (tab & Htabs & _).
    intros id Hid. rewrite Htabs.
    destruct (decide (tab_id = id)) as [<-|Hne].
    + rewrite lookup_insert_eq. eauto.
    + rewrite lookup_insert_ne by done. apply Hinv. exact Hid.
  - (* update_tab *)
    apply (runs_have_tabs_step s); [|exact Hev|exact Hinv].
    assert (Hw : within (runs_within ∅)
                   (TestExecutionManager.update_tab tab_id title profile_id))
      by (unfold TestExecutionManager.update_tab; within_auto).
    apply Hw.
  - (* delete_tab *)
    intros id. unfold TestExecutionManager.delete_tab, RunExecutor.get_running_tab_ids.
    rewrite bind_gets, bind_run.
    unfold TestExecutionManager.on_tabs_raising, TabManager.delete_tab.
    destruct (bool_decide (tab_id ∈ dom (_runs s))) eqn:Hrunning; [apply Hinv|].
    destruct (TabManager._tabs (tab_manager s) !! tab_id); [|apply Hinv].
    cbn. intros Hid. unfold tabs. cbn.
    apply bool_decide_eq_false in Hrunning.
    destruct (decide (tab_id = id)) as [<-|Hne].
    + destruct Hrunning. by apply elem_of_dom.
    + rewrite lookup_delete_ne by done. by apply Hinv.
  - (* start_test *)
    intros id Hid.
    destruct (tabs s !! tab_id) as [tab|] eqn:Htab.
    + pose proof (start_test_runs_within env tab_id profile s id Hid) as [Hold|Hin].
      * apply (evolve_keeps_tab s); [exact Hev|by apply Hinv].
      * apply elem_of_singleton in Hin as ->.
        apply (evolve_keeps_tab s); [exact Hev|]. rewrite Htab. eauto.
    + rewrite start_test_unknown in Hid |- * by done. by apply Hinv.
  - apply (runs_have_tabs_step s); [|exact Hev|exact Hinv].
    apply stop_test_runs_within.
  - apply (runs_have_tabs_step s); [|exact Hev|exact Hinv].
    apply abort_all_runs_within.
  - apply (runs_have_tabs_step s); [|exact Hev|exact Hinv]. by apply same_runs_within.
  - apply (runs_have_tabs_step s); [|exact Hev|exact Hinv]. by apply same_runs_within.
  - apply (runs_have_tabs_step s); [|exact Hev|exact Hinv]. by apply same_runs_within.
  - apply (runs_have_tabs_step s); [|exact Hev|exact Hinv].
    apply run_watcher_runs_within.
  - apply (runs_have_tabs_step s); [|exact Hev|exact Hinv].
    apply same_runs_within.
    match goal with
    | |- _runs (process_exits ?h ?rc s) = _ => by destruct (process_exits_run_frame h rc s)
    end.
  - apply (runs_have_tabs_step s); [|exact Hev|exact Hinv].
    apply auto_stop_runs_within.
  - apply (runs_have_tabs_step s); [|exact Hev|exact Hinv]. by apply same_runs_within.
Qed.

Lemma run_runs_have_tabs cs s : runs_have_tabs s -> runs_have_tabs (Trace.run cs s).
Proof.
  revert s. induction cs as [|c cs IH]; intros s Hok; simpl; [done|].
  apply IH. by apply exec_runs_have_tabs.
Qed.
End RunsAndTabs.



(** ** File name prefixes ([slugify]) *)

(** The characters of a slug. *)
Definition slug_or_underscore (c : ascii) : bool :=
  Slug.slug_char c || Ascii.eqb "_" c.

Lemma sub_runs_chars in_run s :
  Py.all_chars slug_or_underscore (Slug.sub_runs in_run s) = true.
Proof.
  revert in_run. induction s as [|c s IH]; intros in_run; simpl; [done|].
  destruct (Slug.slug_char c) eqn:Hc; simpl.
  - unfold slug_or_underscore at 1. by rewrite Hc, IH.
  - destruct in_run; simpl; by rewrite IH.
Qed.

Lemma lstrip_by_chars q p s :
  Py.all_chars q s = true -> Py.all_chars q (Py.lstrip_by p s) = true.
Proof.
  induction s as [|c s IH]; simpl; [done|].
  intros [Hc Hs]%andb_true_iff. destruct (p c); [by apply IH|].
  simpl. by rewrite Hc, Hs.
Qed.

Lemma rstrip_by_chars q p s :
  Py.all_chars q s = true -> Py.all_chars q (Py.rstrip_by p s) = true.
Proof.
  induction s as [|c s IH]; simpl; [done|].
  intros [Hc Hs]%andb_true_iff. specialize (IH Hs).
  destruct (Py.rstrip_by p s) as [|d r].
  - destruct (p c); simpl; [done|by rewrite Hc].
  - simpl in *. by rewrite Hc, IH.
Qed.

Lemma lstrip_by_head p s c r : Py.lstrip_by p s = String c r -> p c = false.
Proof.
  induction s as [|d s IH]; simpl; [done|].
  destruct (p d) eqn:Hd; [exact IH|]. by intros [= <- _].
Qed.

Lemma rstrip_by_head p s c r :
  Py.rstrip_by p s = String c r -> exists s', s = String c s'.
Proof.
  destruct s as [|d s]; simpl; [done|].
  destruct (Py.rstrip_by p s); [destruct (p d)|]; intros [= <- _]; eauto.
Qed.

Lemma strip_by_head p s c r : Py.strip_by p s = String c r -> p c = false.
Proof.
  unfold Py.strip_by. intros [s' Hs']%rstrip_by_head. by apply lstrip_by_head in Hs'.
Qed.

(** The result of [slugify] can stand in a file name: it is not empty, it
    is made of lower-case letters, digits and underscores only, and it
    neither starts nor ends with an underscore. *)
Theorem slugify_gives_a_file_name_part (value : string) :
  Slug.slugify value <> "" /\
  Py.all_chars slug_or_underscore (Slug.slugify value) = true /\
  (forall rest, Slug.slugify value <> String "_" rest) /\
  (forall front, Slug.slugify value <> front +:+ "_").
Proof.
  unfold Slug.slugify, or_str.
  destruct (Py.strip_by (Ascii.eqb "_") (Slug.sub_runs false (Py.lower value)))
    as [|c r] eqn:Hstrip; cbn [Py.nonempty].
  { split; [done|]. split; [reflexivity|]. split; [done|].
    intros front Heq.
    do 8 (destruct front as [|? front]; try discriminate Heq). }
  rewrite <- Hstrip. split; [by rewrite Hstrip|]. split.
  { unfold Py.strip_by. apply rstrip_by_chars, lstrip_by_chars, sub_runs_chars. }
  split.
  - intros rest Heq. apply strip_by_head in Heq. discriminate Heq.
  - intros front Heq. unfold Py.strip_by in Heq. apply rstrip_by_last in Heq.
    discriminate Heq.
Qed.

(** ** The state file and the tabs in memory *)

(** The state file holds the tabs as they are in memory; as long as it
    does not exist, there is no tab. *)
Definition saved (m : TabManager.t) : Prop :=
  match TabManager._tabs_file m with
  | Some file => file = TabManager.list_tabs m
  | None => TabManager._tabs m = ∅
  end.

(** An operation that starts from a saved store ends with one. *)
Definition keeps_saved : relation State :=
  fun s s' => saved (tab_manager s) -> saved (tab_manager s').

#[global] Instance keeps_saved_preorder : PreOrder keeps_saved.
Proof.
  split; [intros s Hs; exact Hs|]. intros s1 s2 s3 H1 H2 Hs. by apply H2, H1.
Qed.

Lemma same_store_keeps_saved s s' : tab_manager s' = tab_manager s -> keeps_saved s s'.
Proof. intros Heq. unfold keeps_saved. by rewrite Heq. Qed.

Lemma now_saved s s' : saved (tab_manager s') -> keeps_saved s s'.
Proof. by intros Hs _. Qed.

Lemma save_state_locked_saved m : saved (TabManager._save_state_locked m).
Proof. reflexivity. Qed.

Lemma modify_keeps_saved (f : State -> State) :
  (forall s, tab_manager (f s) = tab_manager s) -> within keeps_saved (Co.modify f).
Proof. intros Hf s. apply same_store_keeps_saved, Hf. Qed.

Lemma broadcast_keeps_saved ev : within keeps_saved (TestExecutionManager._broadcast ev).
Proof. by apply modify_keeps_saved. Qed.

Lemma save_state_keeps_saved : within keeps_saved TestExecutionManager.save_state.
Proof. intros s. apply now_saved. reflexivity. Qed.

Lemma append_log_keeps_saved tab_id message interface :
  within keeps_saved (TestExecutionManager._append_log tab_id message interface).
Proof.
  unfold TestExecutionManager._append_log.
  apply within_bind; [apply _|apply within_gets, _|intros now].
  apply within_bind; [apply _| |intros entry].
  { intros s. unfold TestExecutionManager.on_tabs, TabManager.append_log.
    destruct (TabManager._tabs (tab_manager s) !! tab_id);
      [|by apply same_store_keeps_saved].
    apply now_saved. reflexivity. }
  pose proof broadcast_keeps_saved. within_auto.
Qed.

Lemma log_callback_keeps_saved tab_id message interface :
  within keeps_saved (TestExecutionManager.log_callback tab_id message interface).
Proof.
  unfold TestExecutionManager.log_callback. pose proof append_log_keeps_saved. within_auto.
Qed.

Lemma send_signal_keeps_saved h sig : within keeps_saved (send_signal h sig).
Proof.
  intros s. apply same_store_keeps_saved. unfold send_signal.
  destruct (subprocesses s !! h) as [p|]; [|done]. by destruct (returncode p).
Qed.

Lemma process_exits_keeps_saved h rc s : keeps_saved s (process_exits h rc s).
Proof.
  apply same_store_keeps_saved. unfold process_exits.
  destruct (subprocesses s !! h) as [p|]; [|done]. by destruct (returncode p).
Qed.

Lemma wait_for_exit_keeps_saved h outcome : within keeps_saved (wait_for_exit h outcome).
Proof.
  intros s. unfold wait_for_exit.
  destruct (process_returncode s h), outcome; simpl; try reflexivity.
  apply process_exits_keeps_saved.
Qed.

Lemma write_capture_metadata_keeps_saved row file :
  within keeps_saved (write_capture_metadata row file).
Proof. by apply modify_keeps_saved. Qed.

Lemma cancel_task_keeps_saved h : within keeps_saved (RunExecutor.cancel_task h).
Proof.
  apply modify_keeps_saved. intros s.
  destruct (tasks s !! h) as [w|]; [|done]. by destruct (w_status w).
Qed.

Lemma remove_run_keeps_saved tab_id : within keeps_saved (RunExecutor.remove_run tab_id).
Proof. intros s. by apply same_store_keeps_saved. Qed.

Lemma set_watcher_task_keeps_saved tab_id interface task :
  within keeps_saved (RunExecutor.set_watcher_task tab_id interface task).
Proof. apply modify_keeps_saved. intros s. by destruct (_runs s !! tab_id). Qed.

Lemma create_watcher_task_keeps_saved tab_id run_id iproc :
  within keeps_saved (TestExecutionManager.create_watcher_task tab_id run_id iproc).
Proof. intros s. by apply same_store_keeps_saved. Qed.

#[global] Hint Resolve broadcast_keeps_saved save_state_keeps_saved append_log_keeps_saved
  log_callback_keeps_saved send_signal_keeps_saved wait_for_exit_keeps_saved
  write_capture_metadata_keeps_saved cancel_task_keeps_saved remove_run_keeps_saved
  set_watcher_task_keeps_saved create_watcher_task_keeps_saved : within.

Lemma terminate_process_safely_keeps_saved tab_id h r interface :
  within keeps_saved
    (terminate_process_safely (TestExecutionManager.log_callback tab_id) h r interface).
Proof. unfold terminate_process_safely. within_auto. Qed.

#[global] Hint Resolve terminate_process_safely_keeps_saved : within.

(** An assignment to a stored tab that is followed by [save_state]. *)
Lemma store_save_keeps_saved {A} tab_id tab (k : M State A) :
  within keeps_saved k ->
  within keeps_saved
    (TestExecutionManager.store_tab tab_id tab ;ᶜ TestExecutionManager.save_state ;ᶜ k).
Proof.
  intros Hk s _. unfold TestExecutionManager.store_tab, TestExecutionManager.save_state.
  rewrite !bind_modify. by apply Hk.
Qed.

Lemma store_remove_save_keeps_saved {A} tab_id tab (k : M State A) :
  within keeps_saved k ->
  within keeps_saved
    (TestExecutionManager.store_tab tab_id tab ;ᶜ RunExecutor.remove_run tab_id ;ᶜ
     TestExecutionManager.save_state ;ᶜ k).
Proof.
  intros Hk s _. unfold TestExecutionManager.store_tab, TestExecutionManager.save_state,
    RunExecutor.remove_run.
  rewrite bind_modify, bind_run. cbv beta iota. rewrite bind_modify. by apply Hk.
Qed.

Lemma mark_run_failed_keeps_saved tab_id run_id message :
  within keeps_saved (TestExecutionManager._mark_run_failed tab_id run_id message).
Proof.
  unfold TestExecutionManager._mark_run_failed, TestExecutionManager.get_tab_object.
  apply within_bind; [apply _|apply append_log_keeps_saved|intros _].
  apply within_bind; [apply _|apply within_gets, _|intros [tab|]]; [|apply within_ret, _].
  destruct (Tab.run tab) as [run|]; [|apply within_ret, _].
  destruct (_ && _); [apply within_ret, _|].
  apply within_bind; [apply _|apply remove_run_keeps_saved|intros _].
  apply within_bind; [apply _|apply within_gets, _|intros now].
  apply store_save_keeps_saved, broadcast_keeps_saved.
Qed.

Lemma handle_exit_keeps_saved tab_id run_id interface capture_id pid returncode error :
  within keeps_saved
    (TestExecutionManager._handle_interface_process_exit tab_id run_id interface
       capture_id pid returncode error).
Proof.
  unfold TestExecutionManager._handle_interface_process_exit,
    TestExecutionManager.get_tab_object.
  apply within_bind; [apply _|apply within_gets, _|intros file].
  apply within_bind; [apply _|apply within_gets, _|intros now].
  apply within_bind; [apply _|apply write_capture_metadata_keeps_saved|intros _].
  apply within_bind; [apply _|apply append_log_keeps_saved|intros _].
  apply within_bind; [apply _|apply within_gets, _|intros [all_done exit_codes]].
  destruct all_done; [|apply within_ret, _].
  apply within_bind; [apply _|apply within_gets, _|intros [tab|]]; [|apply within_ret, _].
  destruct (Tab.run tab) as [run|]; [|apply within_ret, _].
  destruct (negb _); [apply within_ret, _|].
  destruct (Py.truthy_opt_str (Run.finished_utc run)); [apply within_ret, _|].
  apply within_bind; [apply _|apply within_gets, _|intros now'].
  apply store_remove_save_keeps_saved. within_auto.
Qed.

Lemma stop_test_keeps_saved react tab_id :
  within keeps_saved (TestExecutionManager.stop_test react tab_id).
Proof.
  unfold TestExecutionManager.stop_test, TestExecutionManager.get_tab_object.
  apply within_bind; [apply _| |intros res].
  { unfold RunExecutor.stop_test. within_auto; by apply modify_keeps_saved. }
  destruct res as [|run_id exit_codes file].
  - within_auto. intros s. reflexivity.
  - apply within_bind; [apply _|apply within_gets, _|intros [tab|]];
      [|intros s; reflexivity].
    apply within_bind; [apply _| |intros tab'; within_auto].
    destruct (Tab.run tab) as [run|]; [|apply within_ret, _].
    destruct (negb _); [|apply within_ret, _].
    apply within_bind; [apply _|apply within_gets, _|intros now].
    apply store_save_keeps_saved, within_ret, _.
Qed.

#[global] Hint Resolve mark_run_failed_keeps_saved handle_exit_keeps_saved
  stop_test_keeps_saved : within.

Lemma run_watcher_keeps_saved h p : within keeps_saved (TestExecutionManager.run_watcher h p).
Proof.
  intros s. unfold TestExecutionManager.run_watcher.
  destruct (tasks s !! h) as [[tab_id run_id iproc []]|]; try reflexivity.
  match goal with
  | |- context [ TestExecutionManager._watch_and_handle_exit _ _ _ _ ?s1 ] =>
      assert (Hs1 : keeps_saved s s1)
        by (destruct (ProcessManager.wait p);
            [apply process_exits_keeps_saved|reflexivity]);
      assert (Hw : within keeps_saved
                     (TestExecutionManager._watch_and_handle_exit tab_id run_id iproc p))
        by (unfold TestExecutionManager._watch_and_handle_exit;
            apply watch_interface_process_within; [apply _|..]; intros; eauto with within);
      specialize (Hw s1);
      destruct (TestExecutionManager._watch_and_handle_exit tab_id run_id iproc p s1)
        as [r s2]
  end.
  cbn [snd] in *. etrans; [exact Hs1|]. etrans; [exact Hw|].
  by apply same_store_keeps_saved.
Qed.

Lemma abort_all_keeps_saved : within keeps_saved TestExecutionManager.abort_all.
Proof.
  unfold TestExecutionManager.abort_all, RunExecutor.abort_all.
  within_auto; by apply modify_keeps_saved.
Qed.

Lemma auto_stop_keeps_saved `{Py.Runtime} react tab_id run_id duration :
  within keeps_saved
    (TestExecutionManager._auto_stop_after_duration react tab_id run_id duration).
Proof.
  unfold TestExecutionManager._auto_stop_after_duration, TestExecutionManager.sleep,
    TestExecutionManager.get_tab_object, RunExecutor.is_running.
  within_auto.
Qed.

Lemma cleanup_keeps_saved ps : within keeps_saved (RunExecutor._cleanup_started_processes ps).
Proof. unfold RunExecutor._cleanup_started_processes. within_auto. Qed.

#[global] Hint Resolve cleanup_keeps_saved : within.

Lemma spawn_all_keeps_saved `{Py.Runtime} log_callback env tab_name profile ctx ts mc gen idx
    ctxs acc :
  (forall message i, within keeps_saved (log_callback message i)) ->
  within keeps_saved
    (RunExecutor.spawn_all log_callback env tab_name profile ctx ts mc gen idx ctxs acc).
Proof.
  intros Hcb. revert idx acc. induction ctxs as [|c rest IH]; intros idx acc; simpl.
  - apply within_ret, _.
  - destruct (RunExecutor.spawn env idx) as [pid|exc].
    + apply within_bind; [apply _| |intros handle].
      { intros s. by apply same_store_keeps_saved. }
      apply within_bind; [apply _|apply write_capture_metadata_keeps_saved|intros _].
      apply within_bind; [apply _|apply Hcb|intros _]. apply IH.
    + unfold RunExecutor.spawn_failed. within_auto.
Qed.

Lemma executor_start_test_keeps_saved `{Py.Runtime} log_callback env tab_id profile tab_name :
  (forall message i, within keeps_saved (log_callback message i)) ->
  within keeps_saved (RunExecutor.start_test log_callback env tab_id profile tab_name).
Proof.
  intros Hcb. unfold RunExecutor.start_test, RunExecutor.is_running.
  pose proof (spawn_all_keeps_saved log_callback) as Hspawn.
  within_auto; first [by apply modify_keeps_saved|intros s; reflexivity].
Qed.

Lemma start_duration_timer_keeps_saved `{Py.Runtime} tab_id run_id profile :
  within keeps_saved (TestExecutionManager.start_duration_timer tab_id run_id profile).
Proof.
  unfold TestExecutionManager.start_duration_timer.
  within_auto; by apply modify_keeps_saved.
Qed.

Lemma update_tab_status_keeps_saved tab_id now status run :
  within keeps_saved
    (TestExecutionManager.on_tabs (TabManager.update_tab_status tab_id now status run true)).
Proof.
  intros s. unfold TestExecutionManager.on_tabs, TabManager.update_tab_status.
  destruct (TabManager._tabs (tab_manager s) !! tab_id);
    [apply now_saved; reflexivity|by apply same_store_keeps_saved].
Qed.

Lemma start_test_keeps_saved `{Py.Runtime} env tab_id profile :
  within keeps_saved (TestExecutionManager.start_test env tab_id profile).
Proof.
  unfold TestExecutionManager.start_test, TestExecutionManager.get_tab_object,
    RunExecutor.is_running.
  pose proof (executor_start_test_keeps_saved (TestExecutionManager.log_callback tab_id) env
                tab_id profile) as Hstart.
  pose proof start_duration_timer_keeps_saved as Htimer.
  pose proof update_tab_status_keeps_saved as Hstatus.
  within_auto; intros s; reflexivity.
Qed.

Section SavedAlongRuns.
Context `{Py.Runtime}.

Lemma exec_keeps_saved c s : keeps_saved s (Trace.exec c s).
Proof.
  destruct c; cbn [Trace.exec].
  - (* create_tab *) apply now_saved. reflexivity.
  - (* update_tab *)
    unfold TestExecutionManager.update_tab, utcnow_iso. rewrite bind_gets, bind_run.
    unfold TestExecutionManager.on_tabs_raising, TabManager.update_tab.
    destruct (TabManager._tabs (tab_manager s) !! tab_id);
      [apply now_saved; reflexivity|by apply same_store_keeps_saved].
  - (* delete_tab *)
    unfold TestExecutionManager.delete_tab, RunExecutor.get_running_tab_ids.
    rewrite bind_gets, bind_run.
    unfold TestExecutionManager.on_tabs_raising, TabManager.delete_tab.
    destruct (bool_decide _); [by apply same_store_keeps_saved|].
    destruct (TabManager._tabs (tab_manager s) !! tab_id);
      [apply now_saved; reflexivity|by apply same_store_keeps_saved].
  - apply start_test_keeps_saved.
  - apply stop_test_keeps_saved.
  - apply abort_all_keeps_saved.
  - by apply same_store_keeps_saved.
  - by apply same_store_keeps_saved.
  - by apply same_store_keeps_saved.
  - apply run_watcher_keeps_saved.
  - apply process_exits_keeps_saved.
  - apply auto_stop_keeps_saved.
  - by apply same_store_keeps_saved.
Qed.

Lemma run_keeps_saved cs s : keeps_saved s (Trace.run cs s).
Proof.
  revert s. induction cs as [|c cs IH]; intros s; simpl; [reflexivity|].
  etrans; [apply exec_keeps_saved|apply IH].
Qed.
End SavedAlongRuns.

(** The engine starts on an empty state directory.  After every call and
    event, the state file holds exactly the tabs that are in memory, each
    as its [to_dict]: no change of a tab is left unsaved.  The file does
    not exist only as long as there is no tab. *)
Theorem state_file_mirrors_the_tabs `{Py.Runtime} (calls : list Trace.call)
    (now capture_dir tcpdump_bin : string) (max : nat) :
  let s := Trace.run calls (Engine.init now capture_dir tcpdump_bin max None) in
  match TabManager._tabs_file (tab_manager s) with
  | Some file => file = TabManager.list_tabs (tab_manager s)
  | None => tabs s = ∅
  end.
Proof.
  intros s. apply (run_keeps_saved calls (Engine.init now capture_dir tcpdump_bin max None)).
  reflexivity.
Qed.

(** ** The processes of a stopped run *)

(** The process has exited, or it has been sent SIGTERM and SIGKILL. *)
Definition settled (p : subprocess) : Prop :=
  is_Some (returncode p) \/
  (ProcessManager.TERM ∈ signals p /\ ProcessManager.KILL ∈ signals p).

Lemma terminated_settled p r : settled (terminated p r).
Proof.
  unfold terminated, settled. destruct (returncode p) as [rc|] eqn:Hrc.
  - left. rewrite Hrc. eauto.
  - destruct (after_term r) as [rc|]; cbn; [left; eauto|]. right.
    split; apply elem_of_app; [left; apply elem_of_app; right|right]; apply list_elem_of_singleton;
      reflexivity.
Qed.

Lemma terminated_keeps_settled p r : settled p -> settled (terminated p r).
Proof. intros _. apply terminated_settled. Qed.

(** The protocol on a handle without process object. *)
Lemma terminate_process_safely_missing s tab_id h r interface :
  subprocesses s !! h = None ->
  exists s',
    terminate_process_safely (TestExecutionManager.log_callback tab_id) h r interface s
    = (Py.Ok (), s') /\
    subprocesses s' = subprocesses s.
Proof.
  intros Hp. unfold terminate_process_safely. rewrite bind_gets.
  unfold process_returncode at 1. rewrite Hp. cbn [mbind option_bind].
  rewrite bind_run.
  match goal with
  | |- context [ TestExecutionManager.log_callback tab_id ?m ?i s ] =>
      destruct (log_callback_keeps_processes tab_id m i s) as (s1 & -> & Hf1)
  end.
  rewrite bind_run. unfold Co.try_except, Co.bind at 1, send_signal.
  rewrite (lf_subprocesses _ _ Hf1), Hp. cbn.
  exists s1. split; [reflexivity|]. apply (lf_subprocesses _ _ Hf1).
Qed.

(** The loop of [stop_test] that terminates the processes of the run. *)
Definition terminate_all_of (tab_id : string) (react : nat -> reaction)
    (processes : list ProcessManager.InterfaceProcess) : M State unit :=
  Co.for_ processes (fun iproc =>
    terminate_process_safely (TestExecutionManager.log_callback tab_id)
      (ProcessManager.process iproc) (react (ProcessManager.process iproc))
      (ProcessManager.interface iproc)).

Lemma terminate_all_of_effect tab_id react processes s :
  exists s',
    terminate_all_of tab_id react processes s = (Py.Ok (), s') /\
    (forall h, h ∉ map ProcessManager.process processes ->
               subprocesses s' !! h = subprocesses s !! h) /\
    (forall h p, subprocesses s !! h = Some p ->
       exists p', subprocesses s' !! h = Some p' /\
                  (settled p -> settled p') /\
                  (h ∈ map ProcessManager.process processes -> settled p')).
Proof.
  revert s. induction processes as [|x rest IH]; intros s.
  { exists s. split; [reflexivity|]. split; [done|]. intros h p Hp. exists p.
    split; [done|]. split; [done|]. by intros ?%elem_of_nil. }
  unfold terminate_all_of. cbn [Co.for_]. fold (terminate_all_of tab_id react rest).
  rewrite bind_run. set (hx := ProcessManager.process x).
  destruct (subprocesses s !! hx) as [px|] eqn:Hpx.
  - destruct (terminate_process_safely_effect s tab_id hx (react hx)
                (ProcessManager.interface x) px Hpx) as (s1 & -> & Hsub1 & _).
    destruct (IH s1) as (s' & Hrun & Hother & Hown).
    exists s'. split; [exact Hrun|]. split.
    + intros h Hh. cbn [map] in Hh. apply not_elem_of_cons in Hh as [Hne Hh].
      rewrite (Hother h Hh), Hsub1. by apply list_lookup_insert_ne.
    + intros h p Hp. destruct (decide (h = hx)) as [->|Hne].
      * rewrite Hpx in Hp. injection Hp as <-.
        destruct (Hown hx (terminated px (react hx))) as (p' & Hp' & Hkeep & _).
        { rewrite Hsub1. apply list_lookup_insert_eq. by eapply lookup_lt_Some. }
        exists p'. split; [exact Hp'|].
        split; intros _; apply Hkeep, terminated_settled.
      * destruct (Hown h p) as (p' & Hp' & Hkeep & Hin).
        { rewrite Hsub1. by rewrite list_lookup_insert_ne. }
        exists p'. split; [exact Hp'|]. split; [exact Hkeep|].
        cbn [map]. intros [?|Hh]%elem_of_cons; [done|]. by apply Hin.
  - destruct (terminate_process_safely_missing s tab_id hx (react hx)
                (ProcessManager.interface x) Hpx) as (s1 & -> & Hsub1).
    destruct (IH s1) as (s' & Hrun & Hother & Hown).
    exists s'. split; [exact Hrun|]. split.
    + intros h Hh. cbn [map] in Hh. apply not_elem_of_cons in Hh as [Hne Hh].
      by rewrite (Hother h Hh), Hsub1.
    + intros h p Hp. destruct (Hown h p) as (p' & Hp' & Hkeep & Hin).
      { by rewrite Hsub1. }
      exists p'. split; [exact Hp'|]. split; [exact Hkeep|].
      cbn [map]. intros [->|Hh]%elem_of_cons; [|by apply Hin].
      fold hx in Hp. rewrite Hpx in Hp. discriminate Hp.
Qed.

(** What [TestExecutionManager.stop_test] does with the answer of the run
    executor. *)
Definition finish_stop (tab_id : string) (stop_result : RunExecutor.stop_result)
    : M State Tab.dict :=
  match stop_result with
  | RunExecutor.NotStopped =>
      tab ←ᶜ TestExecutionManager.get_tab_object tab_id;
      match tab with
      | Some tab => Co.ret (Tab.to_dict tab)
      | None => fun s => (TabManager.tab_not_found tab_id, s)
      end
  | RunExecutor.Stopped _ exit_codes _ =>
      tab ←ᶜ TestExecutionManager.get_tab_object tab_id;
      match tab with
      | None => fun s => (TabManager.tab_not_found tab_id, s)
      | Some tab =>
          tab ←ᶜ
            match Tab.run tab with
            | Some run =>
                if negb (Py.truthy_opt_str (Run.finished_utc run)) then
                  now ←ᶜ utcnow_iso;
                  let run := Run.finish run now exit_codes (Run.error run) in
                  let status :=
                    if TestExecutionManager.any_failed exit_codes then TabStatus.FAILED
                    else TabStatus.COMPLETED in
                  let tab := Tab.set_status (Tab.set_run tab (Some run)) status in
                  TestExecutionManager.store_tab tab_id tab ;ᶜ
                  TestExecutionManager.save_state ;ᶜ
                  Co.ret tab
                else Co.ret tab
            | None => Co.ret tab
            end;
          let tab_snapshot := Tab.to_dict tab in
          TestExecutionManager._broadcast (tab_updated tab_snapshot) ;ᶜ
          Co.ret tab_snapshot
      end
  end.

Lemma stop_test_finish react tab_id :
  TestExecutionManager.stop_test react tab_id
  = Co.bind (RunExecutor.stop_test (TestExecutionManager.log_callback tab_id) react tab_id)
      (finish_stop tab_id).
Proof. reflexivity. Qed.

Lemma finish_stop_same_processes tab_id res :
  within (same subprocesses) (finish_stop tab_id res).
Proof.
  unfold finish_stop, TestExecutionManager.get_tab_object, TestExecutionManager.store_tab,
    TestExecutionManager.save_state, TestExecutionManager._broadcast.
  within_auto; try (apply within_modify; [apply _|]); by intros ?.
Qed.

Lemma cancel_watchers_same_processes processes :
  within (same subprocesses) (cancel_watchers processes).
Proof.
  unfold cancel_watchers. within_auto. intros s. unfold same, RunExecutor.cancel_task. cbn.
  destruct (tasks s !! _) as [w|]; [|done]. by destruct (w_status w).
Qed.

(** The run executor's [stop_test] and the processes. *)
Lemma executor_stop_test_processes tab_id react rt s :
  _runs s !! tab_id = Some rt ->
  exists res s',
    RunExecutor.stop_test (TestExecutionManager.log_callback tab_id) react tab_id s
    = (Py.Ok res, s') /\
    (forall h, h ∉ map ProcessManager.process (ProcessManager.processes rt) ->
               subprocesses s' !! h = subprocesses s !! h) /\
    (forall h p, h ∈ map ProcessManager.process (ProcessManager.processes rt) ->
       subprocesses s !! h = Some p ->
       exists p', subprocesses s' !! h = Some p' /\ settled p').
Proof.
  intros Hrt. unfold RunExecutor.stop_test. rewrite bind_gets, Hrt, bind_modify.
  fold (cancel_watchers (ProcessManager.processes rt)).
  fold (terminate_all_of tab_id react (ProcessManager.processes rt)).
  match goal with
  | |- context [ Co.bind (cancel_watchers ?ps) ?k ?s0 ] =>
      destruct (run_total_within (same subprocesses) (cancel_watchers ps) s0)
        as ([] & s1 & Hrun1 & Hsame1);
        [apply cancel_watchers_total|apply cancel_watchers_same_processes|];
      rewrite (bind_run (cancel_watchers ps) k s0), Hrun1
  end.
  unfold same in Hsame1. cbn in Hsame1.
  rewrite bind_run.
  assert (Hlog : exists s2,
    (if (1 <? length (ProcessManager.interfaces rt))%nat
     then TestExecutionManager.log_callback tab_id
            ("Stoppsignal an "
             +:+ Py.str_of_int (Z.of_nat (length (ProcessManager.processes rt)))
             +:+ " tcpdump-Prozesse senden…") None
     else TestExecutionManager.log_callback tab_id "Stoppsignal an tcpdump senden…" None) s1
    = (Py.Ok (), s2) /\ log_frame s1 s2).
  { destruct (1 <? _)%nat; apply log_callback_keeps_processes. }
  destruct Hlog as (s2 & -> & Hf2). rewrite bind_run.
  destruct (terminate_all_of_effect tab_id react (ProcessManager.processes rt) s2)
    as (s3 & -> & Hother & Hown).
  rewrite bind_run.
  match goal with
  | |- context [ Co.for_ ?ps ?body s3 ] =>
      destruct (run_total_within (same subprocesses) (Co.for_ ps body) s3)
        as ([] & s4 & -> & Hsame4)
  end.
  { apply total_for. intros iproc. apply total_bind; [apply total_gets|].
    intros now. apply total_modify. }
  { apply within_for; [apply _|]. intros iproc.
    apply within_bind; [apply _|apply within_gets, _|]. intros now. by intros ?. }
  unfold same in Hsame4. rewrite bind_gets, bind_run.
  match goal with
  | |- context [ TestExecutionManager.log_callback tab_id ?m ?i s4 ] =>
      destruct (log_callback_keeps_processes tab_id m i s4) as (s5 & -> & Hf5)
  end.
  eexists _, s5. split; [reflexivity|].
  pose proof (lf_subprocesses _ _ Hf2) as Hsub2.
  pose proof (lf_subprocesses _ _ Hf5) as Hsub5.
  split.
  - intros h Hh. by rewrite Hsub5, Hsame4, (Hother h Hh), Hsub2, Hsame1.
  - intros h p Hh Hp. destruct (Hown h p) as (p' & Hp' & _ & Hsettled).
    { by rewrite Hsub2, Hsame1. }
    exists p'. split; [by rewrite Hsub5, Hsame4|]. by apply Hsettled.
Qed.

(** [stop_test] on a tab with a registered run deals with every process of
    that run and with no other: afterwards each process of the run has
    exited or has been sent both SIGTERM and SIGKILL, and the process
    objects of all other runs are exactly as before (no signal is sent to
    them). *)
Theorem stop_test_settles_its_own_processes_only (s : State) (react : nat -> reaction)
    (tab_id : string) (rt : ProcessManager.RunningTest) :
  _runs s !! tab_id = Some rt ->
  let s' := snd (TestExecutionManager.stop_test react tab_id s) in
  (forall iproc p,
      iproc ∈ ProcessManager.processes rt ->
      subprocesses s !! ProcessManager.process iproc = Some p ->
      exists p', subprocesses s' !! ProcessManager.process iproc = Some p' /\ settled p') /\
  (forall h, h ∉ map ProcessManager.process (ProcessManager.processes rt) ->
             subprocesses s' !! h = subprocesses s !! h).
Proof.
  intros Hrt s'. subst s'. rewrite stop_test_finish, bind_run.
  destruct (executor_stop_test_processes tab_id react rt s Hrt)
    as (res & s1 & -> & Hother & Hown).
  pose proof (finish_stop_same_processes tab_id res s1) as Hsame. unfold same in Hsame.
  rewrite Hsame. split; [|exact Hother].
  intros iproc p Hin Hp. apply (Hown _ p); [|exact Hp].
  apply list_elem_of_fmap. by exists iproc.
Qed.

Lemma running_first_process :
  exists rt i0 p0,
    _runs Example.running !! "t1" = Some rt /\
    i0 ∈ ProcessManager.processes rt /\
    ProcessManager.process i0 = 0%nat /\
    subprocesses Example.running !! 0%nat = Some p0.
Proof.
  eexists _, _, _. split; [vm_compute; reflexivity|].
  split; [apply elem_of_cons; left; reflexivity|]. split; reflexivity.
Qed.

Lemma stop_test_settles_its_own_processes_only_witness :
  exists p',
    subprocesses (snd (TestExecutionManager.stop_test (fun _ => Reaction None None) "t1"
                         Example.running)) !! 0%nat = Some p' /\
    settled p'.
Proof.
  destruct running_first_process as (rt & i0 & p0 & Hrt & Hin & Hh & Hp0).
  destruct (stop_test_settles_its_own_processes_only Example.running
              (fun _ => Reaction None None) "t1" rt Hrt) as [Hown _].
  rewrite <- Hh. apply (Hown i0 p0 Hin). rewrite Hh. exact Hp0.
Defined.

(** ** Creating a tab, and who hears of it *)

(** What a subscriber queue holds after the event [ev] was broadcast: the
    event is added at the end, unless the queue already holds 1000 events. *)
Definition heard (ev : event) (queue : list event) : list event :=
  if (length queue <? 1000)%nat then queue ++ [ev] else queue.

(** [create_tab] never raises.  The dictionary it returns is the one that
    [get_tab] returns afterwards, that is listed and stored in the state
    file, and that every subscriber with room in its queue receives in a
    [tab_created] event: an idle tab without run and without log entries.
    The other tabs, the runs and the set of subscribers are unchanged. *)
Theorem create_tab_returns_what_it_stores_and_announces (s : State) (tab_id : string)
    (title profile_id : option string) :
  exists d s',
    TestExecutionManager.create_tab tab_id title profile_id s = (Py.Ok d, s') /\
    TestExecutionManager.get_tab tab_id s' = (Py.Ok d, s') /\
    d ∈ listed s' /\
    TabManager._tabs_file (tab_manager s') = Some (listed s') /\
    Tab.d_id d = Some tab_id /\
    Tab.d_profileId d = profile_id /\
    Tab.d_status d = Some TabStatus.IDLE /\
    Tab.d_run d = None /\
    Tab.d_logs d = Some [] /\
    Tab.d_logSeq d = Some 0 /\
    Tab.d_createdUtc d = Some (clock s) /\
    (forall id, id <> tab_id -> tabs s' !! id = tabs s !! id) /\
    _runs s' = _runs s /\
    _listeners s' = heard (tab_created d) <$> _listeners s.
Proof.
  eexists _, _. split; [reflexivity|].
  split.
  { unfold TestExecutionManager.get_tab, TabManager.get_tab. cbn.
    by rewrite lookup_insert_eq. }
  split.
  { apply elem_of_listed. eexists tab_id, _. split; [|reflexivity].
    unfold tabs. cbn. apply lookup_insert_eq. }
  split; [reflexivity|]. do 7 (split; [reflexivity|]).
  split; [|by split].
  intros id Hne. unfold tabs. cbn. by rewrite lookup_insert_ne.
Qed.

(** ** Updating a tab *)

(** [update_tab] on a stored tab never raises and touches nothing but the
    title, the profile id and the update stamp: the id, the status, the
    run, the log and its counter stay as they are, also while a test runs
    in the tab.  A title or profile id that is not given is kept.  The
    returned dictionary is that of the stored tab, and every subscriber
    with room in its queue receives it in a [tab_updated] event. *)
Theorem update_tab_touches_only_title_profile_and_stamp (s : State) (tab_id : string)
    (title profile_id : option string) (tab : Tab.t) :
  tabs s !! tab_id = Some tab ->
  exists tab' s',
    TestExecutionManager.update_tab tab_id title profile_id s
    = (Py.Ok (Tab.to_dict tab'), s') /\
    tabs s' = <[tab_id := tab']> (tabs s) /\
    Tab.id tab' = Tab.id tab /\
    Tab.status tab' = Tab.status tab /\
    Tab.run tab' = Tab.run tab /\
    Tab.logs tab' = Tab.logs tab /\
    Tab.log_seq tab' = Tab.log_seq tab /\
    Tab.last_message tab' = Tab.last_message tab /\
    Tab.created_utc tab' = Tab.created_utc tab /\
    Tab.updated_utc tab' = clock s /\
    (title = None -> Tab.title tab' = Tab.title tab) /\
    Tab.profile_id tab'
    = match profile_id with Some _ => profile_id | None => Tab.profile_id tab end /\
    _runs s' = _runs s /\
    _listeners s' = heard (tab_updated (Tab.to_dict tab')) <$> _listeners s.
Proof.
  intros Htab. unfold TestExecutionManager.update_tab, utcnow_iso.
  rewrite bind_gets, bind_run.
  unfold TestExecutionManager.on_tabs_raising, TabManager.update_tab.
  unfold tabs in Htab. rewrite Htab. cbv zeta.
  eexists _, _. split; [reflexivity|]. split; [reflexivity|].
  destruct title, profile_id; by repeat split.
Qed.

Lemma update_tab_touches_only_title_profile_and_stamp_witness :
  exists tab tab' s',
    tabs Example.running !! "t1" = Some tab /\
    TestExecutionManager.update_tab "t1" (Some "Messung 2") None Example.running
    = (Py.Ok (Tab.to_dict tab'), s') /\
    Tab.status tab' = Tab.status tab /\
    Tab.run tab' = Tab.run tab /\
    _runs s' = _runs Example.running.
Proof.
  destruct running_has_tab as [tab Htab].
  destruct (update_tab_touches_only_title_profile_and_stamp Example.running "t1"
              (Some "Messung 2") None tab Htab)
    as (tab' & s' & Hrun & _ & _ & Hstatus & Hr & _ & _ & _ & _ & _ & _ & _ & Hruns & _).
  exists tab, tab', s'. split; [exact Htab|]. split; [exact Hrun|].
  split; [exact Hstatus|]. split; [exact Hr|exact Hruns].
Defined.

(** ** The answers of the HTTP routes *)

Lemma with_same_tab_manager s : with_tab_manager s (tab_manager s) = s.
Proof. by destruct s. Qed.

Lemma delete_tab_unknown tab_id s :
  tabs s !! tab_id = None -> _runs s !! tab_id = None ->
  TestExecutionManager.delete_tab tab_id s = (TabManager.tab_not_found tab_id, s).
Proof.
  intros Htab Hrun. unfold TestExecutionManager.delete_tab, RunExecutor.get_running_tab_ids.
  rewrite bind_gets, bind_run.
  unfold TestExecutionManager.on_tabs_raising, TabManager.delete_tab.
  rewrite bool_decide_eq_false_2 by (by apply not_elem_of_dom).
  unfold tabs in Htab. by rewrite Htab, with_same_tab_manager.
Qed.

Lemma stop_test_unknown react tab_id s :
  tabs s !! tab_id = None -> _runs s !! tab_id = None ->
  TestExecutionManager.stop_test react tab_id s = (TabManager.tab_not_found tab_id, s).
Proof.
  intros Htab Hrun. unfold TestExecutionManager.stop_test, RunExecutor.stop_test.
  rewrite bind_run, bind_gets, Hrun.
  unfold TestExecutionManager.get_tab_object, TabManager.get_tab_object, Co.ret.
  rewrite bind_gets. unfold tabs in Htab. by rewrite Htab.
Qed.

(** The [detail] of the answer 404 for a tab. *)
Definition tab_404 {A} : Routes.outcome A :=
  Routes.Abort (Routes.HTTPException 404 "Tab nicht gefunden").

(** The DELETE route answers 409, with the message of the engine, as long
    as a run is registered for the tab, and 404 for an id without tab; in
    both cases nothing changes.  Otherwise it answers [{"deleted": true}],
    the tab is removed from the store, and the stop and log routes answer
    404 for that id from then on. *)
Theorem delete_route_answers (s : State) (tab_id : string) :
  match _runs s !! tab_id, tabs s !! tab_id with
  | Some _, _ =>
      Routes.api_delete_test_tab tab_id s
      = (Routes.Abort (Routes.HTTPException 409 (still_running tab_id)), s)
  | None, None => Routes.api_delete_test_tab tab_id s = (tab_404, s)
  | None, Some _ =>
      exists s',
        Routes.api_delete_test_tab tab_id s = (Routes.Return (Routes.DeletedReply true), s') /\
        tabs s' = delete tab_id (tabs s) /\
        (forall react, Routes.api_stop_test_tab react tab_id s' = (tab_404, s')) /\
        (forall after, Routes.api_get_test_tab_logs tab_id after s' = (tab_404, s'))
  end.
Proof.
  unfold Routes.api_delete_test_tab.
  destruct (_runs s !! tab_id) as [rt|] eqn:Hrun.
  { rewrite delete_tab_running by (apply elem_of_dom; eauto). reflexivity. }
  destruct (tabs s !! tab_id) as [tab|] eqn:Htab.
  - destruct (delete_tab_idle tab_id s tab Htab) as [Hok Htabs].
    { by apply not_elem_of_dom. }
    destruct (TestExecutionManager.delete_tab tab_id s) as [r s'] eqn:Hdelete.
    cbn [fst snd] in Hok, Htabs. subst r. exists s'. split; [reflexivity|].
    split; [exact Htabs|].
    assert (Hgone : tabs s' !! tab_id = None) by (rewrite Htabs; apply lookup_delete_eq).
    assert (Hruns : _runs s' !! tab_id = None).
    { replace s' with (snd (TestExecutionManager.delete_tab tab_id s)) by (by rewrite Hdelete).
      unfold TestExecutionManager.delete_tab, RunExecutor.get_running_tab_ids.
      rewrite bind_gets, bind_run.
      unfold TestExecutionManager.on_tabs_raising, TabManager.delete_tab.
      destruct (bool_decide _); [exact Hrun|].
      by destruct (TabManager._tabs (tab_manager s) !! tab_id). }
    split.
    + intros react. unfold Routes.api_stop_test_tab.
      by rewrite stop_test_unknown.
    + intros after. unfold Routes.api_get_test_tab_logs, TestExecutionManager.get_logs,
        TabManager.get_logs.
      unfold tabs in Hgone. by rewrite Hgone.
  - by rewrite delete_tab_unknown.
Qed.

Lemma start_test_running `{Py.Runtime} env tab_id profile s tab rt :
  tabs s !! tab_id = Some tab ->
  _runs s !! tab_id = Some rt ->
  TestExecutionManager.start_test env tab_id profile s
  = (Py.Raise (Py.Exn Py.TestAlreadyRunningError (already_running tab_id)), s).
Proof.
  intros Htab Hrun.
  unfold TestExecutionManager.start_test, TestExecutionManager.get_tab_object,
    RunExecutor.is_running, Co.bind, Co.gets, TabManager.get_tab_object.
  unfold tabs in Htab. rewrite Htab, Hrun. reflexivity.
Qed.

(** The profile id that the start route uses: the one of the request, or
    else the one of the tab. *)
Definition effective_profile_id (s : State) (tab_id : string) (profileId : option string)
    : option string :=
  if Py.truthy_opt_str profileId then profileId
  else tab ← tabs s !! tab_id; Tab.profile_id tab.

(** What the start route answers when the test cannot be started.  For an
    id without tab and a request without profile id: 404.  Without a
    profile id in the request and in the tab: 400.  For a profile that the
    profile service does not find: 404 with the profile id.  With a profile,
    for a tab that already runs: 409 with the message of the engine.  In
    these four cases nothing changes.  For a profile whose settings make the
    build raise a [ValueError]: 409 with "Konfiguration ungültig: ...", no
    process is started and the tab is left in status "failed". *)
Theorem start_route_refusals `{Py.Runtime}
    (load_profile_func : string -> Py.result Profile.t) (env : RunExecutor.start_env)
    (s : State) (tab_id : string) (profileId : option string) :
  (Py.truthy_opt_str profileId = false -> tabs s !! tab_id = None ->
   Routes.api_start_test_tab load_profile_func env tab_id profileId s = (tab_404, s)) /\
  (is_Some (tabs s !! tab_id) ->
   Py.truthy_opt_str (effective_profile_id s tab_id profileId) = false ->
   Routes.api_start_test_tab load_profile_func env tab_id profileId s
   = (Routes.Abort (Routes.HTTPException 400 "profileId ist erforderlich"), s)) /\
  (forall profile_id exc,
     is_Some (tabs s !! tab_id) ->
     effective_profile_id s tab_id profileId = Some profile_id ->
     Py.nonempty profile_id = true ->
     load_profile_func profile_id = Py.Raise exc ->
     Routes.profile_missing exc = true ->
     Routes.api_start_test_tab load_profile_func env tab_id profileId s
     = (Routes.Abort (Routes.HTTPException 404 ("Profil nicht gefunden: " +:+ profile_id)),
        s)) /\
  (forall profile_id profile tab,
     tabs s !! tab_id = Some tab ->
     effective_profile_id s tab_id profileId = Some profile_id ->
     Py.nonempty profile_id = true ->
     load_profile_func profile_id = Py.Ok profile ->
     (is_Some (_runs s !! tab_id) ->
      Routes.api_start_test_tab load_profile_func env tab_id profileId s
      = (Routes.Abort (Routes.HTTPException 409 (already_running tab_id)), s)) /\
     (forall e,
        _runs s !! tab_id = None ->
        Build._build_run_context (capture_dir s) (tcpdump_bin s) (clock s) profile
        = Py.Raise e ->
        Py.exn_cls e = Py.ValueError ->
        exists s' tab',
          Routes.api_start_test_tab load_profile_func env tab_id profileId s
          = (Routes.Abort (Routes.HTTPException 409
                             ("Konfiguration ungültig: " +:+ Py.exn_str e)), s') /\
          subprocesses s' = subprocesses s /\
          tabs s' !! tab_id = Some tab' /\
          Tab.status tab' = TabStatus.FAILED)).
Proof.
  assert (Hroute : forall tab,
    tabs s !! tab_id = Some tab ->
    Routes.api_start_test_tab load_profile_func env tab_id profileId s
    = Routes.start_with_profile load_profile_func env tab_id
        (effective_profile_id s tab_id profileId) s).
  { intros tab Htab. unfold Routes.api_start_test_tab, effective_profile_id.
    destruct (Py.truthy_opt_str profileId); cbn [negb]; [reflexivity|].
    unfold TestExecutionManager.get_tab, TabManager.get_tab. rewrite Htab.
    unfold tabs in Htab. rewrite Htab. reflexivity. }
  split.
  { intros Hno Htab. unfold Routes.api_start_test_tab. rewrite Hno. cbn [negb].
    unfold TestExecutionManager.get_tab, TabManager.get_tab.
    unfold tabs in Htab. rewrite Htab. reflexivity. }
  split.
  { intros [tab Htab] Hno. rewrite (Hroute tab Htab).
    unfold Routes.start_with_profile. by rewrite Hno. }
  split.
  { intros profile_id exc [tab Htab] Hid Hne Hload Hmissing. rewrite (Hroute tab Htab), Hid.
    unfold Routes.start_with_profile. cbn [Py.truthy_opt_str from_option id]. rewrite Hne.
    cbn [negb]. by rewrite Hload, Hmissing. }
  intros profile_id profile tab Htab Hid Hne Hload. rewrite (Hroute tab Htab), Hid.
  unfold Routes.start_with_profile. cbn [Py.truthy_opt_str from_option id]. rewrite Hne.
  cbn [negb]. rewrite Hload. split.
  - intros [rt Hrt]. by rewrite (start_test_running env tab_id profile s tab rt).
  - intros e Hrun Hbuild Hcls.
    destruct (start_test_invalid env tab_id profile e s tab Htab Hrun Hbuild Hcls)
      as (s' & tab' & -> & Hsub & _ & Htab' & Hstatus).
    exists s', tab'. split; [reflexivity|]. done.
Qed.

Lemma start_route_refusals_witness :
  Routes.api_start_test_tab (fun _ => Py.Ok Example.profile) Example.spawns_ok "t1"
    (Some "p1") Example.running
  = (Routes.Abort (Routes.HTTPException 409 "Test läuft bereits in Tab 't1'"),
     Example.running).
Proof.
  destruct running_has_tab as [tab Htab]. destruct running_has_run as [rt Hrt].
  destruct (start_route_refusals (fun _ => Py.Ok Example.profile) Example.spawns_ok
              Example.running "t1" (Some "p1")) as (_ & _ & _ & Hstart).
  destruct (Hstart "p1" Example.profile tab Htab eq_refl eq_refl eq_refl) as [Hconflict _].
  apply Hconflict. eauto.
Defined.

(** ** The metadata journal of a stopped run *)

(** The journal and the clock are as they were. *)
Record journal_frame (s s' : State) : Prop := {
  jf_journal : journal s' = journal s;
  jf_clock : clock s' = clock s;
}.

#[global] Instance journal_frame_preorder : PreOrder journal_frame.
Proof.
  split.
  - intros s. by split.
  - intros s1 s2 s3 [] []. split; congruence.
Qed.

Lemma log_frame_journal_frame s s' : log_frame s s' -> journal_frame s s'.
Proof. intros []. by split. Qed.

Lemma log_callback_journal_frame tab_id message interface :
  within journal_frame (TestExecutionManager.log_callback tab_id message interface).
Proof. eapply within_weaken; [apply log_frame_journal_frame|apply log_callback_frame]. Qed.

Lemma send_signal_journal_frame h sig : within journal_frame (send_signal h sig).
Proof.
  intros s. unfold send_signal.
  destruct (subprocesses s !! h) as [p|]; [|done]. by destruct (returncode p).
Qed.

Lemma wait_for_exit_journal_frame h outcome : within journal_frame (wait_for_exit h outcome).
Proof.
  intros s. unfold wait_for_exit, process_exits.
  destruct (process_returncode s h), outcome; simpl; try done.
  destruct (subprocesses s !! h) as [p|]; [|done]. by destruct (returncode p).
Qed.

Lemma cancel_task_journal_frame h : within journal_frame (RunExecutor.cancel_task h).
Proof.
  intros s. unfold RunExecutor.cancel_task. simpl.
  destruct (tasks s !! h) as [w|]; [|done]. by destruct (w_status w).
Qed.

#[global] Hint Resolve log_callback_journal_frame send_signal_journal_frame
  wait_for_exit_journal_frame cancel_task_journal_frame : within.

Lemma terminate_all_of_journal_frame tab_id react processes :
  within journal_frame (terminate_all_of tab_id react processes).
Proof. unfold terminate_all_of, terminate_process_safely. within_auto. Qed.

Lemma terminate_all_of_total tab_id react processes :
  total (terminate_all_of tab_id react processes).
Proof.
  apply total_for. intros iproc. apply terminate_process_safely_total.
  intros. apply log_callback_total.
Qed.

Lemma cancel_watchers_journal_frame processes :
  within journal_frame (cancel_watchers processes).
Proof. unfold cancel_watchers. within_auto. Qed.

Lemma finish_stop_journal_frame tab_id res : within journal_frame (finish_stop tab_id res).
Proof.
  unfold finish_stop, TestExecutionManager.get_tab_object, TestExecutionManager.store_tab,
    TestExecutionManager.save_state, TestExecutionManager._broadcast.
  within_auto; try (apply within_modify; [apply _|]); by intros ?.
Qed.

(** The loop of [stop_test] that writes the stop rows. *)
Definition write_stop_rows (file : option string)
    (processes : list ProcessManager.InterfaceProcess) : M State unit :=
  Co.for_ processes (fun iproc =>
    now ←ᶜ utcnow_iso;
    write_capture_metadata (RunExecutor.stop_row now iproc) file).

Lemma write_stop_rows_run file processes s :
  exists s',
    write_stop_rows file processes s = (Py.Ok (), s') /\
    journal s'
    = journal s ++ map (fun iproc => (RunExecutor.stop_row (clock s) iproc, file)) processes /\
    clock s' = clock s.
Proof.
  revert s. induction processes as [|iproc rest IH]; intros s.
  { exists s. by rewrite app_nil_r. }
  unfold write_stop_rows. cbn [Co.for_]. fold (write_stop_rows file rest).
  unfold utcnow_iso, write_capture_metadata. rewrite bind_run, bind_gets.
  unfold Co.modify at 1.
  match goal with
  | |- context [ write_stop_rows file rest ?s1 ] =>
      destruct (IH s1) as (s' & -> & Hjournal & Hclock)
  end.
  exists s'. split; [reflexivity|]. cbn in Hjournal, Hclock.
  split; [|exact Hclock]. rewrite Hjournal, <- app_assoc. reflexivity.
Qed.

(** [stop_test] on a tab with a registered run adds to the metadata journal
    one stop row per process of the run, in the order of the processes,
    each with the pid, the capture id and the interface of its process and
    mirrored to the metadata file of the run; it writes nothing else to
    the journal. *)
Theorem stop_test_journals_every_process (s : State) (react : nat -> reaction)
    (tab_id : string) (rt : ProcessManager.RunningTest) :
  _runs s !! tab_id = Some rt ->
  journal (snd (TestExecutionManager.stop_test react tab_id s))
  = journal s
      ++ map (fun iproc =>
                (StopRow (clock s) (ProcessManager.pid iproc)
                   (ProcessManager.capture_id iproc) (ProcessManager.interface iproc),
                 ProcessManager.test_metadata_file rt))
             (ProcessManager.processes rt).
Proof.
  intros Hrt. rewrite stop_test_finish, bind_run.
  assert (Hexec : exists res s1,
    RunExecutor.stop_test (TestExecutionManager.log_callback tab_id) react tab_id s
    = (Py.Ok res, s1) /\
    journal s1
    = journal s
        ++ map (fun iproc => (RunExecutor.stop_row (clock s) iproc,
                              ProcessManager.test_metadata_file rt))
               (ProcessManager.processes rt)).
  { unfold RunExecutor.stop_test. rewrite bind_gets, Hrt, bind_modify.
    fold (cancel_watchers (ProcessManager.processes rt)).
    fold (terminate_all_of tab_id react (ProcessManager.processes rt)).
    fold (write_stop_rows (ProcessManager.test_metadata_file rt) (ProcessManager.processes rt)).
    match goal with
    | |- context [ Co.bind (cancel_watchers ?ps) ?k ?s0 ] =>
        destruct (run_total_within journal_frame (cancel_watchers ps) s0)
          as ([] & s1 & Hrun1 & [Hj1 Hc1]);
          [apply cancel_watchers_total|apply cancel_watchers_journal_frame|];
        rewrite (bind_run (cancel_watchers ps) k s0), Hrun1
    end.
    cbn in Hj1, Hc1. rewrite bind_run.
    assert (Hlog : exists s2,
      (if (1 <? length (ProcessManager.interfaces rt))%nat
       then TestExecutionManager.log_callback tab_id
              ("Stoppsignal an "
               +:+ Py.str_of_int (Z.of_nat (length (ProcessManager.processes rt)))
               +:+ " tcpdump-Prozesse senden…") None
       else TestExecutionManager.log_callback tab_id "Stoppsignal an tcpdump senden…" None) s1
      = (Py.Ok (), s2) /\ log_frame s1 s2).
    { destruct (1 <? _)%nat; apply log_callback_keeps_processes. }
    destruct Hlog as (s2 & -> & Hf2). rewrite bind_run.
    destruct (run_total_within journal_frame
                (terminate_all_of tab_id react (ProcessManager.processes rt)) s2)
      as ([] & s3 & -> & [Hj3 Hc3]);
      [apply terminate_all_of_total|apply terminate_all_of_journal_frame|].
    rewrite bind_run.
    destruct (write_stop_rows_run (ProcessManager.test_metadata_file rt)
                (ProcessManager.processes rt) s3) as (s4 & -> & Hj4 & Hc4).
    rewrite bind_gets, bind_run.
    match goal with
    | |- context [ TestExecutionManager.log_callback tab_id ?m ?i s4 ] =>
        destruct (log_callback_keeps_processes tab_id m i s4) as (s5 & -> & Hf5)
    end.
    eexists _, s5. split; [reflexivity|].
    rewrite (lf_journal _ _ Hf5), Hj4, Hj3, Hc3, (lf_journal _ _ Hf2), (lf_clock _ _ Hf2),
      Hj1, Hc1.
    reflexivity. }
  destruct Hexec as (res & s1 & -> & Hjournal).
  destruct (finish_stop_journal_frame tab_id res s1) as [Hj _].
  rewrite Hj, Hjournal. reflexivity.
Qed.

Lemma stop_test_journals_every_process_witness :
  exists rows,
    journal (snd (TestExecutionManager.stop_test Example.obeys "t1" Example.running))
    = journal Example.running ++ rows /\
    fst <$> rows = [StopRow "20240101T000000Z" 100 "c0" "eth0";
                    StopRow "20240101T000000Z" 101 "c1" "eth1"].
Proof.
  eassert (Hrt : _runs Example.running !! "t1" = Some _) by (vm_compute; reflexivity).
  eexists. split.
  - exact (stop_test_journals_every_process Example.running Example.obeys "t1" _ Hrt).
  - reflexivity.
Defined.
